(** * A shallow embedding of the slab allocator (mm/slab.c, Linux 2.6.26 era)

    The development follows the source file [src/unnamed/part_000]:
    cache geometry ([cache_estimate], [calculate_slab_order],
    [kmem_cache_create]), the per-CPU front-end ([array_cache]), the per-node
    slab lists ([kmem_list3]) and the operations that move objects between
    them ([cache_alloc_refill], [cache_grow], [free_block],
    [cache_flusharray], [cache_free_alien], [__cache_shrink],
    [kmem_cache_destroy]).

    C integers are modelled as [Z] with their wrap-around written out;
    C arrays are lists read with stdpp's lookup; a function that can hit
    [BUG()], dereference [NULL] or read outside an array returns [None]. *)

From Stdlib Require Import ZArith Lia List Bool String Zbitwise Sorted.
From stdpp Require Import base option list.

Local Open Scope Z_scope.

(** ** Platform constants

    The constants below come from headers that are not part of the source
    tree at hand (asm/page.h, asm/cache.h, linux/slab.h, linux/kernel.h);
    they are taken as parameters. *)

Class platform := {
  SIZE_BITS : Z;             (* width of size_t / unsigned long *)
  PAGE_SIZE : Z;
  BYTES_PER_WORD : Z;        (* size of a pointer *)
  sizeof_slab : Z;           (* sizeof(struct slab) *)
  L1_CACHE_BYTES : Z;
  alignof_ull : Z;           (* __alignof__(unsigned long long) *)
  KMALLOC_MAX_ORDER : Z;
  KMALLOC_MAX_SIZE : Z;
  SLAB_HWCACHE_ALIGN : Z;
  SLAB_RED_ZONE : Z;
  SLAB_STORE_USER : Z;
  SLAB_RECLAIM_ACCOUNT : Z;
  SLAB_PANIC : Z;
  SLAB_DESTROY_BY_RCU : Z
}.

(** What every supported platform satisfies. *)
Record platform_ok `{platform} : Prop := {
  size_bits_32 : 32 <= SIZE_BITS;
  page_size_pos : 0 < PAGE_SIZE;
  max_order_pos : 1 <= KMALLOC_MAX_ORDER;
  (* the largest slab, and eight times a page, fit a signed int *)
  max_slab_int : PAGE_SIZE * 2 ^ KMALLOC_MAX_ORDER < 2 ^ 31;
  eight_pages_int : PAGE_SIZE * 8 < 2 ^ 31;
  slab_struct_pos : 0 < sizeof_slab;
  (* a slab descriptor and sixteen bufctl cells fit in an eighth of a page *)
  slab_struct_small : sizeof_slab + 16 * 4 <= PAGE_SIZE / 8;
  cache_line_pos : 0 < L1_CACHE_BYTES
}.

(** ** Machine integers *)

Section Integers.
Context `{platform}.

(* size_t, unsigned long *)
Definition wrap (x : Z) : Z := x mod 2 ^ SIZE_BITS.
(* unsigned int, kmem_bufctl_t *)
Definition u32 (x : Z) : Z := x mod 2 ^ 32.
(* int *)
Definition to_int (x : Z) : Z := (x + 2 ^ 31) mod 2 ^ 32 - 2 ^ 31.

Definition sizeof_bufctl : Z := 4.   (* sizeof(kmem_bufctl_t) *)

Definition BUFCTL_END : Z := u32 (Z.lnot 0) - 0.
Definition BUFCTL_FREE : Z := u32 (Z.lnot 0) - 1.
Definition BUFCTL_ACTIVE : Z := u32 (Z.lnot 0) - 2.
Definition SLAB_LIMIT : Z := u32 (Z.lnot 0) - 3.

Definition CFLGS_OFF_SLAB : Z := 0x80000000.
Definition OFF_SLAB (flags : Z) : bool := negb (Z.land flags CFLGS_OFF_SLAB =? 0).

Definition BATCHREFILL_LIMIT : Z := 16.
Definition BREAK_GFP_ORDER_HI : Z := 1.
Definition BREAK_GFP_ORDER_LO : Z := 0.
Definition BOOT_CPUCACHE_ENTRIES : Z := 1.
Definition ARCH_SLAB_MINALIGN : Z := 0.

Definition cache_line_size : Z := L1_CACHE_BYTES.
Definition REDZONE_ALIGN : Z := Z.max BYTES_PER_WORD alignof_ull.

(* linux/kernel.h: ALIGN(x,a) is (((x)+((a)-1)) & ~((a)-1)), in size_t *)
Definition ALIGN (x a : Z) : Z :=
  Z.land (wrap (x + wrap (a - 1))) (wrap (Z.lnot (wrap (a - 1)))).

Definition flag_set (flags mask : Z) : bool := negb (Z.land flags mask =? 0).
End Integers.

(** ** Data model *)

(** An object pointer.  The reverse page mapping set up by [slab_map_pages]
    recovers the slab of an object and [obj_to_index] its slot; a pointer is
    therefore kept as the pair (slab descriptor address, slot index). *)
Definition objptr : Type := (nat * Z)%type.

Definition index_to_obj (slabp : nat) (idx : Z) : objptr := (slabp, idx).
Definition virt_to_slab (o : objptr) : nat := fst o.
Definition obj_to_index (o : objptr) : Z := snd o.

(* struct slab; [bufctl] is the kmem_bufctl_t array that follows it *)
Record slab := mk_slab {
  colouroff : Z;
  inuse : Z;
  free : Z;
  nodeid : nat;
  bufctl : list Z
}.

(* struct array_cache; [entry] holds the live cells entry[0 .. avail) *)
Record array_cache := mk_ac {
  limit : Z;
  batchcount : Z;
  touched : Z;
  entry : list objptr
}.

Definition avail (ac : array_cache) : Z := Z.of_nat (length (entry ac)).

(* struct kmem_list3; the three lists hold slab descriptor addresses,
   head first *)
Record kmem_list3 := mk_l3 {
  slabs_partial : list nat;
  slabs_full : list nat;
  slabs_free : list nat;
  free_objects : Z;
  free_limit : Z;
  colour_next : Z;
  shared : option array_cache;
  alien : option (list (option array_cache));
  free_touched : Z
}.

(* struct kmem_cache *)
Record kmem_cache := mk_cache {
  array : list (option array_cache);       (* array[NR_CPUS] *)
  c_batchcount : Z;
  c_limit : Z;
  c_shared : Z;
  buffer_size : Z;
  flags : Z;
  num : Z;
  gfporder : Z;
  colour : Z;
  colour_off : Z;
  slab_size : Z;
  ctor : option (Z -> Z);
  name : string;
  nodelists : list (option kmem_list3)     (* nodelists[MAX_NUMNODES] *)
}.

(** ** Slab geometry *)

Section Geometry.
Context `{platform}.

Definition slab_mgmt_size (nr_objs align : Z) : Z :=
  ALIGN (wrap (sizeof_slab + wrap (nr_objs * sizeof_bufctl))) align.

(** [cache_estimate] returns [(left_over, num)]; [None] is a division by
    zero.  [nr_objs] is an [int]; it is converted to [size_t] where the
    source multiplies it with a [size_t]. *)
Definition cache_estimate (gfporder buffer_size align flags : Z)
  : option (Z * Z) :=
  let slab_size := wrap (PAGE_SIZE * 2 ^ gfporder) in
  if OFF_SLAB flags then
    if buffer_size =? 0 then None else
    let mgmt_size := 0 in
    let nr_objs := to_int (slab_size / buffer_size) in
    let nr_objs := if u32 nr_objs >? SLAB_LIMIT then to_int SLAB_LIMIT else nr_objs in
    Some (wrap (slab_size - wrap (wrap nr_objs * buffer_size) - mgmt_size),
          u32 nr_objs)
  else
    let d := wrap (buffer_size + sizeof_bufctl) in
    if d =? 0 then None else
    let nr_objs := to_int (wrap (slab_size - sizeof_slab) / d) in
    let nr_objs :=
      if wrap (slab_mgmt_size (wrap nr_objs) align + wrap (wrap nr_objs * buffer_size))
         >? slab_size
      then to_int (nr_objs - 1) else nr_objs in
    let nr_objs := if u32 nr_objs >? SLAB_LIMIT then to_int SLAB_LIMIT else nr_objs in
    let mgmt_size := slab_mgmt_size (wrap nr_objs) align in
    Some (wrap (slab_size - wrap (wrap nr_objs * buffer_size) - mgmt_size),
          u32 nr_objs).

(* what calculate_slab_order has stored so far: cachep->num,
   cachep->gfporder and the local left_over *)
Record slab_order := mk_order {
  so_num : Z;
  so_gfporder : Z;
  so_left_over : Z
}.

(** The three tests that end the search with the order just saved. *)
Definition order_accepted (ceiling flags gfporder left_over : Z) : bool :=
  flag_set flags SLAB_RECLAIM_ACCOUNT
  || (gfporder >=? ceiling)
  || (wrap (left_over * 8) <=? wrap (PAGE_SIZE * 2 ^ gfporder)).

(** The [for] loop of calculate_slab_order, [n] orders still to visit. *)
Fixpoint slab_order_loop (ceiling size align flags : Z) (n : nat)
    (gfporder : Z) (acc : slab_order) : option slab_order :=
  match n with
  | O => Some acc
  | S n' =>
    match cache_estimate gfporder size align flags with
    | None => None
    | Some (remainder, num) =>
      if num =? 0 then
        slab_order_loop ceiling size align flags n' (gfporder + 1) acc
      else if OFF_SLAB flags
              && (num >? wrap (size - sizeof_slab) / sizeof_bufctl) then
        Some acc
      else
        let acc' := mk_order num gfporder remainder in
        if flag_set flags SLAB_RECLAIM_ACCOUNT then Some acc'
        else if gfporder >=? ceiling then Some acc'
        else if wrap (remainder * 8) <=? wrap (PAGE_SIZE * 2 ^ gfporder)
        then Some acc'
        else slab_order_loop ceiling size align flags n' (gfporder + 1) acc'
    end
  end.

(** [ceiling] is the static [slab_break_gfp_order]; the cache comes
    zeroed from kmem_cache_zalloc, so [num] and [gfporder] start at 0. *)
Definition calculate_slab_order (ceiling size align flags : Z)
  : option slab_order :=
  slab_order_loop ceiling size align flags
    (Z.to_nat (KMALLOC_MAX_ORDER + 1)) 0 (mk_order 0 0 0).
End Geometry.

(** ** Allocator state

    One cache together with the memory it manages.  Slab descriptors live
    in [slab_store], indexed by their address; the lists of [kmem_list3]
    hold these addresses, so a descriptor reached through a list and one
    reached through an object pointer are the same cell.  The page
    allocator and the cache that supplies off-slab descriptors are external:
    their answers are read from two oracles. *)

Record heap := mk_heap {
  cachep : kmem_cache;
  slab_store : list slab;
  obj_mem : objptr -> Z;          (* user-visible content of an object *)
  ctor_calls : list objptr;       (* constructor invocations, oldest first *)
  page_oracle : list bool;        (* answers of alloc_pages_node *)
  mgmt_oracle : list bool;        (* answers of kmem_cache_alloc_node(slabp_cache) *)
  released : list nat             (* slabs handed to slab_destroy *)
}.

Definition set_cachep (h : heap) (c : kmem_cache) : heap :=
  mk_heap c (slab_store h) (obj_mem h) (ctor_calls h) (page_oracle h)
          (mgmt_oracle h) (released h).

Definition set_slab_store (h : heap) (st : list slab) : heap :=
  mk_heap (cachep h) st (obj_mem h) (ctor_calls h) (page_oracle h)
          (mgmt_oracle h) (released h).

Definition set_array (c : kmem_cache) (a : list (option array_cache)) : kmem_cache :=
  mk_cache a (c_batchcount c) (c_limit c) (c_shared c) (buffer_size c) (flags c)
           (num c) (gfporder c) (colour c) (colour_off c) (slab_size c) (ctor c)
           (name c) (nodelists c).

Definition set_nodelists (c : kmem_cache) (nl : list (option kmem_list3)) : kmem_cache :=
  mk_cache (array c) (c_batchcount c) (c_limit c) (c_shared c) (buffer_size c)
           (flags c) (num c) (gfporder c) (colour c) (colour_off c) (slab_size c)
           (ctor c) (name c) nl.

Definition set_lists (l3 : kmem_list3) (p f e : list nat) : kmem_list3 :=
  mk_l3 p f e (free_objects l3) (free_limit l3) (colour_next l3) (shared l3)
        (alien l3) (free_touched l3).

Definition set_free_objects (l3 : kmem_list3) (n : Z) : kmem_list3 :=
  mk_l3 (slabs_partial l3) (slabs_full l3) (slabs_free l3) n (free_limit l3)
        (colour_next l3) (shared l3) (alien l3) (free_touched l3).

Definition set_colour_next (l3 : kmem_list3) (n : Z) : kmem_list3 :=
  mk_l3 (slabs_partial l3) (slabs_full l3) (slabs_free l3) (free_objects l3)
        (free_limit l3) n (shared l3) (alien l3) (free_touched l3).

Definition set_shared (l3 : kmem_list3) (s : option array_cache) : kmem_list3 :=
  mk_l3 (slabs_partial l3) (slabs_full l3) (slabs_free l3) (free_objects l3)
        (free_limit l3) (colour_next l3) s (alien l3) (free_touched l3).

Definition set_alien (l3 : kmem_list3) (a : option (list (option array_cache)))
  : kmem_list3 :=
  mk_l3 (slabs_partial l3) (slabs_full l3) (slabs_free l3) (free_objects l3)
        (free_limit l3) (colour_next l3) (shared l3) a (free_touched l3).

Definition set_free_touched (l3 : kmem_list3) (t : Z) : kmem_list3 :=
  mk_l3 (slabs_partial l3) (slabs_full l3) (slabs_free l3) (free_objects l3)
        (free_limit l3) (colour_next l3) (shared l3) (alien l3) t.

Definition set_entry (ac : array_cache) (e : list objptr) : array_cache :=
  mk_ac (limit ac) (batchcount ac) (touched ac) e.

Definition set_touched (ac : array_cache) (t : Z) : array_cache :=
  mk_ac (limit ac) (batchcount ac) t (entry ac).

(* cachep->nodelists[node], None when the pointer is NULL *)
Definition get_l3 (h : heap) (node : nat) : option kmem_list3 :=
  nodelists (cachep h) !! node ≫= id.

Definition set_l3 (h : heap) (node : nat) (l3 : kmem_list3) : heap :=
  set_cachep h (set_nodelists (cachep h) (<[node := Some l3]> (nodelists (cachep h)))).

(** Where an [array_cache] lives: the front-end of a CPU, the shared array
    of a node, or the alien array that a node keeps for another node. *)
Inductive ac_loc :=
| AcCpu (cpu : nat)
| AcShared (node : nat)
| AcAlien (node remote : nat).

Definition get_ac (h : heap) (loc : ac_loc) : option array_cache :=
  match loc with
  | AcCpu cpu => array (cachep h) !! cpu ≫= id
  | AcShared node => get_l3 h node ≫= shared
  | AcAlien node remote =>
      l3 ← get_l3 h node; al ← alien l3; al !! remote ≫= id
  end.

Definition set_ac (h : heap) (loc : ac_loc) (ac : array_cache) : heap :=
  match loc with
  | AcCpu cpu =>
      set_cachep h (set_array (cachep h) (<[cpu := Some ac]> (array (cachep h))))
  | AcShared node =>
      match get_l3 h node with
      | Some l3 => set_l3 h node (set_shared l3 (Some ac))
      | None => h
      end
  | AcAlien node remote =>
      match get_l3 h node with
      | Some l3 =>
          match alien l3 with
          | Some al => set_l3 h node (set_alien l3 (Some (<[remote := Some ac]> al)))
          | None => h
          end
      | None => h
      end
  end.

(* ac->entry[ac->avail++] = objp *)
Definition ac_push (ac : array_cache) (objp : objptr) : array_cache :=
  set_entry ac (entry ac ++ [objp]).

(** *** Intrusive list operations on slab descriptors *)

Definition unlink (slabp : nat) (l : list nat) : list nat :=
  List.filter (fun x => negb (Nat.eqb x slabp)) l.

(* list_del(&slabp->list): the descriptor leaves whatever list holds it *)
Definition list_del (h : heap) (slabp : nat) : heap :=
  set_cachep h
    (set_nodelists (cachep h)
       (List.map
          (option_map (fun l3 =>
             set_lists l3 (unlink slabp (slabs_partial l3))
                       (unlink slabp (slabs_full l3))
                       (unlink slabp (slabs_free l3))))
          (nodelists (cachep h)))).

Inductive which_list := Partial | Full | Free.

Definition get_list (l3 : kmem_list3) (w : which_list) : list nat :=
  match w with
  | Partial => slabs_partial l3
  | Full => slabs_full l3
  | Free => slabs_free l3
  end.

Definition put_list (l3 : kmem_list3) (w : which_list) (l : list nat) : kmem_list3 :=
  match w with
  | Partial => set_lists l3 l (slabs_full l3) (slabs_free l3)
  | Full => set_lists l3 (slabs_partial l3) l (slabs_free l3)
  | Free => set_lists l3 (slabs_partial l3) (slabs_full l3) l
  end.

#[global] Instance which_list_eq_dec : EqDecision which_list.
Proof. solve_decision. Defined.

#[global] Instance ac_loc_eq_dec : EqDecision ac_loc.
Proof. solve_decision. Defined.

(* list_add(&slabp->list, &l3->w) *)
Definition list_add (l3 : kmem_list3) (w : which_list) (slabp : nat) : kmem_list3 :=
  put_list l3 w (slabp :: get_list l3 w).

(* list_add_tail(&slabp->list, &l3->w) *)
Definition list_add_tail (l3 : kmem_list3) (w : which_list) (slabp : nat) : kmem_list3 :=
  put_list l3 w (get_list l3 w ++ [slabp]).

(** ** Operations *)

Section Allocator.
Context `{platform}.
(* numa_node_id() on a CPU, and the CPUs and nodes that are online *)
Variable cpu_to_node : nat -> nat.
Variable online_cpus : list nat.
Variable online_nodes : list nat.

(** *** Objects inside a slab *)

Definition slab_get_obj (h : heap) (slabp : nat) : option (objptr * heap) :=
  sl ← slab_store h !! slabp;
  let objp := index_to_obj slabp (free sl) in
  next ← bufctl sl !! Z.to_nat (free sl);
  let sl' := mk_slab (colouroff sl) (u32 (inuse sl + 1)) next (nodeid sl) (bufctl sl) in
  Some (objp, set_slab_store h (<[slabp := sl']> (slab_store h))).

Definition slab_put_obj (h : heap) (slabp : nat) (objp : objptr) : option heap :=
  sl ← slab_store h !! slabp;
  let objnr := obj_to_index objp in
  if (0 <=? objnr) && (Z.to_nat objnr <? length (bufctl sl))%nat then
    let sl' := mk_slab (colouroff sl) (u32 (inuse sl - 1)) objnr (nodeid sl)
                       (<[Z.to_nat objnr := free sl]> (bufctl sl)) in
    Some (set_slab_store h (<[slabp := sl']> (slab_store h)))
  else None.

(* the pages go back to the page allocator (directly or after an RCU
   grace period); the descriptor is dead from here on *)
Definition slab_destroy (h : heap) (slabp : nat) : heap :=
  mk_heap (cachep h) (slab_store h) (obj_mem h) (ctor_calls h) (page_oracle h)
          (mgmt_oracle h) (slabp :: released h).

(** *** free_block: objects back into their slabs *)

(* one turn of the loop of free_block *)
Definition free_block_one (h : heap) (objp : objptr) (node : nat) : option heap :=
  let slabp := virt_to_slab objp in
  _ ← get_l3 h node;
  let h := list_del h slabp in
  h ← slab_put_obj h slabp objp;
  l3 ← get_l3 h node;
  let l3 := set_free_objects l3 (wrap (free_objects l3 + 1)) in
  sl ← slab_store h !! slabp;
  if inuse sl =? 0 then
    if free_objects l3 >? free_limit l3 then
      let l3 := set_free_objects l3 (wrap (free_objects l3 - num (cachep h))) in
      Some (slab_destroy (set_l3 h node l3) slabp)
    else
      Some (set_l3 h node (list_add l3 Free slabp))
  else
    Some (set_l3 h node (list_add_tail l3 Partial slabp)).

(* [objpp] is the array slice objpp[0 .. nr_objects) *)
Fixpoint free_block (h : heap) (objpp : list objptr) (node : nat) : option heap :=
  match objpp with
  | [] => Some h
  | objp :: rest => h' ← free_block_one h objp node; free_block h' rest node
  end.

(** *** Moving objects between array caches *)

Definition transfer_objects (to from : array_cache) (max : Z)
  : array_cache * array_cache * Z :=
  let nr := to_int (Z.min (Z.min (avail from) (u32 max)) (u32 (limit to - avail to))) in
  if nr =? 0 then (to, from, 0)
  else
    let k := (length (entry from) - Z.to_nat nr)%nat in
    (set_touched (set_entry to (entry to ++ drop k (entry from))) 1,
     set_entry from (take k (entry from)),
     nr).

(** The first [n] cells of an entry array; reading past the live cells is
    outside the model. *)
Definition entry_prefix (ac : array_cache) (n : Z) : option (list objptr) :=
  if (0 <=? n) && (n <=? avail ac) then Some (take (Z.to_nat n) (entry ac))
  else None.

Definition cache_flusharray (h : heap) (cpu : nat) : option heap :=
  ac ← get_ac h (AcCpu cpu);
  let node := cpu_to_node cpu in
  let batchcount := to_int (batchcount ac) in
  l3 ← get_l3 h node;
  let via_lists :=
    objs ← entry_prefix ac batchcount;
    h' ← free_block h objs node;
    Some (h', batchcount) in
  r ← match shared l3 with
      | Some shared_array =>
          let max := to_int (u32 (limit shared_array - avail shared_array)) in
          if negb (max =? 0) then
            let batchcount := if batchcount >? max then max else batchcount in
            objs ← entry_prefix ac batchcount;
            Some (set_ac h (AcShared node)
                         (set_entry shared_array (entry shared_array ++ objs)),
                  batchcount)
          else via_lists
      | None => via_lists
      end;
  let '(h', batchcount) := r in
  (* free_done: ac->avail -= batchcount; memmove *)
  ac' ← get_ac h' (AcCpu cpu);
  Some (set_ac h' (AcCpu cpu) (set_entry ac' (drop (Z.to_nat batchcount) (entry ac')))).

(** *** Alien caches *)

(* [loc] is where [ac] lives; [node] is the node the objects belong to *)
Definition __drain_alien_cache (h : heap) (loc : ac_loc) (node : nat) : option heap :=
  ac ← get_ac h loc;
  if negb (avail ac =? 0) then
    rl3 ← get_l3 h node;
    let h1 :=
      match shared rl3 with
      | Some sh =>
          let '(sh', ac', _) := transfer_objects sh ac (limit ac) in
          set_ac (set_ac h (AcShared node) sh') loc ac'
      | None => h
      end in
    ac1 ← get_ac h1 loc;
    h2 ← free_block h1 (entry ac1) node;
    ac2 ← get_ac h2 loc;
    Some (set_ac h2 loc (set_entry ac2 []))
  else Some h.

(* for_each_online_node(i) over the alien arrays of [node] *)
Fixpoint drain_alien_nodes (h : heap) (node : nat) (remotes : list nat) : option heap :=
  match remotes with
  | [] => Some h
  | i :: rest =>
      l3 ← get_l3 h node;
      al ← alien l3;
      slot ← al !! i;
      h' ← match slot with
           | Some _ => __drain_alien_cache h (AcAlien node i) i
           | None => Some h
           end;
      drain_alien_nodes h' node rest
  end.

Definition drain_alien_cache (h : heap) (node : nat) : option heap :=
  drain_alien_nodes h node online_nodes.

(** Returns 1 when the object was taken care of here, 0 when it belongs
    to the node of the calling CPU. *)
Definition cache_free_alien (h : heap) (cpu : nat) (objp : objptr)
  : option (Z * heap) :=
  let slabp := virt_to_slab objp in
  sl ← slab_store h !! slabp;
  let nodeid := nodeid sl in
  let node := cpu_to_node cpu in
  if Nat.eqb nodeid node then Some (0, h)
  else
    l3 ← get_l3 h node;
    let direct :=
      _ ← get_l3 h nodeid;
      h' ← free_block h [objp] nodeid;
      Some (1, h') in
    match alien l3 with
    | Some al =>
        slot ← al !! nodeid;
        match slot with
        | Some alien =>
            h1 ← (if avail alien =? limit alien
                  then __drain_alien_cache h (AcAlien node nodeid) nodeid
                  else Some h);
            alien1 ← get_ac h1 (AcAlien node nodeid);
            Some (1, set_ac h1 (AcAlien node nodeid) (ac_push alien1 objp))
        | None => direct
        end
    | None => direct
    end.

Definition __cache_free (h : heap) (cpu : nat) (objp : objptr) : option heap :=
  r ← cache_free_alien h cpu objp;
  let '(handled, h1) := r in
  if negb (handled =? 0) then Some h1
  else
    ac ← get_ac h1 (AcCpu cpu);
    if avail ac <? limit ac then
      Some (set_ac h1 (AcCpu cpu) (ac_push ac objp))
    else
      h2 ← cache_flusharray h1 cpu;
      ac2 ← get_ac h2 (AcCpu cpu);
      Some (set_ac h2 (AcCpu cpu) (ac_push ac2 objp)).

(** *** Growth *)

(* kmem_getpages: one answer of the page allocator is consumed *)
Definition kmem_getpages (h : heap) : bool * heap :=
  match page_oracle h with
  | [] => (false, h)
  | b :: rest =>
      (b, mk_heap (cachep h) (slab_store h) (obj_mem h) (ctor_calls h) rest
                  (mgmt_oracle h) (released h))
  end.

(** The descriptor is written at a fresh index of [slab_store]; its
    bufctl cells are not initialised yet.  The index names the slab for
    one life: it is not used again after slab_destroy, and pages that the
    page allocator hands out a second time carry a new slab under a new
    index. *)
Definition alloc_slabmgmt (h : heap) (colour_off : Z) (nodeid : nat)
  : option nat * heap :=
  let c := cachep h in
  let cells := replicate (Z.to_nat (num c)) 0 in
  let slabp := length (slab_store h) in
  if OFF_SLAB (flags c) then
    match mgmt_oracle h with
    | true :: rest =>
        let sl := mk_slab (wrap colour_off) 0 0 nodeid cells in
        (Some slabp,
         mk_heap c (slab_store h ++ [sl]) (obj_mem h) (ctor_calls h)
                 (page_oracle h) rest (released h))
    | false :: rest =>
        (None,
         mk_heap c (slab_store h) (obj_mem h) (ctor_calls h)
                 (page_oracle h) rest (released h))
    | [] => (None, h)
    end
  else
    let colour_off := to_int (colour_off + slab_size c) in
    let sl := mk_slab (wrap colour_off) 0 0 nodeid cells in
    (Some slabp, set_slab_store h (slab_store h ++ [sl])).

(* the body of the loop of cache_init_objs for slot [i], [n] slots to go *)
Fixpoint cache_init_objs_loop (slabp : nat) (n : nat) (i : Z)
    (h : heap) (cells : list Z) : heap * list Z :=
  match n with
  | O => (h, cells)
  | S n' =>
      let objp := index_to_obj slabp i in
      let h :=
        match ctor (cachep h) with
        | Some f =>
            mk_heap (cachep h) (slab_store h)
                    (fun o => if decide (o = objp) then f (obj_mem h objp)
                              else obj_mem h o)
                    (ctor_calls h ++ [objp]) (page_oracle h) (mgmt_oracle h)
                    (released h)
        | None => h
        end in
      cache_init_objs_loop slabp n' (i + 1) h (<[Z.to_nat i := u32 (i + 1)]> cells)
  end.

Definition cache_init_objs (h : heap) (slabp : nat) : option heap :=
  sl ← slab_store h !! slabp;
  let n := num (cachep h) in
  let '(h, cells) := cache_init_objs_loop slabp (Z.to_nat n) 0 h (bufctl sl) in
  (* slab_bufctl(slabp)[i - 1] = BUFCTL_END *)
  if 1 <=? n then
    let cells := <[Z.to_nat (n - 1) := BUFCTL_END]> cells in
    let sl' := mk_slab (colouroff sl) (inuse sl) 0 (nodeid sl) cells in
    Some (set_slab_store h (<[slabp := sl']> (slab_store h)))
  else None.

(** The colour handed to the slab being grown, in bytes, and the value
    left in [colour_next]: the first statements of cache_grow. *)
Definition next_colour (c : kmem_cache) (l3 : kmem_list3) : Z * Z :=
  let offset := colour_next l3 in
  let next := u32 (colour_next l3 + 1) in
  let next := if next >=? colour c then 0 else next in
  (wrap (offset * colour_off c), next).

(** [have_pages] tells whether the caller passed the pages in ([objp]
    not NULL); cache_alloc_refill passes NULL.  The result is the [int]
    of the source, 1 for success. *)
Definition cache_grow (h : heap) (nodeid : nat) (have_pages : bool)
  : option (Z * heap) :=
  l3 ← get_l3 h nodeid;
  let c := cachep h in
  let '(offset, next) := next_colour c l3 in
  let h := set_l3 h nodeid (set_colour_next l3 next) in
  let '(got, h) := if have_pages then (true, h) else kmem_getpages h in
  if negb got then Some (0, h)
  else
    match alloc_slabmgmt h (to_int offset) nodeid with
    | (None, h) => Some (0, h)
    | (Some slabp, h) =>
        h ← cache_init_objs h slabp;
        l3 ← get_l3 h nodeid;
        let l3 := list_add_tail l3 Free slabp in
        let l3 := set_free_objects l3 (wrap (free_objects l3 + num c)) in
        Some (1, set_l3 h nodeid l3)
    end.

(** *** Refill *)

(** The inner loop: [while (slabp->inuse < cachep->num && batchcount--)].
    The result carries the value of [batchcount] on exit. *)
Fixpoint refill_from_slab (fuel : nat) (h : heap) (cpu slabp : nat)
    (batchcount : Z) : option (heap * Z) :=
  match fuel with
  | O => None
  | S fuel' =>
      sl ← slab_store h !! slabp;
      if inuse sl <? num (cachep h) then
        if batchcount =? 0 then Some (h, to_int (batchcount - 1))
        else
          r ← slab_get_obj h slabp;
          let '(objp, h1) := r in
          ac ← get_ac h1 (AcCpu cpu);
          refill_from_slab fuel' (set_ac h1 (AcCpu cpu) (ac_push ac objp))
                           cpu slabp (to_int (batchcount - 1))
      else Some (h, batchcount)
  end.

(** The outer loop [while (batchcount > 0)], up to the label must_grow. *)
Fixpoint refill_from_lists (fuel : nat) (h : heap) (cpu node : nat)
    (batchcount : Z) : option heap :=
  match fuel with
  | O => None
  | S fuel' =>
      if batchcount >? 0 then
        l3 ← get_l3 h node;
        let pick :=
          match slabs_partial l3 with
          | slabp :: _ => (h, Some slabp)
          | [] =>
              let h := set_l3 h node (set_free_touched l3 1) in
              match slabs_free l3 with
              | slabp :: _ => (h, Some slabp)
              | [] => (h, None)
              end
          end in
        match pick with
        | (h, None) => Some h                       (* goto must_grow *)
        | (h, Some slabp) =>
            sl ← slab_store h !! slabp;
            if inuse sl >=? num (cachep h) then None   (* BUG_ON *)
            else
              r ← refill_from_slab (S (Z.to_nat batchcount)) h cpu slabp batchcount;
              let '(h, batchcount) := r in
              let h := list_del h slabp in
              sl ← slab_store h !! slabp;
              l3 ← get_l3 h node;
              let l3 := if free sl =? BUFCTL_END
                        then list_add l3 Full slabp
                        else list_add l3 Partial slabp in
              refill_from_lists fuel' (set_l3 h node l3) cpu node batchcount
        end
      else Some h
  end.

(* ac->touched = 1; return ac->entry[--ac->avail] *)
Definition ac_take (h : heap) (cpu : nat) : option (option objptr * heap) :=
  ac ← get_ac h (AcCpu cpu);
  objp ← last (entry ac);
  Some (Some objp,
        set_ac h (AcCpu cpu)
               (set_touched (set_entry ac (take (length (entry ac) - 1) (entry ac))) 1)).

(** [fuel] bounds the number of times the label retry is reached. *)
Fixpoint cache_alloc_refill (fuel : nat) (h : heap) (cpu : nat)
  : option (option objptr * heap) :=
  match fuel with
  | O => None
  | S fuel' =>
      let node := cpu_to_node cpu in
      ac ← get_ac h (AcCpu cpu);
      let batchcount := to_int (batchcount ac) in
      let batchcount :=
        if (touched ac =? 0) && (batchcount >? BATCHREFILL_LIMIT)
        then BATCHREFILL_LIMIT else batchcount in
      l3 ← get_l3 h node;
      if avail ac >? 0 then None                     (* BUG_ON *)
      else
        let from_lists :=
          h1 ← refill_from_lists (S (Z.to_nat batchcount)) h cpu node batchcount;
          (* must_grow: l3->free_objects -= ac->avail *)
          ac1 ← get_ac h1 (AcCpu cpu);
          l31 ← get_l3 h1 node;
          Some (set_l3 h1 node
                  (set_free_objects l31 (wrap (free_objects l31 - avail ac1)))) in
        h1 ← match shared l3 with
             | Some sh =>
                 let '(ac', sh', nr) := transfer_objects ac sh batchcount in
                 if negb (nr =? 0)
                 then Some (set_ac (set_ac h (AcCpu cpu) ac') (AcShared node) sh')
                 else from_lists
             | None => from_lists
             end;
        (* alloc_done *)
        ac1 ← get_ac h1 (AcCpu cpu);
        if avail ac1 =? 0 then
          r ← cache_grow h1 node false;
          let '(x, h2) := r in
          ac2 ← get_ac h2 (AcCpu cpu);
          if (x =? 0) && (avail ac2 =? 0) then Some (None, h2)
          else if avail ac2 =? 0 then cache_alloc_refill fuel' h2 cpu
          else ac_take h2 cpu
        else ac_take h1 cpu
  end.

Definition ____cache_alloc (fuel : nat) (h : heap) (cpu : nat)
  : option (option objptr * heap) :=
  ac ← get_ac h (AcCpu cpu);
  if negb (avail ac =? 0) then ac_take h cpu
  else cache_alloc_refill fuel h cpu.

(** *** Shrinking and destruction *)

Definition do_drain (h : heap) (cpu : nat) : option heap :=
  let node := cpu_to_node cpu in
  ac ← get_ac h (AcCpu cpu);
  _ ← get_l3 h node;
  h' ← free_block h (entry ac) node;
  ac' ← get_ac h' (AcCpu cpu);
  Some (set_ac h' (AcCpu cpu) (set_entry ac' [])).

(* [loc] is where the array lives, NULL included; [node] is the node of
   the list-set [l3] whose lock protects the operation *)
Definition drain_array (h : heap) (loc : ac_loc) (force : Z) (node : nat)
  : option heap :=
  match get_ac h loc with
  | None => Some h
  | Some ac =>
      if avail ac =? 0 then Some h
      else if negb (touched ac =? 0) && (force =? 0) then
        Some (set_ac h loc (set_touched ac 0))
      else
        _ ← get_l3 h node;
        let tofree := if negb (force =? 0) then to_int (avail ac)
                      else to_int (u32 (limit ac + 4) / 5) in
        let tofree := if u32 tofree >? avail ac then to_int ((avail ac + 1) / 2)
                      else tofree in
        objs ← entry_prefix ac tofree;
        h' ← free_block h objs node;
        ac' ← get_ac h' loc;
        Some (set_ac h' loc (set_entry ac' (drop (Z.to_nat tofree) (entry ac'))))
  end.

Fixpoint for_each (A : Type) (f : heap -> A -> option heap) (h : heap)
    (l : list A) : option heap :=
  match l with
  | [] => Some h
  | x :: rest => h' ← f h x; for_each A f h' rest
  end.

Definition drain_cpu_caches (h : heap) : option heap :=
  h ← for_each nat do_drain h online_cpus;
  h ← for_each nat
        (fun h node =>
           match get_l3 h node with
           | Some l3 =>
               match alien l3 with
               | Some _ => drain_alien_cache h node
               | None => Some h
               end
           | None => Some h
           end) h online_nodes;
  for_each nat
    (fun h node =>
       match get_l3 h node with
       | Some _ => drain_array h (AcShared node) 1 node
       | None => Some h
       end) h online_nodes.

(** The loop of drain_freelist; the result carries [nr_freed]. *)
Fixpoint drain_freelist_loop (fuel : nat) (h : heap) (node : nat)
    (tofree nr_freed : Z) : option (heap * Z) :=
  match fuel with
  | O => None
  | S fuel' =>
      l3 ← get_l3 h node;
      if (nr_freed <? tofree) && negb (bool_decide (slabs_free l3 = [])) then
        (* p = l3->slabs_free.prev *)
        slabp ← last (slabs_free l3);
        let h := list_del h slabp in
        l3 ← get_l3 h node;
        let h := set_l3 h node
                   (set_free_objects l3 (wrap (free_objects l3 - num (cachep h)))) in
        drain_freelist_loop fuel' (slab_destroy h slabp) node tofree
                            (to_int (nr_freed + 1))
      else Some (h, nr_freed)
  end.

Definition drain_freelist (h : heap) (node : nat) (tofree : Z)
  : option (heap * Z) :=
  l3 ← get_l3 h node;
  drain_freelist_loop (S (length (slabs_free l3))) h node tofree 0.

(* the loop over the online nodes in __cache_shrink; [ret] accumulates *)
Fixpoint shrink_nodes (h : heap) (nodes : list nat) (ret : Z)
  : option (heap * Z) :=
  match nodes with
  | [] => Some (h, ret)
  | i :: rest =>
      match get_l3 h i with
      | None => shrink_nodes h rest ret
      | Some l3 =>
          r ← drain_freelist h i (to_int (free_objects l3));
          let '(h, _) := r in
          l3 ← get_l3 h i;
          let busy := negb (bool_decide (slabs_full l3 = []))
                      || negb (bool_decide (slabs_partial l3 = [])) in
          shrink_nodes h rest (to_int (ret + (if busy then 1 else 0)))
      end
  end.

Definition __cache_shrink (h : heap) : option (heap * Z) :=
  h ← drain_cpu_caches h;
  r ← shrink_nodes h online_nodes 0;
  let '(h, ret) := r in
  Some (h, if negb (ret =? 0) then 1 else 0).

(* the arrays and the list-sets are given back *)
Definition __kmem_cache_destroy (h : heap) : heap :=
  let c := cachep h in
  let arr := fold_left (fun a cpu => <[cpu := None]> a) online_cpus (array c) in
  let nl := fold_left (fun l node => <[node := None]> l) online_nodes (nodelists c) in
  set_cachep h (set_nodelists (set_array c arr) nl).

(** [cache_chain] is the registry, a list of cache addresses with the head
    first; [addr] is the address of the cache held in [h].  The boolean
    tells whether the cache was destroyed. *)
Definition kmem_cache_destroy (cache_chain : list nat) (addr : nat) (h : heap)
  : option (list nat * heap * bool) :=
  let chain := unlink addr cache_chain in
  r ← __cache_shrink h;
  let '(h, ret) := r in
  if negb (ret =? 0) then Some (addr :: chain, h, false)
  else Some (chain, __kmem_cache_destroy h, true).

(** *** Tuning the array caches *)

Variable nr_node_ids : nat.
Variable use_alien_caches : bool.

(* alloc_arraycache, when kmalloc_node succeeds *)
Definition alloc_arraycache (entries batchcount : Z) : array_cache :=
  mk_ac (u32 entries) (u32 batchcount) 0 [].

Definition alloc_alien_cache (node : nat) (limit : Z) : list (option array_cache) :=
  let limit := if limit >? 1 then 12 else limit in
  List.map
    (fun i =>
       if Nat.eqb i node || negb (bool_decide (i ∈ online_nodes)) then None
       else Some (alloc_arraycache limit 0xbaadf00d))
    (seq 0 nr_node_ids).

(** Modelled from the spec: kmem_list3_init is not part of the source at
    hand; section 4.1 step 6 has the list-sets zero-initialized, empty,
    with no slabs yet. *)
Definition kmem_list3_init : kmem_list3 :=
  mk_l3 [] [] [] 0 0 0 None None 0.

Definition nr_cpus_node (node : nat) : Z :=
  Z.of_nat (length (List.filter (fun cpu => Nat.eqb (cpu_to_node cpu) node)
                                online_cpus)).

(* one turn of the loop of alloc_kmemlist whose allocations succeed *)
Definition alloc_kmemlist_node (h : heap) (node : nat) : option heap :=
  let c := cachep h in
  let new_alien :=
    if use_alien_caches then Some (alloc_alien_cache node (c_limit c)) else None in
  let new_shared :=
    if negb (c_shared c =? 0)
    then Some (alloc_arraycache (c_shared c * c_batchcount c) 0xbaadf00d)
    else None in
  let free_limit :=
    u32 (to_int (1 + nr_cpus_node node) * c_batchcount c + num c) in
  match get_l3 h node with
  | Some l3 =>
      h ← match shared l3 with
          | Some sh => free_block h (entry sh) node
          | None => Some h
          end;
      l3 ← get_l3 h node;
      let l3 := set_shared l3 new_shared in
      let l3 := match alien l3 with None => set_alien l3 new_alien | Some _ => l3 end in
      Some (set_l3 h node
              (mk_l3 (slabs_partial l3) (slabs_full l3) (slabs_free l3)
                     (free_objects l3) free_limit (colour_next l3) (shared l3)
                     (alien l3) (free_touched l3)))
  | None =>
      if (node <? length (nodelists c))%nat then
        Some (set_l3 h node
                (mk_l3 [] [] [] 0 free_limit 0 new_shared new_alien 0))
      else None
  end.

(** Does the turn for [node] leave the loop by [goto fail]?  [node_ok]
    tells whether the allocations that the turn for a node makes succeed.
    The turn allocates the alien arrays under use_alien_caches, the shared
    array when cachep->shared is not 0, and the list-set when the node has
    none; the first two come before nodelists[node] is read. *)
Definition turn_fails (node_ok : nat -> bool) (h : heap) (node : nat) : bool :=
  let c := cachep h in
  negb (node_ok node) &&
  (use_alien_caches || negb (c_shared c =? 0) ||
   ((node <? length (nodelists c))%nat &&
    negb (bool_decide (is_Some (get_l3 h node))))).

(* for_each_online_node (node) { ... }: the state, and the node whose
   turn failed *)
Fixpoint alloc_kmemlist_loop (node_ok : nat -> bool) (h : heap) (nodes : list nat)
  : option (heap * option nat) :=
  match nodes with
  | [] => Some (h, None)
  | node :: rest =>
      if turn_fails node_ok h node then Some (h, Some node)
      else
        h ← alloc_kmemlist_node h node;
        alloc_kmemlist_loop node_ok h rest
  end.

(** [active] is [cachep->next.next != NULL]: the cache is in the registry.
    When a turn fails on a cache that is not, the list-sets of all lower
    nodes are given up; on a cache in use the turns made so far stay.
    The result is the error code of the source, 0 for success. *)
Definition alloc_kmemlist (node_ok : nat -> bool) (active : bool) (h : heap)
  : option (Z * heap) :=
  r ← alloc_kmemlist_loop node_ok h online_nodes;
  match r with
  | (h, None) => Some (0, h)
  | (h, Some node) =>
      let h :=
        if active then h
        else
          (* node--; while (node >= 0) { ... cachep->nodelists[node] = NULL; } *)
          set_cachep h
            (set_nodelists (cachep h)
               (fold_left (fun l m => <[m := None]> l) (seq 0 node)
                          (nodelists (cachep h)))) in
      Some (-12, h)                                   (* -ENOMEM *)
  end.

(** [kmalloc_ok] tells whether the allocations of do_tune_cpucache itself
    succeed, the ccupdate_struct and the new array of every online CPU;
    [node_ok] and [active] are those of alloc_kmemlist.  The result is the
    error code of the source, 0 for success. *)
Definition do_tune_cpucache (kmalloc_ok : bool) (node_ok : nat -> bool)
    (active : bool) (h : heap)
    (limit batchcount shared : Z) : option (Z * heap) :=
  if negb kmalloc_ok then Some (-12, h)               (* -ENOMEM *)
  else
    let c := cachep h in
    let old := array c in
    (* do_ccupdate_local on each CPU *)
    let arr := fold_left
                 (fun a cpu => <[cpu := Some (alloc_arraycache limit batchcount)]> a)
                 online_cpus old in
    let c := mk_cache arr (u32 batchcount) (u32 limit) (u32 shared) (buffer_size c)
                      (flags c) (num c) (gfporder c) (colour c) (colour_off c)
                      (slab_size c) (ctor c) (name c) (nodelists c) in
    h ← for_each nat
          (fun h cpu =>
             match old !! cpu ≫= id with
             | None => Some h
             | Some ccold =>
                 _ ← get_l3 h (cpu_to_node cpu);
                 free_block h (entry ccold) (cpu_to_node cpu)
             end) (set_cachep h c) online_cpus;
    alloc_kmemlist node_ok active h.

Definition enable_cpucache (kmalloc_ok : bool) (node_ok : nat -> bool)
    (active : bool) (num_possible_cpus : Z) (h : heap)
  : option (Z * heap) :=
  let c := cachep h in
  let limit :=
    if buffer_size c >? 131072 then 1
    else if buffer_size c >? PAGE_SIZE then 8
    else if buffer_size c >? 1024 then 24
    else if buffer_size c >? 256 then 54
    else 120 in
  let shared :=
    if (buffer_size c <=? PAGE_SIZE) && (num_possible_cpus >? 1) then 8 else 0 in
  do_tune_cpucache kmalloc_ok node_ok active h limit (to_int (limit + 1) / 2) shared.
End Allocator.

(** ** Cache creation *)

Inductive cpucache_up := NONE | PARTIAL_AC | PARTIAL_L3 | FULL.

(** What kmem_cache_create reads from its surroundings. *)
Record create_env := mk_env {
  in_interrupt : bool;
  slab_early_init : bool;
  slab_break_gfp_order : Z;
  g_cpucache_up : cpucache_up;
  num_possible_cpus : Z;
  this_cpu : nat;                  (* smp_processor_id() *)
  NR_CPUS : nat;
  MAX_NUMNODES : nat;
  cache_chain : list nat;          (* the registry, addresses of caches *)
  zalloc : option nat;             (* kmem_cache_zalloc(&cache_cache, ..) *)
  kmalloc_ok : bool;               (* do the kmalloc calls of the set-up succeed;
                                      after any that fails the creation ends at
                                      oops, the cache destroyed *)
  general_cachep : bool            (* does kmem_find_general_cachep find one *)
}.

Inductive create_result :=
| Created (addr : nat) (c : kmem_cache) (chain : list nat)
| NoCache (chain : list nat)       (* NULL is returned *)
| Bug                              (* BUG(), BUG_ON() or a fault: no return *)
| Panic.                           (* panic() under SLAB_PANIC *)

Section Creation.
Context `{platform}.
Variable cpu_to_node : nat -> nat.
Variable online_cpus : list nat.
Variable online_nodes : list nat.
Variable nr_node_ids : nat.
Variable use_alien_caches : bool.

(* while (size <= ralign / 2) ralign /= 2; *)
Fixpoint squeeze_ralign (fuel : nat) (size ralign : Z) : Z :=
  match fuel with
  | O => ralign
  | S fuel' =>
      if size <=? ralign / 2 then squeeze_ralign fuel' size (ralign / 2)
      else ralign
  end.

(** The object size, the alignment and the flags after the alignment has
    been settled (step 4 of the source, "Store it"). *)
Definition settle_align (size align flags : Z) : Z * Z * Z :=
  let size :=
    if negb (Z.land size (BYTES_PER_WORD - 1) =? 0)
    then Z.land (wrap (size + (BYTES_PER_WORD - 1)))
                (wrap (Z.lnot (BYTES_PER_WORD - 1)))
    else size in
  let ralign :=
    if flag_set flags SLAB_HWCACHE_ALIGN
    then squeeze_ralign (Z.to_nat cache_line_size) size cache_line_size
    else BYTES_PER_WORD in
  let ralign := if flag_set flags SLAB_STORE_USER then BYTES_PER_WORD else ralign in
  let '(ralign, size) :=
    if flag_set flags SLAB_RED_ZONE
    then (REDZONE_ALIGN,
          Z.land (wrap (size + (REDZONE_ALIGN - 1)))
                 (wrap (Z.lnot (REDZONE_ALIGN - 1))))
    else (ralign, size) in
  let ralign := if ralign <? ARCH_SLAB_MINALIGN then ARCH_SLAB_MINALIGN else ralign in
  let ralign := if ralign <? align then align else ralign in
  let flags :=
    if ralign >? alignof_ull
    then Z.ldiff flags (Z.lor SLAB_RED_ZONE SLAB_STORE_USER)
    else flags in
  (size, ralign, flags).

(** The choice between on-slab and off-slab management, and the final
    object size: what calculate_slab_order is called with. *)
Definition create_args (env : create_env) (size align flags : Z) : Z * Z * Z :=
  let '(size, align, flags) := settle_align size align flags in
  let flags :=
    if (size >=? Z.shiftr PAGE_SIZE 3) && negb (slab_early_init env)
    then Z.lor flags CFLGS_OFF_SLAB
    else flags in
  (ALIGN size align, align, flags).

(* the cache as kmem_cache_zalloc hands it out *)
Definition zeroed_cache (env : create_env) : kmem_cache :=
  mk_cache (replicate (NR_CPUS env) None) 0 0 0 0 0 0 0 0 0 0 None ""
           (replicate (MAX_NUMNODES env) None).

Definition empty_heap (c : kmem_cache) : heap :=
  mk_heap c [] (fun _ => 0) [] [] [] [].

(** The error code of the source, 0 for success; [None] is a fault. *)
Definition setup_cpu_cache (env : create_env) (c : kmem_cache)
  : option (Z * kmem_cache) :=
  match g_cpucache_up env with
  | FULL =>
      (* the cache is not in the registry yet *)
      r ← enable_cpucache cpu_to_node online_cpus online_nodes nr_node_ids
            use_alien_caches (kmalloc_ok env) (fun _ => kmalloc_ok env) false
            (num_possible_cpus env) (empty_heap c);
      Some (fst r, cachep (snd r))
  | stage =>
      (* the bootstrap: one array for the running CPU, fresh list-sets;
         past the first stage the array comes from kmalloc *)
      let have_array :=
        match stage with NONE => true | _ => kmalloc_ok env end in
      if negb have_array then None
      else if negb (bool_decide (cpu_to_node (this_cpu env) ∈ online_nodes)) then None
      else
        let nl := fold_left
                    (fun l node =>
                       <[node := Some (kmem_list3_init)]> l)
                    online_nodes (nodelists c) in
        let arr := <[this_cpu env :=
                       Some (mk_ac BOOT_CPUCACHE_ENTRIES 1 0 [])]> (array c) in
        Some (0, mk_cache arr 1 BOOT_CPUCACHE_ENTRIES (c_shared c) (buffer_size c)
                          (flags c) (num c) (gfporder c) (colour c) (colour_off c)
                          (slab_size c) (ctor c) (name c) nl)
  end.

(* the label oops, reached with cachep == NULL *)
Definition oops (env : create_env) (flags : Z) : create_result :=
  if flag_set flags SLAB_PANIC then Panic else NoCache (cache_chain env).

Definition kmem_cache_create (env : create_env) (name : option string)
    (size align flags : Z) (ctor : option (Z -> Z)) (dtor : bool)
  : create_result :=
  match name with
  | None => Bug
  | Some name =>
    if in_interrupt env || (size <? BYTES_PER_WORD) || (size >? KMALLOC_MAX_SIZE)
       || dtor
    then Bug
    else
      let early_flags := snd (settle_align size align flags) in
      let '(size, align, flags) := create_args env size align flags in
      match zalloc env with
      | None => oops env early_flags
      | Some addr =>
        match calculate_slab_order (slab_break_gfp_order env) size align flags with
        | None => Bug
        | Some so =>
          let left_over := so_left_over so in
          if so_num so =? 0 then oops env flags
          else
            let slab_size :=
              ALIGN (wrap (wrap (so_num so * sizeof_bufctl) + sizeof_slab)) align in
            let '(flags, left_over) :=
              if OFF_SLAB flags && (left_over >=? slab_size)
              then (Z.ldiff flags CFLGS_OFF_SLAB, wrap (left_over - slab_size))
              else (flags, left_over) in
            let slab_size :=
              if OFF_SLAB flags
              then wrap (wrap (so_num so * sizeof_bufctl) + sizeof_slab)
              else slab_size in
            let colour_off := u32 cache_line_size in
            let colour_off := if colour_off <? align then u32 align else colour_off in
            if colour_off =? 0 then Bug
            else
              let c := zeroed_cache env in
              let c := mk_cache (array c) (c_batchcount c) (c_limit c) (c_shared c)
                                (u32 size) (u32 flags) (so_num so) (so_gfporder so)
                                (left_over / colour_off) colour_off (u32 slab_size)
                                ctor name (nodelists c) in
              if OFF_SLAB flags && negb (general_cachep env) then Bug
              else
                match setup_cpu_cache env c with
                | None => Bug
                | Some (err, c) =>
                    if negb (err =? 0) then oops env flags
                    else Created addr c (addr :: cache_chain env)
                end
        end
      end
  end.
End Creation.

(** ** Statements about the geometry *)

(** What the order search promises of the order it settles on: objects
    fit, one of the three tests accepted it, and every smaller order either
    held no object or was turned down by all three tests. *)
Section GeometrySpec.
Context `{platform}.

Definition smallest_accepted_order (ceiling size align flags : Z)
    (so : slab_order) : Prop :=
  0 <= so_gfporder so /\
  cache_estimate (so_gfporder so) size align flags
    = Some (so_left_over so, so_num so) /\
  1 <= so_num so /\
  order_accepted ceiling flags (so_gfporder so) (so_left_over so) = true /\
  forall g, 0 <= g < so_gfporder so ->
    exists lo n, cache_estimate g size align flags = Some (lo, n) /\
                 (n = 0 \/ order_accepted ceiling flags g lo = false).

End GeometrySpec.

(* the fields that creation computes and that no later operation writes *)
Definition geometry (c : kmem_cache) : Z * Z * Z * Z * Z * Z * Z :=
  (buffer_size c, flags c, num c, gfporder c, colour c, colour_off c, slab_size c).

(** ** Well-formed allocator states *)

Section Invariant.
Context `{platform}.
Variable cpu_to_node : nat -> nat.

(* the three slab lists of a node and the live cells of an array cache *)
Definition list_at (h : heap) (node : nat) (w : which_list) : option (list nat) :=
  l3 ← get_l3 h node; Some (get_list l3 w).

Definition entries_at (h : heap) (loc : ac_loc) : option (list objptr) :=
  ac ← get_ac h loc; Some (entry ac).

(** The free list threaded through the bufctl cells: [chain] lists the
    free slots in the order slab_get_obj will hand them out. *)
Fixpoint free_chain (cells : list Z) (head : Z) (chain : list nat) : Prop :=
  match chain with
  | [] => head = BUFCTL_END
  | i :: rest =>
      head = Z.of_nat i /\
      exists next, cells !! i = Some next /\ free_chain cells next rest
  end.

(** The list a slab belongs on, by its in-use count alone. *)
Definition list_for (n inuse : Z) : which_list :=
  if inuse =? 0 then Free else if inuse <? n then Partial else Full.

Record slab_ok (n : Z) (sl : slab) (chain : list nat) : Prop := {
  cells_len : length (bufctl sl) = Z.to_nat n;
  chain_ok : free_chain (bufctl sl) (free sl) chain;
  chain_nodup : NoDup chain;
  chain_bound : forall i, i ∈ chain -> (i < Z.to_nat n)%nat;
  chain_len : Z.of_nat (length chain) + inuse sl = n
}.

Definition linked (h : heap) (node : nat) (w : which_list) (id : nat) : Prop :=
  exists l, list_at h node w = Some l /\ id ∈ l.

(** An object that is out of its slab: the slab is linked on [node] and
    the slot is not on the free chain. *)
Definition held (h : heap) (node : nat) (o : objptr) : Prop :=
  exists w sl chain,
    linked h node w (fst o) /\
    slab_store h !! fst o = Some sl /\
    slab_ok (num (cachep h)) sl chain /\
    0 <= snd o < num (cachep h) /\
    Z.to_nat (snd o) ∉ chain.

(* the node whose objects an array cache holds *)
Definition home (loc : ac_loc) : nat :=
  match loc with
  | AcCpu cpu => cpu_to_node cpu
  | AcShared node => node
  | AcAlien _ remote => remote
  end.

(** The slab lists and the descriptors.  [busy] names a slab that is being
    worked on and may sit on a list that no longer matches its count. *)
Record core (h : heap) (busy : option nat) : Prop := {
  num_ok : 1 <= num (cachep h) <= SLAB_LIMIT;
  lists_nodup : forall node w l, list_at h node w = Some l -> NoDup l;
  lists_disjoint : forall n1 w1 n2 w2 id,
    linked h n1 w1 id -> linked h n2 w2 id -> n1 = n2 /\ w1 = w2;
  slabs_sound : forall node w id,
    linked h node w id ->
    exists sl chain,
      slab_store h !! id = Some sl /\
      slab_ok (num (cachep h)) sl chain /\
      nodeid sl = node /\
      (busy <> Some id -> list_for (num (cachep h)) (inuse sl) = w);
  released_dead : forall id,
    id ∈ released h ->
    (id < length (slab_store h))%nat /\ forall node w, ~ linked h node w id
}.

(** The array caches: no object is cached twice, and every cached object
    is held and belongs to the node the array serves. *)
Record acs_ok (h : heap) : Prop := {
  entries_nodup : forall loc l, entries_at h loc = Some l -> NoDup l;
  entries_disjoint : forall loc1 loc2 l1 l2 o,
    entries_at h loc1 = Some l1 -> entries_at h loc2 = Some l2 ->
    o ∈ l1 -> o ∈ l2 -> loc1 = loc2;
  entries_held : forall loc l o,
    entries_at h loc = Some l -> o ∈ l -> held h (home loc) o
}.

Definition Inv (h : heap) : Prop := core h None /\ acs_ok h.

(** The slab a refill turns to: the head of the partial list, or the head
    of the free list when the partial list is empty. *)
Definition first_slab (h : heap) (node : nat) : option nat :=
  match list_at h node Partial with
  | Some (slabp :: _) => Some slabp
  | _ =>
      match list_at h node Free with
      | Some (slabp :: _) => Some slabp
      | _ => None
      end
  end.

(** An object that is back in its slab: its slot is on the free chain of
    its descriptor. *)
Definition in_slab (h : heap) (o : objptr) : Prop :=
  exists sl chain,
    slab_store h !! fst o = Some sl /\
    slab_ok (num (cachep h)) sl chain /\
    Z.to_nat (snd o) ∈ chain.

(** An object in the hands of a caller: held, and in no array cache. *)
Definition live (h : heap) (o : objptr) : Prop :=
  (exists node, held h node o) /\
  forall loc l, entries_at h loc = Some l -> o ∉ l.

(** Objects in the hands of callers stay there, on the same node. *)
Definition keeps_live (h h' : heap) : Prop :=
  forall o, live h o -> live h' o /\ forall n, held h n o -> held h' n o.

(** A cache right after its creation: no slab, nothing cached. *)
Definition fresh (h : heap) : Prop :=
  1 <= num (cachep h) <= SLAB_LIMIT /\
  (forall node w l, list_at h node w = Some l -> l = []) /\
  (forall loc l, entries_at h loc = Some l -> l = []) /\
  released h = [].

(** What an operation that does not grow the cache leaves alone: the
    geometry and the constructor, the content of the objects, the
    constructor trace, the extent of the descriptor store and the oracles. *)
Definition quiet (h h' : heap) : Prop :=
  geometry (cachep h') = geometry (cachep h) /\
  ctor (cachep h') = ctor (cachep h) /\
  obj_mem h' = obj_mem h /\
  ctor_calls h' = ctor_calls h /\
  length (slab_store h') = length (slab_store h) /\
  page_oracle h' = page_oracle h /\
  mgmt_oracle h' = mgmt_oracle h.

(** What an operation that may grow the cache leaves alone: the geometry
    and the constructor, the descriptors' addresses, the content of the
    objects that exist, and the constructor trace up to calls on slots of
    slabs that did not exist before. *)
Definition grown (h h' : heap) : Prop :=
  geometry (cachep h') = geometry (cachep h) /\
  ctor (cachep h') = ctor (cachep h) /\
  (length (slab_store h) <= length (slab_store h'))%nat /\
  (forall o, (fst o < length (slab_store h))%nat -> obj_mem h' o = obj_mem h o) /\
  exists extra,
    ctor_calls h' = ctor_calls h ++ extra /\
    forall o, o ∈ extra -> (length (slab_store h) <= fst o)%nat.
End Invariant.

(** *** Reachable states

    A caller may allocate on a CPU, free a live object on a CPU, grow the
    cache on a node and shrink it; cache_reap trims the shared array of a
    node. *)
Section Reachability.
Context `{platform}.
Variable cpu_to_node : nat -> nat.
Variable online_cpus : list nat.
Variable online_nodes : list nat.

Inductive step (h : heap) : heap -> Prop :=
| step_alloc fuel cpu r h' :
    ____cache_alloc cpu_to_node fuel h cpu = Some (r, h') -> step h h'
| step_free cpu o h' :
    live h o -> __cache_free cpu_to_node h cpu o = Some h' -> step h h'
| step_grow node x h' :
    cache_grow h node false = Some (x, h') -> step h h'
| step_shrink ret h' :
    __cache_shrink cpu_to_node online_cpus online_nodes h = Some (h', ret) ->
    step h h'
| step_reap node h' :
    drain_array h (AcShared node) 0 node = Some h' -> step h h'.

Inductive reachable : heap -> Prop :=
| reach_fresh h : fresh h -> reachable h
| reach_step h h' : reachable h -> step h h' -> reachable h'.

(** *** The arrays and list-sets that are in place

    Which per-CPU arrays, list-sets, shared arrays and alien arrays exist;
    the operations on objects and slabs never change it. *)
Definition l3_wiring (l3 : kmem_list3) : bool * option (list bool) :=
  (bool_decide (is_Some (shared l3)),
   option_map (List.map (fun slot : option array_cache => bool_decide (is_Some slot)))
              (alien l3)).

Definition wiring (h : heap) : list bool * list (option (bool * option (list bool))) :=
  (List.map (fun a : option array_cache => bool_decide (is_Some a)) (array (cachep h)),
   List.map (option_map l3_wiring) (nodelists (cachep h))).

(** Every online CPU has its front-end and the list-set of its node, and
    an alien array has a cell for every online node. *)
Definition wired (h : heap) : Prop :=
  (forall cpu, cpu ∈ online_cpus ->
     is_Some (get_ac h (AcCpu cpu)) /\ is_Some (get_l3 h (cpu_to_node cpu))) /\
  (forall node l3 al i,
     node ∈ online_nodes -> i ∈ online_nodes ->
     get_l3 h node = Some l3 -> alien l3 = Some al -> is_Some (al !! i)).

(* any number of steps *)
Inductive steps : heap -> heap -> Prop :=
| steps_refl h : steps h h
| steps_step h h' h'' : step h h' -> steps h' h'' -> steps h h''.

(** *** Well-behaved callers

    A caller frees only what it was given and has not freed yet.  A run
    threads the allocator state together with the objects the callers
    own. *)
Inductive call :=
| CallAlloc (cpu : nat)
| CallFree (cpu : nat) (objp : objptr)
| CallGrow (node : nat)
| CallShrink
| CallReap (node : nat).

Definition obj_eqb (a b : objptr) : bool :=
  Nat.eqb (fst a) (fst b) && Z.eqb (snd a) (snd b).

Definition do_call (c : call) (s : heap * list objptr)
  : option (heap * list objptr) :=
  let '(h, owned) := s in
  match c with
  | CallAlloc cpu =>
      r ← ____cache_alloc cpu_to_node 2 h cpu;
      Some (snd r, match fst r with Some objp => objp :: owned | None => owned end)
  | CallFree cpu objp =>
      if existsb (obj_eqb objp) owned then
        h' ← __cache_free cpu_to_node h cpu objp;
        Some (h', List.filter (fun x => negb (obj_eqb objp x)) owned)
      else None
  | CallGrow node => r ← cache_grow h node false; Some (snd r, owned)
  | CallShrink =>
      r ← __cache_shrink cpu_to_node online_cpus online_nodes h;
      Some (fst r, owned)
  | CallReap node => h' ← drain_array h (AcShared node) 0 node; Some (h', owned)
  end.

Fixpoint run (cs : list call) (s : heap * list objptr)
  : option (heap * list objptr) :=
  match cs with
  | [] => Some s
  | c :: rest => s' ← do_call c s; run rest s'
  end.
End Reachability.

(** ** More of the allocator

    The periodic reaper and the allocation on a chosen node. *)

Section Reaper.
Context `{platform}.
Variable cpu_to_node : nat -> nat.

(** reap_alien: [reap_node] is the per-CPU variable of that name and
    [trylock] the answer of spin_trylock_irq on the alien array. *)
Definition reap_alien (h : heap) (node reap_node : nat) (trylock : bool)
  : option heap :=
  l3 ← get_l3 h node;
  match alien l3 with
  | Some al =>
      slot ← al !! reap_node;
      match slot with
      | Some ac =>
          if negb (avail ac =? 0) && trylock
          then __drain_alien_cache h (AcAlien node reap_node) reap_node
          else Some h
      | None => Some h
      end
  | None => Some h
  end.

(** The body of the loop of cache_reap, for the cache at hand, on [cpu].
    [due] tells whether [l3->next_reap] has passed: the clock is not part
    of the state. *)
Definition cache_reap (h : heap) (cpu reap_node : nat) (trylock due : bool)
  : option heap :=
  let node := cpu_to_node cpu in
  h ← reap_alien h node reap_node trylock;
  h ← drain_array h (AcCpu cpu) 0 node;
  if negb due then Some h                      (* goto next *)
  else
    h ← drain_array h (AcShared node) 0 node;
    l3 ← get_l3 h node;
    if negb (free_touched l3 =? 0) then
      Some (set_l3 h node (set_free_touched l3 0))
    else
      let d := u32 (5 * num (cachep h)) in
      if d =? 0 then None
      else
        r ← drain_freelist h node (to_int (u32 (free_limit l3 + d - 1) / d));
        Some (fst r).

(** *** Allocation on a chosen node *)

(** What fallback_alloc reads from its surroundings: the zones of the
    zonelist of the running task, each with its node (zone_to_nid) and
    with the answer of cpuset_zone_allowed_hardwall, and the node of the
    pages that kmem_getpages has just handed out (page_to_nid), given the
    state at that moment. *)
Variable zones : list (nat * bool).
Variable page_to_nid : heap -> nat.

(** The loop over the zones in fallback_alloc,
    [for (z = zonelist->zones; *z && !obj; z++)]; [alloc] is
    ____cache_alloc_node with GFP_THISNODE. *)
Definition scan_zones (alloc : heap -> nat -> option (option objptr * heap))
  : heap -> list (nat * bool) -> option (option objptr * heap) :=
  fix scan (h : heap) (zs : list (nat * bool)) :=
    match zs with
    | [] => Some (None, h)
    | (nid, allowed) :: rest =>
        let has_objects :=
          match get_l3 h nid with
          | Some l3 => negb (free_objects l3 =? 0)
          | None => false
          end in
        if allowed && has_objects then
          r ← alloc h nid;
          match r with
          | (Some obj, h) => Some (Some obj, h)
          | (None, h) => scan h rest
          end
        else scan h rest
    end.

(** ____cache_alloc_node and fallback_alloc.  [thisnode] is
    [flags & __GFP_THISNODE].  [fuel] bounds the number of times a label
    retry is reached and the depth of the calls. *)
Fixpoint ____cache_alloc_node (fuel : nat) (thisnode : bool) (h : heap)
    (nodeid : nat) {struct fuel} : option (option objptr * heap) :=
  match fuel with
  | O => None
  | S fuel' =>
      l3 ← get_l3 h nodeid;                          (* BUG_ON(!l3) *)
      let pick :=
        match slabs_partial l3 with
        | slabp :: _ => (h, Some slabp)
        | [] =>
            let h := set_l3 h nodeid (set_free_touched l3 1) in
            match slabs_free l3 with
            | slabp :: _ => (h, Some slabp)
            | [] => (h, None)
            end
        end in
      match pick with
      | (h, Some slabp) =>
          sl ← slab_store h !! slabp;
          if inuse sl =? num (cachep h) then None      (* BUG_ON *)
          else
            r ← slab_get_obj h slabp;
            let '(obj, h) := r in
            l3 ← get_l3 h nodeid;
            let h := set_l3 h nodeid
                       (set_free_objects l3 (wrap (free_objects l3 - 1))) in
            let h := list_del h slabp in
            sl ← slab_store h !! slabp;
            l3 ← get_l3 h nodeid;
            let l3 := if free sl =? BUFCTL_END
                      then list_add l3 Full slabp
                      else list_add l3 Partial slabp in
            Some (Some obj, set_l3 h nodeid l3)
      | (h, None) =>                                  (* must_grow *)
          r ← cache_grow h nodeid false;
          let '(x, h) := r in
          if negb (x =? 0) then ____cache_alloc_node fuel' thisnode h nodeid
          else fallback_alloc fuel' thisnode h
      end
  end
with fallback_alloc (fuel : nat) (thisnode : bool) (h : heap) {struct fuel}
  : option (option objptr * heap) :=
  match fuel with
  | O => None
  | S fuel' =>
      if thisnode then Some (None, h)
      else
        r ← scan_zones (____cache_alloc_node fuel' true) h zones;
        match r with
        | (Some obj, h) => Some (Some obj, h)
        | (None, h) =>
            let '(got, h) := kmem_getpages h in
            if negb got then Some (None, h)
            else
              let nid := page_to_nid h in
              r ← cache_grow h nid true;
              let '(x, h) := r in
              if negb (x =? 0) then
                r ← ____cache_alloc_node fuel' true h nid;
                match r with
                | (Some obj, h) => Some (Some obj, h)
                | (None, h) => fallback_alloc fuel' false h   (* goto retry *)
                end
              else Some (None, h)      (* cache_grow already freed obj *)
        end
  end.
End Reaper.

(** ** What a shrink can reach

    The array caches that __cache_shrink drains: the front-ends of the
    online CPUs and, on the online nodes, the shared arrays and the alien
    arrays kept for online nodes. *)

Section Reach.
Context `{platform}.
Variable cpu_to_node : nat -> nat.
Variable online_cpus : list nat.
Variable online_nodes : list nat.

Definition online_loc (loc : ac_loc) : Prop :=
  match loc with
  | AcCpu cpu => cpu ∈ online_cpus
  | AcShared node => node ∈ online_nodes
  | AcAlien node remote => node ∈ online_nodes /\ remote ∈ online_nodes
  end.

(** Callers hold nothing: every object that is out of its slab sits in an
    array cache that a shrink drains. *)
Definition all_cached (h : heap) : Prop :=
  forall n o, held h n o ->
    exists loc l, online_loc loc /\ entries_at h loc = Some l /\ o ∈ l.

(** No slab is on a list in [h'] that was on no list of that node in [h]. *)
Definition no_new_slab (h h' : heap) : Prop :=
  forall m w x, linked h' m w x -> exists w0, linked h m w0 x.

(** From [h] to [h'] objects only move towards their slabs: an object
    that was free in its slab still is, and an object that sat in an array
    cache within reach is back in its slab or in such an array. *)
Definition settles (h h' : heap) : Prop :=
  (forall o, in_slab h o -> in_slab h' o) /\
  (forall loc l o,
     online_loc loc -> entries_at h loc = Some l -> o ∈ l ->
     in_slab h' o \/
     exists loc' l', online_loc loc' /\ entries_at h' loc' = Some l' /\ o ∈ l').

(** What a draining step does: the state stays well formed, callers keep
    their objects, no slab appears, objects only move towards their slabs,
    and the arrays and list-sets stay where they are. *)
Definition drains (h h' : heap) : Prop :=
  Inv cpu_to_node h' /\ quiet h h' /\ keeps_live h h' /\
  no_new_slab h h' /\ settles h h' /\ wiring h' = wiring h.

(** The arrays selected by [S] hold nothing. *)
Definition empty_on (S : ac_loc -> Prop) (h : heap) : Prop :=
  forall loc l, S loc -> entries_at h loc = Some l -> l = [].
End Reach.

(** ** The table of callers (CONFIG_DEBUG_SLAB_LEAK)

    leaks_show collects the callers that own the active objects of a
    cache in an array [n] of [unsigned long]: [n[0]] is the capacity in
    pairs, the header included, [n[1]] the number of entries, and from
    [n[2]] on come the entries, pairs of an address and a count, sorted by
    address.  Pointers into the array are word indices; [None] is a read
    or a write outside the array, or a search that does not end. *)

Section Leaks.
Context `{platform}.

Definition word_read (n : list Z) (k : Z) : option Z :=
  if 0 <=? k then n !! Z.to_nat k else None.

Definition word_write (n : list Z) (k : Z) (x : Z) : option (list Z) :=
  if (0 <=? k) && (k <? Z.of_nat (length n))
  then Some (<[Z.to_nat k := x]> n) else None.

(* memmove(n + dst, n + src, bytes), for a whole number of words *)
Definition memmove (n : list Z) (dst src bytes : Z) : option (list Z) :=
  let words := Z.to_nat (bytes / BYTES_PER_WORD) in
  if (0 <=? dst) && (0 <=? src)
     && (src + Z.of_nat words <=? Z.of_nat (length n))
     && (dst + Z.of_nat words <=? Z.of_nat (length n))
  then Some (take (Z.to_nat dst) n ++ take words (drop (Z.to_nat src) n)
             ++ drop (Z.to_nat dst + words) n)
  else None.

(** The binary search of add_caller, [p] and [l] as in the source.  The
    result is the table with the count of [v] raised when [v] is found, and
    the place where [v] belongs otherwise. *)
Fixpoint add_caller_search (fuel : nat) (n : list Z) (v p l : Z)
  : option (list Z + Z) :=
  match fuel with
  | O => None
  | S fuel' =>
      if l =? 0 then Some (inr p)
      else
        let i := to_int (Z.quot l 2) in
        let q := p + 2 * i in
        qv ← word_read n q;
        if qv =? v then
          c ← word_read n (q + 1);
          n' ← word_write n (q + 1) (wrap (c + 1));
          Some (inl n')
        else if qv >? v then add_caller_search fuel' n v p i
        else add_caller_search fuel' n v (q + 2) (to_int (l - (i + 1)))
  end.

(** The result is the new table and the [int] the source returns: 0 when
    the table is full. *)
Definition add_caller (n : list Z) (v : Z) : option (list Z * Z) :=
  if v =? 0 then Some (n, 1)
  else
    n1 ← word_read n 1;
    let l := to_int n1 in
    r ← add_caller_search (S (Z.to_nat l)) n v 2 l;
    match r with
    | inl n' => Some (n', 1)
    | inr p =>
        (* ++n[1] == n[0] *)
        let n1' := wrap (n1 + 1) in
        n ← word_write n 1 n1';
        n0 ← word_read n 0;
        if n1' =? n0 then Some (n, 0)
        else
          n ← memmove n (p + 2) p
                (wrap (wrap (wrap (n1' * 2) * BYTES_PER_WORD) - p * BYTES_PER_WORD));
          n ← word_write n p v;
          n ← word_write n (p + 1) 1;
          Some (n, 1)
    end.

(** The entries of a table, and what counting a caller means for them. *)
Fixpoint pairs (l : list Z) : list (Z * Z) :=
  match l with
  | a :: b :: rest => (a, b) :: pairs rest
  | _ => []
  end.

(* the words that a list of entries occupies *)
Definition flat (P : list (Z * Z)) : list Z :=
  P ≫= (fun x => [fst x; snd x]).

Definition callers (n : list Z) : list (Z * Z) :=
  match n with
  | _ :: n1 :: body => take (Z.to_nat n1) (pairs body)
  | _ => []
  end.

Fixpoint tally (v : Z) (t : list (Z * Z)) : list (Z * Z) :=
  match t with
  | [] => [(v, 1)]
  | (a, c) :: rest =>
      if a =? v then (a, wrap (c + 1)) :: rest
      else if a >? v then (v, 1) :: t
      else (a, c) :: tally v rest
  end.

(** A table in order: the header fits, the array has room for [n[0]]
    pairs, fewer entries than that are in use, and the addresses of the
    entries increase. *)
Definition table_ok (n : list Z) : Prop :=
  exists n0 n1 body,
    n = n0 :: n1 :: body /\
    0 <= n1 < n0 /\ n0 < 2 ^ 30 /\
    Z.of_nat (length n) = 2 * n0 /\
    StronglySorted Z.lt (fst <$> callers n).
End Leaks.

(** ** A reference platform

    32-bit x86 with 4 KiB pages and 32-byte cache lines, the platform the
    comments of the source have in mind; two CPUs, CPU [i] on node [i]. *)

Definition x86_32 : platform := {|
  SIZE_BITS := 32; PAGE_SIZE := 4096; BYTES_PER_WORD := 4; sizeof_slab := 28;
  L1_CACHE_BYTES := 32; alignof_ull := 8; KMALLOC_MAX_ORDER := 10;
  KMALLOC_MAX_SIZE := 4194304; SLAB_HWCACHE_ALIGN := 0x2000;
  SLAB_RED_ZONE := 0x400; SLAB_STORE_USER := 0x10000;
  SLAB_RECLAIM_ACCOUNT := 0x20000; SLAB_PANIC := 0x40000;
  SLAB_DESTROY_BY_RCU := 0x80000 |}.

Definition node_of_cpu (cpu : nat) : nat := cpu.

Definition env_up : create_env :=
  mk_env false false 1 FULL 2 0 2 2 [] (Some 7%nat) true true.

(** A small cache for worked examples: objects of 1000 bytes, four to a
    slab, a constructor that writes 42, front-ends of two entries that
    move in batches of two, and a shared array of two entries per node. *)
Definition demo_ctor : Z -> Z := fun _ => 42.

Definition demo_cache : kmem_cache :=
  match @kmem_cache_create x86_32 node_of_cpu [0%nat; 1%nat] [0%nat; 1%nat] 2 true env_up
          (Some "demo"%string) 1000 0 0 (Some demo_ctor) false with
  | Created _ c _ => c
  | _ => zeroed_cache env_up
  end.

Definition demo_heap : heap :=
  let h := mk_heap demo_cache [] (fun _ => 0) [] [true; true; true; true] [] [] in
  match @do_tune_cpucache x86_32 node_of_cpu [0%nat; 1%nat] [0%nat; 1%nat] 2 true true
          (fun _ => true) true h 2 2 1 with
  | Some (_, h') => h'
  | None => h
  end.

Definition demo_run (cs : list call) : option (heap * list objptr) :=
  @run x86_32 node_of_cpu [0%nat; 1%nat] [0%nat; 1%nat] cs (demo_heap, []).

Definition demo_state (cs : list call) : heap :=
  match demo_run cs with
  | Some (h, _) => h
  | None => demo_heap
  end.

(** Five allocations on CPU 0 fill slab 0 and start slab 1; the caller
    holds five objects and the front-end one. *)
Definition demo_five : list call :=
  [CallAlloc 0; CallAlloc 0; CallAlloc 0; CallAlloc 0; CallAlloc 0].

(** Then everything is freed on CPU 0, with a reap of the shared array of
    node 0 before the last free: the front-end is full with two entries,
    and the shared array holds one entry of its two. *)
Definition demo_full_front_end : list call :=
  demo_five ++
  [CallFree 0 (0%nat, 0); CallFree 0 (0%nat, 1); CallFree 0 (0%nat, 2);
   CallFree 0 (0%nat, 3); CallReap 0; CallFree 0 (1%nat, 1)].

(* kmem_cache_create on the reference platform, with no constructor *)
Definition create_x86 (env : create_env) (size align flags : Z) : create_result :=
  @kmem_cache_create x86_32 node_of_cpu [0%nat; 1%nat] [0%nat; 1%nat] 2 true env
    (Some "cache"%string) size align flags None false.

(** * Properties *)

Section IntegerFacts.
Context `{platform}.
Hypothesis Hok : platform_ok.

Lemma pow_size_bits : 2 ^ 32 <= 2 ^ SIZE_BITS.
Proof. apply Z.pow_le_mono_r; [lia | apply Hok]. Qed.

Lemma wrap_small x : 0 <= x < 2 ^ SIZE_BITS -> wrap x = x.
Proof. intros. unfold wrap. apply Z.mod_small. lia. Qed.

Lemma wrap_range x : 0 <= wrap x < 2 ^ SIZE_BITS.
Proof. unfold wrap. apply Z.mod_pos_bound. pose proof pow_size_bits. lia. Qed.

Lemma u32_small x : 0 <= x < 2 ^ 32 -> u32 x = x.
Proof. intros. unfold u32. apply Z.mod_small. lia. Qed.

Lemma to_int_small x : - 2 ^ 31 <= x < 2 ^ 31 -> to_int x = x.
Proof. intros. unfold to_int. rewrite Z.mod_small; lia. Qed.

Lemma land_le x y : 0 <= x -> 0 <= Z.land x y <= x.
Proof.
  intros Hx. split.
  - apply Z.land_nonneg. lia.
  - pose proof (Z.sub_land_same_l x y) as E.
    assert (0 <= Z.land x (Z.lnot y)) by (apply Z.land_nonneg; lia).
    lia.
Qed.

Lemma ALIGN_range x a : 0 <= ALIGN x a < 2 ^ SIZE_BITS.
Proof.
  unfold ALIGN. pose proof (wrap_range (x + wrap (a - 1))).
  pose proof (land_le (wrap (x + wrap (a - 1))) (wrap (Z.lnot (wrap (a - 1))))).
  lia.
Qed.

Lemma slab_bytes g :
  0 <= g <= KMALLOC_MAX_ORDER ->
  wrap (PAGE_SIZE * 2 ^ g) = PAGE_SIZE * 2 ^ g /\
  PAGE_SIZE <= PAGE_SIZE * 2 ^ g < 2 ^ 31.
Proof.
  intros Hg. destruct Hok.
  assert (1 <= 2 ^ g) by (apply (Z.pow_le_mono_r 2 0 g); lia).
  assert (2 ^ g <= 2 ^ KMALLOC_MAX_ORDER) by (apply Z.pow_le_mono_r; lia).
  assert (PAGE_SIZE <= PAGE_SIZE * 2 ^ g < 2 ^ 31) by nia.
  split; [|done]. apply wrap_small. pose proof pow_size_bits. lia.
Qed.
End IntegerFacts.

Section EstimateFacts.
Context `{platform}.
Hypothesis Hok : platform_ok.

Lemma SLAB_LIMIT_val : SLAB_LIMIT = 4294967292.
Proof. reflexivity. Qed.

Lemma estimate_off_slab g bs align flags :
  OFF_SLAB flags = true -> 0 <= g <= KMALLOC_MAX_ORDER -> 0 < bs ->
  cache_estimate g bs align flags =
    Some (PAGE_SIZE * 2 ^ g - PAGE_SIZE * 2 ^ g / bs * bs, PAGE_SIZE * 2 ^ g / bs).
Proof.
  intros Hoff Hg Hbs. unfold cache_estimate. rewrite Hoff.
  destruct (slab_bytes Hok g Hg) as [-> HS].
  set (S := PAGE_SIZE * 2 ^ g) in *.
  pose proof (page_size_pos Hok).
  destruct (Z.eqb_spec bs 0); [lia|].
  assert (0 <= S / bs <= S).
  { split; [apply Z.div_pos; lia|]. apply Z.div_le_upper_bound; nia. }
  assert (S / bs * bs <= S) by (pose proof (Z.mul_div_le S bs); nia).
  pose proof (pow_size_bits Hok).
  rewrite (to_int_small (S / bs)) by lia.
  rewrite (u32_small (S / bs)) by lia.
  rewrite SLAB_LIMIT_val.
  destruct (Z.gtb_spec (S / bs) 4294967292); [lia|].
  rewrite (wrap_small (S / bs)) by lia.
  rewrite (wrap_small (S / bs * bs)) by nia.
  rewrite wrap_small by nia.
  rewrite (u32_small (S / bs)) by lia.
  do 2 f_equal; lia.
Qed.

(** On-slab: the count is the first guess, or one less, or the wrapped
    remains of a guess of zero that was decremented. *)
Lemma estimate_on_slab g bs align flags lo n :
  OFF_SLAB flags = false -> 0 <= g <= KMALLOC_MAX_ORDER ->
  cache_estimate g bs align flags = Some (lo, n) ->
  let S := PAGE_SIZE * 2 ^ g in
  let d := wrap (bs + sizeof_bufctl) in
  let nr0 := (S - sizeof_slab) / d in
  0 < d /\ 0 <= nr0 < 2 ^ 31 /\
  ((n = nr0 /\ (nr0 = 0 -> slab_mgmt_size 0 align <= S)) \/
   (n = nr0 - 1 /\ 1 <= nr0) \/
   (n <> 0 /\ nr0 = 0 /\ slab_mgmt_size 0 align > S)).
Proof.
  intros Hoff Hg. unfold cache_estimate. rewrite Hoff.
  destruct (slab_bytes Hok g Hg) as [-> HS].
  set (S := PAGE_SIZE * 2 ^ g) in *.
  set (d := wrap (bs + sizeof_bufctl)).
  destruct (Z.eqb_spec d 0) as [|Hd]; [discriminate|].
  pose proof (wrap_range Hok (bs + sizeof_bufctl)) as Hdr. fold d in Hdr.
  pose proof (pow_size_bits Hok) as Hpw.
  destruct Hok.
  assert (HSs : 0 <= S - sizeof_slab < 2 ^ 31).
  { assert (PAGE_SIZE / 8 <= PAGE_SIZE) by (apply Z.div_le_upper_bound; lia). lia. }
  rewrite (wrap_small (S - sizeof_slab)) by lia.
  set (nr0 := (S - sizeof_slab) / d).
  assert (Hnr0 : 0 <= nr0 <= S - sizeof_slab).
  { subst nr0. split; [apply Z.div_pos; lia|]. apply Z.div_le_upper_bound; nia. }
  rewrite (to_int_small nr0) by lia.
  rewrite SLAB_LIMIT_val.
  intros E. cbn zeta. split; [lia|]. split; [lia|].
  destruct (Z.gtb_spec (wrap (slab_mgmt_size (wrap nr0) align + wrap (wrap nr0 * bs))) S)
    as [Hdec|Hdec].
  - (* decremented *)
    destruct (Z.eq_dec nr0 0) as [E0|N0].
    + right; right. rewrite E0 in *.
      change (to_int (0 - 1)) with (-1) in E.
      change (u32 (-1) >? 4294967292) with true in E. cbn iota in E.
      injection E as _ <-. split; [discriminate|]. split; [done|].
      change (wrap 0) with 0 in Hdec. rewrite Z.mul_0_l in Hdec.
      change (wrap 0) with 0 in Hdec. rewrite Z.add_0_r in Hdec.
      unfold slab_mgmt_size in *.
      rewrite wrap_small in Hdec by (apply (ALIGN_range Hok)).
      lia.
    + right; left.
      rewrite (to_int_small (nr0 - 1)) in E by lia.
      rewrite (u32_small (nr0 - 1)) in E by lia.
      destruct (Z.gtb_spec (nr0 - 1) 4294967292); [lia|].
      rewrite (u32_small (nr0 - 1)) in E by lia.
      injection E as _ <-. lia.
  - left.
    rewrite (u32_small nr0) in E by lia.
    destruct (Z.gtb_spec nr0 4294967292); [lia|].
    rewrite (u32_small nr0) in E by lia.
    injection E as _ <-. split; [done|]. intros E0. rewrite E0 in *.
    change (wrap 0) with 0 in Hdec. rewrite Z.mul_0_l in Hdec.
    change (wrap 0) with 0 in Hdec. rewrite Z.add_0_r in Hdec.
    unfold slab_mgmt_size in *.
    rewrite wrap_small in Hdec by (apply (ALIGN_range Hok)).
    lia.
Qed.
End EstimateFacts.

Section OrderSearch.
Context `{platform}.
Hypothesis Hok : platform_ok.

Lemma estimate_num_nonneg g bs align flags lo n :
  cache_estimate g bs align flags = Some (lo, n) -> 0 <= n.
Proof.
  unfold cache_estimate. intros E.
  assert (forall x, 0 <= u32 x) by (intros; apply Z.mod_pos_bound; lia).
  destruct (OFF_SLAB flags).
  - destruct (bs =? 0); [discriminate|]. injection E as _ <-. auto.
  - destruct (wrap (bs + sizeof_bufctl) =? 0); [discriminate|].
    injection E as _ <-. auto.
Qed.

(** Order 0 held objects but was turned down: order 1 holds objects too,
    and few enough for an off-slab descriptor. *)
Lemma order_one_fits size align flags rem num :
  (OFF_SLAB flags = false -> slab_mgmt_size 0 align <= PAGE_SIZE) ->
  0 <= size ->
  cache_estimate 0 size align flags = Some (rem, num) ->
  num <> 0 ->
  (wrap (rem * 8) <=? wrap (PAGE_SIZE * 2 ^ 0)) = false ->
  exists rem' num',
    cache_estimate 1 size align flags = Some (rem', num') /\ num' <> 0 /\
    (OFF_SLAB flags && (num' >? wrap (size - sizeof_slab) / sizeof_bufctl)) = false.
Proof.
  intros Hfit Hsz E Hnum Hc.
  pose proof (max_order_pos Hok) as Hmax.
  pose proof (page_size_pos Hok) as HP.
  pose proof (pow_size_bits Hok) as Hpw.
  assert (Hg0 : 0 <= 0 <= KMALLOC_MAX_ORDER) by lia.
  assert (Hg1 : 0 <= 1 <= KMALLOC_MAX_ORDER) by lia.
  destruct (slab_bytes Hok 0 Hg0) as [W0 B0].
  destruct (slab_bytes Hok 1 Hg1) as [W1 B1].
  rewrite W0 in Hc.
  change (2 ^ 0) with 1 in *. change (2 ^ 1) with 2 in *.
  rewrite Z.mul_1_r in *.
  destruct (OFF_SLAB flags) eqn:Hoff.
  - (* off-slab *)
    assert (Hbs : 0 < size).
    { unfold cache_estimate in E. rewrite Hoff in E.
      destruct (Z.eqb_spec size 0); [discriminate|lia]. }
    rewrite (estimate_off_slab Hok 0 size align flags Hoff Hg0 Hbs) in E.
    change (2 ^ 0) with 1 in E. rewrite Z.mul_1_r in E.
    injection E as <- <-.
    rewrite (estimate_off_slab Hok 1 size align flags Hoff Hg1 Hbs).
    change (2 ^ 1) with 2.
    do 2 eexists. split; [reflexivity|].
    pose proof (Z.mul_div_le PAGE_SIZE size Hbs) as D1.
    pose proof (Z.mod_pos_bound PAGE_SIZE size Hbs) as M1.
    pose proof (Z.div_mod PAGE_SIZE size ltac:(lia)) as DM.
    assert (Hq : 1 <= PAGE_SIZE / size).
    { assert (0 <= PAGE_SIZE / size) by (apply Z.div_pos; lia). lia. }
    assert (Hle : size <= PAGE_SIZE) by nia.
    assert (Hrem : PAGE_SIZE - PAGE_SIZE / size * size < size) by lia.
    assert (Hrem8 : PAGE_SIZE < (PAGE_SIZE - PAGE_SIZE / size * size) * 8).
    { pose proof (eight_pages_int Hok).
      rewrite wrap_small in Hc by lia.
      destruct (Z.leb_spec ((PAGE_SIZE - PAGE_SIZE / size * size) * 8) PAGE_SIZE);
        [discriminate|lia]. }
    assert (Hbig : PAGE_SIZE < size * 8) by lia.
    pose proof (slab_struct_small Hok) as Hsm.
    pose proof (slab_struct_pos Hok) as Hsp.
    assert (H8 : PAGE_SIZE / 8 < size).
    { apply Z.div_lt_upper_bound; lia. }
    assert (Hq2 : 1 <= PAGE_SIZE * 2 / size).
    { apply Z.div_le_lower_bound; lia. }
    assert (Hq2' : PAGE_SIZE * 2 / size < 16).
    { apply Z.div_lt_upper_bound; lia. }
    split; [lia|].
    rewrite wrap_small by lia.
    assert (16 <= (size - sizeof_slab) / sizeof_bufctl).
    { apply Z.div_le_lower_bound; unfold sizeof_bufctl; lia. }
    cbn. destruct (Z.gtb_spec (PAGE_SIZE * 2 / size)
                     ((size - sizeof_slab) / sizeof_bufctl)); [lia|done].
  - (* on-slab *)
    pose proof (estimate_on_slab Hok 0 size align flags rem num Hoff Hg0 E) as F.
    cbn zeta in F. change (2 ^ 0) with 1 in F. rewrite Z.mul_1_r in F.
    destruct F as (Hd & Hnr & F).
    set (d := wrap (size + sizeof_bufctl)) in *.
    assert (Hnr1 : 1 <= (PAGE_SIZE - sizeof_slab) / d).
    { specialize (Hfit eq_refl).
      destruct F as [[-> Hz]|[[-> Hz]|(_ & _ & Hg)]]; lia. }
    assert (Hdle : d <= PAGE_SIZE - sizeof_slab).
    { pose proof (Z.mul_div_le (PAGE_SIZE - sizeof_slab) d Hd). nia. }
    pose proof (slab_struct_pos Hok) as Hsp.
    assert (Hnr2 : 2 <= (PAGE_SIZE * 2 - sizeof_slab) / d).
    { apply Z.div_le_lower_bound; lia. }
    assert (exists r, cache_estimate 1 size align flags = Some r) as [[rem' num'] E1].
    { unfold cache_estimate. rewrite Hoff. fold d.
      destruct (Z.eqb_spec d 0); [lia|]. eauto. }
    exists rem', num'. split; [done|]. split; [|done].
    pose proof (estimate_on_slab Hok 1 size align flags rem' num' Hoff Hg1 E1) as F1.
    cbn zeta in F1. change (2 ^ 1) with 2 in F1. fold d in F1.
    destruct F1 as (_ & _ & [[-> _]|[[-> _]|(? & ? & _)]]); lia.
Qed.

Lemma loop_first_fit ceiling size align flags n : forall g so,
  ceiling = BREAK_GFP_ORDER_LO \/ ceiling = BREAK_GFP_ORDER_HI ->
  (OFF_SLAB flags = false -> slab_mgmt_size 0 align <= PAGE_SIZE) ->
  0 <= size ->
  0 <= g -> Z.of_nat n + g = KMALLOC_MAX_ORDER + 1 ->
  (forall g', 0 <= g' < g ->
     exists lo, cache_estimate g' size align flags = Some (lo, 0)) ->
  slab_order_loop ceiling size align flags n g (mk_order 0 0 0) = Some so ->
  so_num so <> 0 ->
  smallest_accepted_order ceiling size align flags so.
Proof.
  induction n as [|n IH]; intros g so Hceil Hfit Hsz Hg Hn Hskip Hrun Hnum.
  - cbn in Hrun. injection Hrun as <-. cbn in Hnum. lia.
  - cbn [slab_order_loop] in Hrun.
    destruct (cache_estimate g size align flags) as [[rem num]|] eqn:E;
      [|discriminate].
    pose proof (estimate_num_nonneg _ _ _ _ _ _ E) as Hnn.
    destruct (Z.eqb_spec num 0) as [->|Hnz].
    { apply (IH (g + 1) so); try done; try lia.
      intros g' Hg'. destruct (Z.eq_dec g' g) as [->|]; [eauto|].
      apply Hskip. lia. }
    destruct (OFF_SLAB flags && (num >? wrap (size - sizeof_slab) / sizeof_bufctl))
      eqn:Hlim.
    { injection Hrun as <-. cbn in Hnum. lia. }
    assert (Hearlier : forall g', 0 <= g' < g ->
              exists lo n0, cache_estimate g' size align flags = Some (lo, n0) /\
                            (n0 = 0 \/ order_accepted ceiling flags g' lo = false)).
    { intros g' Hg'. destruct (Hskip g' Hg') as [lo Hlo]. exists lo, 0. auto. }
    destruct (flag_set flags SLAB_RECLAIM_ACCOUNT) eqn:Hrec.
    { injection Hrun as <-. repeat split; cbn; try done; try lia.
      unfold order_accepted. rewrite Hrec. done. }
    destruct (g >=? ceiling) eqn:Hge.
    { injection Hrun as <-. repeat split; cbn; try done; try lia.
      unfold order_accepted. rewrite Hge. apply orb_true_iff. left.
      apply orb_true_r. }
    destruct (wrap (rem * 8) <=? wrap (PAGE_SIZE * 2 ^ g)) eqn:Hfrag.
    { injection Hrun as <-. repeat split; cbn; try done; try lia.
      unfold order_accepted. rewrite Hfrag. apply orb_true_r. }
    (* order g was saved and turned down: g = 0 and the ceiling is 1 *)
    assert (g = 0 /\ ceiling = 1) as [-> ->].
    { unfold BREAK_GFP_ORDER_LO, BREAK_GFP_ORDER_HI in Hceil.
      destruct (Z.geb_spec g ceiling); [discriminate|]. lia. }
    pose proof (max_order_pos Hok) as Hmax.
    destruct n as [|n]; [lia|].
    destruct (order_one_fits size align flags rem num Hfit Hsz E Hnz Hfrag)
      as (rem' & num' & E1 & Hnz' & Hlim').
    pose proof (estimate_num_nonneg _ _ _ _ _ _ E1) as Hnn'.
    cbn [slab_order_loop] in Hrun. change (0 + 1) with 1 in Hrun.
    rewrite E1 in Hrun.
    destruct (Z.eqb_spec num' 0); [lia|].
    rewrite Hlim', Hrec in Hrun. change (1 >=? 1) with true in Hrun.
    injection Hrun as <-. repeat split; cbn; try done; try lia.
    + unfold order_accepted. rewrite Hrec. done.
    + intros g' Hg'. assert (g' = 0) as -> by lia.
      exists rem, num. split; [done|]. right.
      unfold order_accepted. rewrite Hrec, Hge, Hfrag. done.
Qed.
End OrderSearch.

Section GeometryKept.
Context `{platform}.
Variable cpu_to_node : nat -> nat.
Variable online_cpus : list nat.
Variable online_nodes : list nat.
Variable nr_node_ids : nat.
Variable use_alien_caches : bool.

Lemma geometry_set_l3 h node l3 :
  geometry (cachep (set_l3 h node l3)) = geometry (cachep h).
Proof. reflexivity. Qed.

Lemma geometry_set_ac h loc ac :
  geometry (cachep (set_ac h loc ac)) = geometry (cachep h).
Proof.
  destruct loc; cbn; try done.
  - destruct (get_l3 h node); done.
  - destruct (get_l3 h node) as [l3|]; [|done]. destruct (alien l3); done.
Qed.

Lemma geometry_slab_put_obj h slabp objp h' :
  slab_put_obj h slabp objp = Some h' ->
  geometry (cachep h') = geometry (cachep h).
Proof.
  unfold slab_put_obj. intros E.
  destruct (slab_store h !! slabp); [|done]. cbn in E.
  destruct (_ && _); [|done]. by injection E as <-.
Qed.

Lemma geometry_free_block_one h objp node h' :
  free_block_one h objp node = Some h' ->
  geometry (cachep h') = geometry (cachep h).
Proof.
  unfold free_block_one. intros E.
  destruct (get_l3 h node); [|done]. cbn in E.
  destruct (slab_put_obj _ _ _) as [h1|] eqn:E1; [|done]. cbn in E.
  apply geometry_slab_put_obj in E1.
  destruct (get_l3 h1 node); [|done]. cbn in E.
  destruct (slab_store h1 !! _); [|done]. cbn in E.
  destruct (inuse _ =? 0); [destruct (_ >? _)|]; injection E as <-; done.
Qed.

Lemma geometry_free_block objpp node : forall h h',
  free_block h objpp node = Some h' ->
  geometry (cachep h') = geometry (cachep h).
Proof.
  induction objpp as [|o rest IH]; intros h h' E; cbn in E.
  - by injection E as <-.
  - destruct (free_block_one h o node) as [h1|] eqn:E1; [|done]. cbn in E.
    rewrite (IH _ _ E). eapply geometry_free_block_one; eauto.
Qed.

Lemma geometry_for_each {A} (f : heap -> A -> option heap) l :
  (forall h x h', f h x = Some h' -> geometry (cachep h') = geometry (cachep h)) ->
  forall h h', for_each A f h l = Some h' ->
  geometry (cachep h') = geometry (cachep h).
Proof.
  intros Hf. induction l as [|x rest IH]; intros h h' E; cbn in E.
  - by injection E as <-.
  - destruct (f h x) as [h1|] eqn:E1; [|done]. cbn in E.
    rewrite (IH _ _ E). eauto.
Qed.

(** With every allocation succeeding, the loop of alloc_kmemlist makes the
    turn of each node. *)
Lemma alloc_kmemlist_loop_all_ok l : forall h,
  alloc_kmemlist_loop cpu_to_node online_cpus online_nodes nr_node_ids
    use_alien_caches (fun _ => true) h l =
  (h' ← for_each nat
          (alloc_kmemlist_node cpu_to_node online_cpus online_nodes nr_node_ids
             use_alien_caches) h l;
   Some (h', None)).
Proof.
  induction l as [|x rest IH]; intros h; cbn [alloc_kmemlist_loop for_each]; [done|].
  unfold turn_fails. cbn [negb andb].
  destruct (alloc_kmemlist_node _ _ _ _ _ h x) as [h1|]; [|done].
  cbn [mbind option_bind]. apply IH.
Qed.

Lemma alloc_kmemlist_all_ok active h :
  alloc_kmemlist cpu_to_node online_cpus online_nodes nr_node_ids
    use_alien_caches (fun _ => true) active h =
  (h' ← for_each nat
          (alloc_kmemlist_node cpu_to_node online_cpus online_nodes nr_node_ids
             use_alien_caches) h online_nodes;
   Some (0, h')).
Proof.
  unfold alloc_kmemlist. rewrite alloc_kmemlist_loop_all_ok.
  by destruct (for_each _ _ _ _).
Qed.

(** The loop of alloc_kmemlist makes the turns of the nodes before the one
    that fails, of all nodes when none does. *)
Lemma alloc_kmemlist_loop_prefix node_ok l : forall h h' r,
  alloc_kmemlist_loop cpu_to_node online_cpus online_nodes nr_node_ids
    use_alien_caches node_ok h l = Some (h', r) ->
  exists pre,
    for_each nat
      (alloc_kmemlist_node cpu_to_node online_cpus online_nodes nr_node_ids
         use_alien_caches) h pre = Some h' /\
    match r with
    | None => pre = l
    | Some node =>
        exists rest, l = pre ++ node :: rest /\
                     turn_fails use_alien_caches node_ok h' node = true
    end.
Proof.
  induction l as [|x rest IH]; intros h h' r E; cbn [alloc_kmemlist_loop] in E.
  - apply (inj Some) in E. apply pair_equal_spec in E as [<- <-]. by exists [].
  - destruct (turn_fails _ _ h x) eqn:Ef.
    + apply (inj Some) in E. apply pair_equal_spec in E as [<- <-].
      exists []. split; [done|]. by exists rest.
    + destruct (alloc_kmemlist_node _ _ _ _ _ h x) as [h1|] eqn:E1; [|done].
      cbn [mbind option_bind] in E.
      destruct (IH _ _ _ E) as (pre & Epre & Hr).
      exists (x :: pre). split; [cbn [for_each]; by rewrite E1|].
      destruct r as [node|]; [|by rewrite Hr].
      destruct Hr as (rest' & -> & Hf). by exists rest'.
Qed.

Lemma geometry_alloc_kmemlist_node h node h' :
  alloc_kmemlist_node cpu_to_node online_cpus online_nodes nr_node_ids
                      use_alien_caches h node = Some h' ->
  geometry (cachep h') = geometry (cachep h).
Proof.
  intros E.
  unfold alloc_kmemlist_node in E.
  destruct (get_l3 h node) as [l3|].
  - destruct (shared l3) as [sh|]; cbn in E.
    + destruct (free_block h (entry sh) node) as [h1|] eqn:E1; [|done]. cbn in E.
      apply geometry_free_block in E1.
      destruct (get_l3 h1 node); [|done]. cbn in E. by injection E as <-.
    + destruct (get_l3 h node); [|done]. cbn in E. by injection E as <-.
  - destruct (_ <? _)%nat; [|done]. by injection E as <-.
Qed.

Lemma geometry_alloc_kmemlist node_ok active h err h' :
  alloc_kmemlist cpu_to_node online_cpus online_nodes nr_node_ids
                 use_alien_caches node_ok active h = Some (err, h') ->
  geometry (cachep h') = geometry (cachep h).
Proof.
  unfold alloc_kmemlist. intros E.
  destruct (alloc_kmemlist_loop _ _ _ _ _ _ h online_nodes) as [[h1 r]|] eqn:E1;
    [|done].
  cbn [mbind option_bind] in E.
  apply alloc_kmemlist_loop_prefix in E1 as (pre & E1 & _).
  apply geometry_for_each in E1; [|apply geometry_alloc_kmemlist_node].
  rewrite <- E1.
  destruct r as [node|]; apply (inj Some) in E; apply pair_equal_spec in E as [_ <-];
    [|done].
  by destruct active.
Qed.

Lemma geometry_enable_cpucache ok node_ok active ncpus h err h' :
  enable_cpucache cpu_to_node online_cpus online_nodes nr_node_ids
                  use_alien_caches ok node_ok active ncpus h = Some (err, h') ->
  geometry (cachep h') = geometry (cachep h).
Proof.
  unfold enable_cpucache, do_tune_cpucache. intros E.
  destruct ok; cbn [negb] in E; [|by injection E as _ <-].
  match type of E with
  | (for_each _ ?f ?h0 _ ≫= _) = _ =>
      destruct (for_each nat f h0 online_cpus) as [h1|] eqn:E1; [|done]
  end.
  cbn [mbind option_bind] in E.
  rewrite (geometry_alloc_kmemlist _ _ _ _ _ E).
  apply geometry_for_each in E1; [rewrite E1; done|].
  clear. intros h0 cpu h0' E.
  destruct (_ ≫= _) as [cc|]; [|by injection E as <-].
  destruct (get_l3 h0 (cpu_to_node cpu)); [|done]. cbn in E.
  eapply geometry_free_block; eauto.
Qed.

Lemma geometry_setup_cpu_cache env c err c' :
  setup_cpu_cache cpu_to_node online_cpus online_nodes nr_node_ids
                  use_alien_caches env c = Some (err, c') ->
  geometry c' = geometry c.
Proof.
  unfold setup_cpu_cache. intros E.
  destruct (g_cpucache_up env).
  4: { destruct (enable_cpucache _ _ _ _ _ _ _ _ _ _) as [[e h']|] eqn:E1; [|done].
       cbn in E. injection E as _ <-.
       apply geometry_enable_cpucache in E1. done. }
  all: destruct (negb _); [done|]; destruct (negb _); [done|];
       by injection E as _ <-.
Qed.
End GeometryKept.

Section CreationFacts.
Context `{platform}.
Variable cpu_to_node : nat -> nat.
Variable online_cpus : list nat.
Variable online_nodes : list nat.
Variable nr_node_ids : nat.
Variable use_alien_caches : bool.

Local Abbreviation create :=
  (kmem_cache_create cpu_to_node online_cpus online_nodes nr_node_ids
                     use_alien_caches).

(** What a successful creation has computed. *)
Lemma created_inv env nm size align fl ct dtor addr c chain
    size' align' flags' :
  create_args env size align fl = (size', align', flags') ->
  create env nm size align fl ct dtor = Created addr c chain ->
  exists so,
    calculate_slab_order (slab_break_gfp_order env) size' align' flags' = Some so /\
    so_num so <> 0 /\
    num c = so_num so /\ gfporder c = so_gfporder so /\
    let mgmt := ALIGN (wrap (wrap (so_num so * sizeof_bufctl) + sizeof_slab)) align' in
    let moved := OFF_SLAB flags' && (so_left_over so >=? mgmt) in
    let left_over := if moved then wrap (so_left_over so - mgmt)
                     else so_left_over so in
    flags c = u32 (if moved then Z.ldiff flags' CFLGS_OFF_SLAB else flags') /\
    colour_off c = (if u32 cache_line_size <? align' then u32 align'
                    else u32 cache_line_size) /\
    colour_off c <> 0 /\
    colour c = left_over / colour_off c /\
    (moved = true -> slab_size c = u32 mgmt) /\
    chain = addr :: cache_chain env.
Proof.
  intros Hargs. unfold kmem_cache_create.
  destruct nm as [nm|]; [|done].
  destruct (_ || _); [done|]. rewrite Hargs.
  destruct (zalloc env) as [a|]; [|unfold oops; destruct (flag_set _ _); done].
  destruct (calculate_slab_order _ _ _ _) as [so|]; [|done].
  destruct (Z.eqb_spec (so_num so) 0) as [|Hnz];
    [unfold oops; destruct (flag_set _ _); done|].
  set (mgmt := ALIGN _ align').
  destruct (OFF_SLAB flags' && (so_left_over so >=? mgmt)) eqn:Hmoved.
  - set (co := if u32 cache_line_size <? align' then _ else _).
    destruct (Z.eqb_spec co 0) as [|Hco]; [done|].
    destruct (OFF_SLAB (Z.ldiff flags' CFLGS_OFF_SLAB) && _); [done|].
    destruct (setup_cpu_cache _ _ _ _ _ _ _) as [[err c']|] eqn:Hset; [|done].
    destruct (negb (err =? 0)); [unfold oops; destruct (flag_set _ _); done|].
    intros E. injection E as <- <- <-.
    apply geometry_setup_cpu_cache in Hset. unfold geometry in Hset. cbn in Hset.
    injection Hset as _ -> -> -> -> -> Hss.
    exists so. cbn zeta. fold mgmt. rewrite Hmoved. repeat split; try done.
    intros _. rewrite Hss. clear. destruct (OFF_SLAB _) eqn:E; [|done].
    exfalso. revert E. unfold OFF_SLAB.
    replace (Z.land (Z.ldiff flags' CFLGS_OFF_SLAB) CFLGS_OFF_SLAB) with 0; [done|].
    symmetry. apply Z.bits_inj'. intros n Hn.
    rewrite Z.land_spec, Z.ldiff_spec, Z.bits_0.
    generalize (Z.testbit CFLGS_OFF_SLAB n), (Z.testbit flags' n).
    intros [] []; reflexivity.
  - set (co := if u32 cache_line_size <? align' then _ else _).
    destruct (Z.eqb_spec co 0) as [|Hco]; [done|].
    destruct (OFF_SLAB flags' && negb (general_cachep env)); [done|].
    destruct (setup_cpu_cache _ _ _ _ _ _ _) as [[err c']|] eqn:Hset; [|done].
    destruct (negb (err =? 0)); [unfold oops; destruct (flag_set _ _); done|].
    intros E. injection E as <- <- <-.
    apply geometry_setup_cpu_cache in Hset. unfold geometry in Hset. cbn in Hset.
    injection Hset as _ -> -> -> -> -> Hss.
    exists so. cbn zeta. fold mgmt. rewrite Hmoved. repeat split; try done.
Qed.

(** The order search where it works (cf. C5): for an alignment under which
    an on-slab descriptor fits in a page, and for the two values the source
    gives [slab_break_gfp_order], the geometry of a created cache comes
    from the smallest slab order at which cache_estimate counts an object
    and which is reclaim-accounted, or has reached the ceiling, or wastes
    at most an eighth of the slab; orders at which it counts none are
    skipped.  For a larger alignment the count of cache_estimate is not
    the number of objects that fit; an example follows among the worked
    examples of creation. *)
Theorem slab_order_search env nm size align fl ct dtor addr c chain
    size' align' flags' :
  platform_ok ->
  slab_break_gfp_order env = BREAK_GFP_ORDER_LO \/
  slab_break_gfp_order env = BREAK_GFP_ORDER_HI ->
  create_args env size align fl = (size', align', flags') ->
  (OFF_SLAB flags' = false -> slab_mgmt_size 0 align' <= PAGE_SIZE) ->
  create env nm size align fl ct dtor = Created addr c chain ->
  1 <= num c /\
  exists left_over,
    smallest_accepted_order (slab_break_gfp_order env) size' align' flags'
      (mk_order (num c) (gfporder c) left_over).
Proof.
  intros Hok Hceil Hargs Hfit Hcreate.
  destruct (created_inv _ _ _ _ _ _ _ _ _ _ _ _ _ Hargs Hcreate)
    as (so & Hso & Hnz & Hnum & Hord & _).
  assert (Hsz : 0 <= size').
  { unfold create_args in Hargs. destruct (settle_align size align fl) as [[? ?] ?].
    injection Hargs as <- _ _. apply (ALIGN_range Hok). }
  pose proof (max_order_pos Hok) as Hmax.
  assert (Hsel : smallest_accepted_order (slab_break_gfp_order env) size' align'
                   flags' so).
  { unfold calculate_slab_order in Hso.
    apply (loop_first_fit Hok _ size' align' flags'
             (Z.to_nat (KMALLOC_MAX_ORDER + 1)) 0 so); try done; try lia. }
  rewrite Hnum, Hord. split; [apply Hsel|].
  exists (so_left_over so). destruct so; exact Hsel.
Qed.

(** C6. A cache that was given an off-slab descriptor and whose slabs have
    at least the (aligned) descriptor size left over is turned back into an
    on-slab cache, and the left-over shrinks by exactly that size; when the
    two are equal nothing is left for colouring. *)
Theorem off_slab_moved_on_slab env nm size align fl ct dtor addr c chain
    size' align' flags' so :
  platform_ok ->
  create_args env size align fl = (size', align', flags') ->
  create env nm size align fl ct dtor = Created addr c chain ->
  calculate_slab_order (slab_break_gfp_order env) size' align' flags' = Some so ->
  OFF_SLAB flags' = true ->
  ALIGN (wrap (wrap (so_num so * sizeof_bufctl) + sizeof_slab)) align'
    <= so_left_over so ->
  let mgmt := ALIGN (wrap (wrap (so_num so * sizeof_bufctl) + sizeof_slab)) align' in
  OFF_SLAB (flags c) = false /\
  slab_size c = u32 mgmt /\
  colour c = (so_left_over so - mgmt) / colour_off c /\
  (so_left_over so = mgmt -> colour c = 0).
Proof.
  intros Hok Hargs Hcreate Hso Hoff Hle mgmt.
  destruct (created_inv _ _ _ _ _ _ _ _ _ _ _ _ _ Hargs Hcreate)
    as (so' & Hso' & Hnz & _ & _ & Hfl & _ & Hco & Hcol & Hss & _).
  rewrite Hso in Hso'. injection Hso' as <-. cbn zeta in *. fold mgmt in Hfl, Hcol, Hss.
  assert (Hmoved : OFF_SLAB flags' && (so_left_over so >=? mgmt) = true).
  { rewrite Hoff. cbn. apply Z.geb_le. done. }
  rewrite Hmoved in *.
  assert (Hlo : 0 <= so_left_over so < 2 ^ SIZE_BITS).
  { clear -Hso Hok. unfold calculate_slab_order in Hso.
    assert (G : forall n g acc r,
               0 <= so_left_over acc < 2 ^ SIZE_BITS ->
               slab_order_loop (slab_break_gfp_order env) size' align' flags' n g acc
                 = Some r ->
               0 <= so_left_over r < 2 ^ SIZE_BITS).
    { induction n as [|n IH]; intros g acc r Hacc E; cbn in E.
      - by injection E as <-.
      - destruct (cache_estimate g size' align' flags') as [[rem num]|] eqn:Ee;
          [|done].
        assert (0 <= rem < 2 ^ SIZE_BITS).
        { unfold cache_estimate in Ee.
          destruct (OFF_SLAB flags'); [destruct (size' =? 0)|destruct (_ =? 0)];
            try done; injection Ee as <- _; apply (wrap_range Hok). }
        destruct (num =? 0); [eauto|].
        destruct (_ && _); [by injection E as <-|].
        destruct (flag_set _ _); [by injection E as <-|].
        destruct (_ >=? _); [by injection E as <-|].
        destruct (_ <=? _); [by injection E as <-|].
        eapply IH; [|exact E]. done. }
    eapply G; [|exact Hso]. cbn. pose proof (pow_size_bits Hok). lia. }
  pose proof (ALIGN_range Hok (wrap (wrap (so_num so * sizeof_bufctl) + sizeof_slab))
                align') as Hm. fold mgmt in Hm.
  rewrite wrap_small in Hcol by lia.
  split.
  { rewrite Hfl. clear. unfold OFF_SLAB, u32.
    rewrite <- Z.land_ones by lia.
    replace (Z.land (Z.land (Z.ldiff flags' CFLGS_OFF_SLAB) (Z.ones 32))
                    CFLGS_OFF_SLAB) with 0; [done|].
    symmetry. apply Z.bits_inj'. intros n Hn.
    rewrite !Z.land_spec, Z.ldiff_spec, Z.bits_0.
    generalize (Z.testbit CFLGS_OFF_SLAB n), (Z.testbit flags' n),
      (Z.testbit (Z.ones 32) n).
    intros [] [] []; reflexivity. }
  split; [auto|]. split; [done|].
  intros E. rewrite Hcol, E, Z.sub_diag. apply Z.div_0_l. done.
Qed.

(** C7, as amended.  The colouring unit is the cache line size, or the
    object alignment when that is larger; the colour count is the left-over
    (after an off-slab descriptor has been moved on-slab) divided by that
    unit.  A cache with nothing left over has a colour count of 0, and a
    list-set whose [colour_next] is 0 hands colour 0 to the next slab and
    keeps [colour_next] at 0. *)
Theorem colour_count env nm size align fl ct dtor addr c chain
    size' align' flags' so :
  create_args env size align fl = (size', align', flags') ->
  create env nm size align fl ct dtor = Created addr c chain ->
  calculate_slab_order (slab_break_gfp_order env) size' align' flags' = Some so ->
  let mgmt := ALIGN (wrap (wrap (so_num so * sizeof_bufctl) + sizeof_slab)) align' in
  let left_over :=
    if OFF_SLAB flags' && (so_left_over so >=? mgmt)
    then wrap (so_left_over so - mgmt) else so_left_over so in
  colour_off c = (if u32 cache_line_size <? align' then u32 align'
                  else u32 cache_line_size) /\
  colour c = left_over / colour_off c /\
  (left_over = 0 ->
   colour c = 0 /\
   forall l3, colour_next l3 = 0 -> next_colour c l3 = (0, 0)).
Proof.
  intros Hargs Hcreate Hso mgmt left_over.
  destruct (created_inv _ _ _ _ _ _ _ _ _ _ _ _ _ Hargs Hcreate)
    as (so' & Hso' & _ & _ & _ & _ & Hco & Hnz & Hcol & _).
  rewrite Hso in Hso'. injection Hso' as <-. cbn zeta in Hcol.
  fold mgmt in Hcol. fold left_over in Hcol.
  split; [done|]. split; [done|].
  intros E. rewrite E in Hcol. rewrite Z.div_0_l in Hcol by done.
  split; [done|]. intros l3 Hn. unfold next_colour. rewrite Hn, Hcol.
  rewrite Z.mul_0_l. change (wrap 0) with 0. change (u32 (0 + 1)) with 1.
  reflexivity.
Qed.

(** C4, as amended.  A size below the word size, a size above the maximum
    or a call from interrupt context runs into [BUG()]: the call does not
    return.  When the order search finds no order that holds an object,
    NULL is returned and the registry is left as it was (under SLAB_PANIC
    the kernel panics instead). *)
Theorem creation_failures env nm size align fl ct dtor :
  (in_interrupt env = true \/ size < BYTES_PER_WORD \/ KMALLOC_MAX_SIZE < size ->
   create env nm size align fl ct dtor = Bug) /\
  (forall txt addr size' align' flags' so,
     nm = Some txt -> in_interrupt env = false -> dtor = false ->
     BYTES_PER_WORD <= size <= KMALLOC_MAX_SIZE ->
     zalloc env = Some addr ->
     create_args env size align fl = (size', align', flags') ->
     calculate_slab_order (slab_break_gfp_order env) size' align' flags' = Some so ->
     so_num so = 0 ->
     create env nm size align fl ct dtor =
       if flag_set flags' SLAB_PANIC then Panic else NoCache (cache_chain env)).
Proof.
  split.
  - intros Hbad. unfold kmem_cache_create. destruct nm; [|done].
    destruct (in_interrupt env) eqn:Hi; [done|]. cbn.
    destruct (Z.ltb_spec size BYTES_PER_WORD); [done|].
    destruct (Z.gtb_spec size KMALLOC_MAX_SIZE); [done|].
    destruct Hbad as [?|[?|?]]; [done|lia|lia].
  - intros txt addr size' align' flags' so -> Hi -> Hrange Hz Hargs Hso Hnum.
    unfold kmem_cache_create. rewrite Hi, Hargs, Hz, Hso, Hnum. cbn.
    destruct (Z.ltb_spec size BYTES_PER_WORD); [lia|].
    destruct (Z.gtb_spec size KMALLOC_MAX_SIZE); [lia|].
    reflexivity.
Qed.
End CreationFacts.

(** ** The allocator *)

(** ** Reading a state after an update *)

Section Frames.
Context `{platform}.

Lemma elem_of_unlink s l x : x ∈ unlink s l <-> x ∈ l /\ x <> s.
Proof.
  unfold unlink. rewrite !list_elem_of_In, filter_In, negb_true_iff, Nat.eqb_neq.
  done.
Qed.

Lemma NoDup_unlink s l : NoDup l -> NoDup (unlink s l).
Proof. intros Hl. apply NoDup_ListNoDup, List.NoDup_filter, NoDup_ListNoDup, Hl. Qed.

Lemma unlink_absent s l : s ∉ l -> unlink s l = l.
Proof.
  induction l as [|x l IH]; [done|]. intros Hs.
  apply not_elem_of_cons in Hs as [Hne Hs]. unfold unlink in *. cbn.
  destruct (Nat.eqb_spec x s); [congruence|]. cbn. f_equal. by apply IH.
Qed.

Lemma lookup_List_map {A B} (f : A -> B) (l : list A) (i : nat) :
  List.map f l !! i = f <$> l !! i.
Proof. revert i. induction l as [|x l IH]; intros [|i]; cbn; auto. Qed.

Lemma get_l3_set_l3_eq h n l3 :
  is_Some (get_l3 h n) -> get_l3 (set_l3 h n l3) n = Some l3.
Proof.
  unfold get_l3, set_l3. cbn. intros [x Hx].
  destruct (nodelists (cachep h) !! n) as [o|] eqn:E; [|done].
  rewrite list_lookup_insert_eq; [done|]. by eapply lookup_lt_Some.
Qed.

Lemma get_l3_set_l3_ne h n l3 n' :
  n <> n' -> get_l3 (set_l3 h n l3) n' = get_l3 h n'.
Proof. intros. unfold get_l3, set_l3. cbn. by rewrite list_lookup_insert_ne. Qed.

Lemma get_l3_list_del h s n :
  get_l3 (list_del h s) n =
    (fun l3 => set_lists l3 (unlink s (slabs_partial l3)) (unlink s (slabs_full l3))
                         (unlink s (slabs_free l3))) <$> get_l3 h n.
Proof.
  unfold get_l3, list_del. cbn. rewrite lookup_List_map.
  destruct (nodelists (cachep h) !! n) as [[l3|]|]; done.
Qed.

Lemma get_l3_set_ac h loc ac n l3' :
  get_l3 (set_ac h loc ac) n = Some l3' ->
  exists l3, get_l3 h n = Some l3 /\
             slabs_partial l3' = slabs_partial l3 /\
             slabs_full l3' = slabs_full l3 /\
             slabs_free l3' = slabs_free l3 /\
             free_objects l3' = free_objects l3 /\
             free_limit l3' = free_limit l3 /\
             colour_next l3' = colour_next l3.
Proof.
  destruct loc as [cpu|node|node remote]; cbn [set_ac].
  - change (get_l3 (set_cachep h _) n) with (get_l3 h n). eauto 10.
  - destruct (get_l3 h node) as [l3|] eqn:E; [|eauto 10].
    destruct (decide (node = n)) as [->|Hne].
    + rewrite get_l3_set_l3_eq by (rewrite E; eauto). intros [= <-]. eauto 10.
    + rewrite get_l3_set_l3_ne by done. eauto 10.
  - destruct (get_l3 h node) as [l3|] eqn:E; [|eauto 10].
    destruct (alien l3) eqn:Ea; [|eauto 10].
    destruct (decide (node = n)) as [->|Hne].
    + rewrite get_l3_set_l3_eq by (rewrite E; eauto). intros [= <-]. eauto 10.
    + rewrite get_l3_set_l3_ne by done. eauto 10.
Qed.

Lemma get_l3_set_ac_is_Some h loc ac n :
  is_Some (get_l3 h n) -> is_Some (get_l3 (set_ac h loc ac) n).
Proof.
  intros [l3 E]. destruct loc as [cpu|node|node remote]; cbn [set_ac].
  - change (is_Some (get_l3 h n)). rewrite E. eauto.
  - destruct (get_l3 h node) as [l|] eqn:E'; [|rewrite E; eauto].
    destruct (decide (node = n)) as [->|Hne].
    + rewrite get_l3_set_l3_eq by (rewrite E'; eauto). eauto.
    + rewrite get_l3_set_l3_ne by done. rewrite E. eauto.
  - destruct (get_l3 h node) as [l|] eqn:E'; [|rewrite E; eauto].
    destruct (alien l); [|rewrite E; eauto].
    destruct (decide (node = n)) as [->|Hne].
    + rewrite get_l3_set_l3_eq by (rewrite E'; eauto). eauto.
    + rewrite get_l3_set_l3_ne by done. rewrite E. eauto.
Qed.

Lemma list_at_set_l3_eq h n l3 w :
  is_Some (get_l3 h n) -> list_at (set_l3 h n l3) n w = Some (get_list l3 w).
Proof. intros. unfold list_at. by rewrite get_l3_set_l3_eq. Qed.

Lemma list_at_set_l3_ne h n l3 n' w :
  n <> n' -> list_at (set_l3 h n l3) n' w = list_at h n' w.
Proof. intros. unfold list_at. by rewrite get_l3_set_l3_ne. Qed.

Lemma list_at_list_del h s n w :
  list_at (list_del h s) n w = unlink s <$> list_at h n w.
Proof.
  unfold list_at. rewrite get_l3_list_del.
  destruct (get_l3 h n) as [l3|]; [|done]. by destruct w.
Qed.

Lemma list_at_set_ac h loc ac n w :
  list_at (set_ac h loc ac) n w = list_at h n w.
Proof.
  unfold list_at.
  destruct (get_l3 (set_ac h loc ac) n) as [l3'|] eqn:E.
  - destruct (get_l3_set_ac _ _ _ _ _ E) as (l3 & -> & Hp & Hf & He & _).
    cbn. destruct w; cbn; congruence.
  - destruct (get_l3 h n) as [l3|] eqn:E'; [|done].
    assert (is_Some (get_l3 (set_ac h loc ac) n)) as [? ?]
      by (apply get_l3_set_ac_is_Some; eauto).
    congruence.
Qed.

Lemma get_ac_set_l3 h n l3 l3' loc :
  get_l3 h n = Some l3 -> shared l3' = shared l3 -> alien l3' = alien l3 ->
  get_ac (set_l3 h n l3') loc = get_ac h loc.
Proof.
  intros E Hs Ha. destruct loc as [cpu|node|node remote]; cbn; [done| |].
  - destruct (decide (n = node)) as [->|Hne].
    + rewrite get_l3_set_l3_eq by (rewrite E; eauto). rewrite E. cbn. done.
    + by rewrite get_l3_set_l3_ne.
  - destruct (decide (n = node)) as [->|Hne].
    + rewrite get_l3_set_l3_eq by (rewrite E; eauto). rewrite E. cbn.
      by rewrite Ha.
    + by rewrite get_l3_set_l3_ne.
Qed.

Lemma get_ac_list_del h s loc : get_ac (list_del h s) loc = get_ac h loc.
Proof.
  destruct loc as [cpu|node|node remote]; cbn; [done| |];
    rewrite get_l3_list_del; destruct (get_l3 h node); done.
Qed.

Lemma get_ac_set_ac_eq h loc ac :
  is_Some (get_ac h loc) -> get_ac (set_ac h loc ac) loc = Some ac.
Proof.
  destruct loc as [cpu|node|node remote]; cbn.
  - intros [x Hx]. destruct (array (cachep h) !! cpu) eqn:E; [|done].
    rewrite list_lookup_insert_eq; [done|]. by eapply lookup_lt_Some.
  - intros [x Hx]. destruct (get_l3 h node) as [l3|] eqn:E; [|done].
    rewrite get_l3_set_l3_eq by (rewrite E; eauto). done.
  - intros [x Hx]. destruct (get_l3 h node) as [l3|] eqn:E; [|done]. cbn in Hx.
    destruct (alien l3) as [al|] eqn:Ea; [|done]. cbn in Hx.
    rewrite get_l3_set_l3_eq by (rewrite E; eauto). cbn.
    destruct (al !! remote) eqn:Er; [|done].
    rewrite list_lookup_insert_eq; [done|]. by eapply lookup_lt_Some.
Qed.

Lemma get_ac_set_ac_ne h loc ac loc' :
  loc <> loc' -> get_ac (set_ac h loc ac) loc' = get_ac h loc'.
Proof.
  intros Hne.
  destruct loc as [cpu|node|node remote]; cbn [set_ac].
  - destruct loc' as [cpu'|node'|node' remote']; cbn; [|done|done].
    rewrite list_lookup_insert_ne; [done|congruence].
  - destruct (get_l3 h node) as [l3|] eqn:E; [|done].
    destruct loc' as [cpu'|node'|node' remote']; cbn [get_ac]; [done| |].
    + destruct (decide (node = node')) as [->|]; [congruence|].
      by rewrite get_l3_set_l3_ne.
    + destruct (decide (node = node')) as [->|].
      * rewrite get_l3_set_l3_eq by (rewrite E; eauto). rewrite E. done.
      * by rewrite get_l3_set_l3_ne.
  - destruct (get_l3 h node) as [l3|] eqn:E; [|done].
    destruct (alien l3) as [al|] eqn:Ea; [|done].
    destruct loc' as [cpu'|node'|node' remote']; cbn [get_ac]; [done| |].
    + destruct (decide (node = node')) as [->|].
      * rewrite get_l3_set_l3_eq by (rewrite E; eauto). rewrite E. done.
      * by rewrite get_l3_set_l3_ne.
    + destruct (decide (node = node')) as [->|].
      * rewrite get_l3_set_l3_eq by (rewrite E; eauto). rewrite E. cbn.
        rewrite Ea. cbn. rewrite list_lookup_insert_ne; [done|congruence].
      * by rewrite get_l3_set_l3_ne.
Qed.

Lemma slab_store_set_ac h loc ac : slab_store (set_ac h loc ac) = slab_store h.
Proof.
  destruct loc as [cpu|node|node remote]; cbn; [done| |];
    destruct (get_l3 h node) as [l3|]; try done. destruct (alien l3); done.
Qed.

Lemma cachep_fields_set_ac h loc ac :
  num (cachep (set_ac h loc ac)) = num (cachep h) /\
  flags (cachep (set_ac h loc ac)) = flags (cachep h) /\
  ctor (cachep (set_ac h loc ac)) = ctor (cachep h) /\
  colour (cachep (set_ac h loc ac)) = colour (cachep h).
Proof.
  destruct loc as [cpu|node|node remote]; cbn; [done| |];
    destruct (get_l3 h node) as [l3|]; try done. destruct (alien l3); done.
Qed.
End Frames.

(** ** Operations that leave the cache quiet *)

Section Quiet.
Context `{platform}.

Lemma quiet_refl h : quiet h h.
Proof. by repeat split. Qed.

Lemma quiet_trans h1 h2 h3 : quiet h1 h2 -> quiet h2 h3 -> quiet h1 h3.
Proof.
  intros (?&?&?&?&?&?&?) (?&?&?&?&?&?&?). repeat split; congruence.
Qed.

Lemma quiet_num h h' : quiet h h' -> num (cachep h') = num (cachep h).
Proof. intros (G & _). unfold geometry in G. congruence. Qed.

Lemma quiet_set_l3 h node l3 : quiet h (set_l3 h node l3).
Proof. by repeat split. Qed.

Lemma quiet_list_del h s : quiet h (list_del h s).
Proof. by repeat split. Qed.

Lemma quiet_slab_destroy h s : quiet h (slab_destroy h s).
Proof. by repeat split. Qed.

Lemma quiet_set_ac h loc ac : quiet h (set_ac h loc ac).
Proof.
  destruct loc as [cpu|node|node remote]; cbn [set_ac]; [by repeat split| |];
    destruct (get_l3 h node) as [l3|]; try apply quiet_refl;
    [|destruct (alien l3); try apply quiet_refl]; by repeat split.
Qed.

Lemma quiet_set_slab_store h st :
  length st = length (slab_store h) -> quiet h (set_slab_store h st).
Proof. intros. by repeat split. Qed.

Lemma quiet_slab_put_obj h slabp objp h' :
  slab_put_obj h slabp objp = Some h' -> quiet h h'.
Proof.
  unfold slab_put_obj. intros E.
  destruct (slab_store h !! slabp); [|done]. cbn in E.
  destruct (_ && _); [|done]. injection E as <-.
  apply quiet_set_slab_store. by rewrite length_insert.
Qed.

Lemma quiet_slab_get_obj h slabp objp h' :
  slab_get_obj h slabp = Some (objp, h') -> quiet h h'.
Proof.
  unfold slab_get_obj. intros E.
  destruct (slab_store h !! slabp) as [sl|]; [|done]. cbn in E.
  destruct (bufctl sl !! _); [|done]. cbn in E. injection E as _ <-.
  apply quiet_set_slab_store. by rewrite length_insert.
Qed.

Lemma quiet_free_block_one h objp node h' :
  free_block_one h objp node = Some h' -> quiet h h'.
Proof.
  unfold free_block_one. intros E.
  destruct (get_l3 h node); [|done]. cbn in E.
  destruct (slab_put_obj _ _ _) as [h1|] eqn:E1; [|done]. cbn in E.
  apply quiet_slab_put_obj in E1.
  assert (Q : quiet h h1) by (eapply quiet_trans; [apply quiet_list_del|exact E1]).
  destruct (get_l3 h1 node); [|done]. cbn in E.
  destruct (slab_store h1 !! _); [|done]. cbn in E.
  destruct (inuse _ =? 0); [destruct (_ >? _)|]; injection E as <-;
    (eapply quiet_trans; [exact Q|]); by repeat split.
Qed.

Lemma quiet_free_block objpp node : forall h h',
  free_block h objpp node = Some h' -> quiet h h'.
Proof.
  induction objpp as [|o rest IH]; intros h h' E; cbn in E.
  - injection E as <-. apply quiet_refl.
  - destruct (free_block_one h o node) as [h1|] eqn:E1; [|done]. cbn in E.
    eapply quiet_trans; [eapply quiet_free_block_one; eauto|eauto].
Qed.

Lemma quiet_for_each {A} (f : heap -> A -> option heap) l :
  (forall h x h', f h x = Some h' -> quiet h h') ->
  forall h h', for_each A f h l = Some h' -> quiet h h'.
Proof.
  intros Hf. induction l as [|x rest IH]; intros h h' E; cbn in E.
  - injection E as <-. apply quiet_refl.
  - destruct (f h x) as [h1|] eqn:E1; [|done]. cbn in E.
    eapply quiet_trans; eauto.
Qed.
End Quiet.

(** ** The free chain of a slab *)

Section Chains.
Context `{platform}.

Lemma BUFCTL_END_val : BUFCTL_END = 4294967295.
Proof. reflexivity. Qed.

Lemma free_chain_insert cells i v : forall head chain,
  i ∉ chain -> free_chain cells head chain ->
  free_chain (<[i := v]> cells) head chain.
Proof.
  intros head chain. revert head.
  induction chain as [|j rest IH]; intros head Hi Hc; cbn in *; [done|].
  apply not_elem_of_cons in Hi as [Hij Hi].
  destruct Hc as (-> & next & Hn & Hc). split; [done|].
  exists next. split; [|auto]. by rewrite list_lookup_insert_ne.
Qed.

(** A duplicate-free list of numbers below [n] has at most [n] elements. *)
Lemma bounded_nodup_length (l : list nat) (n : nat) :
  NoDup l -> (forall i, i ∈ l -> (i < n)%nat) -> (length l <= n)%nat.
Proof.
  intros Hnd Hb.
  rewrite <- (length_seq n 0).
  apply NoDup_ListNoDup in Hnd.
  apply List.NoDup_incl_length; [done|].
  intros i Hi. apply in_seq. apply list_elem_of_In, Hb in Hi. lia.
Qed.

Lemma bounded_nodup_full (l : list nat) (n : nat) :
  NoDup l -> (forall i, i ∈ l -> (i < n)%nat) -> length l = n ->
  forall i, (i < n)%nat -> i ∈ l.
Proof.
  intros Hnd Hb Hlen i Hi.
  destruct (decide (i ∈ l)) as [|Hni]; [done|].
  assert (length (i :: l) <= n)%nat.
  { apply bounded_nodup_length; [by constructor|].
    intros j Hj. apply elem_of_cons in Hj as [->|]; auto. }
  cbn in *. lia.
Qed.

Lemma slab_ok_inuse n sl chain :
  0 <= n -> slab_ok n sl chain -> 0 <= inuse sl <= n.
Proof.
  intros Hn [Hlen Hc Hnd Hb Hl].
  pose proof (bounded_nodup_length chain (Z.to_nat n) Hnd Hb). lia.
Qed.

Lemma free_chain_unique cells n : forall c1 c2 head,
  n <= SLAB_LIMIT ->
  (forall i, i ∈ c1 -> (i < Z.to_nat n)%nat) ->
  (forall i, i ∈ c2 -> (i < Z.to_nat n)%nat) ->
  free_chain cells head c1 -> free_chain cells head c2 -> c1 = c2.
Proof.
  change SLAB_LIMIT with 4294967292.
  induction c1 as [|i c1 IH]; intros [|j c2] head Hn H1 H2 F1 F2; cbn in *.
  - done.
  - destruct F2 as (-> & _). rewrite BUFCTL_END_val in F1.
    assert (j < Z.to_nat n)%nat by (apply H2; left). lia.
  - destruct F1 as (-> & _). rewrite BUFCTL_END_val in F2.
    assert (i < Z.to_nat n)%nat by (apply H1; left). lia.
  - destruct F1 as (-> & n1 & E1 & F1). destruct F2 as (Hij & n2 & E2 & F2).
    apply Nat2Z.inj in Hij as <-. rewrite E1 in E2. injection E2 as <-.
    f_equal. eapply IH; eauto.
    + intros k Hk. apply H1. by right.
    + intros k Hk. apply H2. by right.
Qed.

Lemma slab_ok_unique n sl c1 c2 :
  n <= SLAB_LIMIT -> slab_ok n sl c1 -> slab_ok n sl c2 -> c1 = c2.
Proof.
  intros Hn [? F1 ? B1 ?] [? F2 ? B2 ?]. eapply free_chain_unique; eauto.
Qed.

(** A slab is full exactly when its free index is the end marker. *)
Lemma slab_ok_full n sl chain :
  0 <= n <= SLAB_LIMIT -> slab_ok n sl chain ->
  (free sl = BUFCTL_END <-> inuse sl = n).
Proof.
  change SLAB_LIMIT with 4294967292. rewrite BUFCTL_END_val.
  intros Hn [Hlen Hc Hnd Hb Hl]. destruct chain as [|i rest]; cbn in *.
  - split; [lia|done].
  - destruct Hc as (E & _). assert (i < Z.to_nat n)%nat by (apply Hb; left).
    split; lia.
Qed.

(** Taking the first free object. *)
Lemma slab_get_obj_spec h slabp sl chain :
  1 <= num (cachep h) <= SLAB_LIMIT ->
  slab_store h !! slabp = Some sl ->
  slab_ok (num (cachep h)) sl chain ->
  inuse sl < num (cachep h) ->
  exists i rest sl',
    chain = i :: rest /\ free sl = Z.of_nat i /\
    slab_get_obj h slabp =
      Some (index_to_obj slabp (Z.of_nat i),
            set_slab_store h (<[slabp := sl']> (slab_store h))) /\
    slab_ok (num (cachep h)) sl' rest /\
    inuse sl' = inuse sl + 1 /\ nodeid sl' = nodeid sl /\
    colouroff sl' = colouroff sl.
Proof.
  change SLAB_LIMIT with 4294967292.
  intros Hn Hst [Hlen Hc Hnd Hb Hl] Hin.
  destruct chain as [|i rest]; cbn in *; [lia|].
  destruct Hc as (Hf & next & Hnext & Hc).
  pose proof (bounded_nodup_length _ _ Hnd Hb) as Hbl. cbn in Hbl.
  eexists i, rest, _. split; [done|]. split; [done|].
  unfold slab_get_obj. rewrite Hst. cbn. rewrite Hf, Nat2Z.id, Hnext. cbn.
  split; [reflexivity|].
  apply NoDup_cons in Hnd as [Hi Hnd].
  split; [|split; [|done]].
  - constructor; cbn; try done.
    + intros j Hj. apply Hb. by right.
    + rewrite u32_small; lia.
  - cbn. rewrite u32_small; lia.
Qed.

(** Putting an object back. *)
Lemma slab_put_obj_spec h slabp sl chain objp :
  1 <= num (cachep h) <= SLAB_LIMIT ->
  slab_store h !! slabp = Some sl ->
  slab_ok (num (cachep h)) sl chain ->
  0 <= obj_to_index objp < num (cachep h) ->
  Z.to_nat (obj_to_index objp) ∉ chain ->
  exists sl',
    slab_put_obj h slabp objp =
      Some (set_slab_store h (<[slabp := sl']> (slab_store h))) /\
    slab_ok (num (cachep h)) sl' (Z.to_nat (obj_to_index objp) :: chain) /\
    inuse sl' = inuse sl - 1 /\ 1 <= inuse sl /\ nodeid sl' = nodeid sl.
Proof.
  change SLAB_LIMIT with 4294967292.
  intros Hn Hst [Hlen Hc Hnd Hb Hl] Hidx Hfree.
  set (k := obj_to_index objp) in *.
  assert (Hlt : (Z.to_nat k < Z.to_nat (num (cachep h)))%nat) by lia.
  assert (Hbl : (length (Z.to_nat k :: chain) <= Z.to_nat (num (cachep h)))%nat).
  { apply bounded_nodup_length; [by constructor|].
    intros j Hj. apply elem_of_cons in Hj as [->|]; auto. }
  cbn in Hbl.
  eexists. unfold slab_put_obj. rewrite Hst. cbn -[Nat.ltb Z.leb]. fold k.
  destruct (Z.leb_spec 0 k); [|lia]. rewrite Hlen.
  destruct (Nat.ltb_spec (Z.to_nat k) (Z.to_nat (num (cachep h)))); [|lia].
  cbn -[Nat.ltb Z.leb].
  split; [reflexivity|].
  split; [|split; [|split; [lia|done]]].
  - constructor; cbn.
    + by rewrite length_insert.
    + split; [lia|]. exists (free sl). split.
      * apply list_lookup_insert_eq. lia.
      * by apply free_chain_insert.
    + by constructor.
    + intros j Hj. apply elem_of_cons in Hj as [->|]; auto.
    + rewrite u32_small; lia.
  - cbn. rewrite u32_small; lia.
Qed.
End Chains.

(** ** Moving a slab between lists *)

Section Relink.
Context `{platform}.

Lemma get_list_list_add l3 W s w :
  get_list (list_add l3 W s) w =
    if decide (w = W) then s :: get_list l3 w else get_list l3 w.
Proof. destruct W, w; reflexivity. Qed.

Lemma get_list_list_add_tail l3 W s w :
  get_list (list_add_tail l3 W s) w =
    if decide (w = W) then get_list l3 w ++ [s] else get_list l3 w.
Proof. destruct W, w; reflexivity. Qed.

Lemma linked_inv h n w id :
  linked h n w id -> exists l3, get_l3 h n = Some l3 /\ id ∈ get_list l3 w.
Proof.
  intros (l & Hl & Hid). unfold list_at in Hl.
  destruct (get_l3 h n) as [l3|]; [|done]. injection Hl as <-. eauto.
Qed.

Lemma linked_intro h n w id l3 :
  get_l3 h n = Some l3 -> id ∈ get_list l3 w -> linked h n w id.
Proof. intros E Hid. exists (get_list l3 w). unfold list_at. by rewrite E. Qed.

(** The lists and the descriptors after slab [s] has been taken off its
    list and, when [target] says so, put on another. *)
Lemma core_relink h h' s target busy busy' :
  core h busy ->
  num (cachep h') = num (cachep h) ->
  (forall n w l', list_at h' n w = Some l' ->
     NoDup l' /\
     exists l, list_at h n w = Some l /\
       forall x, x ∈ l' <-> (x <> s /\ x ∈ l) \/ (x = s /\ target = Some (n, w))) ->
  (forall id, id <> s -> slab_store h' !! id = slab_store h !! id) ->
  (length (slab_store h) <= length (slab_store h'))%nat ->
  (forall n w, target = Some (n, w) ->
     exists sl' chain',
       slab_store h' !! s = Some sl' /\
       slab_ok (num (cachep h)) sl' chain' /\ nodeid sl' = n /\
       (busy' <> Some s -> list_for (num (cachep h)) (inuse sl') = w)) ->
  (forall id, id <> s -> busy = Some id -> busy' = Some id) ->
  (forall id, id ∈ released h' ->
     id ∈ released h \/
     (id = s /\ target = None /\ (s < length (slab_store h'))%nat)) ->
  (s ∈ released h -> target = None) ->
  core h' busy'.
Proof.
  intros [Hnum Hnd Hdj Hsd Hrel] En Hlists Hstore Hlen Htarget Hbusy Hrel' Hs.
  assert (Hold : forall n w id, linked h' n w id ->
            (id <> s /\ linked h n w id) \/ (id = s /\ target = Some (n, w))).
  { intros n w id (l' & Hl' & Hid).
    destruct (Hlists _ _ _ Hl') as (_ & l & Hl & Hiff).
    apply Hiff in Hid. destruct Hid as [[Hx Hxl]|[Hx Ht]]; [left|right; done].
    split; [done|]. by exists l. }
  constructor.
  - by rewrite En.
  - intros n w l' Hl'. by destruct (Hlists _ _ _ Hl').
  - intros n1 w1 n2 w2 id H1 H2.
    apply Hold in H1 as [[? H1]|[? H1]], H2 as [[? H2]|[? H2]]; try done.
    + eauto.
    + rewrite H1 in H2. by injection H2.
  - intros n w id Hl. rewrite En.
    apply Hold in Hl as [[Hne Hl]|[-> Ht]].
    + destruct (Hsd _ _ _ Hl) as (sl & chain & Hst & Hok & Hnode & Hclass).
      exists sl, chain. rewrite Hstore by done.
      split; [done|]. split; [done|]. split; [done|].
      intros Hb. apply Hclass. intros Hb'. apply Hb. by apply Hbusy.
    + by apply Htarget.
  - intros id Hid. apply Hrel' in Hid as [Hid|(-> & Ht & Hlt)].
    + destruct (Hrel _ Hid) as [Hlt Hnl]. split; [lia|].
      intros n w Hl. apply Hold in Hl as [[_ Hl]|[-> Ht]].
      * by eapply Hnl.
      * rewrite (Hs Hid) in Ht. done.
    + split; [done|]. intros n w Hl.
      apply Hold in Hl as [[? _]|[_ Ht']]; [done|congruence].
Qed.

(** An object of another slab stays held. *)
Lemma held_relink h h' s target n o :
  num (cachep h') = num (cachep h) ->
  (forall n w l, list_at h n w = Some l ->
     exists l', list_at h' n w = Some l' /\
       forall x, x ∈ l' <-> (x <> s /\ x ∈ l) \/ (x = s /\ target = Some (n, w))) ->
  (forall id, id <> s -> slab_store h' !! id = slab_store h !! id) ->
  fst o <> s -> held h n o -> held h' n o.
Proof.
  intros En Hlists Hstore Hne (w & sl & chain & (l & Hl & Hin) & Hst & Hok & Hidx & Hfree).
  destruct (Hlists _ _ _ Hl) as (l' & Hl' & Hiff).
  exists w, sl, chain. rewrite En, Hstore by done.
  split; [|done].
  exists l'. split; [done|]. apply Hiff. by left.
Qed.

(** States that show the same lists and descriptors. *)
Lemma core_same_view h h' busy :
  core h busy ->
  num (cachep h') = num (cachep h) ->
  slab_store h' = slab_store h ->
  released h' = released h ->
  (forall n w, list_at h' n w = list_at h n w) ->
  core h' busy.
Proof.
  intros [Hnum Hnd Hdj Hsd Hrel] En Est Er El.
  assert (Hl : forall n w id, linked h' n w id <-> linked h n w id).
  { intros. unfold linked. by rewrite El. }
  constructor.
  - by rewrite En.
  - intros n w l. rewrite El. apply Hnd.
  - intros n1 w1 n2 w2 id. rewrite !Hl. apply Hdj.
  - intros n w id. rewrite Hl, En, Est. apply Hsd.
  - intros id. rewrite Er, Est. intros Hid. destruct (Hrel _ Hid) as [? Hn].
    split; [done|]. intros n w. rewrite Hl. apply Hn.
Qed.

Lemma held_same_view h h' n o :
  num (cachep h') = num (cachep h) ->
  slab_store h' = slab_store h ->
  (forall n w, list_at h' n w = list_at h n w) ->
  held h n o -> held h' n o.
Proof.
  intros En Est El (w & sl & chain & Hl & Hst & Hok & Hidx & Hfree).
  exists w, sl, chain. rewrite En, Est.
  split; [|done].
  unfold linked. by setoid_rewrite El.
Qed.
End Relink.

Section FreeBlock.
Context `{platform}.

(* a slab put at the head or at the tail of a list *)
Lemma relink_lists h h' s target (tail : bool) :
  (forall n w l, list_at h n w = Some l -> NoDup l) ->
  (forall n w, list_at h' n w =
     (fun l => if decide (target = Some (n, w))
               then (if tail then unlink s l ++ [s] else s :: unlink s l)
               else unlink s l) <$> list_at h n w) ->
  (forall n w l', list_at h' n w = Some l' ->
     NoDup l' /\
     exists l, list_at h n w = Some l /\
       forall x, x ∈ l' <-> (x <> s /\ x ∈ l) \/ (x = s /\ target = Some (n, w))) /\
  (forall n w l, list_at h n w = Some l ->
     exists l', list_at h' n w = Some l' /\
       forall x, x ∈ l' <-> (x <> s /\ x ∈ l) \/ (x = s /\ target = Some (n, w))).
Proof.
  intros Hnd Heq.
  assert (Hmem : forall n w l x,
            x ∈ (if decide (target = Some (n, w))
                 then (if tail then unlink s l ++ [s] else s :: unlink s l)
                 else unlink s l)
            <-> (x <> s /\ x ∈ l) \/ (x = s /\ target = Some (n, w))).
  { intros n w l x. destruct (decide (target = Some (n, w))) as [Ht|Ht].
    - destruct tail; rewrite ?elem_of_app, ?list_elem_of_singleton, ?elem_of_cons,
        elem_of_unlink; destruct (decide (x = s)); intuition congruence.
    - rewrite elem_of_unlink. intuition congruence. }
  split.
  - intros n w l' Hl'. rewrite Heq in Hl'.
    destruct (list_at h n w) as [l|] eqn:El; [|done]. cbn in Hl'.
    injection Hl' as <-. split; [|exists l; split; [done|apply Hmem]].
    pose proof (NoDup_unlink s l (Hnd _ _ _ El)) as Hu.
    assert (s ∉ unlink s l) by (rewrite elem_of_unlink; intros [_ ?]; done).
    destruct (decide _); [|done]. destruct tail.
    + apply NoDup_app. split; [done|]. split; [|apply NoDup_singleton].
      intros x Hx ->%list_elem_of_singleton. done.
    + by constructor.
  - intros n w l El. rewrite Heq, El. cbn. eexists. split; [done|]. apply Hmem.
Qed.

Lemma in_slab_put h h' s sl' chain' o :
  num (cachep h') = num (cachep h) ->
  (forall id, id <> s -> slab_store h' !! id = slab_store h !! id) ->
  slab_store h' !! s = Some sl' ->
  slab_ok (num (cachep h)) sl' chain' ->
  (forall sl chain, slab_store h !! s = Some sl ->
     slab_ok (num (cachep h)) sl chain -> forall i, i ∈ chain -> i ∈ chain') ->
  in_slab h o -> in_slab h' o.
Proof.
  intros En Hst Hs Hok Hmono (sl & chain & E & Hsl & Hin).
  unfold in_slab. rewrite En.
  destruct (decide (fst o = s)) as [Eo|Hne].
  - exists sl', chain'. rewrite Eo in *. split; [done|]. split; [done|]. eauto.
  - exists sl, chain. by rewrite Hst.
Qed.

(** One object goes back into its slab. *)
Lemma free_block_one_spec h o node :
  core h None -> held h node o ->
  exists h',
    free_block_one h o node = Some h' /\
    core h' None /\ quiet h h' /\
    (forall loc, get_ac h' loc = get_ac h loc) /\
    (forall n o', o' <> o -> held h n o' -> held h' n o') /\
    (forall n w, n <> node -> list_at h' n w = list_at h n w) /\
    in_slab h' o /\
    (forall o', in_slab h o' -> in_slab h' o').
Proof.
  intros Hcore (w & sl & chain & Hlk & Hst & Hok & Hidx & Hfree).
  destruct o as [s idx]. cbn [fst snd] in *.
  pose proof (num_ok _ _ Hcore) as Hnum.
  destruct (linked_inv _ _ _ _ Hlk) as (l3 & El3 & Hin).
  destruct (slabs_sound _ _ Hcore _ _ _ Hlk) as (sl0 & chain0 & Hst0 & Hok0 & Hnode & Hclass).
  rewrite Hst in Hst0. injection Hst0 as <-.
  assert (chain0 = chain) as -> by (eapply slab_ok_unique; eauto; lia).
  unfold free_block_one. cbn [virt_to_slab fst]. rewrite El3. cbn [mbind option_bind].
  destruct (slab_put_obj_spec (list_del h s) s sl chain (s, idx) Hnum Hst Hok Hidx Hfree)
    as (sl' & Eput & Hok' & Hinuse & Hpos & Hnode').
  rewrite Eput. cbn [mbind option_bind].
  change (obj_to_index (s, idx)) with idx in *.
  change (num (cachep (list_del h s))) with (num (cachep h)) in *.
  set (h2 := set_slab_store (list_del h s) (<[s:=sl']> (slab_store (list_del h s)))).
  assert (Hlt : (s < length (slab_store h))%nat) by (by eapply lookup_lt_Some).
  assert (El3u : get_l3 h2 node =
            Some (set_lists l3 (unlink s (slabs_partial l3)) (unlink s (slabs_full l3))
                            (unlink s (slabs_free l3)))).
  { change (get_l3 h2 node) with (get_l3 (list_del h s) node).
    rewrite get_l3_list_del, El3. done. }
  rewrite El3u. cbn [mbind option_bind].
  assert (Est2 : slab_store h2 !! s = Some sl')
    by (apply list_lookup_insert_eq; done).
  rewrite Est2. cbn [mbind option_bind].
  set (l3u := set_lists l3 _ _ _) in *.
  set (l3f := set_free_objects l3u _).
  (* the list of every node after the move *)
  assert (Hl2 : forall n w', list_at h2 n w' = unlink s <$> list_at h n w').
  { intros. change (list_at h2 n w') with (list_at (list_del h s) n w').
    apply list_at_list_del. }
  assert (Hstore : forall id, id <> s -> slab_store h2 !! id = slab_store h !! id).
  { intros id Hne. unfold h2. cbn. by rewrite list_lookup_insert_ne. }
  assert (Hac2 : forall loc, get_ac h2 loc = get_ac h loc).
  { intros. change (get_ac h2 loc) with (get_ac (list_del h s) loc).
    apply get_ac_list_del. }
  assert (Hq2 : quiet h h2).
  { eapply quiet_trans; [apply quiet_list_del|].
    apply quiet_set_slab_store. by rewrite length_insert. }
  assert (Hrel : s ∉ released h).
  { intros Hr. destruct (released_dead _ _ Hcore _ Hr) as [_ Hn]. by eapply Hn. }
  (* the three ways out *)
  assert (Hfinish : forall h' target (tail : bool),
            quiet h2 h' ->
            slab_store h' = slab_store h2 ->
            (forall loc, get_ac h' loc = get_ac h2 loc) ->
            (forall n w', list_at h' n w' =
               (fun l => if decide (target = Some (n, w'))
                         then (if tail then unlink s l ++ [s] else s :: unlink s l)
                         else unlink s l) <$> list_at h n w') ->
            (target = None \/
             target = Some (node, list_for (num (cachep h)) (inuse sl'))) ->
            (forall id, id ∈ released h' ->
               id ∈ released h \/ (id = s /\ target = None)) ->
            (target = None -> inuse sl' = 0) ->
            core h' None /\ quiet h h' /\
            (forall loc, get_ac h' loc = get_ac h loc) /\
            (forall n o', o' <> (s, idx) -> held h n o' -> held h' n o') /\
            (forall n w, n <> node -> list_at h' n w = list_at h n w) /\
            in_slab h' (s, idx) /\
            (forall o', in_slab h o' -> in_slab h' o')).
  { intros h' target tail Hq Hst' Hac' Hlists Htarget Hrel' Hzero.
    pose proof (quiet_trans _ _ _ Hq2 Hq) as Hqq.
    pose proof (quiet_num _ _ Hqq) as En.
    destruct (relink_lists h h' s target tail (lists_nodup _ _ Hcore) Hlists)
      as [Hc1 Hc2].
    assert (Hstore' : forall id, id <> s -> slab_store h' !! id = slab_store h !! id).
    { intros. rewrite Hst'. auto. }
    split; [|split; [done|split; [|split; [|split; [|split]]]]].
    - eapply (core_relink h h' s target None None); eauto.
      + destruct Hqq as (_&_&_&_&Hlen&_). lia.
      + intros n w' Ht. exists sl', (Z.to_nat idx :: chain).
        rewrite Hst'. split; [done|]. split; [done|].
        destruct Htarget as [Ht'|Ht']; rewrite Ht' in Ht; [done|].
        injection Ht as <- <-. split; [congruence|done].
      + intros id Hid. destruct (Hrel' _ Hid) as [?|[-> ?]]; [by left|right].
        split; [done|]. split; [done|].
        destruct Hqq as (_&_&_&_&Hlen&_). lia.
      + done.
    - intros. rewrite Hac'. apply Hac2.
    - intros n [s' idx'] Hne Hheld.
      destruct (decide (s' = s)) as [->|Hs'].
      + (* another object of the same slab *)
        destruct Hheld as (w1 & sl1 & chain1 & Hlk1 & Hst1 & Hok1 & Hidx1 & Hfree1).
        cbn [fst snd] in *. rewrite Hst in Hst1. injection Hst1 as <-.
        assert (chain1 = chain) as -> by (eapply slab_ok_unique; eauto; lia).
        destruct (lists_disjoint _ _ Hcore _ _ _ _ _ Hlk Hlk1) as [<- <-].
        assert (Hnew : Z.to_nat idx' ∉ Z.to_nat idx :: chain).
        { apply not_elem_of_cons. split; [|done].
          intros E. apply Hne. f_equal. lia. }
        destruct Htarget as [Ht|Ht].
        * (* destroyed: the slab was empty, nothing of it can be held *)
          exfalso. apply Hnew.
          pose proof (Hzero Ht) as Hz0.
          destruct Hok' as [_ _ Hnd' Hb' Hlen'].
          apply (bounded_nodup_full _ (Z.to_nat (num (cachep h)))); [done|done|cbn [length] in *; lia|lia].
        * exists (list_for (num (cachep h)) (inuse sl')), sl', (Z.to_nat idx :: chain).
          cbn [fst snd]. rewrite En, Hst'. split; [|done].
          destruct Hlk as (l & El & Hl).
          destruct (Hc2 _ _ _ El) as (l' & El' & Hiff).
          destruct (list_at h node (list_for (num (cachep h)) (inuse sl')))
            as [lt|] eqn:Elt.
          2: { unfold list_at in Elt. rewrite El3 in Elt. done. }
          destruct (Hc2 _ _ _ Elt) as (lt' & Elt' & Hifft).
          exists lt'. split; [done|]. apply Hifft. by right.
      + eapply held_relink; eauto.
    - intros n w' Hne. rewrite Hlists.
      destruct (list_at h n w') as [l|] eqn:El; [|done]. cbn. f_equal.
      destruct (decide (target = Some (n, w'))) as [Ht|Ht].
      { destruct Htarget as [Ht'|Ht']; rewrite Ht' in Ht; [done|congruence]. }
      apply unlink_absent. intros Hs.
      assert (linked h n w' s) by (by exists l).
      destruct (lists_disjoint _ _ Hcore _ _ _ _ _ Hlk H0). congruence.
    - exists sl', (Z.to_nat idx :: chain). cbn [fst snd]. rewrite En, Hst'.
      split; [done|]. split; [done|]. by left.
    - intros o'. eapply in_slab_put; eauto.
      + by rewrite Hst'.
      + intros sl1 chain1 Hst1 Hok1 i Hi. rewrite Hst in Hst1. injection Hst1 as <-.
        assert (chain1 = chain) as -> by (eapply slab_ok_unique; eauto; lia).
        by right. }
  destruct (Z.eqb_spec (inuse sl') 0) as [Hz|Hnz].
  - destruct (free_objects l3f >? free_limit l3f).
    + (* the slab is destroyed *)
      eexists. split; [reflexivity|].
      apply (Hfinish _ None false).
      * by repeat split.
      * done.
      * intros loc. cbn [slab_destroy].
        change (get_ac (slab_destroy ?a ?b) loc) with (get_ac a loc).
        eapply get_ac_set_l3; eauto.
      * intros n w'.
        change (list_at (slab_destroy ?a ?b) n w') with (list_at a n w').
        destruct (decide (n = node)) as [->|Hne].
        -- rewrite list_at_set_l3_eq by (rewrite El3u; eauto).
           unfold list_at. rewrite El3. cbn. by destruct w'.
        -- rewrite list_at_set_l3_ne by done. rewrite Hl2. by destruct (list_at h n w').
      * by left.
      * intros id Hid. cbn in Hid. apply elem_of_cons in Hid as [->|Hid]; auto.
      * done.
    + (* onto the free list *)
      eexists. split; [reflexivity|].
      apply (Hfinish _ (Some (node, Free)) false).
      * by repeat split.
      * done.
      * intros loc. eapply get_ac_set_l3; eauto.
      * intros n w'.
        destruct (decide (n = node)) as [->|Hne].
        -- rewrite list_at_set_l3_eq by (rewrite El3u; eauto).
           rewrite get_list_list_add. unfold list_at. rewrite El3.
           cbn [mbind option_bind fmap option_fmap option_map].
           destruct w'; destruct (decide (Some _ = Some _)); try congruence;
             reflexivity.
        -- rewrite list_at_set_l3_ne by done. rewrite Hl2.
           destruct (list_at h n w'); [|done]. cbn.
           destruct (decide _); [congruence|done].
      * right. unfold list_for. rewrite Hz. done.
      * intros id Hid. by left.
      * done.
  - (* to the tail of the partial list *)
    eexists. split; [reflexivity|].
    assert (Hcls : list_for (num (cachep h)) (inuse sl') = Partial).
    { unfold list_for. destruct (Z.eqb_spec (inuse sl') 0); [done|].
      pose proof (slab_ok_inuse (num (cachep h)) _ _ ltac:(lia) Hok).
      destruct (Z.ltb_spec (inuse sl') (num (cachep h))); [done|lia]. }
    apply (Hfinish _ (Some (node, Partial)) true).
    * by repeat split.
    * done.
    * intros loc. eapply get_ac_set_l3; eauto.
    * intros n w'.
      destruct (decide (n = node)) as [->|Hne].
      -- rewrite list_at_set_l3_eq by (rewrite El3u; eauto).
         rewrite get_list_list_add_tail. unfold list_at. rewrite El3.
         cbn [mbind option_bind fmap option_fmap option_map].
         destruct w'; destruct (decide (Some _ = Some _)); try congruence;
           reflexivity.
      -- rewrite list_at_set_l3_ne by done. rewrite Hl2.
         destruct (list_at h n w'); [|done]. cbn.
         destruct (decide _); [congruence|done].
    * right. by rewrite Hcls.
    * intros id Hid. by left.
    * intros ?. done.
Qed.

(** free_block: every object of the batch goes back into its slab. *)
Lemma free_block_spec objs : forall h node,
  core h None -> NoDup objs -> (forall o, o ∈ objs -> held h node o) ->
  exists h',
    free_block h objs node = Some h' /\
    core h' None /\ quiet h h' /\
    (forall loc, get_ac h' loc = get_ac h loc) /\
    (forall n o', o' ∉ objs -> held h n o' -> held h' n o') /\
    (forall n w, n <> node -> list_at h' n w = list_at h n w) /\
    (forall o, o ∈ objs -> in_slab h' o) /\
    (forall o', in_slab h o' -> in_slab h' o').
Proof.
  induction objs as [|o objs IH]; intros h node Hcore Hnd Hheld.
  - exists h. cbn. split; [done|]. split; [done|]. split; [apply quiet_refl|].
    split; [done|]. split; [done|]. split; [done|]. split; [|done].
    intros o Ho. by apply elem_of_nil in Ho.
  - apply NoDup_cons in Hnd as [Hno Hnd].
    destruct (free_block_one_spec h o node Hcore) as
      (h1 & E1 & Hc1 & Hq1 & Hac1 & Hh1 & Hl1 & Hin1 & Hmono1).
    { apply Hheld. by left. }
    destruct (IH h1 node Hc1 Hnd) as
      (h2 & E2 & Hc2 & Hq2 & Hac2 & Hh2 & Hl2 & Hin2 & Hmono2).
    { intros o' Ho'. apply Hh1; [|apply Hheld; by right].
      intros ->. done. }
    exists h2. cbn [free_block]. rewrite E1. cbn [mbind option_bind].
    split; [done|]. split; [done|]. split; [by eapply quiet_trans|].
    split; [intros; by rewrite Hac2|].
    split.
    { intros n o' Ho' Hh. apply not_elem_of_cons in Ho' as [Hne Ho'].
      apply Hh2; [done|]. by apply Hh1. }
    split; [intros; rewrite Hl2 by done; by apply Hl1|].
    split; [|by auto].
    intros o' Ho'. apply elem_of_cons in Ho' as [->|Ho']; [by apply Hmono2|by apply Hin2].
Qed.
End FreeBlock.

(** ** Array caches *)

Section Entries.
Context `{platform}.
Variable cpu_to_node : nat -> nat.

Lemma entries_at_set_ac_eq h loc ac :
  is_Some (get_ac h loc) -> entries_at (set_ac h loc ac) loc = Some (entry ac).
Proof. intros. unfold entries_at. by rewrite get_ac_set_ac_eq. Qed.

Lemma entries_at_set_ac_ne h loc ac loc' :
  loc <> loc' -> entries_at (set_ac h loc ac) loc' = entries_at h loc'.
Proof. intros. unfold entries_at. by rewrite get_ac_set_ac_ne. Qed.

Lemma entries_at_get_ac h loc ac :
  get_ac h loc = Some ac -> entries_at h loc = Some (entry ac).
Proof. intros E. unfold entries_at. by rewrite E. Qed.

Lemma entries_at_inv h loc l :
  entries_at h loc = Some l -> exists ac, get_ac h loc = Some ac /\ entry ac = l.
Proof.
  unfold entries_at. destruct (get_ac h loc) as [ac|]; [|done].
  cbn. intros [= <-]. eauto.
Qed.

Lemma released_set_ac h loc ac : released (set_ac h loc ac) = released h.
Proof.
  destruct loc as [cpu|node|node remote]; cbn; [done| |];
    destruct (get_l3 h node) as [l3|]; try done. destruct (alien l3); done.
Qed.

Lemma held_set_ac h loc ac n o : held (set_ac h loc ac) n o <-> held h n o.
Proof.
  destruct (cachep_fields_set_ac h loc ac) as (En & _).
  split; apply held_same_view; rewrite ?slab_store_set_ac; try done;
    intros; by rewrite list_at_set_ac.
Qed.

Lemma in_slab_set_ac h loc ac o : in_slab (set_ac h loc ac) o <-> in_slab h o.
Proof.
  destruct (cachep_fields_set_ac h loc ac) as (En & _).
  unfold in_slab. by rewrite slab_store_set_ac, En.
Qed.

Lemma core_set_ac h loc ac busy : core h busy -> core (set_ac h loc ac) busy.
Proof.
  destruct (cachep_fields_set_ac h loc ac) as (En & _).
  intros Hc. eapply core_same_view; eauto using slab_store_set_ac, released_set_ac.
  intros. apply list_at_set_ac.
Qed.

(** An object that sits in its slab is in no array cache. *)
Lemma in_slab_not_held h n o :
  1 <= num (cachep h) <= SLAB_LIMIT -> in_slab h o -> held h n o -> False.
Proof.
  intros Hn (sl & chain & E & Hok & Hin) (w & sl' & chain' & _ & E' & Hok' & _ & Hout).
  rewrite E in E'. injection E' as <-.
  assert (chain' = chain) as -> by (eapply slab_ok_unique; eauto; lia). done.
Qed.

Lemma in_slab_not_cached h o loc l :
  1 <= num (cachep h) <= SLAB_LIMIT -> acs_ok cpu_to_node h ->
  in_slab h o -> entries_at h loc = Some l -> o ∉ l.
Proof.
  intros Hn Hacs Hin El Ho.
  eapply in_slab_not_held; eauto. eapply entries_held; eauto.
Qed.

(** The node an object is held on is the node of its slab. *)
Lemma held_node h busy n o sl :
  core h busy -> held h n o -> slab_store h !! fst o = Some sl -> nodeid sl = n.
Proof.
  intros Hc (w & sl' & chain & Hlk & E & _) E'.
  destruct (slabs_sound _ _ Hc _ _ _ Hlk) as (sl0 & _ & E0 & _ & Hnode & _).
  congruence.
Qed.

Lemma held_node_unique h busy n1 n2 o :
  core h busy -> held h n1 o -> held h n2 o -> n1 = n2.
Proof.
  intros Hc (w1 & _ & _ & Hl1 & _) (w2 & _ & _ & Hl2 & _).
  by destruct (lists_disjoint _ _ Hc _ _ _ _ _ Hl1 Hl2).
Qed.

(** The entries stay, the objects in them stay held. *)
Lemma acs_ok_same_entries h h' :
  acs_ok cpu_to_node h ->
  (forall loc, entries_at h' loc = entries_at h loc) ->
  (forall loc l o, entries_at h loc = Some l -> o ∈ l ->
     held h' (home cpu_to_node loc) o) ->
  acs_ok cpu_to_node h'.
Proof.
  intros [Hnd Hdj Hheld] He Hkeep. constructor.
  - intros loc l. rewrite He. apply Hnd.
  - intros loc1 loc2 l1 l2 o. rewrite !He. apply Hdj.
  - intros loc l o. rewrite He. apply Hkeep.
Qed.

(** Objects leave the array cache [A]. *)
Lemma acs_ok_drop h h' A eA keep :
  acs_ok cpu_to_node h ->
  entries_at h A = Some eA -> entries_at h' A = Some keep ->
  NoDup keep -> (forall o, o ∈ keep -> o ∈ eA) ->
  (forall loc, loc <> A -> entries_at h' loc = entries_at h loc) ->
  (forall n o, held h n o -> (o ∈ eA -> o ∈ keep) -> held h' n o) ->
  acs_ok cpu_to_node h'.
Proof.
  intros [Hnd Hdj Hheld] EA EA' Hk Hsub Hoth Hkeep.
  assert (Hsrc : forall loc l' o, entries_at h' loc = Some l' -> o ∈ l' ->
            exists l, entries_at h loc = Some l /\ o ∈ l /\ (o ∈ eA -> o ∈ keep)).
  { intros loc l' o El' Ho. destruct (decide (loc = A)) as [->|Hne].
    - rewrite EA' in El'. injection El' as <-. exists eA. auto.
    - rewrite Hoth in El' by done. exists l'. split; [done|]. split; [done|].
      intros HoA. exfalso. apply Hne. eapply Hdj; eauto. }
  constructor.
  - intros loc l El. destruct (decide (loc = A)) as [->|Hne].
    + congruence.
    + rewrite Hoth in El by done. eauto.
  - intros loc1 loc2 l1 l2 o E1 E2 H1 H2.
    destruct (Hsrc _ _ _ E1 H1) as (l1' & E1' & H1' & _).
    destruct (Hsrc _ _ _ E2 H2) as (l2' & E2' & H2' & _). eauto.
  - intros loc l o El Ho. destruct (Hsrc _ _ _ El Ho) as (l0 & E0 & H0 & Hk0).
    apply Hkeep; eauto.
Qed.

(** An object that is in no array cache enters [A]. *)
Lemma acs_ok_push h h' A eA o :
  acs_ok cpu_to_node h ->
  entries_at h A = Some eA ->
  (forall loc l, entries_at h loc = Some l -> o ∉ l) ->
  entries_at h' A = Some (eA ++ [o]) ->
  (forall loc, loc <> A -> entries_at h' loc = entries_at h loc) ->
  held h' (home cpu_to_node A) o ->
  (forall n o', held h n o' -> held h' n o') ->
  acs_ok cpu_to_node h'.
Proof.
  intros [Hnd Hdj Hheld] EA Hnew EA' Hoth Ho Hkeep.
  assert (Hsrc : forall loc l' o', entries_at h' loc = Some l' -> o' ∈ l' ->
            (o' = o /\ loc = A) \/
            (o' <> o /\ exists l, entries_at h loc = Some l /\ o' ∈ l)).
  { intros loc l' o' El' Ho'. destruct (decide (loc = A)) as [->|Hne].
    - rewrite EA' in El'. injection El' as <-.
      apply elem_of_app in Ho' as [Ho'|Ho'%list_elem_of_singleton]; [right|by left].
      split; [|eauto]. intros ->. by eapply Hnew.
    - rewrite Hoth in El' by done. right. split; [|eauto].
      intros ->. by eapply Hnew. }
  constructor.
  - intros loc l El. destruct (decide (loc = A)) as [->|Hne].
    + rewrite EA' in El. injection El as <-. apply NoDup_app.
      split; [eauto|]. split; [|apply NoDup_singleton].
      intros x Hx ->%list_elem_of_singleton. by eapply Hnew.
    + rewrite Hoth in El by done. eauto.
  - intros loc1 loc2 l1 l2 o' E1 E2 H1 H2.
    destruct (Hsrc _ _ _ E1 H1) as [[-> ->]|[Hn1 (l1' & E1' & H1')]];
      destruct (Hsrc _ _ _ E2 H2) as [[? ->]|[Hn2 (l2' & E2' & H2')]];
      try done. eauto.
  - intros loc l o' El Ho'.
    destruct (Hsrc _ _ _ El Ho') as [[-> ->]|[Hn1 (l1' & E1' & H1')]]; eauto.
Qed.

(** Objects move from the array cache [A] to [B] of the same node. *)
Lemma acs_ok_move h h' A B eA eB keep moved :
  acs_ok cpu_to_node h -> A <> B ->
  home cpu_to_node A = home cpu_to_node B ->
  entries_at h A = Some eA -> entries_at h B = Some eB ->
  NoDup (keep ++ moved) -> (forall o, o ∈ keep ++ moved -> o ∈ eA) ->
  entries_at h' A = Some keep -> entries_at h' B = Some (eB ++ moved) ->
  (forall loc, loc <> A -> loc <> B -> entries_at h' loc = entries_at h loc) ->
  (forall n o, held h n o -> held h' n o) ->
  acs_ok cpu_to_node h'.
Proof.
  intros [Hnd Hdj Hheld] HAB Hhome EA EB Hkm Hsub EA' EB' Hoth Hkeep.
  apply NoDup_app in Hkm as (Hk & Hkm & Hm).
  assert (HeAB : forall o, o ∈ eA -> o ∉ eB).
  { intros o HoA HoB. apply HAB. eapply Hdj; eauto. }
  assert (Hsrc : forall loc l' o, entries_at h' loc = Some l' -> o ∈ l' ->
            (loc = A /\ o ∈ keep) \/ (loc = B /\ o ∈ moved) \/
            ((o ∉ moved) /\ loc <> A /\ exists l, entries_at h loc = Some l /\ o ∈ l)).
  { intros loc l' o El' Ho. destruct (decide (loc = A)) as [->|HnA].
    { rewrite EA' in El'. injection El' as <-. by left. }
    right. destruct (decide (loc = B)) as [->|HnB].
    - rewrite EB' in El'. injection El' as <-.
      apply elem_of_app in Ho as [Ho|Ho]; [right|by left].
      split; [|split; [done|eauto]].
      intros Hom. eapply HeAB; [|done]. apply Hsub, elem_of_app. by right.
    - rewrite Hoth in El' by done. right. split; [|split; [done|eauto]].
      intros Hom. apply HnA. symmetry. eapply Hdj; eauto.
      apply Hsub, elem_of_app. by right. }
  constructor.
  - intros loc l El. destruct (decide (loc = A)) as [->|HnA]; [congruence|].
    destruct (decide (loc = B)) as [->|HnB].
    + rewrite EB' in El. injection El as <-. apply NoDup_app.
      split; [eauto|]. split; [|done].
      intros x HxB Hxm. eapply HeAB; [|done]. apply Hsub, elem_of_app. by right.
    + rewrite Hoth in El by done. eauto.
  - intros loc1 loc2 l1 l2 o E1 E2 H1 H2.
    destruct (Hsrc _ _ _ E1 H1) as [[-> K1]|[[-> M1]|(N1 & NA1 & l1' & E1' & H1')]];
      destruct (Hsrc _ _ _ E2 H2) as [[-> K2]|[[-> M2]|(N2 & NA2 & l2' & E2' & H2')]];
      try done; try (exfalso; by eapply Hkm); try contradiction; eauto.
    + exfalso. apply NA2. symmetry. eapply Hdj; eauto.
      apply Hsub, elem_of_app. by left.
    + exfalso. apply NA1. symmetry. eapply Hdj; eauto.
      apply Hsub, elem_of_app. by left.
  - intros loc l o El Ho.
    destruct (Hsrc _ _ _ El Ho) as [[-> K1]|[[-> M1]|(N1 & NA1 & l1' & E1' & H1')]].
    + apply Hkeep. eapply Hheld; eauto. apply Hsub, elem_of_app. by left.
    + rewrite <- Hhome. apply Hkeep. eapply Hheld; eauto.
      apply Hsub, elem_of_app. by right.
    + eauto.
Qed.

(** Where the entries of the array caches come from. *)
Lemma cached_drop h h' A eA keep :
  entries_at h A = Some eA -> entries_at h' A = Some keep ->
  (forall o, o ∈ keep -> o ∈ eA) ->
  (forall loc, loc <> A -> entries_at h' loc = entries_at h loc) ->
  forall loc l' x, entries_at h' loc = Some l' -> x ∈ l' ->
    exists loc0 l0, entries_at h loc0 = Some l0 /\ x ∈ l0.
Proof.
  intros EA EA' Hsub Hoth loc l' x El' Hx.
  destruct (decide (loc = A)) as [->|Hne].
  - rewrite EA' in El'. injection El' as <-. eauto.
  - rewrite Hoth in El' by done. eauto.
Qed.

Lemma cached_move h h' A B eA eB keep moved :
  entries_at h A = Some eA -> entries_at h B = Some eB ->
  (forall o, o ∈ keep ++ moved -> o ∈ eA) ->
  entries_at h' A = Some keep -> entries_at h' B = Some (eB ++ moved) ->
  (forall loc, loc <> A -> loc <> B -> entries_at h' loc = entries_at h loc) ->
  forall loc l' x, entries_at h' loc = Some l' -> x ∈ l' ->
    exists loc0 l0, entries_at h loc0 = Some l0 /\ x ∈ l0.
Proof.
  intros EA EB Hsub EA' EB' Hoth loc l' x El' Hx.
  destruct (decide (loc = A)) as [->|HnA].
  { rewrite EA' in El'. injection El' as <-. exists A, eA. split; [done|].
    apply Hsub, elem_of_app. by left. }
  destruct (decide (loc = B)) as [->|HnB].
  - rewrite EB' in El'. injection El' as <-.
    apply elem_of_app in Hx as [Hx|Hx]; [eauto|].
    exists A, eA. split; [done|]. apply Hsub, elem_of_app. by right.
  - rewrite Hoth in El' by done. eauto.
Qed.

(** A live object stays live when it stays held and the array caches
    take in nothing new. *)
Lemma live_keep h h' o :
  live h o ->
  (forall n, held h n o -> held h' n o) ->
  (forall loc l' x, entries_at h' loc = Some l' -> x ∈ l' ->
     exists loc0 l0, entries_at h loc0 = Some l0 /\ x ∈ l0) ->
  live h' o /\ forall n, held h n o -> held h' n o.
Proof.
  intros [[n Hn] Hout] Hkeep Hsub. split; [|done]. split; [eauto|].
  intros loc l' El' Ho. destruct (Hsub _ _ _ El' Ho) as (loc0 & l0 & E0 & H0).
  by eapply Hout.
Qed.

Lemma keeps_live_refl h : keeps_live h h.
Proof. by intros o Ho. Qed.

Lemma keeps_live_trans h1 h2 h3 :
  keeps_live h1 h2 -> keeps_live h2 h3 -> keeps_live h1 h3.
Proof.
  intros H12 H23 o Ho. destruct (H12 o Ho) as [L2 K2].
  destruct (H23 o L2) as [L3 K3]. split; [done|]. intros. by apply K3, K2.
Qed.
End Entries.

(** ** Freeing *)

Section Freeing.
Context `{platform}.
Variable cpu_to_node : nat -> nat.

Lemma entry_prefix_inv ac n l :
  entry_prefix ac n = Some l ->
  0 <= n <= avail ac /\ l = take (Z.to_nat n) (entry ac).
Proof.
  unfold entry_prefix.
  destruct (Z.leb_spec 0 n); destruct (Z.leb_spec n (avail ac)); cbn; try done.
  intros [= <-]. done.
Qed.

Lemma entry_prefix_ok ac n :
  0 <= n <= avail ac -> entry_prefix ac n = Some (take (Z.to_nat n) (entry ac)).
Proof.
  intros. unfold entry_prefix.
  destruct (Z.leb_spec 0 n); destruct (Z.leb_spec n (avail ac)); cbn; try done; lia.
Qed.

Lemma NoDup_drop_take {A} (l : list A) k : NoDup l -> NoDup (drop k l ++ take k l).
Proof.
  intros Hl. rewrite <- (take_drop k l) in Hl.
  apply NoDup_app in Hl as (Ht & Hdj & Hd). apply NoDup_app.
  split; [done|]. split; [|done]. intros x Hx Hx'. by eapply Hdj.
Qed.

Lemma take_drop_disjoint {A} (l : list A) k x :
  NoDup l -> x ∈ take k l -> x ∈ drop k l -> False.
Proof.
  intros Hl Ht Hd. rewrite <- (take_drop k l) in Hl.
  apply NoDup_app in Hl as (_ & Hdj & _). by eapply Hdj.
Qed.

Lemma NoDup_take_drop_sub {A} (l : list A) k : NoDup l -> NoDup (take k l).
Proof.
  intros Hl. rewrite <- (take_drop k l) in Hl. by apply NoDup_app in Hl as (? & _ & _).
Qed.

Lemma NoDup_take_drop_sub' {A} (l : list A) k : NoDup l -> NoDup (drop k l).
Proof.
  intros Hl. rewrite <- (take_drop k l) in Hl. by apply NoDup_app in Hl as (_ & _ & ?).
Qed.

Lemma elem_of_take_drop {A} (l : list A) k x :
  x ∈ l <-> x ∈ take k l \/ x ∈ drop k l.
Proof. rewrite <- elem_of_app. by rewrite take_drop. Qed.

Lemma via_lists_inv h ac batch node r :
  (objs ← entry_prefix ac batch;
   h1 ← free_block h objs node; Some (h1, batch)) = Some r ->
  exists h1, r = (h1, batch) /\ 0 <= batch <= avail ac /\
    free_block h (take (Z.to_nat batch) (entry ac)) node = Some h1.
Proof.
  intros Hr.
  destruct (entry_prefix ac batch) as [objs|] eqn:Ep; [|done].
  apply entry_prefix_inv in Ep as [Hb ->]. cbn [mbind option_bind] in Hr.
  destruct (free_block h _ node) as [h1|] eqn:Ef; [|done].
  injection Hr as <-. eauto.
Qed.

(** What a flush of the front-end of [cpu] does: [k] entries leave the
    front-end, to the shared array when it has room and into their slabs
    otherwise. *)
Lemma cache_flusharray_inv h cpu h' :
  Inv cpu_to_node h -> cache_flusharray cpu_to_node h cpu = Some h' ->
  Inv cpu_to_node h' /\ quiet h h' /\
  keeps_live h h' /\
  exists ac l3 k,
    let node := cpu_to_node cpu in
    let batch := to_int (batchcount ac) in
    get_ac h (AcCpu cpu) = Some ac /\ get_l3 h node = Some l3 /\
    0 <= k <= avail ac /\
    entries_at h' (AcCpu cpu) = Some (drop (Z.to_nat k) (entry ac)) /\
    (forall loc, loc <> AcCpu cpu -> loc <> AcShared node ->
       entries_at h' loc = entries_at h loc) /\
    ((exists sh,
        let max := to_int (u32 (limit sh - avail sh)) in
        shared l3 = Some sh /\ max <> 0 /\
        k = (if batch >? max then max else batch) /\
        entries_at h' (AcShared node) =
          Some (entry sh ++ take (Z.to_nat k) (entry ac)) /\
        slab_store h' = slab_store h /\
        (forall n w, list_at h' n w = list_at h n w)) \/
     ((shared l3 = None \/
       exists sh, shared l3 = Some sh /\ to_int (u32 (limit sh - avail sh)) = 0) /\
      k = batch /\
      (forall o, o ∈ take (Z.to_nat k) (entry ac) -> in_slab h' o) /\
      entries_at h' (AcShared node) = entries_at h (AcShared node) /\
      (forall n w, n <> node -> list_at h' n w = list_at h n w))).
Proof.
  intros [Hcore Hacs] Hrun.
  pattern h'. match goal with |- ?P h' => set (Post := P) end.
  unfold cache_flusharray in Hrun.
  destruct (get_ac h (AcCpu cpu)) as [ac|] eqn:Eac; [|done].
  cbn [mbind option_bind] in Hrun.
  destruct (get_l3 h (cpu_to_node cpu)) as [l3|] eqn:El3; [|done].
  cbn [mbind option_bind] in Hrun.
  set (node := cpu_to_node cpu) in *.
  set (batch := to_int (batchcount ac)) in *.
  pose proof (entries_at_get_ac _ _ _ Eac) as EeA.
  assert (Hvia : forall h1 ac1,
            free_block h (take (Z.to_nat batch) (entry ac)) node = Some h1 ->
            0 <= batch <= avail ac ->
            (shared l3 = None \/
             exists sh, shared l3 = Some sh /\
                        to_int (u32 (limit sh - avail sh)) = 0) ->
            get_ac h1 (AcCpu cpu) = Some ac1 ->
            Post (set_ac h1 (AcCpu cpu)
                    (set_entry ac1 (drop (Z.to_nat batch) (entry ac1))))).
  { intros h1 ac1 Ef Hb Hsh Eac1. unfold Post.
    destruct (free_block_spec (take (Z.to_nat batch) (entry ac)) h node Hcore)
      as (h1' & Ef' & Hc1 & Hq1 & Hac1 & Hh1 & Hl1 & Hin1 & _).
    { apply (NoDup_take_drop_sub (entry ac)). eapply entries_nodup; eauto. }
    { intros o Ho. apply (entries_held _ _ Hacs (AcCpu cpu) (entry ac)); [done|].
      eapply elem_of_take_drop. by left. }
    rewrite Ef in Ef'. injection Ef' as <-.
    rewrite Hac1, Eac in Eac1. injection Eac1 as <-.
    assert (Hsome : is_Some (get_ac h1 (AcCpu cpu))) by (rewrite Hac1, Eac; eauto).
    assert (He1 : forall loc, entries_at h1 loc = entries_at h loc).
    { intros. unfold entries_at. by rewrite Hac1. }
    split; [split|].
    - by apply core_set_ac.
    - apply (acs_ok_drop cpu_to_node h _ (AcCpu cpu) (entry ac)
               (drop (Z.to_nat batch) (entry ac))); try done.
      + by apply entries_at_set_ac_eq.
      + apply (NoDup_take_drop_sub' (entry ac)). eapply entries_nodup; eauto.
      + intros o Ho. eapply elem_of_take_drop. by right.
      + intros loc Hne. rewrite entries_at_set_ac_ne by done. apply He1.
      + intros n o Hheld Hk. apply held_set_ac. apply Hh1; [|done].
        intros Ht. eapply take_drop_disjoint; [eapply entries_nodup; eauto|done|].
        apply Hk. eapply elem_of_take_drop. by left.
    - split; [eapply quiet_trans; [done|apply quiet_set_ac]|].
      split.
      { intros o Hlive. apply (live_keep h _ o Hlive).
        - intros n Hn. apply held_set_ac. apply Hh1; [|done].
          intros Ht. destruct Hlive as [_ Hout]. eapply Hout; [done|].
          eapply elem_of_take_drop. by left.
        - apply (cached_drop h _ (AcCpu cpu) (entry ac)
                   (drop (Z.to_nat batch) (entry ac))); try done.
          + by apply entries_at_set_ac_eq.
          + intros x Hx. eapply elem_of_take_drop. by right.
          + intros loc Hne. rewrite entries_at_set_ac_ne by done. apply He1. }
      exists ac, l3, batch. cbn zeta. fold node batch.
      split; [done|]. split; [done|]. split; [done|].
      split; [by apply entries_at_set_ac_eq|].
      split; [intros; rewrite entries_at_set_ac_ne by done; apply He1|].
      right. split; [done|]. split; [done|].
      split; [intros; apply in_slab_set_ac; by apply Hin1|].
      split; [rewrite entries_at_set_ac_ne by done; apply He1|].
      intros. rewrite list_at_set_ac. by apply Hl1. }
  destruct (shared l3) as [sh|] eqn:Esh.
  - destruct (Z.eqb_spec (to_int (u32 (limit sh - avail sh))) 0) as [Hmax|Hmax];
      cbn [negb] in Hrun.
    + (* no room in the shared array *)
      match type of Hrun with (?m ≫= _) = _ => destruct m as [r|] eqn:Er; [|done] end.
      apply via_lists_inv in Er as (h1 & -> & Hb & Ef).
      cbn [mbind option_bind] in Hrun.
      destruct (get_ac h1 (AcCpu cpu)) as [ac1|] eqn:Eac1; [|done].
      injection Hrun as <-. eapply Hvia; eauto.
    + (* room in the shared array *)
      set (max := to_int (u32 (limit sh - avail sh))) in *.
      set (k := if batch >? max then max else batch) in *.
      destruct (entry_prefix ac k) as [objs|] eqn:Ep; [|done].
      apply entry_prefix_inv in Ep as [Hk ->].
      cbn [mbind option_bind] in Hrun.
      assert (Esh' : get_ac h (AcShared node) = Some sh).
      { cbn [get_ac]. rewrite El3. done. }
      rewrite get_ac_set_ac_ne, Eac in Hrun by done.
      injection Hrun as <-.
      set (h1 := set_ac h (AcShared node)
                   (set_entry sh (entry sh ++ take (Z.to_nat k) (entry ac)))).
      change (Post (set_ac h1 (AcCpu cpu)
                      (set_entry ac (drop (Z.to_nat k) (entry ac))))).
      unfold Post.
      assert (Hs1 : is_Some (get_ac h1 (AcCpu cpu))).
      { unfold h1. rewrite get_ac_set_ac_ne, Eac by done. eauto. }
      split; [split|].
      * by do 2 apply core_set_ac.
      * apply (acs_ok_move cpu_to_node h _ (AcCpu cpu) (AcShared node) (entry ac)
                 (entry sh) (drop (Z.to_nat k) (entry ac))
                 (take (Z.to_nat k) (entry ac))); try done.
        -- by apply entries_at_get_ac.
        -- apply NoDup_drop_take. eapply entries_nodup; eauto.
        -- intros o Ho. apply elem_of_app in Ho.
           eapply elem_of_take_drop. destruct Ho; eauto.
        -- by apply entries_at_set_ac_eq.
        -- rewrite entries_at_set_ac_ne by done. unfold h1.
           rewrite entries_at_set_ac_eq by (rewrite Esh'; eauto). done.
        -- intros loc HA HB. rewrite entries_at_set_ac_ne by done.
           unfold h1. by rewrite entries_at_set_ac_ne.
        -- intros n o Hh. by do 2 apply held_set_ac.
      * split; [eapply quiet_trans; apply quiet_set_ac|].
        split.
        { intros o Hlive. apply (live_keep h _ o Hlive).
          - intros n Hn. by do 2 apply held_set_ac.
          - apply (cached_move h _ (AcCpu cpu) (AcShared node) (entry ac)
                     (entry sh) (drop (Z.to_nat k) (entry ac))
                     (take (Z.to_nat k) (entry ac))); try done.
            + by apply entries_at_get_ac.
            + intros x Hx. apply elem_of_app in Hx.
              eapply elem_of_take_drop. destruct Hx; eauto.
            + by apply entries_at_set_ac_eq.
            + rewrite entries_at_set_ac_ne by done. unfold h1.
              rewrite entries_at_set_ac_eq by (rewrite Esh'; eauto). done.
            + intros loc HA HB. rewrite entries_at_set_ac_ne by done.
              unfold h1. by rewrite entries_at_set_ac_ne. }
        exists ac, l3, k. cbn zeta. fold node batch.
        split; [done|]. split; [done|]. split; [done|].
        split; [by apply entries_at_set_ac_eq|].
        split.
        { intros loc HA HB. rewrite entries_at_set_ac_ne by done.
          unfold h1. by rewrite entries_at_set_ac_ne. }
        left. exists sh. cbn zeta. fold max. split; [done|]. split; [done|].
        split; [done|]. split.
        { rewrite entries_at_set_ac_ne by done. unfold h1.
          rewrite entries_at_set_ac_eq by (rewrite Esh'; eauto). done. }
        split; [unfold h1; by rewrite !slab_store_set_ac|].
        intros. unfold h1. by rewrite !list_at_set_ac.
  - match type of Hrun with (?m ≫= _) = _ => destruct m as [r|] eqn:Er; [|done] end.
    apply via_lists_inv in Er as (h1 & -> & Hb & Ef).
    cbn [mbind option_bind] in Hrun.
    destruct (get_ac h1 (AcCpu cpu)) as [ac1|] eqn:Eac1; [|done].
    injection Hrun as <-. eapply Hvia; eauto.
Qed.

(** A run of entries of an array cache goes back into the slabs. *)
Lemma free_entries_inv h loc ac objs keep h2 acx :
  Inv cpu_to_node h -> get_ac h loc = Some ac ->
  entry ac = objs ++ keep ->
  free_block h objs (home cpu_to_node loc) = Some h2 ->
  let h' := set_ac h2 loc (set_entry acx keep) in
  Inv cpu_to_node h' /\ quiet h h' /\
  keeps_live h h' /\
  entries_at h' loc = Some keep /\
  (forall loc', loc' <> loc -> entries_at h' loc' = entries_at h loc') /\
  (forall o, o ∈ objs -> in_slab h' o) /\
  (forall o, in_slab h o -> in_slab h' o) /\
  (forall n w, n <> home cpu_to_node loc -> list_at h' n w = list_at h n w).
Proof.
  intros [Hcore Hacs] Eac Hsplit Ef h'.
  pose proof (entries_at_get_ac _ _ _ Eac) as EeA.
  pose proof (entries_nodup _ _ Hacs _ _ EeA) as Hnd. rewrite Hsplit in Hnd.
  apply NoDup_app in Hnd as (Hndo & Hdj & Hndk).
  destruct (free_block_spec objs h (home cpu_to_node loc) Hcore Hndo)
    as (h2' & Ef' & Hc2 & Hq2 & Hac2 & Hh2 & Hl2 & Hin2 & Hmono2).
  { intros o Ho. apply (entries_held _ _ Hacs loc (entry ac)); [done|].
    rewrite Hsplit. apply elem_of_app. by left. }
  rewrite Ef in Ef'. injection Ef' as <-.
  assert (Hsome : is_Some (get_ac h2 loc)) by (rewrite Hac2, Eac; eauto).
  assert (He2 : forall loc', entries_at h2 loc' = entries_at h loc').
  { intros. unfold entries_at. by rewrite Hac2. }
  assert (Hent : entries_at h' loc = Some keep)
    by (unfold h'; by rewrite entries_at_set_ac_eq).
  assert (Hoth : forall loc', loc' <> loc -> entries_at h' loc' = entries_at h loc').
  { intros loc' Hne. unfold h'. rewrite entries_at_set_ac_ne by done. apply He2. }
  assert (Hsub : forall o, o ∈ keep -> o ∈ entry ac).
  { intros o Ho. rewrite Hsplit. apply elem_of_app. by right. }
  split; [split|].
  - by apply core_set_ac.
  - apply (acs_ok_drop cpu_to_node h h' loc (entry ac) keep); try done.
    intros n o Hheld Hk. apply held_set_ac. apply Hh2; [|done].
    intros Ho. eapply Hdj; [done|]. apply Hk. rewrite Hsplit.
    apply elem_of_app. by left.
  - split; [eapply quiet_trans; [done|apply quiet_set_ac]|].
    split.
    { intros o Hlive. apply (live_keep h h' o Hlive).
      - intros n Hn. apply held_set_ac. apply Hh2; [|done].
        intros Ho. destruct Hlive as [_ Hout]. eapply Hout; [done|].
        rewrite Hsplit. apply elem_of_app. by left.
      - by apply (cached_drop h h' loc (entry ac) keep). }
    split; [done|]. split; [done|].
    split; [intros; apply in_slab_set_ac; by apply Hin2|].
    split; [intros; apply in_slab_set_ac; by apply Hmono2|].
    intros. unfold h'. rewrite list_at_set_ac. by apply Hl2.
Qed.

Lemma transfer_objects_entries to from max :
  exists k,
    entry (fst (fst (transfer_objects to from max))) = entry to ++ drop k (entry from) /\
    entry (snd (fst (transfer_objects to from max))) = take k (entry from) /\
    (snd (transfer_objects to from max) = 0 -> (length (entry from) <= k)%nat).
Proof.
  unfold transfer_objects.
  set (nr := to_int _).
  destruct (Z.eqb_spec nr 0) as [Hz|Hz].
  - exists (length (entry from)). cbn. rewrite drop_all, app_nil_r, firstn_all. done.
  - exists (length (entry from) - Z.to_nat nr)%nat. cbn. done.
Qed.

(** Objects move from one array cache to another of the same node. *)
Lemma move_entries_inv h A B acA acB k accA accB :
  Inv cpu_to_node h -> A <> B ->
  home cpu_to_node A = home cpu_to_node B ->
  get_ac h A = Some acA -> get_ac h B = Some acB ->
  entry accA = take k (entry acA) ->
  entry accB = entry acB ++ drop k (entry acA) ->
  let h' := set_ac (set_ac h B accB) A accA in
  Inv cpu_to_node h' /\ quiet h h' /\
  keeps_live h h' /\
  entries_at h' A = Some (take k (entry acA)) /\
  entries_at h' B = Some (entry acB ++ drop k (entry acA)) /\
  (forall loc, loc <> A -> loc <> B -> entries_at h' loc = entries_at h loc) /\
  slab_store h' = slab_store h /\
  (forall o, in_slab h o <-> in_slab h' o) /\
  (forall n w, list_at h' n w = list_at h n w).
Proof.
  intros [Hcore Hacs] HAB Hhome EA EB HkA HkB h'.
  pose proof (entries_at_get_ac _ _ _ EA) as EeA.
  pose proof (entries_at_get_ac _ _ _ EB) as EeB.
  assert (HentA : entries_at h' A = Some (take k (entry acA))).
  { unfold h'. rewrite entries_at_set_ac_eq, HkA; [done|].
    rewrite get_ac_set_ac_ne, EA by done. eauto. }
  assert (HentB : entries_at h' B = Some (entry acB ++ drop k (entry acA))).
  { unfold h'. rewrite entries_at_set_ac_ne by done.
    rewrite entries_at_set_ac_eq, HkB; [done|]. rewrite EB. eauto. }
  assert (Hoth : forall loc, loc <> A -> loc <> B ->
            entries_at h' loc = entries_at h loc).
  { intros loc HA HB. unfold h'. by rewrite !entries_at_set_ac_ne. }
  assert (Hsub : forall o, o ∈ take k (entry acA) ++ drop k (entry acA) -> o ∈ entry acA).
  { intros o. by rewrite take_drop. }
  split; [split|].
  - by do 2 apply core_set_ac.
  - apply (acs_ok_move cpu_to_node h h' A B (entry acA) (entry acB)
             (take k (entry acA)) (drop k (entry acA))); try done.
    + rewrite take_drop. eapply entries_nodup; eauto.
    + intros n o Hh. by do 2 apply held_set_ac.
  - split; [eapply quiet_trans; apply quiet_set_ac|].
    split.
    { intros o Hlive. apply (live_keep h h' o Hlive).
      - intros n Hn. by do 2 apply held_set_ac.
      - by apply (cached_move h h' A B (entry acA) (entry acB)
                    (take k (entry acA)) (drop k (entry acA))). }
    split; [done|]. split; [done|]. split; [done|].
    split; [unfold h'; by rewrite !slab_store_set_ac|].
    split; [intros; unfold h'; by rewrite !in_slab_set_ac|].
    intros. unfold h'. by rewrite !list_at_set_ac.
Qed.

Lemma avail_zero ac : avail ac = 0 <-> entry ac = [].
Proof.
  unfold avail. destruct (entry ac); cbn [length]; split; intros; try done; lia.
Qed.

(** An alien array is emptied: into the shared array of the node its
    objects belong to while there is room, into the slabs for the rest. *)
Lemma drain_alien_spec h loc node ac :
  Inv cpu_to_node h -> home cpu_to_node loc = node -> loc <> AcShared node ->
  get_ac h loc = Some ac ->
  (avail ac <> 0 -> is_Some (get_l3 h node)) ->
  exists h',
    __drain_alien_cache h loc node = Some h' /\
    Inv cpu_to_node h' /\ quiet h h' /\
    keeps_live h h' /\
    entries_at h' loc = Some [] /\
    (forall o, o ∈ entry ac ->
       in_slab h' o \/ exists l, entries_at h' (AcShared node) = Some l /\ o ∈ l) /\
    (forall loc', loc' <> loc -> loc' <> AcShared node ->
       entries_at h' loc' = entries_at h loc') /\
    (forall n w, n <> node -> list_at h' n w = list_at h n w) /\
    (forall o, in_slab h o -> in_slab h' o).
Proof.
  intros HInv Hhome Hloc Eac Hl3. unfold __drain_alien_cache. rewrite Eac.
  cbn [mbind option_bind].
  destruct (Z.eqb_spec (avail ac) 0) as [Hz|Hnz]; cbn [negb].
  { apply avail_zero in Hz. exists h. split; [done|]. split; [done|].
    split; [apply quiet_refl|]. split; [apply keeps_live_refl|].
    split; [rewrite (entries_at_get_ac _ _ _ Eac); by f_equal|].
    split; [intros o Ho; rewrite Hz in Ho; by apply elem_of_nil in Ho|]. done. }
  destruct (Hl3 Hnz) as [rl3 El3]. rewrite El3. cbn [mbind option_bind].
  (* after the transfer to the shared array *)
  assert (Hstage : exists h1 ac1 k,
            (match shared rl3 with
             | Some sh =>
                 let '(sh', ac', _) := transfer_objects sh ac (limit ac) in
                 set_ac (set_ac h (AcShared node) sh') loc ac'
             | None => h
             end) = h1 /\
            get_ac h1 loc = Some ac1 /\ entry ac1 = take k (entry ac) /\
            Inv cpu_to_node h1 /\ quiet h h1 /\
            keeps_live h h1 /\
            (forall o, o ∈ drop k (entry ac) ->
               exists l, entries_at h1 (AcShared node) = Some l /\ o ∈ l) /\
            (forall loc', loc' <> loc -> loc' <> AcShared node ->
               entries_at h1 loc' = entries_at h loc') /\
            (forall n w, list_at h1 n w = list_at h n w) /\
            (forall o, in_slab h o -> in_slab h1 o)).
  { destruct (shared rl3) as [sh|] eqn:Esh.
    - destruct (transfer_objects_entries sh ac (limit ac)) as (k & Hto & Hfrom & _).
      destruct (transfer_objects sh ac (limit ac)) as [[sh' ac'] nr].
      cbn [fst snd] in Hto, Hfrom.
      assert (Esh' : get_ac h (AcShared node) = Some sh)
        by (cbn [get_ac]; by rewrite El3).
      destruct (move_entries_inv h loc (AcShared node) ac sh k ac' sh'
                  HInv Hloc Hhome Eac Esh' Hfrom Hto)
        as (HI & Hq & Hlive & HeA & HeB & Hoth & Hst & Hin & Hl).
      eexists _, ac', k. split; [reflexivity|].
      split. { rewrite get_ac_set_ac_eq; [done|].
               rewrite get_ac_set_ac_ne, Eac by done. eauto. }
      split; [done|]. split; [done|]. split; [done|]. split; [done|].
      split. { intros o Ho. eexists. split; [exact HeB|]. apply elem_of_app. by right. }
      split; [done|]. split; [done|]. intros o. apply Hin.
    - exists h, ac, (length (entry ac)). split; [done|]. split; [done|].
      split; [by rewrite firstn_all|]. split; [done|]. split; [apply quiet_refl|].
      split; [apply keeps_live_refl|].
      split; [intros o Ho; rewrite drop_all in Ho; by apply elem_of_nil in Ho|].
      done. }
  destruct Hstage as (h1 & ac1 & k & -> & Eac1 & Hk & HI1 & Hq1 & Hlive1 & Hsh1 &
                      Hoth1 & Hl1 & Hin1).
  rewrite Eac1. cbn [mbind option_bind].
  destruct (free_block_spec (entry ac1) h1 node) as (h2 & Ef & _ & _ & Hac2 & _).
  { apply HI1. }
  { eapply entries_nodup; [apply HI1|]. by apply entries_at_get_ac. }
  { intros o Ho. rewrite <- Hhome.
    eapply entries_held; [apply HI1| |done]. by apply entries_at_get_ac. }
  rewrite Ef. cbn [mbind option_bind]. rewrite Hac2, Eac1. cbn [mbind option_bind].
  eexists. split; [reflexivity|].
  rewrite <- Hhome in Ef.
  destruct (free_entries_inv h1 loc ac1 (entry ac1) [] h2 ac1 HI1 Eac1
              ltac:(by rewrite app_nil_r) Ef)
    as (HI & Hq & Hlive & Hent & Hoth & Hin & Hmono & Hl).
  split; [done|]. split; [by eapply quiet_trans|].
  split; [by eapply keeps_live_trans|].
  split; [done|].
  split.
  { intros o Ho. rewrite (elem_of_take_drop _ k) in Ho. destruct Ho as [Ho|Ho].
    - left. apply Hin. by rewrite Hk.
    - right. destruct (Hsh1 _ Ho) as (l & El & Hol). exists l. split; [|done].
      rewrite Hoth; [done|]. congruence. }
  split; [intros; rewrite Hoth by done; by apply Hoth1|].
  split; [intros; rewrite Hl by (by rewrite Hhome); apply Hl1|].
  by auto.
Qed.

Lemma drain_alien_defined h loc node h' :
  __drain_alien_cache h loc node = Some h' ->
  exists ac, get_ac h loc = Some ac /\ (avail ac <> 0 -> is_Some (get_l3 h node)).
Proof.
  unfold __drain_alien_cache. destruct (get_ac h loc) as [ac|]; [|done].
  cbn [mbind option_bind]. intros Hrun. exists ac. split; [done|]. intros Hnz.
  destruct (Z.eqb_spec (avail ac) 0); [done|]. cbn [negb] in Hrun.
  destruct (get_l3 h node); [eauto|done].
Qed.

(** A live object goes straight back into its slab. *)
Lemma free_live_spec h o n :
  Inv cpu_to_node h -> live h o -> held h n o ->
  exists h',
    free_block h [o] n = Some h' /\
    Inv cpu_to_node h' /\ quiet h h' /\ in_slab h' o /\
    (forall loc, get_ac h' loc = get_ac h loc) /\
    (forall n' w, n' <> n -> list_at h' n' w = list_at h n' w) /\
    (forall o', in_slab h o' -> in_slab h' o') /\
    (forall o', o' <> o -> live h o' -> live h' o').
Proof.
  intros [Hcore Hacs] [_ Hout] Hheld.
  destruct (free_block_spec [o] h n Hcore) as
    (h' & Ef & Hc & Hq & Hac & Hh & Hl & Hin & Hmono).
  { apply NoDup_singleton. }
  { by intros o' ->%list_elem_of_singleton. }
  exists h'. split; [done|].
  assert (He : forall loc, entries_at h' loc = entries_at h loc).
  { intros. unfold entries_at. by rewrite Hac. }
  split; [split; [done|]|].
  - apply (acs_ok_same_entries cpu_to_node h h' Hacs He).
    intros loc l o' El Ho'. apply Hh; [|by eapply entries_held].
    intros ->%list_elem_of_singleton. by eapply Hout.
  - split; [done|]. split; [apply Hin; by apply list_elem_of_singleton|].
    split; [done|]. split; [done|]. split; [done|].
    intros o' Hne Hlive. apply (live_keep h h' o' Hlive).
    + intros n' Hn'. apply Hh; [|done]. by intros ->%list_elem_of_singleton.
    + intros loc l x Hl' Hx. rewrite He in Hl'. eauto.
Qed.

(** A live object enters an array cache of its node. *)
Lemma push_live_inv h o A ac :
  Inv cpu_to_node h -> live h o -> held h (home cpu_to_node A) o ->
  get_ac h A = Some ac ->
  let h' := set_ac h A (ac_push ac o) in
  Inv cpu_to_node h' /\ quiet h h' /\
  entries_at h' A = Some (entry ac ++ [o]) /\
  (forall loc, loc <> A -> entries_at h' loc = entries_at h loc) /\
  slab_store h' = slab_store h /\
  (forall n w, list_at h' n w = list_at h n w) /\
  (forall o', o' <> o -> live h o' -> live h' o').
Proof.
  intros [Hcore Hacs] [_ Hout] Hheld Eac h'.
  assert (HeA : entries_at h' A = Some (entry ac ++ [o])).
  { unfold h'. rewrite entries_at_set_ac_eq by (rewrite Eac; eauto). done. }
  assert (Hoth : forall loc, loc <> A -> entries_at h' loc = entries_at h loc).
  { intros. unfold h'. by rewrite entries_at_set_ac_ne. }
  split; [split|].
  - by apply core_set_ac.
  - apply (acs_ok_push cpu_to_node h h' A (entry ac) o); try done.
    + by apply entries_at_get_ac.
    + by apply held_set_ac.
    + intros. by apply held_set_ac.
  - split; [apply quiet_set_ac|]. split; [done|]. split; [done|].
    split; [apply slab_store_set_ac|]. split; [intros; apply list_at_set_ac|].
    intros o' Hne [[n Hn] Hout']. split; [exists n; by apply held_set_ac|].
    intros loc l Hl Ho'. destruct (decide (loc = A)) as [->|HnA].
    + rewrite HeA in Hl. injection Hl as <-.
      apply elem_of_app in Ho' as [Ho'|Ho'%list_elem_of_singleton]; [|done].
      eapply Hout'; [|done]. by apply entries_at_get_ac.
    + rewrite Hoth in Hl by done. by eapply Hout'.
Qed.

(** A free on a CPU of another node than the object's: the object goes
    to the alien array kept for its node, which is drained first when it
    is full, or straight into the lists of its node. *)
Lemma cache_free_alien_spec h cpu o sl l3 :
  let node := cpu_to_node cpu in
  Inv cpu_to_node h -> live h o ->
  slab_store h !! fst o = Some sl -> nodeid sl <> node ->
  get_l3 h node = Some l3 ->
  (forall al, alien l3 = Some al -> is_Some (al !! nodeid sl)) ->
  exists h',
    cache_free_alien cpu_to_node h cpu o = Some (1, h') /\
    Inv cpu_to_node h' /\ quiet h h' /\
    (forall o', o' <> o -> live h o' -> live h' o') /\
    (forall cpu', entries_at h' (AcCpu cpu') = entries_at h (AcCpu cpu')) /\
    (forall n w, n <> nodeid sl -> list_at h' n w = list_at h n w) /\
    (forall n, n <> nodeid sl ->
       entries_at h' (AcShared n) = entries_at h (AcShared n)) /\
    match get_ac h (AcAlien node (nodeid sl)) with
    | Some ac =>
        entries_at h' (AcAlien node (nodeid sl)) =
          Some ((if avail ac =? limit ac then [] else entry ac) ++ [o]) /\
        (avail ac = limit ac ->
         forall o', o' ∈ entry ac ->
           in_slab h' o' \/
           exists l, entries_at h' (AcShared (nodeid sl)) = Some l /\ o' ∈ l) /\
        (avail ac <> limit ac ->
         slab_store h' = slab_store h /\
         forall n w, list_at h' n w = list_at h n w)
    | None =>
        in_slab h' o /\ forall loc, entries_at h' loc = entries_at h loc
    end.
Proof.
  intros node HInv Hlive Hsl Hne El3 Hal.
  assert (Hheld : held h (nodeid sl) o).
  { destruct Hlive as [[n Hn] _]. destruct HInv as [Hc _].
    by rewrite (held_node h None n o sl Hc Hn Hsl). }
  assert (Hrl3 : is_Some (get_l3 h (nodeid sl))).
  { destruct Hheld as (w & _ & _ & Hlk & _).
    destruct (linked_inv _ _ _ _ Hlk) as (rl3 & -> & _). eauto. }
  unfold cache_free_alien. unfold virt_to_slab. rewrite Hsl. cbn [mbind option_bind].
  destruct (Nat.eqb_spec (nodeid sl) (cpu_to_node cpu)) as [E|_]; [done|].
  fold node. rewrite El3. cbn [mbind option_bind].
  (* straight into the lists *)
  assert (Hdirect : get_ac h (AcAlien node (nodeid sl)) = None ->
    exists h',
      (_ ← get_l3 h (nodeid sl); h' ← free_block h [o] (nodeid sl); Some (1, h'))
        = Some (1, h') /\
      Inv cpu_to_node h' /\ quiet h h' /\
      (forall o', o' <> o -> live h o' -> live h' o') /\
      (forall cpu', entries_at h' (AcCpu cpu') = entries_at h (AcCpu cpu')) /\
      (forall n w, n <> nodeid sl -> list_at h' n w = list_at h n w) /\
      (forall n, n <> nodeid sl ->
         entries_at h' (AcShared n) = entries_at h (AcShared n)) /\
      in_slab h' o /\ forall loc, entries_at h' loc = entries_at h loc).
  { intros _. destruct Hrl3 as [rl3 ->]. cbn [mbind option_bind].
    destruct (free_live_spec h o (nodeid sl) HInv Hlive Hheld)
      as (h' & -> & HI & Hq & Hin & Hac & Hl & _ & Hkeep).
    assert (He : forall loc, entries_at h' loc = entries_at h loc).
    { intros. unfold entries_at. by rewrite Hac. }
    exists h'. cbn [mbind option_bind]. by repeat (split; [done|]). }
  assert (Eal : get_ac h (AcAlien node (nodeid sl)) =
                al ← alien l3; al !! nodeid sl ≫= id).
  { cbn [get_ac]. by rewrite El3. }
  destruct (alien l3) as [al|] eqn:Ea.
  2: { rewrite Eal. cbn [mbind option_bind]. destruct Hdirect as (h' & ? & ?);
       [by rewrite Eal|]. eauto. }
  destruct (Hal al eq_refl) as [slot Eslot]. rewrite Eslot. cbn [mbind option_bind].
  destruct slot as [ac|].
  2: { rewrite Eal. cbn [mbind option_bind]. rewrite Eslot. cbn [mbind option_bind].
       destruct Hdirect as (h' & ? & ?);
         [rewrite Eal; cbn [mbind option_bind]; by rewrite Eslot|]. eauto. }
  assert (Eac : get_ac h (AcAlien node (nodeid sl)) = Some ac).
  { rewrite Eal. cbn [mbind option_bind]. by rewrite Eslot. }
  rewrite Eac. clear Hdirect Eal.
  set (loc := AcAlien node (nodeid sl)) in *.
  (* the alien array after the drain *)
  assert (Hstage : exists h1 ac1,
            (if avail ac =? limit ac
             then __drain_alien_cache h loc (nodeid sl) else Some h) = Some h1 /\
            get_ac h1 loc = Some ac1 /\
            entry ac1 = (if avail ac =? limit ac then [] else entry ac) /\
            Inv cpu_to_node h1 /\ quiet h h1 /\ keeps_live h h1 /\
            (forall loc', loc' <> loc -> loc' <> AcShared (nodeid sl) ->
               entries_at h1 loc' = entries_at h loc') /\
            (forall n w, n <> nodeid sl -> list_at h1 n w = list_at h n w) /\
            (avail ac = limit ac ->
             forall o', o' ∈ entry ac ->
               in_slab h1 o' \/
               exists l, entries_at h1 (AcShared (nodeid sl)) = Some l /\ o' ∈ l) /\
            (avail ac <> limit ac -> h1 = h)).
  { destruct (Z.eqb_spec (avail ac) (limit ac)) as [Hfull|Hroom].
    - destruct (drain_alien_spec h loc (nodeid sl) ac HInv eq_refl ltac:(done) Eac
                  ltac:(done))
        as (h1 & Ed & HI & Hq & Hlv & Hent & Hobjs & Hoth & Hl & _).
      destruct (entries_at_inv _ _ _ Hent) as (ac1 & Eac1 & Hentry).
      exists h1, ac1. by repeat (split; [done|]).
    - exists h, ac. split; [done|]. split; [done|]. split; [done|].
      split; [done|]. split; [apply quiet_refl|]. split; [apply keeps_live_refl|].
      by repeat (split; [done|]). }
  destruct Hstage as (h1 & ac1 & -> & Eac1 & Hentry & HI1 & Hq1 & Hlv1 & Hoth1 & Hl1 &
                      Hfull & Hroom).
  cbn [mbind option_bind]. rewrite Eac1. cbn [mbind option_bind].
  destruct (Hlv1 o Hlive) as [Hlive1 Hkept1].
  destruct (push_live_inv h1 o loc ac1 HI1 Hlive1 (Hkept1 _ Hheld) Eac1)
    as (HI & Hq & Hent & Hoth & Hst & Hl & Hkeep).
  eexists. split; [reflexivity|]. split; [done|].
  split; [by eapply quiet_trans|].
  split; [intros o' Hno Ho'; apply Hkeep; [done|]; by apply Hlv1|].
  split; [intros; rewrite Hoth by done; by apply Hoth1|].
  split; [intros; rewrite Hl; by apply Hl1|].
  split; [intros; rewrite Hoth by done; apply Hoth1; [done|congruence]|].
  split; [by rewrite Hent, Hentry|].
  split.
  - intros Hf o' Ho'. destruct (Hfull Hf o' Ho') as [Hin|(l & El & Hol)].
    + left. by apply in_slab_set_ac.
    + right. exists l. split; [|done]. by rewrite Hoth.
  - intros Hr. rewrite (Hroom Hr) in *. done.
Qed.

Lemma cache_free_alien_defined h cpu o r h1 :
  cache_free_alien cpu_to_node h cpu o = Some (r, h1) ->
  exists sl, slab_store h !! fst o = Some sl /\
    ((nodeid sl = cpu_to_node cpu /\ r = 0 /\ h1 = h) \/
     (nodeid sl <> cpu_to_node cpu /\
      exists l3, get_l3 h (cpu_to_node cpu) = Some l3 /\
        forall al, alien l3 = Some al -> is_Some (al !! nodeid sl))).
Proof.
  unfold cache_free_alien, virt_to_slab.
  destruct (slab_store h !! fst o) as [sl|]; [|done]. cbn [mbind option_bind].
  intros Hrun. exists sl. split; [done|].
  destruct (Nat.eqb_spec (nodeid sl) (cpu_to_node cpu)) as [E|Hne].
  { left. by injection Hrun as <- <-. }
  right. split; [done|].
  destruct (get_l3 h (cpu_to_node cpu)) as [l3|]; [|done].
  cbn [mbind option_bind] in Hrun.
  exists l3. split; [done|]. intros al Ea. rewrite Ea in Hrun.
  cbn [mbind option_bind] in Hrun. destruct (al !! nodeid sl); [eauto|done].
Qed.

(** kmem_cache_free keeps the allocator well formed. *)
Lemma cache_free_inv h cpu o h' :
  Inv cpu_to_node h -> live h o ->
  __cache_free cpu_to_node h cpu o = Some h' ->
  Inv cpu_to_node h' /\ quiet h h' /\
  (forall o', o' <> o -> live h o' -> live h' o').
Proof.
  intros HInv Hlive Hrun. unfold __cache_free in Hrun.
  destruct (cache_free_alien cpu_to_node h cpu o) as [[r h1]|] eqn:Ea; [|done].
  cbn [mbind option_bind] in Hrun.
  destruct (cache_free_alien_defined _ _ _ _ _ Ea)
    as (sl & Hsl & [(Hnode & -> & ->)|(Hne & l3 & El3 & Hal)]).
  - cbn [negb Z.eqb] in Hrun.
    assert (Hheld : held h (home cpu_to_node (AcCpu cpu)) o).
    { destruct Hlive as [[n Hn] _]. destruct HInv as [Hc _].
      cbn [home]. rewrite <- Hnode.
      by rewrite (held_node h None n o sl Hc Hn Hsl). }
    destruct (get_ac h (AcCpu cpu)) as [ac|] eqn:Eac; [|done].
    cbn [mbind option_bind] in Hrun.
    destruct (avail ac <? limit ac).
    + injection Hrun as <-.
      destruct (push_live_inv h o (AcCpu cpu) ac HInv Hlive Hheld Eac)
        as (? & ? & _ & _ & _ & _ & ?).
      done.
    + destruct (cache_flusharray cpu_to_node h cpu) as [h2|] eqn:Ef; [|done].
      cbn [mbind option_bind] in Hrun.
      destruct (get_ac h2 (AcCpu cpu)) as [ac2|] eqn:Eac2; [|done].
      injection Hrun as <-.
      destruct (cache_flusharray_inv h cpu h2 HInv Ef) as (HI2 & Hq2 & Hlv2 & _).
      destruct (Hlv2 o Hlive) as [Hlive2 Hkept2].
      destruct (push_live_inv h2 o (AcCpu cpu) ac2 HI2 Hlive2 (Hkept2 _ Hheld) Eac2)
        as (? & ? & _ & _ & _ & _ & Hkeep).
      split; [done|]. split; [by eapply quiet_trans|].
      intros o' Hno Ho'. apply Hkeep; [done|]. by apply Hlv2.
  - destruct (cache_free_alien_spec h cpu o sl l3 HInv Hlive Hsl Hne El3 Hal)
      as (h1' & Ea' & HI & Hq & Hkeep & _).
    rewrite Ea in Ea'. injection Ea' as -> ->. cbn [negb Z.eqb] in Hrun.
    by injection Hrun as <-.
Qed.
End Freeing.

(** ** Growth *)

Section Growth.
Context `{platform}.
Variable cpu_to_node : nat -> nat.

(** The loop of cache_init_objs from slot [k] on: it threads the bufctl
    cells and runs the constructor on each slot once, in order. *)
Lemma init_loop_spec slabp n : forall k h cells,
  let r := cache_init_objs_loop slabp n (Z.of_nat k) h cells in
  cachep (fst r) = cachep h /\ slab_store (fst r) = slab_store h /\
  page_oracle (fst r) = page_oracle h /\ mgmt_oracle (fst r) = mgmt_oracle h /\
  released (fst r) = released h /\
  length (snd r) = length cells /\
  (forall j, (k <= j < k + n)%nat -> (j < length cells)%nat ->
     snd r !! j = Some (u32 (Z.of_nat j + 1))) /\
  (forall j, (j < k)%nat -> snd r !! j = cells !! j) /\
  ctor_calls (fst r) =
    ctor_calls h ++
    match ctor (cachep h) with
    | Some _ => map (fun j => index_to_obj slabp (Z.of_nat j)) (seq k n)
    | None => []
    end /\
  (forall o, fst o <> slabp \/ snd o < Z.of_nat k \/ Z.of_nat (k + n) <= snd o ->
     obj_mem (fst r) o = obj_mem h o) /\
  (forall f j, ctor (cachep h) = Some f -> (k <= j < k + n)%nat ->
     obj_mem (fst r) (slabp, Z.of_nat j) = f (obj_mem h (slabp, Z.of_nat j))).
Proof.
  induction n as [|n IH]; intros k h cells.
  - cbn. repeat (split; [done|]). split; [intros; lia|]. split; [done|].
    split; [destruct (ctor (cachep h)); by rewrite app_nil_r|].
    split; [done|]. intros; lia.
  - cbn [cache_init_objs_loop].
    set (h1 := match ctor (cachep h) with Some f => _ | None => h end).
    replace (Z.of_nat k + 1) with (Z.of_nat (S k)) by lia.
    rewrite Nat2Z.id.
    specialize (IH (S k) h1 (<[k := u32 (Z.of_nat (S k))]> cells)).
    cbn zeta in IH.
    destruct IH as (Hc & Hst & Hp & Hm & Hr & Hlen & Hset & Hkeep & Hcalls & Hmem & Hctor).
    assert (Hc1 : cachep h1 = cachep h) by (unfold h1; by destruct (ctor (cachep h))).
    assert (Hst1 : slab_store h1 = slab_store h)
      by (unfold h1; by destruct (ctor (cachep h))).
    assert (Hp1 : page_oracle h1 = page_oracle h)
      by (unfold h1; by destruct (ctor (cachep h))).
    assert (Hm1 : mgmt_oracle h1 = mgmt_oracle h)
      by (unfold h1; by destruct (ctor (cachep h))).
    assert (Hr1 : released h1 = released h)
      by (unfold h1; by destruct (ctor (cachep h))).
    cbn zeta.
    split; [congruence|]. split; [congruence|]. split; [congruence|].
    split; [congruence|]. split; [congruence|].
    split; [by rewrite Hlen, length_insert|].
    split.
    { intros j Hj Hjl. destruct (decide (j = k)) as [->|Hne].
      - rewrite Hkeep by lia. rewrite list_lookup_insert_eq by done.
        f_equal. f_equal. lia.
      - apply Hset; [lia|by rewrite length_insert]. }
    split.
    { intros j Hj. rewrite Hkeep by lia. rewrite list_lookup_insert_ne by lia. done. }
    split.
    { rewrite Hcalls, Hc1. unfold h1. destruct (ctor (cachep h)) as [f|]; cbn.
      - by rewrite <- app_assoc.
      - done. }
    split.
    { intros o Ho. rewrite Hmem by lia. unfold h1.
      destruct (ctor (cachep h)) as [f|]; [|done]. cbn [obj_mem].
      case_decide as E; [|done]. subst o. cbn in Ho. lia. }
    intros f j Hf Hj. destruct (decide (j = k)) as [->|Hne].
    + rewrite Hmem by (cbn; lia). unfold h1. rewrite Hf. cbn [obj_mem].
      case_decide as E; [done|]. by unfold index_to_obj in *.
    + rewrite (Hctor f) by (rewrite ?Hc1; first [done|lia]).
      unfold h1. rewrite Hf. cbn [obj_mem].
      case_decide as E; [|done]. unfold index_to_obj in E.
      injection E as E. lia.
Qed.

Lemma free_chain_seq cells n :
  (forall j, (S j < n)%nat -> cells !! j = Some (Z.of_nat (S j))) ->
  cells !! (n - 1)%nat = Some BUFCTL_END ->
  forall m k, (k + m = n)%nat -> (1 <= m)%nat ->
    free_chain cells (Z.of_nat k) (seq k m).
Proof.
  intros Hnext Hlast. induction m as [|m IH]; intros k Hk Hm; [lia|].
  cbn [seq free_chain]. split; [done|].
  destruct m as [|m].
  - exists BUFCTL_END. replace k with (n - 1)%nat by lia. done.
  - exists (Z.of_nat (S k)). split; [apply Hnext; lia|]. apply IH; lia.
Qed.

(** cache_init_objs: the new slab has every slot on its free chain. *)
Lemma cache_init_objs_spec h slabp sl :
  1 <= num (cachep h) <= SLAB_LIMIT ->
  slab_store h !! slabp = Some sl ->
  length (bufctl sl) = Z.to_nat (num (cachep h)) -> inuse sl = 0 ->
  exists h' sl',
    let n := Z.to_nat (num (cachep h)) in
    cache_init_objs h slabp = Some h' /\
    cachep h' = cachep h /\ slab_store h' = <[slabp := sl']> (slab_store h) /\
    page_oracle h' = page_oracle h /\ mgmt_oracle h' = mgmt_oracle h /\
    released h' = released h /\
    slab_ok (num (cachep h)) sl' (seq 0 n) /\ inuse sl' = 0 /\
    nodeid sl' = nodeid sl /\ colouroff sl' = colouroff sl /\
    ctor_calls h' =
      ctor_calls h ++
      match ctor (cachep h) with
      | Some _ => map (fun j => index_to_obj slabp (Z.of_nat j)) (seq 0 n)
      | None => []
      end /\
    (forall o, fst o <> slabp -> obj_mem h' o = obj_mem h o) /\
    (forall f j, ctor (cachep h) = Some f -> (j < n)%nat ->
       obj_mem h' (slabp, Z.of_nat j) = f (obj_mem h (slabp, Z.of_nat j))).
Proof.
  intros Hnum Hsl Hlen Hin. unfold cache_init_objs. rewrite Hsl.
  cbn [mbind option_bind].
  pose proof (init_loop_spec slabp (Z.to_nat (num (cachep h))) 0%nat h (bufctl sl))
    as Hloop.
  cbn zeta in Hloop. change (Z.of_nat 0) with 0 in Hloop.
  destruct (cache_init_objs_loop slabp (Z.to_nat (num (cachep h))) 0 h (bufctl sl))
    as [h1 cells] eqn:El.
  cbn [fst snd] in Hloop.
  destruct Hloop as (Hc & Hst & Hp & Hm & Hr & Hl & Hset & _ & Hcalls & Hmem & Hctor).
  destruct (Z.leb_spec 1 (num (cachep h))); [|lia].
  eexists _, _. cbn zeta. split; [reflexivity|].
  cbn [cachep slab_store set_slab_store page_oracle mgmt_oracle released
       inuse nodeid colouroff ctor_calls obj_mem].
  rewrite Hst.
  split; [done|]. split; [done|]. split; [done|]. split; [done|]. split; [done|].
  split.
  { pose proof SLAB_LIMIT_val as HL.
    constructor; cbn [bufctl free inuse].
    - by rewrite length_insert, Hl.
    - change 0 with (Z.of_nat 0).
      apply (free_chain_seq _ (Z.to_nat (num (cachep h)))); [| |lia|lia].
      + intros j Hj. rewrite list_lookup_insert_ne by lia.
        rewrite Hset by lia. f_equal. rewrite u32_small by lia. lia.
      + replace (Z.to_nat (num (cachep h) - 1)) with (Z.to_nat (num (cachep h)) - 1)%nat
          by lia.
        apply list_lookup_insert_eq. lia.
    - apply NoDup_seq.
    - intros i Hi. apply elem_of_seq in Hi. lia.
    - rewrite length_seq. lia. }
  split; [done|]. split; [done|]. split; [done|]. split; [done|].
  split; [intros; apply Hmem; by left|].
  intros f j Hf Hj. apply Hctor; [done|lia].
Qed.

(** States with the same cache descriptor show the same lists and the
    same array caches. *)
Lemma views_cachep h h' :
  cachep h' = cachep h ->
  (forall n, get_l3 h' n = get_l3 h n) /\
  (forall loc, get_ac h' loc = get_ac h loc) /\
  (forall n w, list_at h' n w = list_at h n w) /\
  (forall loc, entries_at h' loc = entries_at h loc).
Proof.
  intros E.
  assert (Hl3 : forall n, get_l3 h' n = get_l3 h n)
    by (intros; unfold get_l3; by rewrite E).
  assert (Hac : forall loc, get_ac h' loc = get_ac h loc).
  { intros [cpu|node|node remote]; cbn [get_ac]; by rewrite ?Hl3, ?E. }
  split; [done|]. split; [done|].
  split; intros; [unfold list_at; by rewrite Hl3|unfold entries_at; by rewrite Hac].
Qed.

Lemma Inv_same_view h h' :
  Inv cpu_to_node h ->
  num (cachep h') = num (cachep h) -> slab_store h' = slab_store h ->
  released h' = released h ->
  (forall n w, list_at h' n w = list_at h n w) ->
  (forall loc, entries_at h' loc = entries_at h loc) ->
  Inv cpu_to_node h' /\ keeps_live h h' /\ (forall o, in_slab h o <-> in_slab h' o).
Proof.
  intros [Hc Ha] En Est Er El Ee.
  assert (Hheld : forall n o, held h n o -> held h' n o)
    by (intros n o; by apply held_same_view).
  split; [split|split].
  - by eapply core_same_view.
  - apply (acs_ok_same_entries cpu_to_node h h' Ha Ee).
    intros loc l o Hl Ho. apply Hheld. by eapply entries_held.
  - intros o Ho. apply (live_keep h h' o Ho); [by auto|].
    intros loc l' x Hl' Hx. rewrite Ee in Hl'. eauto.
  - intros o. unfold in_slab. by rewrite Est, En.
Qed.

(** cache_grow: on success a slab with every slot free joins the tail of
    the free list of the node; on failure nothing but the colour cursor
    and the oracles has changed. *)
Lemma cache_grow_spec h nid l3 :
  Inv cpu_to_node h -> get_l3 h nid = Some l3 ->
  exists x h',
    cache_grow h nid false = Some (x, h') /\
    Inv cpu_to_node h' /\ keeps_live h h' /\
    (forall o, in_slab h o -> in_slab h' o) /\
    geometry (cachep h') = geometry (cachep h) /\
    ctor (cachep h') = ctor (cachep h) /\
    (forall loc, get_ac h' loc = get_ac h loc) /\
    released h' = released h /\
    ((x = 0 /\ slab_store h' = slab_store h /\
      (forall n w, list_at h' n w = list_at h n w) /\
      ctor_calls h' = ctor_calls h /\ obj_mem h' = obj_mem h) \/
     (x = 1 /\
      let slabp := length (slab_store h) in
      let n := Z.to_nat (num (cachep h)) in
      exists sl,
        slab_store h' = slab_store h ++ [sl] /\
        slab_ok (num (cachep h)) sl (seq 0 n) /\ inuse sl = 0 /\
        nodeid sl = nid /\
        (forall m w, list_at h' m w =
           (fun l => if decide (Some (nid, Free) = Some (m, w))
                     then l ++ [slabp] else l) <$> list_at h m w) /\
        ctor_calls h' =
          ctor_calls h ++
          match ctor (cachep h) with
          | Some _ => map (fun j => index_to_obj slabp (Z.of_nat j)) (seq 0 n)
          | None => []
          end /\
        (forall o, fst o <> slabp -> obj_mem h' o = obj_mem h o) /\
        (forall f j, ctor (cachep h) = Some f -> (j < n)%nat ->
           obj_mem h' (slabp, Z.of_nat j) = f (obj_mem h (slabp, Z.of_nat j))))).
Proof.
  intros HInv El3. pose proof HInv as [Hcore Hacs].
  pose proof (num_ok _ _ Hcore) as Hnum.
  unfold cache_grow. rewrite El3. cbn [mbind option_bind].
  destruct (next_colour (cachep h) l3) as [offset next].
  set (h1 := set_l3 h nid (set_colour_next l3 next)).
  (* the state before the descriptor is allocated *)
  assert (Hl1 : forall n w, list_at h1 n w = list_at h n w).
  { intros n w. unfold h1. destruct (decide (nid = n)) as [<-|Hne].
    - rewrite list_at_set_l3_eq by (rewrite El3; eauto).
      unfold list_at. rewrite El3. by destruct w.
    - by rewrite list_at_set_l3_ne. }
  assert (Hac1 : forall loc, get_ac h1 loc = get_ac h loc).
  { intros. unfold h1. by eapply get_ac_set_l3. }
  assert (He1 : forall loc, entries_at h1 loc = entries_at h loc).
  { intros. unfold entries_at. by rewrite Hac1. }
  assert (Hfail : forall h2,
            cachep h2 = cachep h1 -> slab_store h2 = slab_store h1 ->
            released h2 = released h1 -> ctor_calls h2 = ctor_calls h1 ->
            obj_mem h2 = obj_mem h1 ->
            Inv cpu_to_node h2 /\ keeps_live h h2 /\
            (forall o, in_slab h o -> in_slab h2 o) /\
            geometry (cachep h2) = geometry (cachep h) /\
            ctor (cachep h2) = ctor (cachep h) /\
            (forall loc, get_ac h2 loc = get_ac h loc) /\
            released h2 = released h /\
            slab_store h2 = slab_store h /\
            (forall n w, list_at h2 n w = list_at h n w) /\
            ctor_calls h2 = ctor_calls h /\ obj_mem h2 = obj_mem h).
  { intros h2 Ec Est Er Ecc Eom.
    destruct (views_cachep h1 h2 Ec) as (_ & Hac2 & Hl2 & He2).
    destruct (Inv_same_view h h2 HInv) as (HI & Hlv & Hin).
    - by rewrite Ec.
    - by rewrite Est.
    - by rewrite Er.
    - intros. by rewrite Hl2.
    - intros. by rewrite He2.
    - split; [done|]. split; [done|]. split; [intros o; apply Hin|].
      rewrite Ec. split; [done|]. split; [done|].
      split; [intros; by rewrite Hac2|]. rewrite Er, Est, Ecc, Eom.
      split; [done|]. split; [done|]. split; [intros; by rewrite Hl2|]. done. }
  destruct (kmem_getpages h1) as [got h2] eqn:Egp.
  assert (Hgp : cachep h2 = cachep h1 /\ slab_store h2 = slab_store h1 /\
                released h2 = released h1 /\ ctor_calls h2 = ctor_calls h1 /\
                obj_mem h2 = obj_mem h1).
  { unfold kmem_getpages in Egp. destruct (page_oracle h1); injection Egp as <- <-; done. }
  destruct Hgp as (Ec2 & Est2 & Er2 & Ecc2 & Eom2).
  destruct got; cbn [negb].
  2: { exists 0, h2. split; [done|].
       destruct (Hfail h2) as (?&?&?&?&?&?&?&?&?&?&?); try done.
       repeat (split; [done|]). by left. }
  destruct (alloc_slabmgmt h2 (to_int offset) nid) as [[slabp|] h3] eqn:Eam.
  2: { exists 0, h3. split; [done|].
       assert (cachep h3 = cachep h2 /\ slab_store h3 = slab_store h2 /\
               released h3 = released h2 /\ ctor_calls h3 = ctor_calls h2 /\
               obj_mem h3 = obj_mem h2) as (?&?&?&?&?).
       { unfold alloc_slabmgmt in Eam. destruct (OFF_SLAB _); [|done].
         destruct (mgmt_oracle h2) as [|[] ?]; try done; by injection Eam as <-. }
       destruct (Hfail h3) as (?&?&?&?&?&?&?&?&?&?&?); try congruence.
       repeat (split; [done|]). by left. }
  (* the descriptor *)
  assert (Ham : exists sl0,
            slabp = length (slab_store h) /\
            cachep h3 = cachep h2 /\ slab_store h3 = slab_store h ++ [sl0] /\
            released h3 = released h2 /\ ctor_calls h3 = ctor_calls h2 /\
            obj_mem h3 = obj_mem h2 /\
            inuse sl0 = 0 /\ nodeid sl0 = nid /\
            length (bufctl sl0) = Z.to_nat (num (cachep h))).
  { unfold alloc_slabmgmt in Eam. rewrite Est2 in Eam.
    change (slab_store h1) with (slab_store h) in Eam.
    assert (En : num (cachep h2) = num (cachep h)) by (by rewrite Ec2).
    destruct (OFF_SLAB _).
    - destruct (mgmt_oracle h2) as [|[] ?]; try done. injection Eam as <- <-.
      eexists. repeat (split; [reflexivity|]).
      cbn [bufctl]. by rewrite length_replicate, En.
    - injection Eam as <- <-.
      eexists. repeat (split; [reflexivity|]).
      cbn [bufctl]. by rewrite length_replicate, En. }
  destruct Ham as (sl0 & -> & Ec3 & Est3 & Er3 & Ecc3 & Eom3 & Hin0 & Hnode0 & Hlen0).
  set (slabp := length (slab_store h)) in *.
  assert (En3 : num (cachep h3) = num (cachep h)) by (by rewrite Ec3, Ec2).
  destruct (cache_init_objs_spec h3 slabp sl0) as
    (h4 & sl' & Ei & Ec4 & Est4 & _ & _ & Er4 & Hok' & Hin' & Hnode' & _ &
     Hcalls & Hmem & Hctor).
  { by rewrite En3. }
  { rewrite Est3. apply list_lookup_middle. done. }
  { by rewrite En3. }
  { done. }
  rewrite Ei. cbn [mbind option_bind]. cbn zeta in *. rewrite En3 in *.
  assert (El4 : get_l3 h4 nid = Some (set_colour_next l3 next)).
  { destruct (views_cachep h1 h4) as (-> & _); [congruence|].
    unfold h1. apply get_l3_set_l3_eq. rewrite El3. eauto. }
  rewrite El4. cbn [mbind option_bind].
  set (l3' := set_free_objects _ _).
  set (h' := set_l3 h4 nid l3').
  assert (Est' : slab_store h' = slab_store h ++ [sl']).
  { change (slab_store h') with (slab_store h4). rewrite Est4, Est3.
    unfold slabp. replace (length (slab_store h)) with (length (slab_store h) + 0)%nat
      by lia.
    rewrite insert_app_r. done. }
  assert (En' : num (cachep h') = num (cachep h)).
  { change (num (cachep h')) with (num (cachep h4)). by rewrite Ec4. }
  assert (Hl' : forall m w, list_at h' m w =
            (fun l => if decide (Some (nid, Free) = Some (m, w))
                      then l ++ [slabp] else l) <$> list_at h m w).
  { intros m w. unfold h'. destruct (decide (nid = m)) as [<-|Hne].
    - rewrite list_at_set_l3_eq by (rewrite El4; eauto).
      unfold list_at. rewrite El3. cbn [mbind option_bind fmap option_fmap option_map].
      unfold l3'. destruct w; case_decide; try congruence; reflexivity.
    - rewrite list_at_set_l3_ne by done.
      destruct (views_cachep h1 h4) as (_ & _ & -> & _); [congruence|].
      rewrite Hl1. destruct (list_at h m w); [|done]. cbn.
      case_decide; [congruence|done]. }
  assert (Hac' : forall loc, get_ac h' loc = get_ac h loc).
  { intros loc. unfold h'.
    rewrite (get_ac_set_l3 h4 nid (set_colour_next l3 next) l3' loc El4) by done.
    destruct (views_cachep h1 h4) as (_ & -> & _); [congruence|]. apply Hac1. }
  assert (He' : forall loc, entries_at h' loc = entries_at h loc).
  { intros. unfold entries_at. by rewrite Hac'. }
  assert (Hold : forall id sl, slab_store h !! id = Some sl -> id <> slabp).
  { intros id sl Hid ->. apply lookup_lt_Some in Hid. unfold slabp in Hid. lia. }
  assert (Hfresh : forall n w l, list_at h n w = Some l -> slabp ∉ l).
  { intros n w l Hl Hs.
    destruct (slabs_sound _ _ Hcore n w slabp) as (sl & _ & Hsl & _); [by exists l|].
    by eapply Hold. }
  assert (Hlists : forall m w, list_at h' m w =
     (fun l => if decide (Some (nid, Free) = Some (m, w))
               then (if true then unlink slabp l ++ [slabp] else slabp :: unlink slabp l)
               else unlink slabp l) <$> list_at h m w).
  { intros m w. rewrite Hl'. destruct (list_at h m w) as [l|] eqn:Elm; [|done].
    cbn. rewrite unlink_absent by (by eapply Hfresh). done. }
  destruct (relink_lists h h' slabp (Some (nid, Free)) true
              (lists_nodup _ _ Hcore) Hlists) as [Hc1 Hc2].
  assert (Hstore : forall id, id <> slabp -> slab_store h' !! id = slab_store h !! id).
  { intros id Hne. rewrite Est'. destruct (decide (id < slabp)%nat).
    - by rewrite lookup_app_l.
    - rewrite lookup_ge_None_2 by (rewrite length_app; cbn; unfold slabp in *; lia).
      symmetry. apply lookup_ge_None_2. unfold slabp in *. lia. }
  assert (Hrel' : released h' = released h).
  { change (released h') with (released h4). by rewrite Er4, Er3, Er2. }
  assert (Hcore' : core h' None).
  { eapply (core_relink h h' slabp (Some (nid, Free)) None None); eauto.
    - rewrite Est', length_app. lia.
    - intros n w [= <- <-]. exists sl', (seq 0 (Z.to_nat (num (cachep h)))).
      rewrite Est'. split; [by apply list_lookup_middle|]. split; [done|].
      split; [congruence|]. intros _. unfold list_for. by rewrite Hin'.
    - intros id Hid. left. by rewrite <- Hrel'.
    - intros Hs. destruct (released_dead _ _ Hcore _ Hs) as [Hlt _].
      unfold slabp in Hlt. lia. }
  assert (Hheld : forall n o, held h n o -> held h' n o).
  { intros n o Hh. eapply (held_relink h h' slabp); eauto.
    destruct Hh as (_ & sl & _ & _ & Hsl & _). by eapply Hold. }
  exists 1, h'. split; [done|].
  split.
  { split; [done|]. apply (acs_ok_same_entries cpu_to_node h h' Hacs He').
    intros loc l o Hl Ho. apply Hheld. by eapply entries_held. }
  split.
  { intros o Ho. apply (live_keep h h' o Ho); [by auto|].
    intros loc l x Hl Hx. rewrite He' in Hl. eauto. }
  split.
  { intros o (sl & chain & Hsl & Hok & Hin). exists sl, chain. rewrite En'.
    rewrite Hstore by (by eapply Hold). done. }
  assert (Ec' : geometry (cachep h') = geometry (cachep h) /\
                ctor (cachep h') = ctor (cachep h)).
  { change (geometry (cachep h')) with (geometry (cachep h4)).
    change (ctor (cachep h')) with (ctor (cachep h4)). by rewrite Ec4, Ec3, Ec2. }
  destruct Ec' as [Eg' Ect'].
  split; [done|]. split; [done|]. split; [done|]. split; [done|].
  right. split; [done|]. exists sl'. cbn zeta.
  assert (Ect3 : ctor (cachep h3) = ctor (cachep h)) by (by rewrite Ec3, Ec2).
  split; [done|]. split; [done|]. split; [done|]. split; [congruence|].
  split; [done|].
  split.
  { change (ctor_calls h') with (ctor_calls h4). rewrite Hcalls, Ect3, Ecc3, Ecc2. done. }
  split.
  { intros o Ho. change (obj_mem h' o) with (obj_mem h4 o). rewrite Hmem by done.
    by rewrite Eom3, Eom2. }
  intros f j Hf Hj. change (obj_mem h' ?o) with (obj_mem h4 o).
  rewrite (Hctor f j) by (by rewrite ?Ect3). by rewrite Eom3, Eom2.
Qed.
End Growth.

(** ** Refill *)

Section Refill.
Context `{platform}.
Variable cpu_to_node : nat -> nat.

(** The descriptor of a linked slab changes while the slab stays where
    it is. *)
Lemma core_slab_update h h' s n w sl' chain' busy :
  core h busy -> (forall id, busy = Some id -> id = s) ->
  linked h n w s ->
  num (cachep h') = num (cachep h) -> released h' = released h ->
  (forall m v, list_at h' m v = list_at h m v) ->
  (forall id, id <> s -> slab_store h' !! id = slab_store h !! id) ->
  length (slab_store h') = length (slab_store h) ->
  slab_store h' !! s = Some sl' -> slab_ok (num (cachep h)) sl' chain' ->
  nodeid sl' = n ->
  core h' (Some s).
Proof.
  intros [Hnum Hnd Hdj Hsd Hrel] Hbusy Hlk En Er El Hst Hlen Hs Hok Hnode.
  assert (Hl : forall m v id, linked h' m v id <-> linked h m v id).
  { intros. unfold linked. by rewrite El. }
  constructor.
  - by rewrite En.
  - intros m v l. rewrite El. apply Hnd.
  - intros n1 w1 n2 w2 id. rewrite !Hl. apply Hdj.
  - intros m v id Hid. apply Hl in Hid. rewrite En.
    destruct (decide (id = s)) as [->|Hne].
    + destruct (Hdj _ _ _ _ _ Hlk Hid) as [<- <-].
      exists sl', chain'. split; [done|]. split; [done|]. split; [done|]. done.
    + destruct (Hsd _ _ _ Hid) as (sl & chain & E & Hk & Hn & Hc).
      exists sl, chain. rewrite Hst by done. split; [done|]. split; [done|].
      split; [done|]. intros _. apply Hc. intros Hb. apply Hne. by apply Hbusy.
  - intros id. rewrite Er, Hlen. intros Hid. destruct (Hrel _ Hid) as [? Hn].
    split; [done|]. intros m v. rewrite Hl. apply Hn.
Qed.

(** Objects stay out of a slab whose free chain only shrinks. *)
Lemma held_slab_update h h' s n o :
  1 <= num (cachep h) <= SLAB_LIMIT ->
  held h n o ->
  num (cachep h') = num (cachep h) ->
  (forall m v, list_at h' m v = list_at h m v) ->
  (forall id, id <> s -> slab_store h' !! id = slab_store h !! id) ->
  (forall sl chain, slab_store h !! s = Some sl -> slab_ok (num (cachep h)) sl chain ->
     exists sl' chain', slab_store h' !! s = Some sl' /\
       slab_ok (num (cachep h)) sl' chain' /\ forall i, i ∈ chain' -> i ∈ chain) ->
  held h' n o.
Proof.
  intros Hnum (w & sl & chain & Hlk & Hsl & Hok & Hidx & Hout) En El Hst Hs.
  assert (Hlk' : linked h' n w (fst o)) by (unfold linked; by rewrite El).
  destruct (decide (fst o = s)) as [E|Hne].
  - rewrite E in *. destruct (Hs _ _ Hsl Hok) as (sl' & chain' & Hsl' & Hok' & Hsub).
    exists w, sl', chain'. rewrite En, E. split; [done|]. split; [done|].
    split; [done|]. split; [done|]. intros Hi. by apply Hout, Hsub.
  - exists w, sl, chain. rewrite En, Hst by done. done.
Qed.

(** A live object stays live when it stays held and whatever the array
    caches take in comes out of the slabs. *)
Lemma live_keep_slab h h' o :
  1 <= num (cachep h) <= SLAB_LIMIT ->
  live h o ->
  (forall n, held h n o -> held h' n o) ->
  (forall loc l' x, entries_at h' loc = Some l' -> x ∈ l' ->
     (exists loc0 l0, entries_at h loc0 = Some l0 /\ x ∈ l0) \/ in_slab h x) ->
  live h' o /\ forall n, held h n o -> held h' n o.
Proof.
  intros Hnum [[n Hn] Hout] Hkeep Hsub. split; [|done]. split; [eauto|].
  intros loc l' El' Ho. destruct (Hsub _ _ _ El' Ho) as [(loc0 & l0 & E0 & H0)|Hin].
  - by eapply Hout.
  - by eapply in_slab_not_held.
Qed.

(** One object leaves the slab [slabp] for the front-end of [cpu]. *)
Lemma refill_take_one h cpu slabp w sl i rest sl1 ac :
  let node := cpu_to_node cpu in
  let obj := index_to_obj slabp (Z.of_nat i) in
  let h1 := set_slab_store h (<[slabp := sl1]> (slab_store h)) in
  let h2 := set_ac h1 (AcCpu cpu) (ac_push ac obj) in
  core h (Some slabp) -> acs_ok cpu_to_node h ->
  linked h node w slabp ->
  slab_store h !! slabp = Some sl ->
  slab_ok (num (cachep h)) sl (i :: rest) ->
  slab_ok (num (cachep h)) sl1 rest -> nodeid sl1 = nodeid sl ->
  get_ac h (AcCpu cpu) = Some ac ->
  core h2 (Some slabp) /\ acs_ok cpu_to_node h2 /\ quiet h h2 /\ keeps_live h h2 /\
  get_ac h2 (AcCpu cpu) = Some (ac_push ac obj) /\
  (forall loc, loc <> AcCpu cpu -> entries_at h2 loc = entries_at h loc) /\
  (forall m v, list_at h2 m v = list_at h m v) /\
  (forall n, get_l3 h2 n = get_l3 h n) /\
  (forall id, id <> slabp -> slab_store h2 !! id = slab_store h !! id) /\
  slab_store h2 !! slabp = Some sl1 /\
  released h2 = released h.
Proof.
  intros node obj h1 h2 Hcore Hacs Hlk Hsl Hok Hok1 Hnode1 Eac.
  pose proof (num_ok _ _ Hcore) as Hnum.
  assert (Hlt : (slabp < length (slab_store h))%nat) by (by eapply lookup_lt_Some).
  destruct (views_cachep h h1 eq_refl) as (Hl3_1 & Hac1 & Hl1 & He1).
  assert (Hst1 : forall id, id <> slabp -> slab_store h1 !! id = slab_store h !! id).
  { intros id Hne. unfold h1. cbn. by rewrite list_lookup_insert_ne. }
  assert (Hs1 : slab_store h1 !! slabp = Some sl1)
    by (by apply list_lookup_insert_eq).
  assert (Hnode : nodeid sl = node).
  { destruct (slabs_sound _ _ Hcore _ _ _ Hlk) as (sl0 & _ & E0 & _ & Hn & _).
    congruence. }
  assert (Hc1 : core h1 (Some slabp)).
  { eapply (core_slab_update h h1 slabp node w sl1 rest); eauto.
    - by intros id [= <-].
    - unfold h1. cbn. by rewrite length_insert.
    - congruence. }
  assert (Hheld1 : forall n o, held h n o -> held h1 n o).
  { intros n o Hh. apply (held_slab_update h h1 slabp n o Hnum Hh); try done.
    intros sl0 chain0 Hsl0 Hok0. rewrite Hsl in Hsl0. injection Hsl0 as <-.
    assert (chain0 = i :: rest) as -> by (eapply slab_ok_unique; eauto; lia).
    exists sl1, rest. split; [done|]. split; [done|]. intros. by right. }
  assert (Hin : in_slab h obj).
  { exists sl, (i :: rest). unfold obj, index_to_obj. cbn [fst snd]. split; [done|].
    split; [done|]. rewrite Nat2Z.id. by left. }
  assert (Hobj1 : held h1 node obj).
  { exists w, sl1, rest. unfold obj, index_to_obj. cbn [fst snd].
    change (num (cachep h1)) with (num (cachep h)).
    split; [unfold linked; by rewrite Hl1|]. split; [done|]. split; [done|].
    pose proof (chain_bound _ _ _ Hok i ltac:(by left)).
    pose proof (chain_nodup _ _ _ Hok) as Hnd. apply NoDup_cons in Hnd as [Hi _].
    split; [lia|]. by rewrite Nat2Z.id. }
  assert (Hsome1 : is_Some (get_ac h1 (AcCpu cpu))) by (rewrite Hac1, Eac; eauto).
  assert (He2 : entries_at h2 (AcCpu cpu) = Some (entry ac ++ [obj])).
  { unfold h2. by rewrite entries_at_set_ac_eq. }
  assert (Hoth : forall loc, loc <> AcCpu cpu -> entries_at h2 loc = entries_at h loc).
  { intros loc Hne. unfold h2. rewrite entries_at_set_ac_ne by done. apply He1. }
  assert (Hheld2 : forall n o, held h n o -> held h2 n o).
  { intros n o Hh. apply held_set_ac. by apply Hheld1. }
  split; [by apply core_set_ac|].
  split.
  { apply (acs_ok_push cpu_to_node h h2 (AcCpu cpu) (entry ac) obj);
      [done|by apply entries_at_get_ac| |done|done|by apply held_set_ac|done].
    intros loc l Hl. by eapply in_slab_not_cached. }
  split.
  { eapply quiet_trans; [|apply quiet_set_ac].
    apply quiet_set_slab_store. by rewrite length_insert. }
  split.
  { intros o Ho. apply (live_keep_slab h h2 o Hnum Ho); [by auto|].
    intros loc l' x Hl' Hx. destruct (decide (loc = AcCpu cpu)) as [->|Hne].
    - rewrite He2 in Hl'. injection Hl' as <-.
      apply elem_of_app in Hx as [Hx|Hx%list_elem_of_singleton].
      + left. exists (AcCpu cpu), (entry ac). split; [|done].
        by apply entries_at_get_ac.
      + right. by subst x.
    - rewrite Hoth in Hl' by done. eauto. }
  split; [unfold h2; by rewrite get_ac_set_ac_eq|].
  split; [done|].
  split; [intros; unfold h2; by rewrite list_at_set_ac|].
  split; [done|].
  split; [intros; unfold h2; rewrite slab_store_set_ac; by apply Hst1|].
  split; [unfold h2; by rewrite slab_store_set_ac|].
  done.
Qed.

(** The inner loop of cache_alloc_refill: objects leave the slab in the
    order of its free chain until the slab is full or the batch is met. *)
Lemma refill_from_slab_spec cpu slabp w fuel : forall h batch ac sl chain,
  let node := cpu_to_node cpu in
  core h (Some slabp) -> acs_ok cpu_to_node h ->
  linked h node w slabp ->
  slab_store h !! slabp = Some sl -> slab_ok (num (cachep h)) sl chain ->
  get_ac h (AcCpu cpu) = Some ac ->
  0 <= batch < 2 ^ 31 -> (Z.to_nat batch < fuel)%nat ->
  exists h' b' k sl' ac',
    refill_from_slab fuel h cpu slabp batch = Some (h', b') /\
    core h' (Some slabp) /\ acs_ok cpu_to_node h' /\ quiet h h' /\ keeps_live h h' /\
    (k <= length chain)%nat /\
    get_ac h' (AcCpu cpu) = Some ac' /\
    entry ac' =
      entry ac ++ map (fun i => index_to_obj slabp (Z.of_nat i)) (take k chain) /\
    (forall loc, loc <> AcCpu cpu -> entries_at h' loc = entries_at h loc) /\
    (forall m v, list_at h' m v = list_at h m v) /\
    (forall n, get_l3 h' n = get_l3 h n) /\
    (forall id, id <> slabp -> slab_store h' !! id = slab_store h !! id) /\
    slab_store h' !! slabp = Some sl' /\
    slab_ok (num (cachep h)) sl' (drop k chain) /\ nodeid sl' = nodeid sl /\
    inuse sl' = inuse sl + Z.of_nat k /\
    ((b' = -1 /\ Z.of_nat k = batch /\ inuse sl' < num (cachep h)) \/
     (b' = batch - Z.of_nat k /\ 0 <= b' /\ inuse sl' = num (cachep h))) /\
    released h' = released h.
Proof.
  induction fuel as [|fuel IH]; intros h batch ac sl chain node Hcore Hacs Hlk Hsl Hok
    Eac Hb Hfuel; [lia|].
  pose proof (num_ok _ _ Hcore) as Hnum.
  pose proof (slab_ok_inuse (num (cachep h)) sl chain ltac:(lia) Hok) as Hin.
  cbn [refill_from_slab]. rewrite Hsl. cbn [mbind option_bind].
  assert (Hstop : forall b', 
    (b' = -1 /\ 0 = batch /\ inuse sl < num (cachep h)) \/
    (b' = batch /\ inuse sl = num (cachep h)) ->
    exists h' b'' k sl' ac',
      Some (h, b') = Some (h', b'') /\
      core h' (Some slabp) /\ acs_ok cpu_to_node h' /\ quiet h h' /\ keeps_live h h' /\
      (k <= length chain)%nat /\
      get_ac h' (AcCpu cpu) = Some ac' /\
      entry ac' =
        entry ac ++ map (fun i => index_to_obj slabp (Z.of_nat i)) (take k chain) /\
      (forall loc, loc <> AcCpu cpu -> entries_at h' loc = entries_at h loc) /\
      (forall m v, list_at h' m v = list_at h m v) /\
      (forall n, get_l3 h' n = get_l3 h n) /\
      (forall id, id <> slabp -> slab_store h' !! id = slab_store h !! id) /\
      slab_store h' !! slabp = Some sl' /\
      slab_ok (num (cachep h)) sl' (drop k chain) /\ nodeid sl' = nodeid sl /\
      inuse sl' = inuse sl + Z.of_nat k /\
      ((b'' = -1 /\ Z.of_nat k = batch /\ inuse sl' < num (cachep h)) \/
       (b'' = batch - Z.of_nat k /\ 0 <= b'' /\ inuse sl' = num (cachep h))) /\
      released h' = released h).
  { intros b' Hb'. exists h, b', 0%nat, sl, ac. split; [done|].
    split; [done|]. split; [done|]. split; [apply quiet_refl|].
    split; [apply keeps_live_refl|]. split; [lia|]. split; [done|].
    split; [cbn; by rewrite app_nil_r|]. split; [done|]. split; [done|].
    split; [done|]. split; [done|]. split; [done|]. split; [done|]. split; [done|].
    split; [lia|]. split; [|done].
    destruct Hb' as [(-> & <- & ?)|(-> & ?)]; [left|right]; lia. }
  destruct (Z.ltb_spec (inuse sl) (num (cachep h))) as [Hroom|Hfull].
  2: { apply Hstop. right. lia. }
  destruct (Z.eqb_spec batch 0) as [Hz|Hnz].
  { subst batch. apply Hstop. left. split; [|done]. by apply to_int_small. }
  clear Hstop.
  destruct (slab_get_obj_spec h slabp sl chain Hnum Hsl Hok Hroom)
    as (i & rest & sl1 & -> & Hfree & Eget & Hok1 & Hin1 & Hnode1 & _).
  rewrite Eget. cbn [mbind option_bind].
  destruct (refill_take_one h cpu slabp w sl i rest sl1 ac Hcore Hacs Hlk Hsl Hok Hok1
              Hnode1 Eac)
    as (Hc2 & Ha2 & Hq2 & Hlv2 & Eac2 & Hoth2 & Hl2 & Hl3_2 & Hst2 & Hs2 & Hr2).
  set (h1 := set_slab_store h _) in *.
  assert (Eac1 : get_ac h1 (AcCpu cpu) = Some ac).
  { destruct (views_cachep h h1 eq_refl) as (_ & -> & _). done. }
  rewrite Eac1. cbn [mbind option_bind].
  set (obj := index_to_obj slabp (Z.of_nat i)) in *.
  set (h2 := set_ac h1 (AcCpu cpu) (ac_push ac obj)) in *.
  assert (En2 : num (cachep h2) = num (cachep h)) by (by apply quiet_num).
  rewrite to_int_small by lia.
  assert (Hlk2 : linked h2 node w slabp) by (unfold linked; by rewrite Hl2).
  assert (Hok2 : slab_ok (num (cachep h2)) sl1 rest) by (by rewrite En2).
  destruct (IH h2 (batch - 1) (ac_push ac obj) sl1 rest Hc2 Ha2 Hlk2 Hs2 Hok2 Eac2
              ltac:(lia) ltac:(lia)) as
    (h' & b' & k & sl' & ac' & Erun & Hc' & Ha' & Hq' & Hlv' & Hk & Eac' & Hent' & Hoth' &
     Hl' & Hl3' & Hst' & Hs' & Hok' & Hnode' & Hin' & Hexit & Hr').
  rewrite En2 in *.
  exists h', b', (S k), sl', ac'. split; [done|]. split; [done|]. split; [done|].
  split; [by eapply quiet_trans|]. split; [by eapply keeps_live_trans|].
  split; [cbn [length]; lia|]. split; [done|].
  split; [rewrite Hent'; cbn; by rewrite <- app_assoc|].
  split; [intros; rewrite Hoth' by done; by apply Hoth2|].
  split; [intros; by rewrite Hl', Hl2|].
  split; [intros; by rewrite Hl3', Hl3_2|].
  split; [intros; rewrite Hst' by done; by apply Hst2|].
  split; [done|]. split; [done|]. split; [congruence|]. split; [lia|].
  split; [|congruence].
  destruct Hexit as [(-> & ? & ?)|(-> & ? & ?)]; [left|right]; lia.
Qed.

Lemma core_busy h s : core h None -> core h (Some s).
Proof.
  intros [Hnum Hnd Hdj Hsd Hrel]. constructor; try done.
  intros n w id Hid. destruct (Hsd _ _ _ Hid) as (sl & chain & ? & ? & ? & Hc).
  exists sl, chain. split; [done|]. split; [done|]. split; [done|]. intros _. by apply Hc.
Qed.

(** The slab that was worked on is put on the list its count calls for. *)
Lemma relink_busy h s node w sl l3u :
  let W := list_for (num (cachep h)) (inuse sl) in
  let h' := set_l3 (list_del h s) node (list_add l3u W s) in
  core h (Some s) -> acs_ok cpu_to_node h -> linked h node w s ->
  slab_store h !! s = Some sl ->
  get_l3 (list_del h s) node = Some l3u ->
  Inv cpu_to_node h' /\ quiet h h' /\ keeps_live h h' /\
  (forall loc, get_ac h' loc = get_ac h loc) /\
  slab_store h' = slab_store h /\ released h' = released h /\
  (forall m v, list_at h' m v =
     (fun l => if decide (Some (node, W) = Some (m, v))
               then s :: unlink s l else unlink s l) <$> list_at h m v).
Proof.
  intros W h' Hcore Hacs Hlk Hsl El3u.
  destruct (linked_inv _ _ _ _ Hlk) as (l3 & El3 & Hin).
  assert (Hl3u : l3u = set_lists l3 (unlink s (slabs_partial l3))
                         (unlink s (slabs_full l3)) (unlink s (slabs_free l3))).
  { rewrite get_l3_list_del, El3 in El3u. by injection El3u as <-. }
  assert (Hlists : forall m v, list_at h' m v =
     (fun l => if decide (Some (node, W) = Some (m, v))
               then (if false then unlink s l ++ [s] else s :: unlink s l)
               else unlink s l) <$> list_at h m v).
  { intros m v. unfold h'. destruct (decide (node = m)) as [<-|Hne].
    - rewrite list_at_set_l3_eq by (rewrite El3u; eauto).
      rewrite get_list_list_add. unfold list_at. rewrite El3.
      cbn [mbind option_bind fmap option_fmap option_map]. rewrite Hl3u.
      destruct v, W; case_decide; try congruence; case_decide; try congruence;
        reflexivity.
    - rewrite list_at_set_l3_ne by done. rewrite list_at_list_del.
      destruct (list_at h m v); [|done]. cbn. case_decide; [congruence|done]. }
  destruct (relink_lists h h' s (Some (node, W)) false (lists_nodup _ _ Hcore) Hlists)
    as [Hc1 Hc2].
  destruct (slabs_sound _ _ Hcore _ _ _ Hlk) as (sl0 & chain & Hsl0 & Hok & Hnode & _).
  rewrite Hsl in Hsl0. injection Hsl0 as <-.
  assert (Hcore' : core h' None).
  { eapply (core_relink h h' s (Some (node, W)) (Some s) None); eauto.
    - intros n v [= <- <-]. exists sl, chain. done.
    - intros id Hne [= <-]. done.
    - intros Hs. destruct (released_dead _ _ Hcore _ Hs) as [_ Hn].
      exfalso. by eapply Hn. }
  assert (Hac : forall loc, get_ac h' loc = get_ac h loc).
  { intros loc. unfold h'. rewrite (get_ac_set_l3 _ _ l3u) by (done || by destruct W).
    apply get_ac_list_del. }
  assert (He : forall loc, entries_at h' loc = entries_at h loc).
  { intros. unfold entries_at. by rewrite Hac. }
  assert (Hheld : forall n o, held h n o -> held h' n o).
  { intros n o Hh. destruct (decide (fst o = s)) as [E|Hne].
    - destruct Hh as (w1 & sl1 & chain1 & Hlk1 & Hsl1 & Hrest). rewrite E in *.
      destruct (lists_disjoint _ _ Hcore _ _ _ _ _ Hlk Hlk1) as [<- <-].
      exists W, sl1, chain1. rewrite E. split; [|done].
      destruct (list_at h node W) as [l|] eqn:El.
      2: { unfold list_at in El. by rewrite El3 in El. }
      destruct (Hc2 _ _ _ El) as (l' & El' & Hiff). exists l'. split; [done|].
      apply Hiff. by right.
    - by eapply (held_relink h h' s). }
  split; [split; [done|]|].
  { apply (acs_ok_same_entries cpu_to_node h h' Hacs He).
    intros loc l o Hl Ho. apply Hheld. by eapply entries_held. }
  split; [eapply quiet_trans; [apply quiet_list_del|apply quiet_set_l3]|].
  split.
  { intros o Ho. apply (live_keep h h' o Ho); [by auto|].
    intros loc l x Hl Hx. rewrite He in Hl. eauto. }
  done.
Qed.

Lemma list_at_is_Some h n w : is_Some (list_at h n w) <-> is_Some (get_l3 h n).
Proof.
  unfold list_at. destruct (get_l3 h n); cbn; split; intros [? ?]; eauto; done.
Qed.

Lemma in_slab_shrink h h' s o :
  1 <= num (cachep h) <= SLAB_LIMIT ->
  num (cachep h') = num (cachep h) ->
  (forall id, id <> s -> slab_store h' !! id = slab_store h !! id) ->
  (forall sl' chain', slab_store h' !! s = Some sl' ->
     slab_ok (num (cachep h)) sl' chain' ->
     exists sl chain, slab_store h !! s = Some sl /\ slab_ok (num (cachep h)) sl chain /\
       forall i, i ∈ chain' -> i ∈ chain) ->
  in_slab h' o -> in_slab h o.
Proof.
  intros Hnum En Hst Hs (sl' & chain' & Hsl' & Hok' & Hin). rewrite En in Hok'.
  destruct (decide (fst o = s)) as [E|Hne].
  - rewrite E in *. destruct (Hs _ _ Hsl' Hok') as (sl & chain & Hsl & Hok & Hsub).
    exists sl, chain. rewrite E. auto.
  - exists sl', chain'. rewrite <- Hst by done. done.
Qed.

(** The walk over the partial list and then the free list of the node:
    objects come out of the slabs, at most [batch] of them, and every slab
    that was visited is back on the list its count calls for. *)
Lemma refill_from_lists_spec cpu fuel : forall h batch ac,
  let node := cpu_to_node cpu in
  Inv cpu_to_node h -> get_ac h (AcCpu cpu) = Some ac ->
  is_Some (get_l3 h node) ->
  batch < 2 ^ 31 -> (Z.to_nat batch < fuel)%nat ->
  exists h' ac' new,
    refill_from_lists fuel h cpu node batch = Some h' /\
    Inv cpu_to_node h' /\ quiet h h' /\ keeps_live h h' /\
    get_ac h' (AcCpu cpu) = Some ac' /\ entry ac' = entry ac ++ new /\
    (forall o, o ∈ new -> in_slab h o) /\
    Z.of_nat (length new) <= Z.max batch 0 /\
    (forall loc, loc <> AcCpu cpu -> entries_at h' loc = entries_at h loc) /\
    (forall m v, m <> node -> list_at h' m v = list_at h m v) /\
    is_Some (get_l3 h' node) /\
    (0 < batch -> forall s, first_slab h node = Some s ->
       exists o rest, new = o :: rest /\ fst o = s) /\
    (Z.of_nat (length new) < batch -> first_slab h' node = None) /\
    released h' = released h /\
    (first_slab h node = None -> ac' = ac).
Proof.
  induction fuel as [|fuel IH]; intros h batch ac node HInv Eac [l3 El3] Hb Hfuel; [lia|].
  pose proof HInv as [Hcore Hacs].
  pose proof (num_ok _ _ Hcore) as Hnum.
  cbn [refill_from_lists].
  destruct (Z.gtb_spec batch 0) as [Hpos|Hneg].
  2: { exists h, ac, []. split; [done|]. split; [done|]. split; [apply quiet_refl|].
       split; [apply keeps_live_refl|]. split; [done|].
       split; [by rewrite app_nil_r|].
       split; [intros o Ho; by apply elem_of_nil in Ho|]. split; [cbn; lia|].
       split; [done|]. split; [done|]. split; [fold node; rewrite El3; eauto|].
       split; [intros; lia|]. split; [cbn; lia|]. split; [done|done]. }
  fold node. rewrite El3. cbn [mbind option_bind].
  (* the slab that is picked *)
  set (pick := match slabs_partial l3 with slabp :: _ => _ | [] => _ end).
  assert (Hpick : exists h0,
            pick = (h0, first_slab h node) /\
            Inv cpu_to_node h0 /\ quiet h h0 /\ keeps_live h h0 /\
            (forall loc, get_ac h0 loc = get_ac h loc) /\
            (forall m v, list_at h0 m v = list_at h m v) /\
            (forall o, in_slab h o <-> in_slab h0 o) /\
            released h0 = released h).
  { assert (Hsame : Inv cpu_to_node h /\ quiet h h /\ keeps_live h h /\
              (forall loc, get_ac h loc = get_ac h loc) /\
              (forall m v, list_at h m v = list_at h m v) /\
              (forall o, in_slab h o <-> in_slab h o) /\ released h = released h).
    { split; [done|]. split; [apply quiet_refl|]. split; [apply keeps_live_refl|]. done. }
    set (h0 := set_l3 h node (set_free_touched l3 1)).
    assert (Htouched : Inv cpu_to_node h0 /\ quiet h h0 /\ keeps_live h h0 /\
              (forall loc, get_ac h0 loc = get_ac h loc) /\
              (forall m v, list_at h0 m v = list_at h m v) /\
              (forall o, in_slab h o <-> in_slab h0 o) /\ released h0 = released h).
    { assert (Hl0 : forall m v, list_at h0 m v = list_at h m v).
      { intros m v. unfold h0. destruct (decide (node = m)) as [<-|Hne].
        - rewrite list_at_set_l3_eq by (rewrite El3; eauto).
          unfold list_at. rewrite El3. by destruct v.
        - by rewrite list_at_set_l3_ne. }
      assert (Hac0 : forall loc, get_ac h0 loc = get_ac h loc).
      { intros. unfold h0. by eapply get_ac_set_l3. }
      destruct (Inv_same_view cpu_to_node h h0 HInv) as (HI & Hlv & Hin);
        [done|done|done|done|intros; unfold entries_at; by rewrite Hac0|].
      split; [done|]. split; [apply quiet_set_l3|]. done. }
    unfold pick, first_slab, list_at. rewrite El3.
    cbn [mbind option_bind get_list].
    destruct (slabs_partial l3) as [|sp ?]; [|by exists h].
    destruct (slabs_free l3) as [|sf ?]; by exists h0. }
  destruct Hpick as (h0 & -> & HI0 & Hq0 & Hlv0 & Hac0 & Hl0 & Hin0 & Hr0).
  destruct (first_slab h node) as [slabp|] eqn:Efirst.
  2: { (* must_grow *)
       exists h0, ac, []. split; [done|]. split; [done|]. split; [done|]. split; [done|].
       split; [by rewrite Hac0|]. split; [by rewrite app_nil_r|].
       split; [intros o Ho; by apply elem_of_nil in Ho|]. split; [cbn; lia|].
       split; [intros; unfold entries_at; by rewrite Hac0|]. split; [done|].
       split.
       { apply (list_at_is_Some h0 node Partial). rewrite Hl0.
         apply list_at_is_Some. rewrite El3. eauto. }
       split; [intros; done|]. split; [|split; [done|done]].
       intros _. unfold first_slab. rewrite !Hl0. exact Efirst. }
  pose proof HI0 as [Hcore0 Hacs0].
  assert (Hlk : exists w, linked h0 node w slabp /\ (w = Partial \/ w = Free)).
  { unfold first_slab in Efirst.
    destruct (list_at h node Partial) as [[|sp lp]|] eqn:Ep.
    - destruct (list_at h node Free) as [[|sf lf]|] eqn:Ef; try done.
      injection Efirst as ->. exists Free. split; [|by right].
      exists (slabp :: lf). rewrite Hl0. split; [done|by left].
    - injection Efirst as ->. exists Partial. split; [|by left].
      exists (slabp :: lp). rewrite Hl0. split; [done|by left].
    - destruct (list_at h node Free) as [[|sf lf]|] eqn:Ef; try done.
      unfold list_at in Ep. by rewrite El3 in Ep. }
  destruct Hlk as (w & Hlk & Hw).
  assert (En0 : num (cachep h0) = num (cachep h)) by (by apply quiet_num).
  destruct (slabs_sound _ _ Hcore0 _ _ _ Hlk) as (sl & chain & Hsl & Hok & Hnode & Hcls).
  specialize (Hcls ltac:(done)). rewrite En0 in Hok, Hcls.
  assert (Hroom : inuse sl < num (cachep h)).
  { unfold list_for in Hcls. destruct (Z.eqb_spec (inuse sl) 0); [lia|].
    destruct (Z.ltb_spec (inuse sl) (num (cachep h))); [lia|].
    destruct Hw; congruence. }
  rewrite Hsl. cbn [mbind option_bind]. rewrite En0.
  destruct (Z.geb_spec (inuse sl) (num (cachep h))) as [?|_]; [lia|].
  assert (Eac0 : get_ac h0 (AcCpu cpu) = Some ac) by (by rewrite Hac0).
  destruct (refill_from_slab_spec cpu slabp w (S (Z.to_nat batch)) h0 batch ac sl chain
              (core_busy _ _ Hcore0) Hacs0 Hlk Hsl ltac:(by rewrite En0) Eac0
              ltac:(lia) ltac:(lia))
    as (ha & b' & k & sl' & aca & -> & Hca & Haa & Hqa & Hlva & Hk & Eaca & Henta & Hotha &
        Hla & Hl3a & Hsta & Hsa & Hoka & Hnodea & Hina & Hexit & Hra).
  cbn [mbind option_bind]. rewrite En0 in *.
  change (slab_store (list_del ha slabp)) with (slab_store ha). rewrite Hsa.
  cbn [mbind option_bind].
  assert (Hlka : linked ha node w slabp) by (unfold linked; by rewrite Hla).
  destruct (linked_inv _ _ _ _ Hlka) as (l3a & El3a & _).
  rewrite get_l3_list_del, El3a.
  cbn [mbind option_bind fmap option_fmap option_map].
  set (l3u := set_lists l3a _ _ _).
  assert (Hk1 : (1 <= k)%nat) by (destruct Hexit as [(?&?&?)|(?&?&?)]; lia).
  assert (Ena : num (cachep ha) = num (cachep h)).
  { rewrite <- En0. by apply quiet_num. }
  assert (HW : (if free sl' =? BUFCTL_END
                then list_add l3u Full slabp else list_add l3u Partial slabp) =
               list_add l3u (list_for (num (cachep ha)) (inuse sl')) slabp).
  { rewrite Ena. unfold list_for.
    pose proof (slab_ok_full (num (cachep h)) sl' _ ltac:(lia) Hoka) as Hfull.
    pose proof (slab_ok_inuse (num (cachep h)) sl chain ltac:(lia) Hok).
    destruct (Z.eqb_spec (inuse sl') 0); [lia|].
    destruct (Z.eqb_spec (free sl') BUFCTL_END) as [Ef|Ef].
    - apply Hfull in Ef. destruct (Z.ltb_spec (inuse sl') (num (cachep h))); [lia|done].
    - destruct (Z.ltb_spec (inuse sl') (num (cachep h))); [done|].
      exfalso. apply Ef, Hfull.
      pose proof (slab_ok_inuse (num (cachep h)) sl' _ ltac:(lia) Hoka). lia. }
  rewrite HW.
  destruct (relink_busy ha slabp node w sl' l3u Hca Haa Hlka Hsa) as
    (HIb & Hqb & Hlvb & Hacb & Hstb & Hrb & Hlb).
  { rewrite get_l3_list_del, El3a. done. }
  set (hb := set_l3 (list_del ha slabp) node _) in *.
  assert (Eacb : get_ac hb (AcCpu cpu) = Some aca) by (by rewrite Hacb).
  assert (Hl3b : is_Some (get_l3 hb node)).
  { unfold hb. rewrite get_l3_set_l3_eq; [eauto|].
    rewrite get_l3_list_del, El3a. cbn. eauto. }
  assert (Hb' : b' < 2 ^ 31 /\ (Z.to_nat b' < fuel)%nat).
  { destruct Hexit as [(-> & ? & ?)|(-> & ? & ?)]; lia. }
  destruct (IH hb b' aca HIb Eacb Hl3b (proj1 Hb') (proj2 Hb')) as
    (h' & ac' & new2 & Erun & HI' & Hq' & Hlv' & Eac' & Hent' & Hnew2 & Hlen2 & Hoth' &
     Hl' & Hl3' & _ & Hlast & Hr' & _).
  set (new1 := map (fun i => index_to_obj slabp (Z.of_nat i)) (take k chain)) in *.
  assert (Hlen1 : length new1 = k).
  { unfold new1. rewrite length_map, length_take. lia. }
  assert (Hin_a : forall o, in_slab hb o -> in_slab h o).
  { intros o Ho. apply Hin0.
    apply (in_slab_shrink h0 hb slabp o);
      [lia|rewrite (quiet_num _ _ Hqb); congruence|
       intros id Hne; rewrite Hstb; by apply Hsta| |done].
    intros sl1 chain1 Hsl1 Hok1. rewrite Hstb, Hsa in Hsl1. injection Hsl1 as <-.
    rewrite En0 in Hok1.
    assert (chain1 = drop k chain) as -> by (eapply slab_ok_unique; eauto; lia).
    exists sl, chain. rewrite En0. split; [done|]. split; [done|].
    intros i Hi. eapply elem_of_take_drop. by right. }
  exists h', ac', (new1 ++ new2). split; [exact Erun|]. split; [done|].
  split; [eauto using quiet_trans|]. split; [eauto using keeps_live_trans|].
  split; [done|]. split; [by rewrite Hent', Henta, <- app_assoc|].
  split.
  { intros o Ho. apply elem_of_app in Ho as [Ho|Ho]; [|by apply Hin_a, Hnew2].
    apply Hin0. unfold new1 in Ho. apply list_elem_of_fmap in Ho as (i & -> & Hi).
    exists sl, chain. cbn [index_to_obj fst snd]. rewrite En0, Nat2Z.id.
    split; [done|]. split; [done|]. eapply elem_of_take_drop. by left. }
  split.
  { rewrite length_app, Hlen1.
    destruct Hexit as [(-> & ? & ?)|(-> & ? & ?)]; lia. }
  split.
  { intros loc Hne. rewrite Hoth' by done. unfold entries_at at 1. rewrite Hacb.
    fold (entries_at ha loc). rewrite Hotha by done.
    unfold entries_at. by rewrite Hac0. }
  split.
  { intros m v Hne. rewrite Hl' by done. rewrite Hlb, Hla, Hl0.
    destruct (list_at h m v) as [l|] eqn:El; [|done]. cbn.
    case_decide as E; [congruence|]. f_equal. apply unlink_absent.
    intros Hs. destruct (lists_disjoint _ _ Hcore0 node w m v slabp Hlk) as [? _];
      [|done].
    exists l. by rewrite Hl0. }
  split; [done|].
  split.
  { intros _ s Hs. injection Hs as <-.
    destruct chain as [|i rest]; [cbn in Hk; lia|].
    destruct k as [|k]; [lia|]. cbn. eauto. }
  split; [|split; [congruence|by intros [=]]].
  intros Hlt. apply Hlast. rewrite length_app, Hlen1 in Hlt.
  destruct Hexit as [(-> & ? & ?)|(-> & ? & ?)]; lia.
Qed.
End Refill.

(** ** Allocation *)

Section Alloc.
Context `{platform}.
Variable cpu_to_node : nat -> nat.

Lemma to_int_range x : - 2 ^ 31 <= to_int x < 2 ^ 31.
Proof. unfold to_int. pose proof (Z.mod_pos_bound (x + 2 ^ 31) (2 ^ 32)). lia. Qed.

Lemma quiet_grown h h' : quiet h h' -> grown h h'.
Proof.
  intros (Hg & Hc & Hm & Hcalls & Hlen & _). split; [done|]. split; [done|].
  split; [lia|]. split; [intros; by rewrite Hm|].
  exists []. rewrite app_nil_r. split; [done|]. intros o Ho. by apply elem_of_nil in Ho.
Qed.

Lemma grown_refl h : grown h h.
Proof. apply quiet_grown, quiet_refl. Qed.

Lemma grown_trans h1 h2 h3 : grown h1 h2 -> grown h2 h3 -> grown h1 h3.
Proof.
  intros (Hg1 & Hc1 & Hl1 & Hm1 & e1 & He1 & Hx1) (Hg2 & Hc2 & Hl2 & Hm2 & e2 & He2 & Hx2).
  split; [congruence|]. split; [congruence|]. split; [lia|].
  split; [intros o Ho; rewrite Hm2 by lia; by apply Hm1|].
  exists (e1 ++ e2). split; [by rewrite He2, He1, app_assoc|].
  intros o Ho. apply elem_of_app in Ho as [Ho|Ho]; [by apply Hx1|].
  apply Hx2 in Ho. lia.
Qed.

(** The last entry of the front-end is handed out. *)
Lemma ac_take_spec h cpu ac :
  Inv cpu_to_node h -> get_ac h (AcCpu cpu) = Some ac -> entry ac <> [] ->
  exists o rest h',
    ac_take h cpu = Some (Some o, h') /\
    entry ac = rest ++ [o] /\
    Inv cpu_to_node h' /\ quiet h h' /\ keeps_live h h' /\ live h' o /\
    entries_at h' (AcCpu cpu) = Some rest /\
    (forall loc, loc <> AcCpu cpu -> entries_at h' loc = entries_at h loc) /\
    slab_store h' = slab_store h /\ released h' = released h /\
    (forall n w, list_at h' n w = list_at h n w).
Proof.
  intros [Hcore Hacs] Eac Hne.
  destruct (exists_last Hne) as (rest & o & Hsplit).
  unfold ac_take. rewrite Eac. cbn [mbind option_bind].
  assert (Hlast : last (entry ac) = Some o) by (rewrite Hsplit; apply last_snoc).
  rewrite Hlast. cbn [mbind option_bind].
  assert (Htake : take (length (entry ac) - 1) (entry ac) = rest).
  { rewrite Hsplit, length_app. cbn [length].
    replace (length rest + 1 - 1)%nat with (length rest) by lia.
    by rewrite take_app_length. }
  rewrite Htake.
  set (h' := set_ac h (AcCpu cpu) _).
  pose proof (entries_at_get_ac _ _ _ Eac) as EeA.
  pose proof (entries_nodup _ _ Hacs _ _ EeA) as Hnd. rewrite Hsplit in Hnd.
  apply NoDup_app in Hnd as (Hndr & Hdj & _).
  assert (Hent : entries_at h' (AcCpu cpu) = Some rest).
  { unfold h'. rewrite entries_at_set_ac_eq by (rewrite Eac; eauto). done. }
  assert (Hoth : forall loc, loc <> AcCpu cpu -> entries_at h' loc = entries_at h loc).
  { intros. unfold h'. by rewrite entries_at_set_ac_ne. }
  assert (Hsub : forall x, x ∈ rest -> x ∈ entry ac).
  { intros x Hx. rewrite Hsplit. apply elem_of_app. by left. }
  assert (Hheld : forall n x, held h n x -> held h' n x)
    by (intros; by apply held_set_ac).
  assert (Hacs' : acs_ok cpu_to_node h').
  { apply (acs_ok_drop cpu_to_node h h' (AcCpu cpu) (entry ac) rest);
      [done|done|done|done|done|done|]. intros n x Hx _. by apply Hheld. }
  exists o, rest, h'. split; [done|]. split; [done|].
  split; [split; [by apply core_set_ac|done]|].
  split; [apply quiet_set_ac|].
  split.
  { intros x Hx. apply (live_keep h h' x Hx); [by auto|].
    by apply (cached_drop h h' (AcCpu cpu) (entry ac) rest). }
  split.
  { split.
    - exists (home cpu_to_node (AcCpu cpu)). apply Hheld.
      eapply entries_held; eauto. rewrite Hsplit. apply elem_of_app. right. by left.
    - intros loc l Hl Ho. destruct (decide (loc = AcCpu cpu)) as [->|Hn].
      + rewrite Hent in Hl. injection Hl as <-. eapply Hdj; [done|by left].
      + rewrite Hoth in Hl by done. apply Hn.
        eapply (entries_disjoint _ _ Hacs); eauto.
        rewrite Hsplit. apply elem_of_app. right. by left. }
  split; [done|]. split; [done|].
  split; [apply slab_store_set_ac|]. split; [apply released_set_ac|].
  intros. apply list_at_set_ac.
Qed.

Lemma transfer_objects_run to from max :
  let nr := to_int (Z.min (Z.min (avail from) (u32 max)) (u32 (limit to - avail to))) in
  let k := if nr =? 0 then length (entry from)
           else (length (entry from) - Z.to_nat nr)%nat in
  exists to' from',
    transfer_objects to from max = (to', from', nr) /\
    entry to' = entry to ++ drop k (entry from) /\
    entry from' = take k (entry from).
Proof.
  intros nr k. unfold transfer_objects. fold nr. unfold k.
  destruct (Z.eqb_spec nr 0) as [Hz|Hz].
  - exists to, from. rewrite Hz, drop_all, app_nil_r, firstn_all. done.
  - eexists _, _. split; [reflexivity|]. done.
Qed.

(** One pass of cache_alloc_refill up to the label alloc_done, and what
    happens there. *)
Lemma cache_alloc_refill_step fuel h cpu ac l3 :
  let node := cpu_to_node cpu in
  let batch0 := to_int (batchcount ac) in
  let batch := if (touched ac =? 0) && (batch0 >? BATCHREFILL_LIMIT)
               then BATCHREFILL_LIMIT else batch0 in
  Inv cpu_to_node h -> get_ac h (AcCpu cpu) = Some ac -> entry ac = [] ->
  get_l3 h node = Some l3 ->
  exists h1 ac1,
    Inv cpu_to_node h1 /\ quiet h h1 /\ keeps_live h h1 /\
    released h1 = released h /\
    get_ac h1 (AcCpu cpu) = Some ac1 /\ is_Some (get_l3 h1 node) /\
    (forall loc, loc <> AcCpu cpu -> loc <> AcShared node ->
       entries_at h1 loc = entries_at h loc) /\
    (forall m v, m <> node -> list_at h1 m v = list_at h m v) /\
    ((exists sh,
        let nr := to_int (Z.min (Z.min (avail sh) (u32 batch))
                                (u32 (limit ac - avail ac))) in
        let k := (length (entry sh) - Z.to_nat nr)%nat in
        shared l3 = Some sh /\ nr <> 0 /\
        entry ac1 = drop k (entry sh) /\
        entries_at h1 (AcShared node) = Some (take k (entry sh)) /\
        slab_store h1 = slab_store h /\
        (forall m v, list_at h1 m v = list_at h m v)) \/
     ((shared l3 = None \/
       exists sh, shared l3 = Some sh /\
         to_int (Z.min (Z.min (avail sh) (u32 batch)) (u32 (limit ac - avail ac))) = 0) /\
      (forall o, o ∈ entry ac1 -> in_slab h o) /\
      Z.of_nat (length (entry ac1)) <= Z.max batch 0 /\
      entries_at h1 (AcShared node) = entries_at h (AcShared node) /\
      (0 < batch -> forall s, first_slab h node = Some s ->
         exists o rest, entry ac1 = o :: rest /\ fst o = s) /\
      (Z.of_nat (length (entry ac1)) < batch -> first_slab h1 node = None) /\
      (first_slab h node = None -> ac1 = ac))) /\
    ((entry ac1 <> [] /\
      cache_alloc_refill cpu_to_node (S fuel) h cpu = ac_take h1 cpu) \/
     (entry ac1 = [] /\
      exists x h2,
        cache_grow h1 node false = Some (x, h2) /\
        ((x = 0 /\ cache_alloc_refill cpu_to_node (S fuel) h cpu = Some (None, h2)) \/
         (x = 1 /\ cache_alloc_refill cpu_to_node (S fuel) h cpu =
                     cache_alloc_refill cpu_to_node fuel h2 cpu)))).
Proof.
  intros node batch0 batch HInv Eac Hempty El3.
  pose proof HInv as [Hcore Hacs].
  assert (Hbatch : batch < 2 ^ 31).
  { unfold batch. pose proof (to_int_range (batchcount ac)).
    destruct (_ && _); [by cbv|]. unfold batch0. lia. }
  (* the walk over the lists *)
  set (from_lists :=
    h1 ← refill_from_lists (S (Z.to_nat batch)) h cpu node batch;
    ac1 ← get_ac h1 (AcCpu cpu);
    l31 ← get_l3 h1 node;
    Some (set_l3 h1 node (set_free_objects l31 (wrap (free_objects l31 - avail ac1))))).
  assert (Hfrom : exists h1 ac1,
    from_lists = Some h1 /\
    Inv cpu_to_node h1 /\ quiet h h1 /\ keeps_live h h1 /\ released h1 = released h /\
    get_ac h1 (AcCpu cpu) = Some ac1 /\ is_Some (get_l3 h1 node) /\
    (forall loc, loc <> AcCpu cpu -> entries_at h1 loc = entries_at h loc) /\
    (forall m v, m <> node -> list_at h1 m v = list_at h m v) /\
    (forall o, o ∈ entry ac1 -> in_slab h o) /\
    Z.of_nat (length (entry ac1)) <= Z.max batch 0 /\
    (0 < batch -> forall s, first_slab h node = Some s ->
       exists o rest, entry ac1 = o :: rest /\ fst o = s) /\
    (Z.of_nat (length (entry ac1)) < batch -> first_slab h1 node = None) /\
      (first_slab h node = None -> ac1 = ac)).
  { destruct (refill_from_lists_spec cpu_to_node cpu (S (Z.to_nat batch)) h batch ac HInv
                Eac ltac:(fold node; rewrite El3; eauto) Hbatch ltac:(lia))
      as (ha & aca & new & Erun & HIa & Hqa & Hlva & Eaca & Henta & Hnew & Hlen & Hotha &
          Hla & [l3a El3a] & Hfirst & Hlast & Hra & Hsame).
    rewrite Hempty in Henta. cbn [app] in Henta.
    unfold from_lists. fold node in Erun, El3a. rewrite Erun. cbn [mbind option_bind].
    rewrite Eaca. cbn [mbind option_bind]. rewrite El3a. cbn [mbind option_bind].
    set (h1 := set_l3 ha node _).
    assert (Hl1 : forall m v, list_at h1 m v = list_at ha m v).
    { intros m v. unfold h1. destruct (decide (node = m)) as [<-|Hne].
      - rewrite list_at_set_l3_eq by (rewrite El3a; eauto).
        unfold list_at. rewrite El3a. by destruct v.
      - by rewrite list_at_set_l3_ne. }
    assert (Hac1 : forall loc, get_ac h1 loc = get_ac ha loc).
    { intros. unfold h1. by eapply get_ac_set_l3. }
    assert (He1 : forall loc, entries_at h1 loc = entries_at ha loc).
    { intros. unfold entries_at. by rewrite Hac1. }
    destruct (Inv_same_view cpu_to_node ha h1 HIa) as (HI1 & Hlv1 & _);
      [done|done|done|done|done|].
    exists h1, aca. split; [done|]. split; [done|].
    split; [eapply quiet_trans; [done|apply quiet_set_l3]|].
    split; [by eapply keeps_live_trans|]. split; [done|].
    split; [by rewrite Hac1|].
    split; [unfold h1; rewrite get_l3_set_l3_eq by (rewrite El3a; eauto); eauto|].
    split; [intros; rewrite He1; by apply Hotha|].
    split; [intros; rewrite Hl1; by apply Hla|].
    rewrite Henta. split; [done|]. split; [done|]. split; [done|].
    split; [|done]. intros Hlt. unfold first_slab. rewrite !Hl1. by apply Hlast. }
  (* up to alloc_done *)
  set (stage := match shared l3 with
                | Some sh =>
                    let '(ac', sh', nr) := transfer_objects ac sh batch in
                    if negb (nr =? 0)
                    then Some (set_ac (set_ac h (AcCpu cpu) ac') (AcShared node) sh')
                    else from_lists
                | None => from_lists
                end).
  assert (Hstage : exists h1 ac1,
    stage = Some h1 /\
    Inv cpu_to_node h1 /\ quiet h h1 /\ keeps_live h h1 /\
    released h1 = released h /\
    get_ac h1 (AcCpu cpu) = Some ac1 /\ is_Some (get_l3 h1 node) /\
    (forall loc, loc <> AcCpu cpu -> loc <> AcShared node ->
       entries_at h1 loc = entries_at h loc) /\
    (forall m v, m <> node -> list_at h1 m v = list_at h m v) /\
    ((exists sh,
        let nr := to_int (Z.min (Z.min (avail sh) (u32 batch))
                                (u32 (limit ac - avail ac))) in
        let k := (length (entry sh) - Z.to_nat nr)%nat in
        shared l3 = Some sh /\ nr <> 0 /\
        entry ac1 = drop k (entry sh) /\
        entries_at h1 (AcShared node) = Some (take k (entry sh)) /\
        slab_store h1 = slab_store h /\
        (forall m v, list_at h1 m v = list_at h m v)) \/
     ((shared l3 = None \/
       exists sh, shared l3 = Some sh /\
         to_int (Z.min (Z.min (avail sh) (u32 batch)) (u32 (limit ac - avail ac))) = 0) /\
      (forall o, o ∈ entry ac1 -> in_slab h o) /\
      Z.of_nat (length (entry ac1)) <= Z.max batch 0 /\
      entries_at h1 (AcShared node) = entries_at h (AcShared node) /\
      (0 < batch -> forall s, first_slab h node = Some s ->
         exists o rest, entry ac1 = o :: rest /\ fst o = s) /\
      (Z.of_nat (length (entry ac1)) < batch -> first_slab h1 node = None) /\
      (first_slab h node = None -> ac1 = ac)))).
  { assert (Hvia : (shared l3 = None \/
       exists sh, shared l3 = Some sh /\
         to_int (Z.min (Z.min (avail sh) (u32 batch)) (u32 (limit ac - avail ac))) = 0) ->
       exists h1 ac1, from_lists = Some h1 /\
         Inv cpu_to_node h1 /\ quiet h h1 /\ keeps_live h h1 /\
         released h1 = released h /\
         get_ac h1 (AcCpu cpu) = Some ac1 /\ is_Some (get_l3 h1 node) /\
         (forall loc, loc <> AcCpu cpu -> loc <> AcShared node ->
            entries_at h1 loc = entries_at h loc) /\
         (forall m v, m <> node -> list_at h1 m v = list_at h m v) /\
         ((exists sh,
             let nr := to_int (Z.min (Z.min (avail sh) (u32 batch))
                                     (u32 (limit ac - avail ac))) in
             let k := (length (entry sh) - Z.to_nat nr)%nat in
             shared l3 = Some sh /\ nr <> 0 /\
             entry ac1 = drop k (entry sh) /\
             entries_at h1 (AcShared node) = Some (take k (entry sh)) /\
             slab_store h1 = slab_store h /\
             (forall m v, list_at h1 m v = list_at h m v)) \/
          ((shared l3 = None \/
            exists sh, shared l3 = Some sh /\
              to_int (Z.min (Z.min (avail sh) (u32 batch))
                            (u32 (limit ac - avail ac))) = 0) /\
           (forall o, o ∈ entry ac1 -> in_slab h o) /\
           Z.of_nat (length (entry ac1)) <= Z.max batch 0 /\
           entries_at h1 (AcShared node) = entries_at h (AcShared node) /\
           (0 < batch -> forall s, first_slab h node = Some s ->
              exists o rest, entry ac1 = o :: rest /\ fst o = s) /\
           (Z.of_nat (length (entry ac1)) < batch -> first_slab h1 node = None) /\
      (first_slab h node = None -> ac1 = ac)))).
    { intros Hsh. destruct Hfrom as (h1 & ac1 & E & HI & Hq & Hlv & Hr & Eac1 & Hl3 & Hoth &
                                     Hl & Hnew & Hlen & Hfirst & Hlast & Hsame).
      exists h1, ac1. do 9 (split; [by auto|]). right.
      split; [done|]. split; [done|]. split; [done|]. split; [by apply Hoth|]. done. }
    unfold stage. destruct (shared l3) as [sh|] eqn:Esh; [|apply Hvia; by left].
    destruct (transfer_objects_run ac sh batch) as (ac' & sh' & Et & Hto & Hfr).
    cbn zeta in Et, Hto, Hfr. rewrite Et.
    set (nr := to_int (Z.min (Z.min (avail sh) (u32 batch))
                             (u32 (limit ac - avail ac)))) in *.
    destruct (Z.eqb_spec nr 0) as [Hz|Hnz]; cbn [negb].
    { apply Hvia. right. eauto. }
    rewrite Hempty in Hto. cbn [app] in Hto.
    assert (Esh' : get_ac h (AcShared node) = Some sh)
      by (cbn [get_ac]; by rewrite El3).
    destruct (move_entries_inv cpu_to_node h (AcShared node) (AcCpu cpu) sh ac
                (length (entry sh) - Z.to_nat nr)%nat sh' ac' HInv ltac:(done)
                ltac:(done) Esh' Eac Hfr ltac:(by rewrite Hempty))
      as (HI & Hq & Hlv & HeA & HeB & Hoth & Hst & Hin & Hl).
    set (h1 := set_ac (set_ac h (AcCpu cpu) ac') (AcShared node) sh') in *.
    rewrite Hempty in HeB. cbn [app] in HeB.
    destruct (entries_at_inv _ _ _ HeB) as (ac1 & Eac1 & Hentry1).
    exists h1, ac1. split; [done|]. split; [done|]. split; [done|]. split; [done|].
    split; [unfold h1; by rewrite !released_set_ac|]. split; [done|].
    split.
    { apply (list_at_is_Some h1 node Partial). rewrite Hl. apply list_at_is_Some.
      rewrite El3. eauto. }
    split; [intros; by apply Hoth|]. split; [intros; by apply Hl|].
    left. exists sh. cbn zeta. fold nr. done. }
  destruct Hstage as (h1 & ac1 & Estage & HI1 & Hq1 & Hlv1 & Hr1 & Eac1 & [l31 El31] &
                      Hoth1 & Hl1 & Hpath).
  exists h1, ac1. do 8 (split; [by eauto|]). split; [done|].
  cbn [cache_alloc_refill]. rewrite Eac. cbn [mbind option_bind]. fold node.
  rewrite El3. cbn [mbind option_bind].
  assert (Havail : avail ac = 0) by (by apply avail_zero).
  rewrite Havail. cbn [Z.gtb Z.compare]. fold batch0. fold batch. fold from_lists.
  fold stage. rewrite Estage. cbn [mbind option_bind]. rewrite Eac1.
  cbn [mbind option_bind].
  destruct (Z.eqb_spec (avail ac1) 0) as [Hz|Hnz].
  2: { left. split; [|done]. intros E. apply Hnz. by apply avail_zero. }
  right. split; [by apply avail_zero|].
  destruct (cache_grow_spec cpu_to_node h1 node l31 HI1 El31)
    as (x & h2 & Eg & _ & _ & _ & _ & _ & Hac2 & _ & Hx).
  exists x, h2. split; [done|]. rewrite Eg. cbn [mbind option_bind].
  rewrite Hac2, Eac1. cbn [mbind option_bind]. rewrite Hz.
  destruct Hx as [(-> & _)|(-> & _)]; [by left|by right].
Qed.

(** cache_grow keeps the allocator well formed; the constructor runs on
    the slots of the new slab only. *)
Lemma cache_grow_inv h nodeid x h' :
  Inv cpu_to_node h -> cache_grow h nodeid false = Some (x, h') ->
  Inv cpu_to_node h' /\ grown h h' /\ keeps_live h h' /\
  released h' = released h /\ (forall loc, get_ac h' loc = get_ac h loc).
Proof.
  intros HInv Hrun.
  assert (exists l3, get_l3 h nodeid = Some l3) as [l3 El3].
  { unfold cache_grow in Hrun. destruct (get_l3 h nodeid); [eauto|done]. }
  destruct (cache_grow_spec cpu_to_node h nodeid l3 HInv El3)
    as (x' & h'' & Eg & HI & Hlv & _ & Hgeo & Hct & Hac & Hr & Hx).
  rewrite Hrun in Eg. injection Eg as <- <-.
  split; [done|]. split; [|done].
  split; [done|]. split; [done|].
  destruct Hx as [(_ & Hst & _ & Hcalls & Hmem)|(_ & sl & Hst & _ & _ & _ & _ & Hcalls &
                                                  Hmem & _)].
  - split; [by rewrite Hst|]. split; [intros; by rewrite Hmem|].
    exists []. rewrite app_nil_r. split; [done|]. intros o Ho. by apply elem_of_nil in Ho.
  - split; [rewrite Hst, length_app; lia|].
    split; [intros o Ho; apply Hmem; lia|].
    eexists. split; [exact Hcalls|]. intros o Ho.
    destruct (ctor (cachep h)); [|by apply elem_of_nil in Ho].
    apply list_elem_of_fmap in Ho as (j & -> & _). done.
Qed.

Lemma cache_alloc_refill_defined fuel h cpu r :
  cache_alloc_refill cpu_to_node (S fuel) h cpu = Some r ->
  exists ac l3, get_ac h (AcCpu cpu) = Some ac /\ entry ac = [] /\
    get_l3 h (cpu_to_node cpu) = Some l3.
Proof.
  cbn [cache_alloc_refill]. intros Hrun.
  destruct (get_ac h (AcCpu cpu)) as [ac|]; [|done]. cbn [mbind option_bind] in Hrun.
  destruct (get_l3 h (cpu_to_node cpu)) as [l3|]; [|done].
  cbn [mbind option_bind] in Hrun.
  exists ac, l3. split; [done|]. split; [|done].
  destruct (Z.gtb_spec (avail ac) 0); [done|]. apply avail_zero. unfold avail in *. lia.
Qed.

(** A refill keeps the allocator well formed. *)
Lemma cache_alloc_refill_inv fuel : forall h cpu r h',
  Inv cpu_to_node h -> cache_alloc_refill cpu_to_node fuel h cpu = Some (r, h') ->
  Inv cpu_to_node h' /\ grown h h' /\ keeps_live h h' /\ released h' = released h /\
  (forall o, r = Some o -> live h' o).
Proof.
  induction fuel as [|fuel IH]; intros h cpu r h' HInv Hrun; [done|].
  destruct (cache_alloc_refill_defined _ _ _ _ Hrun) as (ac & l3 & Eac & Hempty & El3).
  destruct (cache_alloc_refill_step fuel h cpu ac l3 HInv Eac Hempty El3)
    as (h1 & ac1 & HI1 & Hq1 & Hlv1 & Hr1 & Eac1 & _ & _ & _ & _ & Hdone).
  destruct Hdone as [[Hne E]|[_ (x & h2 & Eg & Hx)]].
  - rewrite E in Hrun.
    destruct (ac_take_spec h1 cpu ac1 HI1 Eac1 Hne)
      as (o & rest & h'' & Et & _ & HI & Hq & Hlv & Hlive & _ & _ & _ & Hr & _).
    rewrite Hrun in Et. injection Et as -> <-.
    split; [done|]. split; [apply quiet_grown; by eapply quiet_trans|].
    split; [by eapply keeps_live_trans|]. split; [congruence|].
    by intros ? [= <-].
  - destruct (cache_grow_inv h1 _ x h2 HI1 Eg) as (HI2 & Hg2 & Hlv2 & Hr2 & _).
    destruct Hx as [[-> E]|[-> E]]; rewrite E in Hrun.
    + injection Hrun as <- <-. split; [done|].
      split; [eapply grown_trans; [by apply quiet_grown|done]|].
      split; [by eapply keeps_live_trans|]. split; [congruence|]. done.
    + destruct (IH h2 cpu r h' HI2 Hrun) as (HI & Hg & Hlv & Hr & Hlive).
      split; [done|].
      split; [eapply grown_trans; [by apply quiet_grown|by eapply grown_trans]|].
      split; [eauto using keeps_live_trans|]. split; [congruence|]. done.
Qed.

(** kmem_cache_alloc keeps the allocator well formed; the object it hands
    out is live. *)
Lemma cache_alloc_inv fuel h cpu r h' :
  Inv cpu_to_node h -> ____cache_alloc cpu_to_node fuel h cpu = Some (r, h') ->
  Inv cpu_to_node h' /\ grown h h' /\ keeps_live h h' /\ released h' = released h /\
  (forall o, r = Some o -> live h' o).
Proof.
  intros HInv Hrun. unfold ____cache_alloc in Hrun.
  destruct (get_ac h (AcCpu cpu)) as [ac|] eqn:Eac; [|done].
  cbn [mbind option_bind] in Hrun.
  destruct (Z.eqb_spec (avail ac) 0) as [Hz|Hnz]; cbn [negb] in Hrun.
  - by apply (cache_alloc_refill_inv fuel h cpu).
  - destruct (ac_take_spec h cpu ac HInv Eac)
      as (o & rest & h'' & Et & _ & HI & Hq & Hlv & Hlive & _ & _ & _ & Hr & _).
    { intros E. apply Hnz. by apply avail_zero. }
    rewrite Hrun in Et. injection Et as -> <-.
    split; [done|]. split; [by apply quiet_grown|]. split; [done|]. split; [done|].
    by intros ? [= <-].
Qed.
End Alloc.

(** ** Draining and shrinking *)

Section Shrink.
Context `{platform}.
Variable cpu_to_node : nat -> nat.

(** A loop over a list keeps what each of its turns keeps. *)
Lemma for_each_inv {A} (f : heap -> A -> option heap) (P : heap -> Prop)
    (R : heap -> heap -> Prop) l :
  (forall h, R h h) -> (forall h1 h2 h3, R h1 h2 -> R h2 h3 -> R h1 h3) ->
  (forall h x h', x ∈ l -> P h -> f h x = Some h' -> P h' /\ R h h') ->
  forall h h', P h -> for_each A f h l = Some h' -> P h' /\ R h h'.
Proof.
  intros Hrefl Htrans. induction l as [|x rest IH]; intros Hf h h' HP E; cbn in E.
  - injection E as <-. auto.
  - destruct (f h x) as [h1|] eqn:E1; [|done]. cbn in E.
    destruct (Hf h x h1 ltac:(by left) HP E1) as [HP1 HR1].
    destruct (IH ltac:(intros; eapply Hf; eauto; by right) h1 h' HP1 E) as [HP' HR'].
    eauto.
Qed.

(** do_drain: the whole front-end of [cpu] goes back into the slabs. *)
Lemma do_drain_spec h cpu ac :
  Inv cpu_to_node h -> get_ac h (AcCpu cpu) = Some ac ->
  is_Some (get_l3 h (cpu_to_node cpu)) ->
  exists h',
    do_drain cpu_to_node h cpu = Some h' /\
    Inv cpu_to_node h' /\ quiet h h' /\ keeps_live h h' /\
    entries_at h' (AcCpu cpu) = Some [] /\
    (forall loc, loc <> AcCpu cpu -> entries_at h' loc = entries_at h loc) /\
    (forall o, o ∈ entry ac -> in_slab h' o) /\
    (forall o, in_slab h o -> in_slab h' o).
Proof.
  intros HInv Eac [l3 El3]. unfold do_drain. rewrite Eac. cbn [mbind option_bind].
  rewrite El3. cbn [mbind option_bind].
  destruct (free_block_spec (entry ac) h (cpu_to_node cpu)) as (h1 & Ef & _ & _ & Hac1 & _).
  { apply HInv. }
  { eapply entries_nodup; [apply HInv|]. by apply entries_at_get_ac. }
  { intros o Ho. apply (entries_held _ _ (proj2 HInv) (AcCpu cpu) (entry ac)); [|done].
    by apply entries_at_get_ac. }
  rewrite Ef. cbn [mbind option_bind]. rewrite Hac1, Eac. cbn [mbind option_bind].
  destruct (free_entries_inv cpu_to_node h (AcCpu cpu) ac (entry ac) [] h1 ac HInv Eac
              ltac:(by rewrite app_nil_r) Ef)
    as (HI & Hq & Hlv & Hent & Hoth & Hin & Hmono & _).
  eexists. split; [reflexivity|]. done.
Qed.

Lemma do_drain_inv h cpu h' :
  Inv cpu_to_node h -> do_drain cpu_to_node h cpu = Some h' ->
  Inv cpu_to_node h' /\ quiet h h' /\ keeps_live h h'.
Proof.
  intros HInv Hrun.
  assert (exists ac, get_ac h (AcCpu cpu) = Some ac /\
                     is_Some (get_l3 h (cpu_to_node cpu))) as (ac & Eac & Hl3).
  { unfold do_drain in Hrun. destruct (get_ac h (AcCpu cpu)) as [ac|]; [|done].
    cbn [mbind option_bind] in Hrun. exists ac. split; [done|].
    destruct (get_l3 h (cpu_to_node cpu)); [eauto|done]. }
  destruct (do_drain_spec h cpu ac HInv Eac Hl3) as (h'' & E & HI & Hq & Hlv & _).
  rewrite Hrun in E. injection E as <-. done.
Qed.

Lemma drain_alien_inv h loc node h' :
  Inv cpu_to_node h -> home cpu_to_node loc = node -> loc <> AcShared node ->
  __drain_alien_cache h loc node = Some h' ->
  Inv cpu_to_node h' /\ quiet h h' /\ keeps_live h h'.
Proof.
  intros HInv Hhome Hloc Hrun.
  destruct (drain_alien_defined _ _ _ _ Hrun) as (ac & Eac & Hl3).
  destruct (drain_alien_spec cpu_to_node h loc node ac HInv Hhome Hloc Eac Hl3)
    as (h'' & E & HI & Hq & Hlv & _).
  rewrite Hrun in E. injection E as <-. done.
Qed.

Lemma drain_alien_nodes_inv node remotes : forall h h',
  Inv cpu_to_node h -> drain_alien_nodes h node remotes = Some h' ->
  Inv cpu_to_node h' /\ quiet h h' /\ keeps_live h h'.
Proof.
  induction remotes as [|i rest IH]; intros h h' HInv Hrun; cbn [drain_alien_nodes] in Hrun.
  - injection Hrun as <-. split; [done|]. split; [apply quiet_refl|apply keeps_live_refl].
  - destruct (get_l3 h node) as [l3|]; [|done]. cbn [mbind option_bind] in Hrun.
    destruct (alien l3) as [al|]; [|done]. cbn [mbind option_bind] in Hrun.
    destruct (al !! i) as [slot|]; [|done]. cbn [mbind option_bind] in Hrun.
    destruct slot as [ac|].
    + destruct (__drain_alien_cache h (AcAlien node i) i) as [h1|] eqn:Ed; [|done].
      cbn [mbind option_bind] in Hrun.
      destruct (drain_alien_inv h (AcAlien node i) i h1 HInv eq_refl ltac:(done) Ed)
        as (HI1 & Hq1 & Hlv1).
      destruct (IH h1 h' HI1 Hrun) as (HI & Hq & Hlv).
      eauto using quiet_trans, keeps_live_trans.
    + cbn [mbind option_bind] in Hrun. by apply IH.
Qed.

(** drain_array on the shared array of a node. *)
Lemma drain_array_inv h node force h' :
  Inv cpu_to_node h -> drain_array h (AcShared node) force node = Some h' ->
  Inv cpu_to_node h' /\ quiet h h' /\ keeps_live h h'.
Proof.
  intros HInv Hrun. unfold drain_array in Hrun.
  assert (Hsame : Inv cpu_to_node h /\ quiet h h /\ keeps_live h h).
  { split; [done|]. split; [apply quiet_refl|apply keeps_live_refl]. }
  destruct (get_ac h (AcShared node)) as [ac|] eqn:Eac; [|by injection Hrun as <-].
  destruct (avail ac =? 0); [by injection Hrun as <-|].
  destruct (negb (touched ac =? 0) && (force =? 0)).
  - set (h1 := set_ac h (AcShared node) (set_touched ac 0)).
    assert (h' = h1) as -> by (injection Hrun as Hx; symmetry; exact Hx).
    destruct (Inv_same_view cpu_to_node h h1 HInv) as (HI & Hlv & _).
    + apply (cachep_fields_set_ac h).
    + apply slab_store_set_ac.
    + apply released_set_ac.
    + intros. apply list_at_set_ac.
    + intros loc. destruct (decide (loc = AcShared node)) as [->|Hne].
      * unfold h1. rewrite entries_at_set_ac_eq by (rewrite Eac; eauto).
        by rewrite (entries_at_get_ac _ _ _ Eac).
      * unfold h1. by rewrite entries_at_set_ac_ne.
    + split; [done|]. split; [apply quiet_set_ac|done].
  - destruct (get_l3 h node) as [l3|]; [|done]. cbn [mbind option_bind] in Hrun.
    match type of Hrun with context [entry_prefix ac ?t] => set (tofree := t) in * end.
    destruct (entry_prefix ac tofree) as [objs|] eqn:Ep; [|done].
    apply entry_prefix_inv in Ep as [Hb ->]. cbn [mbind option_bind] in Hrun.
    destruct (free_block h _ node) as [h1|] eqn:Ef; [|done].
    cbn [mbind option_bind] in Hrun.
    destruct (get_ac h1 (AcShared node)) as [ac1|] eqn:Eac1; [|done].
    assert (h' = set_ac h1 (AcShared node)
                   (set_entry ac1 (drop (Z.to_nat tofree) (entry ac1)))) as ->
      by (injection Hrun as Hx; symmetry; exact Hx).
    destruct (free_block_spec (take (Z.to_nat tofree) (entry ac)) h node)
      as (h1' & Ef' & _ & _ & Hac1 & _).
    { apply HInv. }
    { apply NoDup_take_drop_sub. eapply entries_nodup; [apply HInv|].
      by apply entries_at_get_ac. }
    { intros o Ho. apply (entries_held _ _ (proj2 HInv) (AcShared node) (entry ac)).
      - by apply entries_at_get_ac.
      - eapply elem_of_take_drop. by left. }
    rewrite Ef in Ef'. injection Ef' as <-.
    rewrite Hac1, Eac in Eac1. injection Eac1 as <-.
    destruct (free_entries_inv cpu_to_node h (AcShared node) ac
                (take (Z.to_nat tofree) (entry ac)) (drop (Z.to_nat tofree) (entry ac))
                h1 ac HInv Eac ltac:(by rewrite take_drop) Ef)
      as (HI & Hq & Hlv & _).
    done.
Qed.

Lemma length_unlink s l : s ∈ l -> (length (unlink s l) < length l)%nat.
Proof.
  induction l as [|x l IH]; intros Hs; [by apply elem_of_nil in Hs|].
  unfold unlink in *. cbn [List.filter].
  destruct (Nat.eqb_spec x s) as [->|Hne]; cbn [negb length].
  - pose proof (List.filter_length_le (fun x => negb (Nat.eqb x s)) l). lia.
  - apply elem_of_cons in Hs as [->|Hs]; [done|]. apply IH in Hs. lia.
Qed.

Lemma list_at_inv h n w l :
  list_at h n w = Some l -> exists l3, get_l3 h n = Some l3 /\ get_list l3 w = l.
Proof.
  unfold list_at. destruct (get_l3 h n) as [l3|]; [|done]. cbn. intros [= <-]. eauto.
Qed.

(** A slab of the free list is given back to the page allocator. *)
Lemma destroy_free_slab h node l3 slabp fo :
  let l3u := set_lists l3 (unlink slabp (slabs_partial l3)) (unlink slabp (slabs_full l3))
                       (unlink slabp (slabs_free l3)) in
  let h' := slab_destroy (set_l3 (list_del h slabp) node (set_free_objects l3u fo))
                         slabp in
  Inv cpu_to_node h -> get_l3 h node = Some l3 -> slabp ∈ slabs_free l3 ->
  Inv cpu_to_node h' /\ quiet h h' /\ keeps_live h h' /\
  (forall loc, get_ac h' loc = get_ac h loc) /\
  slab_store h' = slab_store h /\
  (forall m v, list_at h' m v = unlink slabp <$> list_at h m v) /\
  (forall m v, (m, v) <> (node, Free) -> list_at h' m v = list_at h m v) /\
  released h' = slabp :: released h.
Proof.
  intros l3u h' [Hcore Hacs] El3 Hin.
  pose proof (num_ok _ _ Hcore) as Hnum.
  assert (Hlk : linked h node Free slabp) by (by eapply linked_intro).
  assert (El3u : get_l3 (list_del h slabp) node = Some l3u).
  { rewrite get_l3_list_del, El3. done. }
  assert (Hl : forall m v, list_at h' m v = unlink slabp <$> list_at h m v).
  { intros m v. change (list_at h' m v) with
      (list_at (set_l3 (list_del h slabp) node (set_free_objects l3u fo)) m v).
    destruct (decide (node = m)) as [<-|Hne].
    - rewrite list_at_set_l3_eq by (rewrite El3u; eauto).
      unfold list_at. rewrite El3. by destruct v.
    - rewrite list_at_set_l3_ne by done. apply list_at_list_del. }
  assert (Hlists : forall m v, list_at h' m v =
     (fun l => if decide (None = Some (m, v))
               then (if false then unlink slabp l ++ [slabp] else slabp :: unlink slabp l)
               else unlink slabp l) <$> list_at h m v).
  { intros m v. rewrite Hl. destruct (list_at h m v); [|done]. cbn.
    case_decide; [done|done]. }
  destruct (relink_lists h h' slabp None false (lists_nodup _ _ Hcore) Hlists)
    as [Hc1 Hc2].
  destruct (slabs_sound _ _ Hcore _ _ _ Hlk) as (sl & chain & Hsl & Hok & _ & Hcls).
  specialize (Hcls ltac:(done)).
  assert (Hcore' : core h' None).
  { eapply (core_relink h h' slabp None None None); eauto.
    - done.
    - intros id Hid. cbn in Hid. apply elem_of_cons in Hid as [->|Hid]; [|by left].
      right. split; [done|]. split; [done|]. by eapply lookup_lt_Some. }
  assert (Hac : forall loc, get_ac h' loc = get_ac h loc).
  { intros loc. change (get_ac h' loc) with
      (get_ac (set_l3 (list_del h slabp) node (set_free_objects l3u fo)) loc).
    rewrite (get_ac_set_l3 _ _ l3u) by done. apply get_ac_list_del. }
  assert (He : forall loc, entries_at h' loc = entries_at h loc).
  { intros. unfold entries_at. by rewrite Hac. }
  assert (Hheld : forall n o, held h n o -> held h' n o).
  { intros n o Hh. destruct (decide (fst o = slabp)) as [E|Hne].
    - exfalso. destruct Hh as (w1 & sl1 & chain1 & _ & Hsl1 & Hok1 & Hidx & Hout).
      rewrite E, Hsl in Hsl1. injection Hsl1 as <-.
      assert (Hz : inuse sl = 0).
      { unfold list_for in Hcls. destruct (Z.eqb_spec (inuse sl) 0); [done|].
        by destruct (inuse sl <? num (cachep h)). }
      apply Hout. destruct Hok1 as [_ _ Hnd Hb Hlen].
      apply (bounded_nodup_full _ (Z.to_nat (num (cachep h)))); [done|done|lia|lia].
    - by eapply (held_relink h h' slabp). }
  split; [split; [done|]|].
  { apply (acs_ok_same_entries cpu_to_node h h' Hacs He).
    intros loc l o Hlo Ho. apply Hheld. by eapply entries_held. }
  split; [by repeat split|].
  split.
  { intros o Ho. apply (live_keep h h' o Ho); [by auto|].
    intros loc l x Hlx Hx. rewrite He in Hlx. eauto. }
  split; [done|]. split; [done|]. split; [done|]. split; [|done].
  intros m v Hne. rewrite Hl. destruct (list_at h m v) as [l|] eqn:Elm; [|done].
  cbn. f_equal. apply unlink_absent. intros Hs. apply Hne.
  destruct (lists_disjoint _ _ Hcore m v node Free slabp) as [-> ->]; [by exists l|done|].
  done.
Qed.

(** drain_freelist: slabs leave the tail of the free list of the node;
    nothing else moves. *)
Lemma drain_freelist_loop_spec node tofree fuel : forall h nr l3,
  Inv cpu_to_node h -> get_l3 h node = Some l3 ->
  (length (slabs_free l3) < fuel)%nat ->
  exists h' nr',
    drain_freelist_loop fuel h node tofree nr = Some (h', nr') /\
    Inv cpu_to_node h' /\ quiet h h' /\ keeps_live h h' /\
    (forall loc, get_ac h' loc = get_ac h loc) /\
    slab_store h' = slab_store h /\
    (forall m v, (m, v) <> (node, Free) -> list_at h' m v = list_at h m v) /\
    (forall n, is_Some (get_l3 h' n) <-> is_Some (get_l3 h n)).
Proof.
  induction fuel as [|fuel IH]; intros h nr l3 HInv El3 Hfuel; [lia|].
  cbn [drain_freelist_loop]. rewrite El3. cbn [mbind option_bind].
  assert (Hstop : exists h' nr',
    Some (h, nr) = Some (h', nr') /\
    Inv cpu_to_node h' /\ quiet h h' /\ keeps_live h h' /\
    (forall loc, get_ac h' loc = get_ac h loc) /\
    slab_store h' = slab_store h /\
    (forall m v, (m, v) <> (node, Free) -> list_at h' m v = list_at h m v) /\
    (forall n, is_Some (get_l3 h' n) <-> is_Some (get_l3 h n))).
  { exists h, nr. split; [done|]. split; [done|]. split; [apply quiet_refl|].
    split; [apply keeps_live_refl|]. done. }
  destruct (nr <? tofree); cbn [andb]; [|done].
  case_bool_decide as Hempty; cbn [negb]; [done|]. clear Hstop.
  destruct (exists_last Hempty) as (rest & slabp & Hsplit).
  assert (Hlast : last (slabs_free l3) = Some slabp) by (rewrite Hsplit; apply last_snoc).
  rewrite Hlast. cbn [mbind option_bind].
  rewrite get_l3_list_del, El3. cbn [mbind option_bind fmap option_fmap option_map].
  assert (Hin : slabp ∈ slabs_free l3).
  { rewrite Hsplit. apply elem_of_app. right. by left. }
  set (l3u := set_lists l3 _ _ _).
  destruct (destroy_free_slab h node l3 slabp
              (wrap (free_objects l3u - num (cachep (list_del h slabp)))) HInv El3 Hin)
    as (HI1 & Hq1 & Hlv1 & Hac1 & Hst1 & Hl1 & Hoth1 & Hr1).
  fold l3u in HI1, Hq1, Hlv1, Hac1, Hst1, Hl1, Hoth1, Hr1.
  set (h1 := slab_destroy _ slabp) in *.
  assert (Hfree1 : list_at h1 node Free = Some (unlink slabp (slabs_free l3))).
  { rewrite Hl1. unfold list_at. rewrite El3. done. }
  destruct (list_at_inv _ _ _ _ Hfree1) as (l31 & El31 & Hget).
  cbn [get_list] in Hget.
  destruct (IH h1 (to_int (nr + 1)) l31 HI1 El31) as
    (h' & nr' & Erun & HI & Hq & Hlv & Hac & Hst & Hoth & Hl3).
  { rewrite Hget. pose proof (length_unlink slabp _ Hin). lia. }
  exists h', nr'. split; [exact Erun|]. split; [done|].
  split; [by eapply quiet_trans|]. split; [by eapply keeps_live_trans|].
  split; [intros; by rewrite Hac|]. split; [congruence|].
  split; [intros; rewrite Hoth by done; by apply Hoth1|].
  intros n. rewrite Hl3. rewrite <- !(list_at_is_Some _ n Partial), Hl1.
  destruct (list_at h n Partial); cbn; split; intros [? ?]; eauto; done.
Qed.

Lemma drain_freelist_spec h node tofree l3 :
  Inv cpu_to_node h -> get_l3 h node = Some l3 ->
  exists h' nr',
    drain_freelist h node tofree = Some (h', nr') /\
    Inv cpu_to_node h' /\ quiet h h' /\ keeps_live h h' /\
    (forall loc, get_ac h' loc = get_ac h loc) /\
    slab_store h' = slab_store h /\
    (forall m v, (m, v) <> (node, Free) -> list_at h' m v = list_at h m v) /\
    (forall n, is_Some (get_l3 h' n) <-> is_Some (get_l3 h n)).
Proof.
  intros HInv El3. unfold drain_freelist. rewrite El3. cbn [mbind option_bind].
  apply (drain_freelist_loop_spec node tofree _ h 0 l3 HInv El3). lia.
Qed.

(** The loop of __cache_shrink over the nodes: the free lists are
    drained, and [ret] counts the nodes that still have a full or a
    partial slab. *)
Lemma shrink_nodes_spec nodes : forall h ret,
  Inv cpu_to_node h ->
  exists h' ret',
    shrink_nodes h nodes ret = Some (h', ret') /\
    Inv cpu_to_node h' /\ quiet h h' /\ keeps_live h h' /\
    (forall loc, get_ac h' loc = get_ac h loc) /\
    slab_store h' = slab_store h /\
    (forall m v, v <> Free -> list_at h' m v = list_at h m v) /\
    (forall n, is_Some (get_l3 h' n) <-> is_Some (get_l3 h n)) /\
    (0 <= ret -> ret + Z.of_nat (length nodes) < 2 ^ 31 ->
     ret <= ret' /\
     (ret' = ret <->
      forall i w s, i ∈ nodes -> w <> Free -> ~ linked h i w s)).
Proof.
  induction nodes as [|i rest IH]; intros h ret HInv; cbn [shrink_nodes].
  { exists h, ret. split; [done|]. split; [done|]. split; [apply quiet_refl|].
    split; [apply keeps_live_refl|]. do 4 (split; [done|]). intros _ _.
    split; [lia|]. split; [|done]. intros _ i w s Hi. by apply elem_of_nil in Hi. }
  destruct (get_l3 h i) as [l3|] eqn:El3.
  2: { destruct (IH h ret HInv) as (h' & ret' & E & HI & Hq & Hlv & Hac & Hst & Hl & Hl3 & Hret).
       exists h', ret'. do 8 (split; [done|]). intros H0 Hb. cbn [length] in Hb.
       destruct (Hret H0 ltac:(lia)) as [Hle Hiff]. split; [done|].
       rewrite Hiff. split.
       - intros Hn j w s Hj Hw. apply elem_of_cons in Hj as [->|Hj]; [|by eapply Hn].
         intros Hlk. destruct (linked_inv _ _ _ _ Hlk) as (? & ? & _). congruence.
       - intros Hn j w s Hj. apply Hn. by right. }
  destruct (drain_freelist_spec h i (to_int (free_objects l3)) l3 HInv El3)
    as (h1 & nr1 & -> & HI1 & Hq1 & Hlv1 & Hac1 & Hst1 & Hl1 & Hl3_1).
  cbn [mbind option_bind].
  destruct (proj2 (Hl3_1 i) ltac:(rewrite El3; eauto)) as [l31 El31].
  rewrite El31. cbn [mbind option_bind].
  set (busy := negb (bool_decide (slabs_full l31 = [])) ||
               negb (bool_decide (slabs_partial l31 = []))).
  destruct (IH h1 (to_int (ret + (if busy then 1 else 0))) HI1)
    as (h' & ret' & E & HI & Hq & Hlv & Hac & Hst & Hl & Hl3 & Hret).
  exists h', ret'. split; [done|]. split; [done|]. split; [by eapply quiet_trans|].
  split; [by eapply keeps_live_trans|]. split; [intros; by rewrite Hac|].
  split; [congruence|].
  split.
  { intros m v Hv. rewrite Hl by done. apply Hl1. congruence. }
  split; [intros n; by rewrite Hl3|].
  intros H0 Hb. cbn [length] in Hb.
  assert (Hbusy : busy = false <-> forall w s, w <> Free -> ~ linked h i w s).
  { assert (Hfull : list_at h i Full = Some (slabs_full l31)).
    { rewrite <- Hl1 by congruence. unfold list_at. by rewrite El31. }
    assert (Hpart : list_at h i Partial = Some (slabs_partial l31)).
    { rewrite <- Hl1 by congruence. unfold list_at. by rewrite El31. }
    unfold busy. split.
    - intros Hb0 w s Hw (l & Hlw & Hs).
      apply orb_false_iff in Hb0 as [Hf%negb_false_iff Hp%negb_false_iff].
      apply bool_decide_eq_true in Hf, Hp.
      destruct w; [| |done].
      + rewrite Hpart, Hp in Hlw. injection Hlw as <-. by apply elem_of_nil in Hs.
      + rewrite Hfull, Hf in Hlw. injection Hlw as <-. by apply elem_of_nil in Hs.
    - intros Hn. apply orb_false_iff.
      split; apply negb_false_iff, bool_decide_eq_true.
      + destruct (slabs_full l31) as [|s ?] eqn:E0; [done|].
        exfalso. apply (Hn Full s); [done|]. exists (s :: l). split; [done|by left].
      + destruct (slabs_partial l31) as [|s ?] eqn:E0; [done|].
        exfalso. apply (Hn Partial s); [done|]. exists (s :: l). split; [done|by left]. }
  assert (Hstep : to_int (ret + (if busy then 1 else 0)) = ret + (if busy then 1 else 0)).
  { apply to_int_small. destruct busy; lia. }
  rewrite Hstep in Hret.
  destruct (Hret ltac:(destruct busy; lia) ltac:(destruct busy; lia)) as [Hle Hiff].
  split; [destruct busy; lia|].
  split.
  - intros Heq. assert (busy = false) as Hbf by (destruct busy; [lia|done]).
    rewrite Hbf in Hiff. rewrite Z.add_0_r in Hiff.
    intros j w s Hj Hw. apply elem_of_cons in Hj as [->|Hj].
    + by apply Hbusy.
    + intros (l & Hlw & Hs). apply (proj1 Hiff Heq j w s Hj Hw).
      exists l. rewrite Hl1 by congruence. done.
  - intros Hn. assert (busy = false) as Hbf.
    { apply Hbusy. intros w s. apply Hn. by left. }
    rewrite Hbf in Hiff. rewrite Z.add_0_r in Hiff. apply Hiff.
    intros j w s Hj Hw (l & Hlw & Hs). apply (Hn j w s ltac:(by right) Hw).
    exists l. rewrite <- Hl1 by congruence. done.
Qed.

Lemma drain_cpu_caches_inv online_cpus online_nodes h h' :
  Inv cpu_to_node h ->
  drain_cpu_caches cpu_to_node online_cpus online_nodes h = Some h' ->
  Inv cpu_to_node h' /\ quiet h h' /\ keeps_live h h'.
Proof.
  intros HInv Hrun. unfold drain_cpu_caches in Hrun.
  set (R := fun h1 h2 => quiet h1 h2 /\ keeps_live h1 h2).
  assert (Hrefl : forall h0, R h0 h0)
    by (intros; split; [apply quiet_refl|apply keeps_live_refl]).
  assert (Htrans : forall h1 h2 h3, R h1 h2 -> R h2 h3 -> R h1 h3).
  { intros h1 h2 h3 [? ?] [? ?]. split; [by eapply quiet_trans|by eapply keeps_live_trans]. }
  destruct (for_each nat (do_drain cpu_to_node) h online_cpus) as [h1|] eqn:E1; [|done].
  cbn [mbind option_bind] in Hrun.
  assert (Inv cpu_to_node h1 /\ R h h1) as [HI1 HR1].
  { eapply (for_each_inv (do_drain cpu_to_node) (Inv cpu_to_node) R online_cpus
              Hrefl Htrans); [|exact HInv|exact E1].
    intros h0 x h0' _ HP E. destruct (do_drain_inv h0 x h0' HP E) as (? & ? & ?).
    by split. }
  match type of Hrun with (?m ≫= _) = _ => destruct m as [h2|] eqn:E2; [|done] end.
  cbn [mbind option_bind] in Hrun.
  assert (Inv cpu_to_node h2 /\ R h1 h2) as [HI2 HR2].
  { match type of E2 with for_each _ ?f _ _ = _ =>
      eapply (for_each_inv f (Inv cpu_to_node) R online_nodes Hrefl Htrans);
        [|exact HI1|exact E2] end.
    intros h0 node h0' _ HP E. cbn beta in E.
    destruct (get_l3 h0 node) as [l3|]; [|injection E as <-; auto].
    destruct (alien l3); [|injection E as <-; auto].
    destruct (drain_alien_nodes_inv node online_nodes h0 h0' HP E) as (? & ? & ?).
    by split. }
  assert (Inv cpu_to_node h' /\ R h2 h') as [HI3 HR3].
  { match type of Hrun with for_each _ ?f _ _ = _ =>
      eapply (for_each_inv f (Inv cpu_to_node) R online_nodes Hrefl Htrans);
        [|exact HI2|exact Hrun] end.
    intros h0 node h0' _ HP E. cbn beta in E.
    destruct (get_l3 h0 node) as [l3|]; [|injection E as <-; auto].
    destruct (drain_array_inv h0 node 1 h0' HP E) as (? & ? & ?). by split. }
  split; [done|]. destruct (Htrans _ _ _ (Htrans _ _ _ HR1 HR2) HR3). done.
Qed.

(** __cache_shrink keeps the allocator well formed, and reports whether
    a full or a partial slab is left on an online node. *)
Lemma cache_shrink_inv online_cpus online_nodes h h' ret :
  Inv cpu_to_node h ->
  __cache_shrink cpu_to_node online_cpus online_nodes h = Some (h', ret) ->
  Inv cpu_to_node h' /\ quiet h h' /\ keeps_live h h' /\
  (Z.of_nat (length online_nodes) < 2 ^ 31 ->
   (ret = 0 \/ ret = 1) /\
   (ret = 0 <-> forall i w s, i ∈ online_nodes -> w <> Free -> ~ linked h' i w s)).
Proof.
  intros HInv Hrun. unfold __cache_shrink in Hrun.
  destruct (drain_cpu_caches _ _ _ h) as [h1|] eqn:E1; [|done].
  cbn [mbind option_bind] in Hrun.
  destruct (drain_cpu_caches_inv _ _ _ _ HInv E1) as (HI1 & Hq1 & Hlv1).
  destruct (shrink_nodes_spec online_nodes h1 0 HI1)
    as (h2 & r2 & E2 & HI2 & Hq2 & Hlv2 & _ & _ & Hl2 & _ & Hret).
  rewrite E2 in Hrun. cbn [mbind option_bind] in Hrun. injection Hrun as <- <-.
  split; [done|]. split; [by eapply quiet_trans|]. split; [by eapply keeps_live_trans|].
  intros Hb. destruct (Hret ltac:(lia) ltac:(lia)) as [Hle Hiff].
  split; [destruct (r2 =? 0); cbn; auto|].
  assert (Hsame : (forall i w s, i ∈ online_nodes -> w <> Free -> ~ linked h1 i w s) <->
                  (forall i w s, i ∈ online_nodes -> w <> Free -> ~ linked h2 i w s)).
  { split; intros Hn i w s Hi Hw (l & Hlw & Hs); apply (Hn i w s Hi Hw); exists l.
    - by rewrite <- Hl2.
    - by rewrite Hl2. }
  rewrite <- Hsame, <- Hiff.
  destruct (Z.eqb_spec r2 0); cbn [negb]; split; intros; lia.
Qed.
End Shrink.

(** ** Reachable states are well formed *)

Section Reachable.
Context `{platform}.
Variable cpu_to_node : nat -> nat.
Variable online_cpus : list nat.
Variable online_nodes : list nat.

Lemma fresh_Inv h : fresh h -> Inv cpu_to_node h.
Proof.
  intros (Hnum & Hlists & Hents & Hrel).
  assert (Hno : forall n w id, ~ linked h n w id).
  { intros n w id (l & Hl & Hid). rewrite (Hlists _ _ _ Hl) in Hid.
    by apply elem_of_nil in Hid. }
  split.
  - constructor.
    + done.
    + intros n w l Hl. rewrite (Hlists _ _ _ Hl). constructor.
    + intros n1 w1 n2 w2 id Hl. by apply Hno in Hl.
    + intros n w id Hl. by apply Hno in Hl.
    + intros id Hid. rewrite Hrel in Hid. by apply elem_of_nil in Hid.
  - constructor.
    + intros loc l Hl. rewrite (Hents _ _ Hl). constructor.
    + intros loc1 loc2 l1 l2 o Hl1 _ Ho. rewrite (Hents _ _ Hl1) in Ho.
      by apply elem_of_nil in Ho.
    + intros loc l o Hl Ho. rewrite (Hents _ _ Hl) in Ho. by apply elem_of_nil in Ho.
Qed.

Lemma step_Inv h h' :
  Inv cpu_to_node h -> step cpu_to_node online_cpus online_nodes h h' ->
  Inv cpu_to_node h' /\ grown h h'.
Proof.
  intros HInv [fuel cpu r h1 E|cpu o h1 Hlive E|node x h1 E|ret h1 E|node h1 E].
  - destruct (cache_alloc_inv cpu_to_node fuel h cpu r h1 HInv E) as (? & ? & _). done.
  - destruct (cache_free_inv cpu_to_node h cpu o h1 HInv Hlive E) as (? & ? & _).
    split; [done|by apply quiet_grown].
  - destruct (cache_grow_inv cpu_to_node h node x h1 HInv E) as (? & ? & _). done.
  - destruct (cache_shrink_inv cpu_to_node online_cpus online_nodes h h1 ret HInv E)
      as (? & ? & _).
    split; [done|by apply quiet_grown].
  - destruct (drain_array_inv cpu_to_node h node 0 h1 HInv E) as (? & ? & _).
    split; [done|by apply quiet_grown].
Qed.

Lemma reachable_Inv h :
  reachable cpu_to_node online_cpus online_nodes h -> Inv cpu_to_node h.
Proof.
  induction 1 as [h Hf|h h' _ IH Hstep].
  - by apply fresh_Inv.
  - by destruct (step_Inv h h' IH Hstep).
Qed.

(** What the lists say about a linked slab. *)
Lemma Inv_sorted h node w id :
  Inv cpu_to_node h -> linked h node w id ->
  exists sl,
    slab_store h !! id = Some sl /\
    0 <= inuse sl <= num (cachep h) /\
    nodeid sl = node /\
    w = list_for (num (cachep h)) (inuse sl) /\
    (forall node' w', linked h node' w' id -> node' = node /\ w' = w).
Proof.
  intros [Hcore _] Hlk.
  destruct (slabs_sound _ _ Hcore _ _ _ Hlk) as (sl & chain & Hsl & Hok & Hnode & Hcls).
  pose proof (num_ok _ _ Hcore) as Hnum.
  exists sl. split; [done|].
  split; [eapply slab_ok_inuse; [lia|done]|]. split; [done|].
  split; [symmetry; by apply Hcls|].
  intros node' w' Hlk'. by destruct (lists_disjoint _ _ Hcore _ _ _ _ _ Hlk Hlk').
Qed.
End Reachable.

(** ** Runs of well-behaved callers *)

Section Runs.
Context `{platform}.
Variable cpu_to_node : nat -> nat.
Variable online_cpus : list nat.
Variable online_nodes : list nat.

Lemma obj_eqb_spec a b : obj_eqb a b = true <-> a = b.
Proof.
  unfold obj_eqb. destruct a as [s i], b as [s' i']. cbn [fst snd].
  rewrite andb_true_iff, Nat.eqb_eq, Z.eqb_eq. split; [intros [-> ->]|intros [= -> ->]]; done.
Qed.

Lemma do_call_sound c h owned h' owned' :
  reachable cpu_to_node online_cpus online_nodes h ->
  (forall o, o ∈ owned -> live h o) ->
  do_call cpu_to_node online_cpus online_nodes c (h, owned) = Some (h', owned') ->
  reachable cpu_to_node online_cpus online_nodes h' /\
  (forall o, o ∈ owned' -> live h' o).
Proof.
  intros Hreach Hown Hrun.
  pose proof (reachable_Inv _ _ _ _ Hreach) as HInv.
  destruct c as [cpu|cpu objp|node| |node]; cbn [do_call] in Hrun.
  - destruct (____cache_alloc cpu_to_node 2 h cpu) as [[r h1]|] eqn:E; [|done].
    cbn [mbind option_bind fst snd] in Hrun. injection Hrun as <- <-.
    destruct (cache_alloc_inv cpu_to_node 2 h cpu r h1 HInv E) as (_ & _ & Hlv & _ & Hnew).
    split; [eapply reach_step; [done|by eapply step_alloc]|].
    intros o Ho. destruct r as [x|].
    + apply elem_of_cons in Ho as [->|Ho]; [by apply Hnew|]. by apply Hlv, Hown.
    + by apply Hlv, Hown.
  - destruct (existsb (obj_eqb objp) owned) eqn:Ex; [|done].
    apply existsb_exists in Ex as (x & Hx & Heq). apply obj_eqb_spec in Heq. subst x.
    apply list_elem_of_In in Hx.
    destruct (__cache_free cpu_to_node h cpu objp) as [h1|] eqn:E; [|done].
    cbn [mbind option_bind] in Hrun. injection Hrun as <- <-.
    destruct (cache_free_inv cpu_to_node h cpu objp h1 HInv (Hown _ Hx) E)
      as (_ & _ & Hkeep).
    split; [eapply reach_step; [done|eapply step_free; eauto]|].
    intros o Ho. apply list_elem_of_In, filter_In in Ho as [Ho Hne].
    apply list_elem_of_In in Ho. apply Hkeep; [|by apply Hown].
    intros ->. apply negb_true_iff in Hne.
    assert (obj_eqb objp objp = true) by (by apply obj_eqb_spec). congruence.
  - destruct (cache_grow h node false) as [[x h1]|] eqn:E; [|done].
    cbn [mbind option_bind fst snd] in Hrun. injection Hrun as <- <-.
    destruct (cache_grow_inv cpu_to_node h node x h1 HInv E) as (_ & _ & Hlv & _).
    split; [eapply reach_step; [done|by eapply step_grow]|].
    intros o Ho. by apply Hlv, Hown.
  - destruct (__cache_shrink cpu_to_node online_cpus online_nodes h) as [[h1 ret]|] eqn:E;
      [|done].
    cbn [mbind option_bind fst snd] in Hrun. injection Hrun as <- <-.
    destruct (cache_shrink_inv cpu_to_node online_cpus online_nodes h h1 ret HInv E)
      as (_ & _ & Hlv & _).
    split; [eapply reach_step; [done|by eapply step_shrink]|].
    intros o Ho. by apply Hlv, Hown.
  - destruct (drain_array h (AcShared node) 0 node) as [h1|] eqn:E; [|done].
    cbn [mbind option_bind] in Hrun. injection Hrun as <- <-.
    destruct (drain_array_inv cpu_to_node h node 0 h1 HInv E) as (_ & _ & Hlv).
    split; [eapply reach_step; [done|by eapply step_reap]|].
    intros o Ho. by apply Hlv, Hown.
Qed.

(** Whatever well-behaved callers do, the state stays reachable and the
    objects they own stay live. *)
Lemma run_sound cs : forall h owned h' owned',
  reachable cpu_to_node online_cpus online_nodes h ->
  (forall o, o ∈ owned -> live h o) ->
  run cpu_to_node online_cpus online_nodes cs (h, owned) = Some (h', owned') ->
  reachable cpu_to_node online_cpus online_nodes h' /\
  (forall o, o ∈ owned' -> live h' o).
Proof.
  induction cs as [|c cs IH]; intros h owned h' owned' Hreach Hown Hrun;
    cbn [run] in Hrun.
  - by injection Hrun as <- <-.
  - destruct (do_call _ _ _ c (h, owned)) as [[h1 owned1]|] eqn:E; [|done].
    cbn [mbind option_bind] in Hrun.
    destruct (do_call_sound c h owned h1 owned1 Hreach Hown E) as [Hr1 Ho1].
    by eapply IH.
Qed.
End Runs.

Lemma demo_fresh : fresh demo_heap.
Proof.
  split; [vm_compute; split; discriminate|].
  split; [|split; [|reflexivity]].
  - intros [|[|n]] w l; destruct w; vm_compute; intros [= <-]; reflexivity.
  - intros [[|[|n]]|[|[|n]]|[|[|n]] [|[|m]]] l; vm_compute; intros [= <-]; reflexivity.
Qed.

Lemma demo_run_sound cs h owned :
  demo_run cs = Some (h, owned) ->
  @reachable x86_32 node_of_cpu [0%nat; 1%nat] [0%nat; 1%nat] h /\
  (forall o, o ∈ owned -> live h o).
Proof.
  apply (@run_sound x86_32 node_of_cpu [0%nat; 1%nat] [0%nat; 1%nat] cs demo_heap []).
  - apply reach_fresh, demo_fresh.
  - intros o Ho. by apply elem_of_nil in Ho.
Qed.

(** ** The allocator: the statements of the specification *)

Section AllocatorFacts.
Context `{platform}.
Variable cpu_to_node : nat -> nat.
Variable online_cpus : list nat.
Variable online_nodes : list nat.

(** X1 (cf. C1): in every reachable state a slab that is linked has
    [0 <= inuse <= num], belongs to the node whose list holds it, sits on
    the list that [inuse] alone determines (free for 0, full for [num],
    partial in between), occurs there once, and is on no other list of any
    node.  Reachable states are closed under allocation with its refill
    and growth, free with its flush, growth, shrinking and reaping. *)
Theorem slab_lists_by_inuse h node w id :
  reachable cpu_to_node online_cpus online_nodes h ->
  linked h node w id ->
  exists sl l,
    slab_store h !! id = Some sl /\
    0 <= inuse sl <= num (cachep h) /\
    nodeid sl = node /\
    w = list_for (num (cachep h)) (inuse sl) /\
    (inuse sl = 0 -> w = Free) /\
    (inuse sl = num (cachep h) -> w = Full) /\
    (0 < inuse sl < num (cachep h) -> w = Partial) /\
    list_at h node w = Some l /\ NoDup l /\ id ∈ l /\
    (forall node' w', linked h node' w' id -> node' = node /\ w' = w).
Proof.
  intros Hreach Hlk.
  pose proof (reachable_Inv _ _ _ _ Hreach) as HInv.
  destruct (Inv_sorted cpu_to_node h node w id HInv Hlk) as (sl & Hsl & Hin & Hnode & Hw & Hone).
  pose proof (num_ok _ _ (proj1 HInv)) as Hnum.
  destruct Hlk as (l & Hl & Hid).
  exists sl, l. split; [done|]. split; [done|]. split; [done|]. split; [done|].
  split.
  { intros Hz. rewrite Hw. unfold list_for. by rewrite Hz. }
  split.
  { intros Hf. rewrite Hw. unfold list_for. rewrite Hf.
    destruct (Z.eqb_spec (num (cachep h)) 0); [lia|]. by rewrite Z.ltb_irrefl. }
  split.
  { intros Hp. rewrite Hw. unfold list_for.
    destruct (Z.eqb_spec (inuse sl) 0); [lia|].
    destruct (Z.ltb_spec (inuse sl) (num (cachep h))); [done|lia]. }
  split; [done|]. split; [by eapply lists_nodup; [apply HInv|]|]. done.
Qed.

(** cache_flusharray returns whenever the batch fits the front-end and
    the shared array is not over its limit. *)
Lemma cache_flusharray_total h cpu ac l3 :
  Inv cpu_to_node h -> get_ac h (AcCpu cpu) = Some ac ->
  get_l3 h (cpu_to_node cpu) = Some l3 ->
  0 <= to_int (batchcount ac) <= avail ac ->
  (forall sh, shared l3 = Some sh -> 0 <= to_int (u32 (limit sh - avail sh))) ->
  is_Some (cache_flusharray cpu_to_node h cpu).
Proof.
  intros HInv Eac El3 Hb Hsh. unfold cache_flusharray. rewrite Eac.
  cbn [mbind option_bind]. rewrite El3. cbn [mbind option_bind].
  set (batch := to_int (batchcount ac)) in *.
  assert (Hvia : forall r,
    (objs ← entry_prefix ac batch;
     h' ← free_block h objs (cpu_to_node cpu); Some (h', batch)) = r ->
    is_Some (r ≫= fun '(h', batchcount) =>
               ac' ← get_ac h' (AcCpu cpu);
               Some (set_ac h' (AcCpu cpu)
                       (set_entry ac' (drop (Z.to_nat batchcount) (entry ac')))))).
  { intros r <-. rewrite entry_prefix_ok by done. cbn [mbind option_bind].
    destruct (free_block_spec (take (Z.to_nat batch) (entry ac)) h (cpu_to_node cpu))
      as (h1 & -> & _ & _ & Hac1 & _).
    - apply HInv.
    - apply NoDup_take_drop_sub. eapply entries_nodup; [apply HInv|].
      by apply entries_at_get_ac.
    - intros o Ho. apply (entries_held _ _ (proj2 HInv) (AcCpu cpu) (entry ac)).
      + by apply entries_at_get_ac.
      + eapply elem_of_take_drop. by left.
    - cbn [mbind option_bind]. rewrite Hac1, Eac. cbn [mbind option_bind]. eauto. }
  destruct (shared l3) as [sh|] eqn:Esh; [|by apply Hvia].
  specialize (Hsh sh eq_refl).
  destruct (Z.eqb_spec (to_int (u32 (limit sh - avail sh))) 0) as [Hz|Hnz]; cbn [negb];
    [by apply Hvia|].
  set (max := to_int (u32 (limit sh - avail sh))) in *.
  rewrite entry_prefix_ok by (destruct (Z.gtb_spec batch max); lia).
  cbn [mbind option_bind].
  rewrite get_ac_set_ac_ne, Eac by done. cbn [mbind option_bind]. eauto.
Qed.

(** X3 (cf. C3): a flush takes [k] entries off the front of
    the front-end.  When the node has a shared array with room for [max]
    more entries, [k] is the smaller of the batch and [max], those entries
    go to the shared array and no slab is touched.  Otherwise [k] is the
    batch and each of those entries goes back into its slab, the state
    staying well formed: every slab is on the list its count calls for. *)
Theorem flush_front_end h cpu ac l3 :
  let node := cpu_to_node cpu in
  let batch := to_int (batchcount ac) in
  Inv cpu_to_node h -> get_ac h (AcCpu cpu) = Some ac ->
  get_l3 h node = Some l3 ->
  0 <= batch <= avail ac ->
  (forall sh, shared l3 = Some sh -> 0 <= to_int (u32 (limit sh - avail sh))) ->
  exists h' k,
    cache_flusharray cpu_to_node h cpu = Some h' /\
    Inv cpu_to_node h' /\
    entries_at h' (AcCpu cpu) = Some (drop (Z.to_nat k) (entry ac)) /\
    let to_slabs :=
      k = batch /\
      (forall o, o ∈ take (Z.to_nat k) (entry ac) -> in_slab h' o) /\
      entries_at h' (AcShared node) = entries_at h (AcShared node) in
    match shared l3 with
    | Some sh =>
        let max := to_int (u32 (limit sh - avail sh)) in
        if max =? 0 then to_slabs
        else
          k = Z.min batch max /\
          entries_at h' (AcShared node) =
            Some (entry sh ++ take (Z.to_nat k) (entry ac)) /\
          slab_store h' = slab_store h /\
          (forall n w, list_at h' n w = list_at h n w)
    | None => to_slabs
    end.
Proof.
  intros node batch HInv Eac El3 Hb Hsh.
  destruct (cache_flusharray_total h cpu ac l3 HInv Eac El3 Hb Hsh) as [h' Erun].
  destruct (cache_flusharray_inv cpu_to_node h cpu h' HInv Erun)
    as (HI & _ & _ & ac0 & l30 & k & Hpost).
  cbn zeta in Hpost. fold node in Hpost.
  destruct Hpost as (Eac0 & El30 & Hk & Hent & _ & Hcase).
  rewrite Eac in Eac0. injection Eac0 as <-.
  rewrite El3 in El30. injection El30 as <-.
  exists h', k. split; [done|]. split; [done|]. split; [done|]. cbn zeta.
  destruct Hcase as [(sh & Esh & Hmax & -> & Hshared & Hst & Hl)|
                     (Hno & -> & Hin & Hshared & _)].
  - rewrite Esh. destruct (Z.eqb_spec (to_int (u32 (limit sh - avail sh))) 0); [done|].
    fold batch. split; [|done].
    destruct (Z.gtb_spec batch (to_int (u32 (limit sh - avail sh)))); lia.
  - destruct Hno as [->|(sh & -> & ->)]; done.
Qed.

(** X5 (cf. C9): a free on a CPU whose node is not the node of the
    object's slab.
    The object ends on the alien array that the CPU's node keeps for the
    owning node, after that array was emptied towards the owning node if
    it was full; or, when there is no such array, in its slab on the
    owning node.  No front-end changes, and neither the slab lists nor the
    shared array of any other node change. *)
Theorem remote_free_goes_home h cpu o sl l3 :
  let node := cpu_to_node cpu in
  Inv cpu_to_node h -> live h o ->
  slab_store h !! fst o = Some sl -> nodeid sl <> node ->
  get_l3 h node = Some l3 ->
  (forall al, alien l3 = Some al -> is_Some (al !! nodeid sl)) ->
  exists h',
    __cache_free cpu_to_node h cpu o = Some h' /\
    Inv cpu_to_node h' /\
    (forall cpu', entries_at h' (AcCpu cpu') = entries_at h (AcCpu cpu')) /\
    (forall n w, n <> nodeid sl -> list_at h' n w = list_at h n w) /\
    (forall n, n <> nodeid sl ->
       entries_at h' (AcShared n) = entries_at h (AcShared n)) /\
    match get_ac h (AcAlien node (nodeid sl)) with
    | Some ac =>
        entries_at h' (AcAlien node (nodeid sl)) =
          Some ((if avail ac =? limit ac then [] else entry ac) ++ [o]) /\
        (avail ac = limit ac ->
         forall o', o' ∈ entry ac ->
           in_slab h' o' \/
           exists l, entries_at h' (AcShared (nodeid sl)) = Some l /\ o' ∈ l) /\
        (avail ac <> limit ac ->
         slab_store h' = slab_store h /\
         forall n w, list_at h' n w = list_at h n w)
    | None =>
        in_slab h' o /\ forall loc, entries_at h' loc = entries_at h loc
    end.
Proof.
  intros node HInv Hlive Hsl Hne El3 Hal.
  destruct (cache_free_alien_spec cpu_to_node h cpu o sl l3 HInv Hlive Hsl Hne El3 Hal)
    as (h' & Ea & HI & _ & _ & Hcpu & Hl & Hsh & Hcase).
  exists h'. unfold __cache_free. rewrite Ea. cbn [mbind option_bind negb Z.eqb].
  split; [done|]. split; [done|]. split; [done|]. split; [done|]. split; [done|].
  exact Hcase.
Qed.

Lemma steps_grown h h' :
  Inv cpu_to_node h -> steps cpu_to_node online_cpus online_nodes h h' ->
  Inv cpu_to_node h' /\ grown h h'.
Proof.
  intros HInv Hs. induction Hs as [h|h h1 h2 Hstep _ IH].
  - split; [done|apply grown_refl].
  - destruct (step_Inv _ _ _ _ _ HInv Hstep) as [HI1 Hg1].
    destruct (IH HI1) as [HI2 Hg2]. split; [done|by eapply grown_trans].
Qed.

(** X4 (cf. C8): the constructor runs when a slab is grown, once on each
    slot of the new slab and in slot order; an allocation runs it on
    nothing but
    the slots of a slab it had to grow, a free runs it on nothing.  So
    whatever the allocator does, an object keeps its content and is not
    constructed again for as long as its slab has not been destroyed.
    (The pages of a destroyed slab may come back under a new slab, whose
    slots are then constructed anew.) *)
Theorem ctor_at_growth_only h :
  Inv cpu_to_node h ->
  (forall nodeid l3,
     get_l3 h nodeid = Some l3 ->
     exists x h',
       cache_grow h nodeid false = Some (x, h') /\
       let slabp := length (slab_store h) in
       let slots := map (fun j => index_to_obj slabp (Z.of_nat j))
                        (seq 0 (Z.to_nat (num (cachep h)))) in
       ((x = 0 /\ ctor_calls h' = ctor_calls h /\ obj_mem h' = obj_mem h) \/
        (x = 1 /\ NoDup slots /\
         ctor_calls h' =
           ctor_calls h ++ match ctor (cachep h) with Some _ => slots | None => [] end /\
         (forall f o, ctor (cachep h) = Some f -> o ∈ slots ->
            obj_mem h' o = f (obj_mem h o)) /\
         (forall o, fst o <> slabp -> obj_mem h' o = obj_mem h o)))) /\
  (forall fuel cpu r h',
     ____cache_alloc cpu_to_node fuel h cpu = Some (r, h') -> grown h h') /\
  (forall cpu o h',
     live h o -> __cache_free cpu_to_node h cpu o = Some h' -> quiet h h') /\
  (forall h' o,
     steps cpu_to_node online_cpus online_nodes h h' ->
     (fst o < length (slab_store h))%nat ->
     fst o ∉ released h' ->
     obj_mem h' o = obj_mem h o /\
     exists extra, ctor_calls h' = ctor_calls h ++ extra /\ o ∉ extra).
Proof.
  intros HInv. split; [|split; [|split]].
  - intros nodeid l3 El3.
    destruct (cache_grow_spec cpu_to_node h nodeid l3 HInv El3)
      as (x & h' & Eg & _ & _ & _ & _ & _ & _ & _ & Hx).
    exists x, h'. split; [done|]. cbn zeta.
    destruct Hx as [(-> & _ & _ & Hc & Hm)|(-> & sl & _ & _ & _ & _ & _ & Hc & Hm & Hf)].
    + by left.
    + right. split; [done|].
      assert (Hinj : forall i j : nat,
                index_to_obj (length (slab_store h)) (Z.of_nat i) =
                index_to_obj (length (slab_store h)) (Z.of_nat j) -> i = j).
      { intros i j [= E]. lia. }
      split.
      { apply NoDup_fmap_2; [|apply NoDup_seq]. intros i j. apply Hinj. }
      split; [done|]. split.
      * intros f o Hfo Ho. apply list_elem_of_fmap in Ho as (j & -> & Hj).
        apply elem_of_seq in Hj. apply Hf; [done|lia].
      * done.
  - intros fuel cpu r h' E.
    by destruct (cache_alloc_inv cpu_to_node fuel h cpu r h' HInv E) as (_ & ? & _).
  - intros cpu o h' Hlive E.
    by destruct (cache_free_inv cpu_to_node h cpu o h' HInv Hlive E) as (_ & ? & _).
  - intros h' o Hs Ho _.
    destruct (steps_grown h h' HInv Hs) as [_ (_ & _ & _ & Hm & extra & Hc & Hx)].
    split; [by apply Hm|]. exists extra. split; [done|].
    intros Hin. apply Hx in Hin. lia.
Qed.

Lemma entries_shared h node l3 :
  get_l3 h node = Some l3 -> entries_at h (AcShared node) = entry <$> shared l3.
Proof.
  intros E. unfold entries_at. cbn [get_ac]. rewrite E. cbn [mbind option_bind].
  by destruct (shared l3).
Qed.

Lemma first_slab_None h node l3 :
  get_l3 h node = Some l3 -> first_slab h node = None ->
  slabs_partial l3 = [] /\ slabs_free l3 = [].
Proof.
  unfold first_slab, list_at. intros ->. cbn [mbind option_bind get_list].
  destruct (slabs_partial l3); [|done]. by destruct (slabs_free l3).
Qed.

(** X2 (cf. C2): a refill of the empty front-end of a CPU.  [batch] is the
    batch
    size in force.
    - When the node has a shared array that is not empty, the last [nr]
      entries of it move to the front-end, [nr] being at most [batch]; no
      slab list is walked, and the last of them is handed out.
    - Otherwise the partial list and then the free list of the node are
      walked, starting from the head of the partial list, or of the free
      list when the partial list is empty: at most [batch] objects come out
      of the slabs, the walk stopping short of [batch] only when both
      lists are empty; the slabs visited end on the list their count calls
      for, and the last object taken is handed out.
    - When both lists are empty, one slab is grown.  If that fails the
      refill returns no object; if it succeeds the refill starts over and
      hands out an object. *)
Theorem refill_sources fuel h cpu ac l3 :
  let node := cpu_to_node cpu in
  let batch0 := to_int (batchcount ac) in
  let batch := if (touched ac =? 0) && (batch0 >? BATCHREFILL_LIMIT)
               then BATCHREFILL_LIMIT else batch0 in
  let refill := cache_alloc_refill cpu_to_node (S (S fuel)) h cpu in
  Inv cpu_to_node h -> get_ac h (AcCpu cpu) = Some ac -> entry ac = [] ->
  get_l3 h node = Some l3 ->
  0 < batch -> 0 < limit ac < 2 ^ 31 ->
  (forall sh, shared l3 = Some sh -> avail sh < 2 ^ 31) ->
  match shared l3 ≫= (fun sh => if bool_decide (entry sh = []) then None else Some sh) with
  | Some sh =>
      let nr := Z.min (Z.min (avail sh) batch) (limit ac) in
      let k := (length (entry sh) - Z.to_nat nr)%nat in
      exists o rest h',
        refill = Some (Some o, h') /\ Inv cpu_to_node h' /\
        1 <= nr <= batch /\
        drop k (entry sh) = rest ++ [o] /\
        entries_at h' (AcCpu cpu) = Some rest /\
        entries_at h' (AcShared node) = Some (take k (entry sh)) /\
        slab_store h' = slab_store h /\
        (forall m v, list_at h' m v = list_at h m v)
  | None =>
      match first_slab h node with
      | Some s =>
          exists o rest h',
            refill = Some (Some o, h') /\ Inv cpu_to_node h' /\ quiet h h' /\
            Z.of_nat (length (rest ++ [o])) <= batch /\
            (forall x, x ∈ rest ++ [o] -> in_slab h x) /\
            (exists x tl, rest ++ [o] = x :: tl /\ fst x = s) /\
            entries_at h' (AcCpu cpu) = Some rest /\
            (Z.of_nat (length (rest ++ [o])) < batch -> first_slab h' node = None) /\
            entries_at h' (AcShared node) = entries_at h (AcShared node)
      | None =>
          exists h1 x h2,
            quiet h h1 /\
            cache_grow h1 node false = Some (x, h2) /\
            ((x = 0 /\ refill = Some (None, h2)) \/
             (x = 1 /\
              exists o h',
                refill = Some (Some o, h') /\ Inv cpu_to_node h' /\
                length (slab_store h') = S (length (slab_store h)) /\
                in_slab h2 o))
      end
  end.
Proof.
  intros node batch0 batch refill HInv Eac Hempty El3 Hbatch Hlimit Hsh.
  assert (Hb31 : batch < 2 ^ 31).
  { unfold batch. pose proof (to_int_range (batchcount ac)).
    destruct (_ && _); [by cbv|]. unfold batch0. lia. }
  assert (Havail : avail ac = 0) by (by apply avail_zero).
  (* what the shared array yields *)
  assert (Hnr : forall sh,
    to_int (Z.min (Z.min (avail sh) (u32 batch)) (u32 (limit ac - avail ac))) =
    if bool_decide (entry sh = []) then 0
    else Z.min (Z.min (avail sh) batch) (limit ac)).
  { intros sh. rewrite Havail, Z.sub_0_r, !u32_small by lia.
    case_bool_decide as Hsh0.
    - apply avail_zero in Hsh0. rewrite Hsh0. rewrite to_int_small; lia.
    - rewrite to_int_small; [done|]. unfold avail. lia. }
  destruct (cache_alloc_refill_step cpu_to_node (S fuel) h cpu ac l3 HInv Eac Hempty El3)
    as (h1 & ac1 & HI1 & Hq1 & Hlv1 & Hr1 & Eac1 & Hl31 & Hoth1 & Hl1 & Hpath & Hdone).
  cbn zeta in Hpath. fold node batch0 in Hpath. fold batch in Hpath.
  fold node in Hdone. fold refill in Hdone.
  destruct (shared l3 ≫= _) as [sh|] eqn:Eshared.
  - (* from the shared array *)
    destruct (shared l3) as [sh'|] eqn:Esh; [|done]. cbn [mbind option_bind] in Eshared.
    case_bool_decide as Hne; [done|]. injection Eshared as ->.
    specialize (Hnr sh). rewrite bool_decide_eq_false_2 in Hnr by done.
    specialize (Hsh sh eq_refl).
    assert (Hav : 1 <= avail sh).
    { unfold avail. destruct (entry sh); [done|]. cbn [length]. lia. }
    cbn zeta.
    set (nr := Z.min (Z.min (avail sh) batch) (limit ac)) in *.
    destruct Hpath as [(sh0 & Esh0 & Hnz & Hent & Hshared & Hst & Hl)|
                       ([?|(sh0 & Esh0 & Hz)] & _)]; [|done|].
    2: { injection Esh0 as <-. rewrite Hnr in Hz. unfold nr in Hz. lia. }
    injection Esh0 as <-. rewrite Hnr in Hent, Hshared.
    assert (Hne1 : entry ac1 <> []).
    { rewrite Hent. intros E. apply (f_equal length) in E. rewrite length_drop in E.
      cbn [length] in E. unfold avail in *. lia. }
    destruct Hdone as [[_ Erun]|[E _]]; [|done].
    destruct (ac_take_spec cpu_to_node h1 cpu ac1 HI1 Eac1 Hne1)
      as (o & rest & h' & Et & Hsplit & HI & _ & _ & _ & Hent' & Hoth' & Hst' & _ & Hl').
    exists o, rest, h'. split; [congruence|]. split; [done|].
    split; [unfold nr; lia|]. split; [congruence|]. split; [done|].
    split; [rewrite Hoth' by done; done|]. split; [congruence|].
    intros. by rewrite Hl', Hl.
  - (* nothing in the shared array *)
    assert (Hnone : shared l3 = None \/
              exists sh, shared l3 = Some sh /\ entry sh = []).
    { destruct (shared l3) as [sh|]; [|by left]. cbn [mbind option_bind] in Eshared.
      case_bool_decide; [|done]. right. eauto. }
    assert (Hlists : (forall o, o ∈ entry ac1 -> in_slab h o) /\
              Z.of_nat (length (entry ac1)) <= Z.max batch 0 /\
              entries_at h1 (AcShared node) = entries_at h (AcShared node) /\
              (0 < batch -> forall s, first_slab h node = Some s ->
                 exists o rest, entry ac1 = o :: rest /\ fst o = s) /\
              (Z.of_nat (length (entry ac1)) < batch -> first_slab h1 node = None) /\
              (first_slab h node = None -> ac1 = ac)).
    { destruct Hpath as [(sh0 & Esh0 & Hnz & _)|(_ & Hp)]; [|done].
      exfalso. destruct Hnone as [E|(sh & E & Hsh0)]; [congruence|].
      rewrite E in Esh0. injection Esh0 as <-. apply Hnz. rewrite Hnr.
      by rewrite bool_decide_eq_true_2. }
    destruct Hlists as (Hin & Hlen & Hshared & Hfirst & Hlast & Hsame).
    destruct (first_slab h node) as [s|] eqn:Efirst.
    + destruct (Hfirst Hbatch s eq_refl) as (x & tl & Hxt & Hx).
      destruct Hdone as [[Hne1 Erun]|[E _]]; [|by rewrite E in Hxt].
      destruct (ac_take_spec cpu_to_node h1 cpu ac1 HI1 Eac1 Hne1)
        as (o & rest & h' & Et & Hsplit & HI & Hq & _ & _ & Hent' & Hoth' & Hst' & _ & Hl').
      exists o, rest, h'. rewrite <- Hsplit.
      split; [congruence|]. split; [done|]. split; [by eapply quiet_trans|].
      split; [lia|]. split; [done|]. split; [eauto|]. split; [done|].
      split.
      { intros Hlt. unfold first_slab. rewrite !Hl'. by apply Hlast. }
      rewrite Hoth' by done. done.
    + (* must grow *)
      specialize (Hsame eq_refl). subst ac1.
      destruct Hdone as [[Hne1 _]|[_ (x & h2 & Eg & Hx)]]; [done|].
      exists h1, x, h2. split; [done|]. split; [done|].
      destruct Hx as [[-> Erun]|[-> Erun]]; [by left|right]. split; [done|].
      destruct Hl31 as [l31 El31]. fold node in El31.
      destruct (cache_grow_spec cpu_to_node h1 node l31 HI1 El31)
        as (x' & h2' & Eg' & HI2 & _ & _ & _ & _ & Hac2 & _ & Hcase).
      rewrite Eg in Eg'. injection Eg' as <- <-.
      destruct Hcase as [(? & _)|(_ & sl & Hst2 & _ & _ & _ & Hl2 & _)]; [done|].
      cbn zeta in Hl2.
      assert (Hfirst1 : first_slab h1 node = None).
      { apply Hlast. rewrite Hempty. cbn [length]. lia. }
      destruct (first_slab_None h1 node l31 El31 Hfirst1) as [Hp1 Hf1].
      assert (Hfirst2 : first_slab h2 node = Some (length (slab_store h1))).
      { unfold first_slab. rewrite !Hl2. unfold list_at. rewrite El31.
        cbn [mbind option_bind fmap option_fmap option_map get_list].
        rewrite Hp1, Hf1. case_decide; [done|]. case_decide; [|done]. done. }
      assert (Hl32 : is_Some (get_l3 h2 node)).
      { apply (list_at_is_Some h2 node Free). rewrite Hl2. unfold list_at.
        rewrite El31. cbn. eauto. }
      destruct Hl32 as [l32 El32].
      assert (Eac2 : get_ac h2 (AcCpu cpu) = Some ac) by (by rewrite Hac2).
      assert (Hnone2 : shared l32 = None \/
                exists sh, shared l32 = Some sh /\ entry sh = []).
      { assert (E : entry <$> shared l32 = entry <$> shared l3).
        { rewrite <- (entries_shared h2 node l32 El32), <- (entries_shared h node l3 El3).
          unfold entries_at at 1. rewrite Hac2. fold (entries_at h1 (AcShared node)).
          done. }
        destruct (shared l32) as [sh2|]; [|by left]. right. exists sh2. split; [done|].
        destruct Hnone as [Hn|(sh & Hs & Hsh0)]; rewrite ?Hn, ?Hs in E; cbn in E;
          [done|]. injection E as E. congruence. }
      destruct (cache_alloc_refill_step cpu_to_node fuel h2 cpu ac l32 HI2 Eac2 Hempty El32)
        as (h3 & ac3 & HI3 & Hq3 & _ & _ & Eac3 & _ & _ & _ & Hpath3 & Hdone3).
      cbn zeta in Hpath3. fold node batch0 in Hpath3. fold batch in Hpath3.
      fold node in Hdone3.
      assert (Hlists3 : (forall o, o ∈ entry ac3 -> in_slab h2 o) /\
                exists o rest, entry ac3 = o :: rest).
      { destruct Hpath3 as [(sh0 & Esh0 & Hnz & _)|(_ & Hin3 & _ & _ & Hfirst3 & _)].
        - exfalso. destruct Hnone2 as [E|(sh & E & Hsh0)]; [congruence|].
          rewrite E in Esh0. injection Esh0 as <-. apply Hnz. rewrite Hnr.
          by rewrite bool_decide_eq_true_2.
        - split; [done|]. destruct (Hfirst3 Hbatch _ Hfirst2) as (o & rest & E & _).
          eauto. }
      destruct Hlists3 as (Hin3 & o3 & rest3 & Hent3).
      destruct Hdone3 as [[Hne3 Erun3]|[E _]]; [|by rewrite E in Hent3].
      destruct (ac_take_spec cpu_to_node h3 cpu ac3 HI3 Eac3 Hne3)
        as (o & rest & h' & Et & Hsplit & HI & Hq & _ & _ & _ & _ & Hst' & _).
      exists o, h'. split; [congruence|]. split; [done|].
      split.
      { rewrite Hst'. destruct Hq3 as (_ & _ & _ & _ & -> & _).
        rewrite Hst2, length_app. cbn [length].
        destruct Hq1 as (_ & _ & _ & _ & -> & _). lia. }
      apply Hin3. rewrite Hsplit. apply elem_of_app. right. by left.
Qed.

End AllocatorFacts.

(** ** The arrays and list-sets stay in place *)

Section Wiring.
Context `{platform}.
Variable cpu_to_node : nat -> nat.
Variable online_cpus : list nat.
Variable online_nodes : list nat.

Lemma wiring_cachep h h' : cachep h' = cachep h -> wiring h' = wiring h.
Proof. intros E. unfold wiring. by rewrite E. Qed.

Lemma map_insert_same {A B} (f : A -> B) (l : list A) i x y :
  l !! i = Some x -> f y = f x -> List.map f (<[i := y]> l) = List.map f l.
Proof.
  revert i. induction l as [|a l IH]; intros [|i] Hl Hf; cbn in *; try done.
  - injection Hl as ->. by rewrite Hf.
  - f_equal. by apply IH.
Qed.

Lemma wiring_set_l3 h n l3 l3' :
  get_l3 h n = Some l3 -> l3_wiring l3' = l3_wiring l3 ->
  wiring (set_l3 h n l3') = wiring h.
Proof.
  intros E Hw. unfold wiring, set_l3. cbn. f_equal.
  unfold get_l3 in E. destruct (nodelists (cachep h) !! n) as [[x|]|] eqn:El; try done.
  cbn in E. injection E as ->.
  apply (map_insert_same _ _ _ (Some l3)); [done|]. cbn. by rewrite Hw.
Qed.

Lemma wiring_list_del h s : wiring (list_del h s) = wiring h.
Proof.
  unfold wiring, list_del. cbn. f_equal. rewrite List.map_map.
  apply List.map_ext. by intros [l3|].
Qed.

Lemma wiring_set_ac h loc ac :
  is_Some (get_ac h loc) -> wiring (set_ac h loc ac) = wiring h.
Proof.
  destruct loc as [cpu|node|node remote]; cbn [get_ac set_ac].
  - intros [x Hx]. unfold wiring. cbn. f_equal.
    destruct (array (cachep h) !! cpu) as [[a|]|] eqn:E; try done.
    apply (map_insert_same _ _ _ (Some a)); [done|].
    rewrite !bool_decide_eq_true_2; eauto.
  - intros [x Hx]. destruct (get_l3 h node) as [l3|] eqn:E; [|done].
    cbn in Hx. apply (wiring_set_l3 _ _ l3); [done|].
    unfold l3_wiring. cbn. rewrite Hx. rewrite !bool_decide_eq_true_2; eauto.
  - intros [x Hx]. destruct (get_l3 h node) as [l3|] eqn:E; [|done].
    cbn in Hx. destruct (alien l3) as [al|] eqn:Ea; [|done]. cbn in Hx.
    apply (wiring_set_l3 _ _ l3); [done|].
    unfold l3_wiring. cbn. rewrite Ea. cbn. f_equal. f_equal.
    destruct (al !! remote) as [[a|]|] eqn:Er; try done.
    apply (map_insert_same _ _ _ (Some a)); [done|].
    rewrite !bool_decide_eq_true_2; eauto.
Qed.

(** What the wiring tells. *)
Lemma wiring_get_l3 h h' n :
  wiring h' = wiring h -> (is_Some (get_l3 h' n) <-> is_Some (get_l3 h n)).
Proof.
  intros E. apply (f_equal snd) in E. cbn in E.
  apply (f_equal (fun l => l !! n)) in E. rewrite !lookup_List_map in E.
  unfold get_l3.
  destruct (nodelists (cachep h') !! n) as [[?|]|], (nodelists (cachep h) !! n) as [[?|]|];
    cbn in *; try done; split; intros [? ?]; eauto; done.
Qed.

Lemma wiring_get_ac_cpu h h' cpu :
  wiring h' = wiring h ->
  (is_Some (get_ac h' (AcCpu cpu)) <-> is_Some (get_ac h (AcCpu cpu))).
Proof.
  intros E. apply (f_equal fst) in E. cbn in E.
  apply (f_equal (fun l => l !! cpu)) in E. rewrite !lookup_List_map in E.
  cbn [get_ac].
  destruct (array (cachep h') !! cpu) as [[?|]|], (array (cachep h) !! cpu) as [[?|]|];
    cbn in *; try done; split; intros [? ?]; eauto; try done.
Qed.


Lemma wiring_alien h h' n l3' al' :
  wiring h' = wiring h -> get_l3 h' n = Some l3' -> alien l3' = Some al' ->
  exists l3 al, get_l3 h n = Some l3 /\ alien l3 = Some al /\
    forall i, is_Some (al' !! i) <-> is_Some (al !! i).
Proof.
  intros E El3' Ea'. apply (f_equal snd) in E. cbn in E.
  apply (f_equal (fun l => l !! n)) in E. rewrite !lookup_List_map in E.
  unfold get_l3 in *.
  destruct (nodelists (cachep h') !! n) as [[x'|]|]; try done. cbn in El3'.
  injection El3' as ->.
  destruct (nodelists (cachep h) !! n) as [[l3|]|]; try done. cbn in E.
  injection E as _ E. rewrite Ea' in E. destruct (alien l3) as [al|] eqn:Ea; [|done].
  cbn in E. injection E as E. exists l3, al. split; [done|]. split; [done|].
  intros i. apply (f_equal (fun l => l !! i)) in E. rewrite !lookup_List_map in E.
  destruct (al' !! i), (al !! i); cbn in E; try done; split; intros [? ?]; eauto; done.
Qed.

Lemma wired_wiring h h' :
  wiring h' = wiring h ->
  wired cpu_to_node online_cpus online_nodes h ->
  wired cpu_to_node online_cpus online_nodes h'.
Proof.
  intros E [Hcpu Hal]. split.
  - intros cpu Hc. destruct (Hcpu cpu Hc) as [Ha Hl]. split.
    + exact (proj2 (wiring_get_ac_cpu h h' cpu E) Ha).
    + exact (proj2 (wiring_get_l3 h h' _ E) Hl).
  - intros node l3' al' i Hn Hi El3' Ea'.
    destruct (wiring_alien h h' node l3' al' E El3' Ea') as (l3 & al & El3 & Ea & Hiff).
    apply Hiff. exact (Hal node l3 al i Hn Hi El3 Ea).
Qed.

(** The operations on objects and slabs keep the wiring. *)
Lemma wiring_free_block_one h o n h' :
  free_block_one h o n = Some h' -> wiring h' = wiring h.
Proof.
  unfold free_block_one. intros Hrun.
  destruct (get_l3 h n) as [l30|]; [|done]. cbn [mbind option_bind] in Hrun.
  destruct (slab_put_obj _ _ o) as [h1|] eqn:Ep; [|done]. cbn [mbind option_bind] in Hrun.
  assert (W1 : wiring h1 = wiring h).
  { unfold slab_put_obj in Ep. destruct (slab_store _ !! _); [|done].
    cbn [mbind option_bind] in Ep. destruct (_ && _); [|done]. injection Ep as <-.
    rewrite <- (wiring_list_del h (virt_to_slab o)). by apply wiring_cachep. }
  destruct (get_l3 h1 n) as [l3|] eqn:El3; [|done]. cbn [mbind option_bind] in Hrun.
  destruct (slab_store h1 !! _) as [sl|]; [|done]. cbn [mbind option_bind] in Hrun.
  rewrite <- W1.
  destruct (inuse sl =? 0).
  - destruct (_ >? _); injection Hrun as <-.
    + transitivity (wiring (set_l3 h1 n (set_free_objects (set_free_objects l3
                      (wrap (free_objects l3 + 1)))
                      (wrap (free_objects (set_free_objects l3
                         (wrap (free_objects l3 + 1))) - num (cachep h1)))))).
      * by apply wiring_cachep.
      * by apply (wiring_set_l3 _ _ l3).
    + apply (wiring_set_l3 _ _ l3); [done|]. done.
  - injection Hrun as <-. apply (wiring_set_l3 _ _ l3); [done|]. done.
Qed.

Lemma wiring_free_block objs n : forall h h',
  free_block h objs n = Some h' -> wiring h' = wiring h.
Proof.
  induction objs as [|o objs IH]; intros h h' Hrun; cbn [free_block] in Hrun.
  - by injection Hrun as <-.
  - destruct (free_block_one h o n) as [h1|] eqn:E; [|done].
    cbn [mbind option_bind] in Hrun.
    rewrite (IH _ _ Hrun). by eapply wiring_free_block_one.
Qed.

Lemma wiring_do_drain h cpu h' :
  do_drain cpu_to_node h cpu = Some h' -> wiring h' = wiring h.
Proof.
  unfold do_drain. intros Hrun.
  destruct (get_ac h (AcCpu cpu)) as [ac|]; [|done]. cbn [mbind option_bind] in Hrun.
  destruct (get_l3 h _); [|done]. cbn [mbind option_bind] in Hrun.
  destruct (free_block h _ _) as [h1|] eqn:Ef; [|done]. cbn [mbind option_bind] in Hrun.
  destruct (get_ac h1 (AcCpu cpu)) as [ac1|] eqn:E1; [|done].
  assert (h' = set_ac h1 (AcCpu cpu) (set_entry ac1 [])) as ->
    by (injection Hrun as Hx; symmetry; exact Hx).
  rewrite wiring_set_ac by (rewrite E1; eauto). by eapply wiring_free_block.
Qed.

Lemma wiring_drain_alien h loc node h' :
  __drain_alien_cache h loc node = Some h' -> wiring h' = wiring h.
Proof.
  unfold __drain_alien_cache. intros Hrun.
  destruct (get_ac h loc) as [ac|] eqn:Eac; [|done]. cbn [mbind option_bind] in Hrun.
  destruct (avail ac =? 0); cbn [negb] in Hrun; [by injection Hrun as <-|].
  destruct (get_l3 h node) as [rl3|] eqn:El3; [|done]. cbn [mbind option_bind] in Hrun.
  set (h1 := match shared rl3 with Some sh => _ | None => h end) in *.
  assert (W1 : wiring h1 = wiring h).
  { unfold h1. destruct (shared rl3) as [sh|] eqn:Esh; [|done].
    destruct (transfer_objects sh ac (limit ac)) as [[sh' ac'] nr].
    destruct (decide (loc = AcShared node)) as [->|Hne].
    - rewrite !wiring_set_ac; [done|rewrite Eac; eauto|].
      rewrite get_ac_set_ac_eq; rewrite ?Eac; eauto.
    - rewrite !wiring_set_ac; [done| |].
      + cbn [get_ac]. rewrite El3. cbn. rewrite Esh. eauto.
      + rewrite get_ac_set_ac_ne by done. rewrite Eac. eauto. }
  destruct (get_ac h1 loc) as [ac1|]; [|done]. cbn [mbind option_bind] in Hrun.
  destruct (free_block h1 _ node) as [h2|] eqn:Ef; [|done].
  cbn [mbind option_bind] in Hrun.
  destruct (get_ac h2 loc) as [ac2|] eqn:E2; [|done].
  assert (h' = set_ac h2 loc (set_entry ac2 [])) as ->
    by (injection Hrun as Hx; symmetry; exact Hx).
  rewrite wiring_set_ac by (rewrite E2; eauto).
  rewrite (wiring_free_block _ _ _ _ Ef). done.
Qed.

Lemma wiring_drain_array h loc force node h' :
  drain_array h loc force node = Some h' -> wiring h' = wiring h.
Proof.
  unfold drain_array. intros Hrun.
  destruct (get_ac h loc) as [ac|] eqn:Eac; [|by injection Hrun as <-].
  destruct (avail ac =? 0); [by injection Hrun as <-|].
  destruct (negb (touched ac =? 0) && (force =? 0)).
  - injection Hrun as <-. apply wiring_set_ac. rewrite Eac. eauto.
  - destruct (get_l3 h node); [|done]. cbn [mbind option_bind] in Hrun.
    destruct (entry_prefix ac _) as [objs|]; [|done]. cbn [mbind option_bind] in Hrun.
    destruct (free_block h objs node) as [h1|] eqn:Ef; [|done].
    cbn [mbind option_bind] in Hrun.
    destruct (get_ac h1 loc) as [ac1|] eqn:E1; [|done].
    assert (h' = set_ac h1 loc (set_entry ac1 (drop (Z.to_nat
              (if u32 (if negb (force =? 0) then to_int (avail ac)
                        else to_int (u32 (limit ac + 4) / 5)) >? avail ac
               then to_int ((avail ac + 1) / 2)
               else if negb (force =? 0) then to_int (avail ac)
                    else to_int (u32 (limit ac + 4) / 5))) (entry ac1)))) as ->
      by (injection Hrun as Hx; symmetry; exact Hx).
    rewrite wiring_set_ac by (rewrite E1; eauto). by eapply wiring_free_block.
Qed.

Lemma wiring_drain_freelist_loop node tofree fuel : forall h nr h' nr',
  drain_freelist_loop fuel h node tofree nr = Some (h', nr') ->
  wiring h' = wiring h.
Proof.
  induction fuel as [|fuel IH]; intros h nr h' nr' Hrun; [done|].
  cbn [drain_freelist_loop] in Hrun.
  destruct (get_l3 h node) as [l3|]; [|done]. cbn [mbind option_bind] in Hrun.
  destruct (_ && _); [|by injection Hrun as <- _].
  destruct (last (slabs_free l3)) as [slabp|]; [|done].
  cbn [mbind option_bind] in Hrun.
  destruct (get_l3 (list_del h slabp) node) as [l3'|] eqn:El3'; [|done].
  cbn [mbind option_bind] in Hrun.
  apply IH in Hrun. rewrite Hrun.
  rewrite <- (wiring_list_del h slabp).
  rewrite <- (wiring_set_l3 (list_del h slabp) node l3'
    (set_free_objects l3' (wrap (free_objects l3' - num (cachep (list_del h slabp))))))
    by done.
  by apply wiring_cachep.
Qed.

Lemma wiring_shrink_nodes nodes : forall h ret h' ret',
  shrink_nodes h nodes ret = Some (h', ret') -> wiring h' = wiring h.
Proof.
  induction nodes as [|i rest IH]; intros h ret h' ret' Hrun;
    cbn [shrink_nodes] in Hrun; [by injection Hrun as <- _|].
  destruct (get_l3 h i) as [l3|] eqn:El3; [|by eapply IH].
  unfold drain_freelist in Hrun. rewrite El3 in Hrun.
  cbn [mbind option_bind] in Hrun.
  destruct (drain_freelist_loop _ h i _ 0) as [[h1 n1]|] eqn:Ed; [|done].
  cbn [mbind option_bind] in Hrun.
  destruct (get_l3 h1 i); [|done]. cbn [mbind option_bind] in Hrun.
  apply IH in Hrun. rewrite Hrun. by eapply wiring_drain_freelist_loop.
Qed.

Lemma wiring_for_each {A} (f : heap -> A -> option heap) l :
  (forall h x h', f h x = Some h' -> wiring h' = wiring h) ->
  forall h h', for_each A f h l = Some h' -> wiring h' = wiring h.
Proof.
  intros Hf. induction l as [|x l IH]; intros h h' Hrun; cbn [for_each] in Hrun;
    [by injection Hrun as <-|].
  destruct (f h x) as [h1|] eqn:E; [|done]. cbn [mbind option_bind] in Hrun.
  rewrite (IH _ _ Hrun). by eapply Hf.
Qed.

Lemma wiring_drain_alien_nodes node remotes : forall h h',
  drain_alien_nodes h node remotes = Some h' -> wiring h' = wiring h.
Proof.
  induction remotes as [|i rest IH]; intros h h' Hrun;
    cbn [drain_alien_nodes] in Hrun; [by injection Hrun as <-|].
  destruct (get_l3 h node) as [l3|]; [|done]. cbn [mbind option_bind] in Hrun.
  destruct (alien l3) as [al|]; [|done]. cbn [mbind option_bind] in Hrun.
  destruct (al !! i) as [slot|]; [|done]. cbn [mbind option_bind] in Hrun.
  destruct slot as [ac|].
  - destruct (__drain_alien_cache h _ i) as [h1|] eqn:E; [|done].
    cbn [mbind option_bind] in Hrun.
    rewrite (IH _ _ Hrun). by eapply wiring_drain_alien.
  - cbn [mbind option_bind] in Hrun. by eapply IH.
Qed.

Lemma wiring_cache_shrink h h' ret :
  __cache_shrink cpu_to_node online_cpus online_nodes h = Some (h', ret) ->
  wiring h' = wiring h.
Proof.
  unfold __cache_shrink, drain_cpu_caches. intros Hrun.
  destruct (for_each nat (do_drain cpu_to_node) h online_cpus) as [h1|] eqn:E1; [|done].
  cbn [mbind option_bind] in Hrun.
  destruct (for_each nat _ h1 online_nodes) as [h2|] eqn:E2; [|done].
  cbn [mbind option_bind] in Hrun.
  destruct (for_each nat _ h2 online_nodes) as [h3|] eqn:E3; [|done].
  cbn [mbind option_bind] in Hrun.
  destruct (shrink_nodes h3 online_nodes 0) as [[h4 r4]|] eqn:E4; [|done].
  cbn [mbind option_bind] in Hrun.
  assert (h' = h4) as -> by (injection Hrun as Hx _; symmetry; exact Hx).
  rewrite (wiring_shrink_nodes _ _ _ _ _ E4).
  apply wiring_for_each in E3; [rewrite E3|].
  2:{ intros x n x' Hx. destruct (get_l3 x n); [|by injection Hx as <-].
      by eapply wiring_drain_array. }
  apply wiring_for_each in E2; [rewrite E2|].
  2:{ intros x n x' Hx. destruct (get_l3 x n) as [l3|]; [|by injection Hx as <-].
      destruct (alien l3); [|by injection Hx as <-].
      by eapply wiring_drain_alien_nodes. }
  apply wiring_for_each in E1; [done|].
  intros x c x' Hx. by eapply wiring_do_drain.
Qed.
End Wiring.

Section ShrinkTotal.
Context `{platform}.
Variable cpu_to_node : nat -> nat.
Variables online_cpus online_nodes : list nat.

Lemma for_each_total {A} (f : heap -> A -> option heap) (P : heap -> Prop) l :
  (forall h x, x ∈ l -> P h -> exists h', f h x = Some h' /\ P h') ->
  forall h, P h -> exists h', for_each A f h l = Some h' /\ P h'.
Proof.
  induction l as [|x l IH]; intros Hf h Hh; cbn [for_each]; [eauto|].
  destruct (Hf h x) as (h1 & -> & H1); [left|done|].
  cbn [mbind option_bind]. apply IH; [|done].
  intros h2 y Hy. apply Hf. by right.
Qed.

(** No array cache holds more objects than the cache has slots. *)
Lemma pairs_count (l : list objptr) (a : nat) (b : Z) :
  0 <= b -> NoDup l -> (forall o, o ∈ l -> (fst o < a)%nat /\ 0 <= snd o < b) ->
  Z.of_nat (length l) <= Z.of_nat a * b.
Proof.
  intros Hb Hnd Hin.
  set (all := a' ← seq 0 a; (fun i => (a', Z.of_nat i)) <$> seq 0 (Z.to_nat b)).
  assert (Hsub : l ⊆ all).
  { intros [s i] Ho. destruct (Hin _ Ho) as [Hs Hi]. cbn in Hs, Hi.
    unfold all. apply list_elem_of_bind. exists s. split.
    - apply list_elem_of_fmap. exists (Z.to_nat i). split; [f_equal; lia|].
      apply elem_of_seq. lia.
    - apply elem_of_seq. lia. }
  assert (Hlen : length all = (a * Z.to_nat b)%nat).
  { unfold all. clear. induction a as [|a IH] using nat_ind.
    - done.
    - rewrite seq_S, bind_app, length_app. cbn [mbind list_bind mapM].
      rewrite IH. cbn. rewrite app_nil_r, length_fmap, length_seq. lia. }
  assert (Hle : (length l <= length all)%nat)
    by (apply submseteq_length, NoDup_submseteq; done).
  rewrite Hlen in Hle. nia.
Qed.

Lemma entries_count h loc ac :
  Inv cpu_to_node h -> get_ac h loc = Some ac ->
  avail ac <= Z.of_nat (length (slab_store h)) * num (cachep h).
Proof.
  intros [Hcore Hacs] Eac. unfold avail. pose proof (num_ok _ _ Hcore) as Hnum.
  assert (Ee : entries_at h loc = Some (entry ac)) by (unfold entries_at; by rewrite Eac).
  apply pairs_count.
  - lia.
  - by eapply entries_nodup.
  - intros o Ho.
    destruct (entries_held _ _ Hacs _ _ _ Ee Ho) as (w & sl & chain & _ & Esl & _ & Hi & _).
    split; [|done]. by eapply lookup_lt_Some.
Qed.

Lemma held_l3 h n o : held h n o -> is_Some (get_l3 h n).
Proof.
  intros (w & sl & chain & (l & El & _) & _). unfold list_at in El.
  destruct (get_l3 h n); [eauto|done].
Qed.

Lemma wiring_has_alien h h' n :
  wiring h' = wiring h ->
  is_Some (get_l3 h n ≫= alien) -> is_Some (get_l3 h' n ≫= alien).
Proof.
  intros E [al Hal].
  destruct (get_l3 h n) as [l3|] eqn:El3; [|done]. cbn in Hal.
  destruct (wiring_alien h' h n l3 al (eq_sym E) El3 Hal) as (l3' & al' & -> & Ea & _).
  cbn. rewrite Ea. eauto.
Qed.

Lemma drain_alien_nodes_total node remotes : forall h,
  Inv cpu_to_node h -> wired cpu_to_node online_cpus online_nodes h ->
  node ∈ online_nodes -> remotes ⊆ online_nodes ->
  is_Some (get_l3 h node ≫= alien) ->
  exists h',
    drain_alien_nodes h node remotes = Some h' /\
    Inv cpu_to_node h' /\ quiet h h' /\ wiring h' = wiring h.
Proof.
  induction remotes as [|i rest IH]; intros h HI Hw Hn Hsub Hal;
    cbn [drain_alien_nodes].
  - exists h. split; [done|]. split; [done|]. split; [apply quiet_refl|done].
  - destruct (get_l3 h node) as [l3|] eqn:El3;
      [|exfalso; destruct Hal as [? Hx]; cbn in Hx; done].
    destruct (alien l3) as [al|] eqn:Eal;
      [|exfalso; destruct Hal as [? Hx]; cbn in Hx; congruence].
    cbn [mbind option_bind]. rewrite Eal. cbn [mbind option_bind].
    assert (Hi : i ∈ online_nodes) by (apply Hsub; left).
    destruct (proj2 Hw node l3 al i Hn Hi El3 Eal) as [slot Eslot].
    rewrite Eslot. cbn [mbind option_bind].
    assert (Hstep : exists h1,
      match slot with
      | Some _ => __drain_alien_cache h (AcAlien node i) i
      | None => Some h
      end = Some h1 /\ Inv cpu_to_node h1 /\ quiet h h1 /\ wiring h1 = wiring h).
    { destruct slot as [ac|].
      - assert (Eac : get_ac h (AcAlien node i) = Some ac).
        { cbn [get_ac]. rewrite El3. cbn. rewrite Eal. cbn. by rewrite Eslot. }
        destruct (drain_alien_spec cpu_to_node h (AcAlien node i) i ac HI eq_refl)
          as (h1 & E1 & HI1 & Hq1 & _); [discriminate|exact Eac| |].
        + intros Hav. unfold avail in Hav.
          destruct (entry ac) as [|o l] eqn:Ee; [done|].
          destruct HI as [_ Hacs].
          apply (held_l3 h i o).
          apply (entries_held _ _ Hacs (AcAlien node i) (entry ac) o).
          * unfold entries_at. by rewrite Eac.
          * rewrite Ee. left.
        + exists h1. split; [done|]. split; [done|]. split; [done|].
          by eapply wiring_drain_alien.
      - exists h. split; [done|]. split; [done|]. split; [apply quiet_refl|done]. }
    destruct Hstep as (h1 & -> & HI1 & Hq1 & W1). cbn [mbind option_bind].
    destruct (IH h1) as (h2 & E2 & HI2 & Hq2 & W2); try done.
    + by apply (wired_wiring _ _ _ h).
    + intros x Hx. apply Hsub. by right.
    + apply (wiring_has_alien h); [done|]. rewrite El3. cbn. rewrite Eal. eauto.
    + exists h2. split; [done|]. split; [done|].
      split; [by eapply quiet_trans|]. by rewrite W2.
Qed.

Lemma drain_array_total h node :
  Inv cpu_to_node h ->
  Z.of_nat (length (slab_store h)) * num (cachep h) < 2 ^ 31 ->
  exists h', drain_array h (AcShared node) 1 node = Some h'.
Proof.
  intros HI Hbound. unfold drain_array.
  destruct (get_ac h (AcShared node)) as [ac|] eqn:Eac; [|eauto].
  destruct (avail ac =? 0); [eauto|].
  change (1 =? 0) with false. rewrite andb_false_r. cbn [negb].
  assert (is_Some (get_l3 h node)) as [l3 ->].
  { cbn [get_ac] in Eac. destruct (get_l3 h node); [eauto|done]. }
  cbn [mbind option_bind].
  pose proof (entries_count h _ ac HI Eac) as Hcount.
  assert (Hav : 0 <= avail ac) by (unfold avail; lia).
  rewrite to_int_small by lia. rewrite u32_small by lia.
  replace (avail ac >? avail ac) with false by (rewrite Z.gtb_ltb; symmetry; apply Z.ltb_irrefl).
  unfold entry_prefix.
  replace ((0 <=? avail ac) && (avail ac <=? avail ac)) with true
    by (symmetry; apply andb_true_iff; split; apply Z.leb_le; lia).
  cbn [mbind option_bind].
  destruct HI as [Hcore Hacs].
  assert (Ee : entries_at h (AcShared node) = Some (entry ac))
    by (unfold entries_at; by rewrite Eac).
  rewrite take_ge by (unfold avail; lia).
  destruct (free_block_spec (entry ac) h node Hcore)
    as (h1 & -> & _ & _ & Hac1 & _).
  - by eapply entries_nodup.
  - intros o Ho.
    exact (entries_held _ _ Hacs (AcShared node) (entry ac) o Ee Ho).
  - cbn [mbind option_bind]. rewrite Hac1, Eac. cbn [mbind option_bind]. eauto.
Qed.

Lemma drain_cpu_caches_total h :
  Inv cpu_to_node h -> wired cpu_to_node online_cpus online_nodes h ->
  Z.of_nat (length (slab_store h)) * num (cachep h) < 2 ^ 31 ->
  exists h', drain_cpu_caches cpu_to_node online_cpus online_nodes h = Some h'.
Proof.
  intros HI Hw Hbound. unfold drain_cpu_caches.
  set (P := fun x => Inv cpu_to_node x /\ quiet h x /\ wiring x = wiring h).
  assert (HP : P h) by (split; [done|]; split; [apply quiet_refl|done]).
  destruct (for_each_total (do_drain cpu_to_node) P online_cpus) with (h := h)
    as (h1 & -> & HP1); [|done|].
  { intros x cpu Hc (HIx & Hqx & Wx).
    pose proof (wired_wiring _ _ _ _ _ Wx Hw) as Hwx.
    destruct (proj1 Hwx cpu Hc) as [[ac Eac] Hl3].
    destruct (do_drain_spec cpu_to_node x cpu ac HIx Eac Hl3)
      as (x' & E & HI' & Hq' & _).
    exists x'. split; [done|]. split; [done|]. split; [by eapply quiet_trans|].
    rewrite <- Wx. by eapply wiring_do_drain. }
  cbn [mbind option_bind].
  match goal with |- exists _, (for_each nat ?f h1 online_nodes ≫= _) = _ =>
    destruct (for_each_total f P online_nodes) with (h := h1)
      as (h2 & -> & HP2); [|done|] end.
  { intros x node Hn (HIx & Hqx & Wx).
    pose proof (wired_wiring _ _ _ _ _ Wx Hw) as Hwx.
    destruct (get_l3 x node) as [l3|] eqn:El3; [|by exists x].
    destruct (alien l3) as [al|] eqn:Eal; [|by exists x].
    destruct (drain_alien_nodes_total node online_nodes x HIx Hwx Hn)
      as (x' & E & HI' & Hq' & W'); [done| |].
    - rewrite El3. cbn. rewrite Eal. eauto.
    - exists x'. split; [done|]. split; [done|]. split; [by eapply quiet_trans|].
      by rewrite W'. }
  cbn [mbind option_bind].
  match goal with |- exists _, for_each nat ?f h2 online_nodes = _ =>
    destruct (for_each_total f (fun x => Inv cpu_to_node x /\ quiet h x) online_nodes)
      with (h := h2) as (h3 & -> & _); [| |eauto] end.
  - intros x node Hn (HIx & Hqx).
    destruct (get_l3 x node) as [l3|] eqn:El3; [|by exists x].
    destruct (drain_array_total x node HIx) as [x' E].
    + rewrite (quiet_num _ _ Hqx). destruct Hqx as (_ & _ & _ & _ & -> & _). done.
    + exists x'. split; [done|].
      destruct (drain_array_inv cpu_to_node x node 1 x' HIx E) as (HI' & Hq' & _).
      split; [done|]. by eapply quiet_trans.
  - by destruct HP2 as (? & ? & _).
Qed.

Lemma cache_shrink_total h :
  Inv cpu_to_node h -> wired cpu_to_node online_cpus online_nodes h ->
  Z.of_nat (length (slab_store h)) * num (cachep h) < 2 ^ 31 ->
  exists hs ret,
    __cache_shrink cpu_to_node online_cpus online_nodes h = Some (hs, ret).
Proof.
  intros HI Hw Hbound. unfold __cache_shrink.
  destruct (drain_cpu_caches_total h HI Hw Hbound) as [h1 E1]. rewrite E1.
  cbn [mbind option_bind].
  destruct (drain_cpu_caches_inv cpu_to_node _ _ _ _ HI E1) as (HI1 & _).
  destruct (shrink_nodes_spec cpu_to_node online_nodes h1 0 HI1) as (h2 & r & -> & _).
  cbn [mbind option_bind]. eauto.
Qed.
End ShrinkTotal.

Section Destruction.
Context `{platform}.
Variable cpu_to_node : nat -> nat.
Variable online_cpus : list nat.
Variable online_nodes : list nat.

(** An object that is out of its slab keeps the slab off the free list. *)
Lemma held_not_free h n o :
  core h None -> held h n o -> exists w, w <> Free /\ linked h n w (fst o).
Proof.
  intros Hc (w & sl & chain & Hlk & Esl & Hok & Hidx & Hout).
  exists w. split; [|done].
  destruct (slabs_sound _ _ Hc _ _ _ Hlk) as (sl' & chain' & Esl' & _ & _ & Hw).
  assert (sl' = sl) as -> by congruence.
  rewrite <- Hw by done.
  destruct Hok as [Hlen Hch Hnd Hb Hl].
  assert (Hbl : (length (Z.to_nat (snd o) :: chain) <= Z.to_nat (num (cachep h)))%nat).
  { apply bounded_nodup_length; [by constructor|].
    intros j Hj. apply elem_of_cons in Hj as [->|]; [lia|auto]. }
  cbn in Hbl. unfold list_for.
  destruct (inuse sl =? 0) eqn:E0; [apply Z.eqb_eq in E0; lia|].
  by destruct (inuse sl <? _).
Qed.

Lemma cleared_slots {A} (l : list nat) : forall (a : list (option A)) c,
  a !! c ≫= id = None \/ c ∈ l ->
  fold_left (fun a c => <[c := None]> a) l a !! c ≫= id = None.
Proof.
  induction l as [|x l IH]; intros a c Hc; cbn [fold_left].
  - destruct Hc as [Hc|Hc]; [done|]. by apply elem_of_nil in Hc.
  - apply IH. destruct (decide (c = x)) as [->|Hne].
    + left. destruct (decide (x < length a)%nat).
      * by rewrite list_lookup_insert_eq.
      * rewrite list_insert_ge by lia. by rewrite lookup_ge_None_2 by lia.
    + rewrite list_lookup_insert_ne by done.
      destruct Hc as [Hc|Hc]; [by left|]. right.
      apply elem_of_cons in Hc as [?|?]; [done|done].
Qed.

Lemma destroyed_front_end h cpu :
  cpu ∈ online_cpus ->
  get_ac (__kmem_cache_destroy online_cpus online_nodes h) (AcCpu cpu) = None.
Proof. intros Hc. cbn. apply cleared_slots. by right. Qed.

Lemma destroyed_lists h node :
  node ∈ online_nodes ->
  get_l3 (__kmem_cache_destroy online_cpus online_nodes h) node = None.
Proof. intros Hn. unfold get_l3. cbn. apply cleared_slots. by right. Qed.

(** X6 (cf. C10): destroying a cache first takes it off the registry and
    shrinks
    it: the front-ends, the alien arrays and the shared arrays are drained
    into the slabs and the slabs on the free lists are released.  The
    shrink always returns (for a cache whose arrays are in place and whose
    object count fits an int), and objects in the hands of callers stay
    there.  When a slab is left on a full or partial list of an online
    node, which is the case as soon as a caller still holds an object of
    such a node, the shrink returns 1 and the destruction fails: the cache
    is put back at the head of the registry, its arrays and list-sets are
    where they were, and none of the slabs still linked is released.  Only
    when no slab is left on the full and partial lists does the shrink
    return 0; the cache then stays off the registry, and the front-end of
    every online CPU and the list-set of every online node are given
    back. *)
Theorem destroy_needs_clean_shrink cache_chain addr h :
  Inv cpu_to_node h ->
  wired cpu_to_node online_cpus online_nodes h ->
  Z.of_nat (length online_nodes) < 2 ^ 31 ->
  Z.of_nat (length (slab_store h)) * num (cachep h) < 2 ^ 31 ->
  exists hs ret,
    __cache_shrink cpu_to_node online_cpus online_nodes h = Some (hs, ret) /\
    Inv cpu_to_node hs /\ keeps_live h hs /\ wiring hs = wiring h /\
    let busy := exists i w s, i ∈ online_nodes /\ w <> Free /\ linked hs i w s in
    (forall o n, live h o -> held h n o -> n ∈ online_nodes -> busy) /\
    (busy ->
       ret = 1 /\
       kmem_cache_destroy cpu_to_node online_cpus online_nodes cache_chain addr h
         = Some (addr :: unlink addr cache_chain, hs, false) /\
       wired cpu_to_node online_cpus online_nodes hs /\
       (forall i w s, linked hs i w s -> s ∉ released hs)) /\
    (~ busy ->
       ret = 0 /\
       kmem_cache_destroy cpu_to_node online_cpus online_nodes cache_chain addr h
         = Some (unlink addr cache_chain,
                 __kmem_cache_destroy online_cpus online_nodes hs, true) /\
       (addr ∉ unlink addr cache_chain) /\
       (forall cpu, cpu ∈ online_cpus ->
          get_ac (__kmem_cache_destroy online_cpus online_nodes hs) (AcCpu cpu) = None) /\
       (forall node, node ∈ online_nodes ->
          get_l3 (__kmem_cache_destroy online_cpus online_nodes hs) node = None)).
Proof.
  intros HI Hw Hnodes Hbound.
  destruct (cache_shrink_total cpu_to_node online_cpus online_nodes h HI Hw Hbound)
    as (hs & ret & Es).
  destruct (cache_shrink_inv cpu_to_node online_cpus online_nodes h hs ret HI Es)
    as (HIs & _ & Hlive & Hret).
  destruct (Hret Hnodes) as [Hret01 Hret0].
  pose proof (wiring_cache_shrink cpu_to_node online_cpus online_nodes h hs ret Es) as W.
  exists hs, ret. split; [done|]. split; [done|]. split; [done|]. split; [done|].
  intros busy. split; [|split].
  - intros o n Hlo Hho Hn.
    destruct (Hlive o Hlo) as [_ Hheld].
    destruct (held_not_free hs n o (proj1 HIs) (Hheld n Hho)) as (w & Hw' & Hlk).
    by exists n, w, (fst o).
  - intros (i & w & s & Hi & Hwf & Hlk).
    assert (Hr : ret = 1).
    { destruct Hret01 as [E0|E1]; [|done].
      exfalso. exact (proj1 Hret0 E0 i w s Hi Hwf Hlk). }
    split; [done|]. split; [|split].
    + unfold kmem_cache_destroy. rewrite Es. cbn [mbind option_bind]. by rewrite Hr.
    + by apply (wired_wiring _ _ _ h).
    + intros i' w' s' Hlk' Hrel.
      destruct (released_dead _ _ (proj1 HIs) s' Hrel) as [_ Hdead].
      exact (Hdead i' w' Hlk').
  - intros Hclean.
    assert (Hr : ret = 0).
    { apply Hret0. intros i w s Hi Hwf Hlk. apply Hclean. by exists i, w, s. }
    split; [done|]. split; [|split; [|split]].
    + unfold kmem_cache_destroy. rewrite Es. cbn [mbind option_bind]. by rewrite Hr.
    + rewrite elem_of_unlink. by intros [_ ?].
    + intros cpu Hc. by apply destroyed_front_end.
    + intros node Hn. by apply destroyed_lists.
Qed.
End Destruction.

(** ** Slots of one slab *)

Section Slots.
Context `{platform}.

(** X7: taking the first free object of a slab and putting it back gives
    back the very state one started from; and an object that is put back
    is the one that the slab hands out next, the slab then having its
    count, its free index and its free chain as before. *)
Theorem slot_round_trip h slabp sl chain :
  1 <= num (cachep h) <= SLAB_LIMIT ->
  slab_store h !! slabp = Some sl ->
  slab_ok (num (cachep h)) sl chain ->
  (inuse sl < num (cachep h) ->
   exists o h1,
     slab_get_obj h slabp = Some (o, h1) /\
     slab_put_obj h1 slabp o = Some h) /\
  (forall i,
     0 <= i < num (cachep h) -> Z.to_nat i ∉ chain ->
     exists h1 h2 sl2,
       slab_put_obj h slabp (index_to_obj slabp i) = Some h1 /\
       slab_get_obj h1 slabp = Some (index_to_obj slabp i, h2) /\
       slab_store h2 !! slabp = Some sl2 /\
       inuse sl2 = inuse sl /\ free sl2 = free sl /\
       slab_ok (num (cachep h)) sl2 chain /\
       forall s, s <> slabp -> slab_store h2 !! s = slab_store h !! s).
Proof.
  change SLAB_LIMIT with 4294967292.
  intros Hn Hst Hok. split.
  - intros Hin.
    destruct Hok as [Hlen Hc Hnd Hb Hl].
    destruct chain as [|i rest]; cbn in Hl; [lia|].
    cbn in Hc. destruct Hc as (Hf & next & Hnext & _).
    assert (Hi : (i < Z.to_nat (num (cachep h)))%nat) by (apply Hb; left).
    pose proof (lookup_lt_Some _ _ _ Hst) as Hlt.
    pose proof (bounded_nodup_length _ _ Hnd Hb) as Hbl. cbn in Hbl.
    unfold slab_get_obj. rewrite Hst. cbn [mbind option_bind].
    rewrite Hf, Nat2Z.id, Hnext. cbn [mbind option_bind].
    eexists _, _. split; [reflexivity|].
    unfold slab_put_obj. cbn [slab_store set_slab_store].
    rewrite list_lookup_insert_eq by done.
    cbn [mbind option_bind obj_to_index index_to_obj snd bufctl inuse free
         colouroff nodeid].
    assert (Eb : (0 <=? Z.of_nat i) &&
                 (Z.to_nat (Z.of_nat i) <? length (bufctl sl))%nat = true).
    { apply andb_true_iff. split; [apply Z.leb_le; lia|].
      apply Nat.ltb_lt. rewrite Nat2Z.id, Hlen. exact Hi. }
    rewrite Eb.
    f_equal. destruct h as [c st om cc po mo rel]. unfold set_slab_store. cbn in *.
    f_equal. rewrite list_insert_insert_eq.
    apply list_insert_id. rewrite Hst. f_equal.
    destruct sl as [co iu fr nd bc]. cbn in *. f_equal.
    + rewrite (u32_small (iu + 1)) by lia. rewrite u32_small; lia.
    + lia.
    + rewrite Nat2Z.id. symmetry. apply list_insert_id. exact Hnext.
  - intros i Hi Hout.
    assert (Hiu : 0 <= inuse sl <= num (cachep h)) by (apply (slab_ok_inuse _ sl chain); [lia|done]).
    destruct (slab_put_obj_spec h slabp sl chain (index_to_obj slabp i))
      as (sl1 & Hp & Hok1 & Hin1 & Hge & Hnd1);
      [by change SLAB_LIMIT with 4294967292|done|done|done|done|].
    cbn [obj_to_index index_to_obj snd] in Hok1.
    set (h1 := set_slab_store h (<[slabp := sl1]> (slab_store h))) in *.
    assert (Hst1 : slab_store h1 !! slabp = Some sl1)
      by (cbn; apply list_lookup_insert_eq; by eapply lookup_lt_Some).
    destruct (slab_get_obj_spec h1 slabp sl1 (Z.to_nat i :: chain))
      as (j & rest & sl2 & Hch & Hf & Hg & Hok2 & Hin2 & _);
      [by change SLAB_LIMIT with 4294967292|done|done|cbn; lia|].
    injection Hch as <- <-.
    exists h1, (set_slab_store h1 (<[slabp := sl2]> (slab_store h1))), sl2.
    split; [exact Hp|]. split.
    { rewrite Hg. do 2 f_equal. unfold index_to_obj. f_equal. lia. }
    split; [cbn; apply list_lookup_insert_eq; rewrite length_insert;
            by eapply lookup_lt_Some|].
    split; [lia|]. split.
    { unfold slab_get_obj in Hg. rewrite Hst1 in Hg. cbn in Hg.
      unfold slab_put_obj in Hp. rewrite Hst in Hp. cbn in Hp.
      destruct (_ && _) eqn:Eb in Hp; [|done].
      injection Hp as Hp.
      assert (sl1 = mk_slab (colouroff sl) (u32 (inuse sl - 1)) i (nodeid sl)
                            (<[Z.to_nat i := free sl]> (bufctl sl))) as Esl1.
      { apply (f_equal (fun l => l !! slabp)) in Hp.
        rewrite !list_lookup_insert_eq in Hp by (by eapply lookup_lt_Some).
        by injection Hp. }
      rewrite Esl1 in Hg. cbn in Hg.
      rewrite list_lookup_insert_eq in Hg
        by (destruct Hok as [Hlen _ _ _ _]; rewrite Hlen; lia).
      cbn in Hg. injection Hg as _ Hg.
      apply (f_equal (fun l => l !! slabp)) in Hg.
      rewrite !list_lookup_insert_eq in Hg
        by (rewrite ?length_insert; by eapply lookup_lt_Some).
      injection Hg as <-. done. }
    split; [exact Hok2|].
    intros s Hs. cbn. by rewrite !list_lookup_insert_ne.
Qed.
End Slots.

(** ** Moving entries between array caches *)

Section Transfer.
Context `{platform}.

(** X8: transfer_objects moves the last [nr] entries of [from] to the end
    of [to], where [nr] is the smallest of what [from] holds, of [max] and
    of the room left in [to]: no entry is lost or duplicated, the order is
    kept, [to] does not grow past its limit and is marked as touched.  When
    nothing can move, 0 is returned and neither array changes. *)
Theorem transfer_objects_moves to from max :
  avail to <= limit to -> limit to < 2 ^ 31 -> avail from < 2 ^ 31 ->
  0 <= max < 2 ^ 32 ->
  exists to' from' nr moved,
    transfer_objects to from max = (to', from', nr) /\
    nr = Z.min (Z.min (avail from) max) (limit to - avail to) /\
    Z.of_nat (length moved) = nr /\
    entry from = entry from' ++ moved /\
    entry to' = entry to ++ moved /\
    avail to' <= limit to' /\
    limit to' = limit to /\ batchcount to' = batchcount to /\
    limit from' = limit from /\ batchcount from' = batchcount from /\
    touched from' = touched from /\
    (nr = 0 -> to' = to /\ from' = from) /\
    (nr <> 0 -> touched to' = 1).
Proof.
  intros Hroom Hlim Hav Hmax. unfold transfer_objects.
  assert (0 <= avail to) by (unfold avail; lia).
  assert (0 <= avail from) by (unfold avail; lia).
  rewrite (u32_small max) by lia.
  rewrite (u32_small (limit to - avail to)) by lia.
  set (nr := Z.min (Z.min (avail from) max) (limit to - avail to)).
  assert (Hnr : 0 <= nr <= avail from) by lia.
  rewrite (to_int_small nr) by lia.
  destruct (Z.eqb_spec nr 0) as [E0|N0].
  - exists to, from, 0, []. rewrite E0. rewrite !app_nil_r.
    repeat split; try done; lia.
  - set (k := (length (entry from) - Z.to_nat nr)%nat).
    eexists _, _, nr, (drop k (entry from)).
    split; [reflexivity|]. split; [done|].
    assert (Hlen : Z.of_nat (length (drop k (entry from))) = nr).
    { rewrite length_drop. unfold avail in *. lia. }
    split; [done|]. cbn.
    split; [by rewrite take_drop|]. split; [done|].
    split; [unfold avail; cbn; rewrite length_app; unfold avail in *; lia|].
    repeat split; done.
Qed.
End Transfer.

(** ** The front-end is a stack *)

Section Lifo.
Context `{platform}.
Variable cpu_to_node : nat -> nat.

Lemma set_ac_cpu_twice h cpu a b :
  set_ac (set_ac h (AcCpu cpu) a) (AcCpu cpu) b = set_ac h (AcCpu cpu) b.
Proof.
  destruct h as [c st om cc po mo rel]. unfold set_ac, set_cachep. cbn.
  f_equal. destruct c. unfold set_array. cbn. f_equal.
  apply list_insert_insert_eq.
Qed.

(** X9: the front-end of a CPU is a stack.  An object of the CPU's node
    that is freed while the front-end has room is the object that the next
    allocation on that CPU returns; and an object that is allocated from a
    front-end that is not empty and then freed on the same CPU goes back on
    top of it.  Either way the allocator is back in the state it started
    from, except that the front-end is marked as touched; no slab and no
    list is looked at. *)
Theorem front_end_is_a_stack h cpu o sl ac :
  slab_store h !! virt_to_slab o = Some sl -> nodeid sl = cpu_to_node cpu ->
  get_ac h (AcCpu cpu) = Some ac ->
  let h_touched := set_ac h (AcCpu cpu) (set_touched ac 1) in
  (avail ac < limit ac ->
   exists h1,
     __cache_free cpu_to_node h cpu o = Some h1 /\
     entries_at h1 (AcCpu cpu) = Some (entry ac ++ [o]) /\
     forall fuel,
       ____cache_alloc cpu_to_node fuel h1 cpu = Some (Some o, h_touched)) /\
  (forall rest,
     entry ac = rest ++ [o] -> avail ac <= limit ac ->
     exists h1,
       (forall fuel, ____cache_alloc cpu_to_node fuel h cpu = Some (Some o, h1)) /\
       entries_at h1 (AcCpu cpu) = Some rest /\
       __cache_free cpu_to_node h1 cpu o = Some h_touched).
Proof.
  intros Hsl Hnode Hac h_touched.
  assert (Hsome : is_Some (get_ac h (AcCpu cpu))) by (rewrite Hac; eauto).
  assert (Hfree_alien : forall x, is_Some (get_ac x (AcCpu cpu)) ->
            slab_store x = slab_store h ->
            cache_free_alien cpu_to_node x cpu o = Some (0, x)).
  { intros x _ Ex. unfold cache_free_alien. rewrite Ex, Hsl.
    cbn [mbind option_bind]. rewrite Hnode, Nat.eqb_refl. done. }
  split.
  - intros Hroom. eexists. split; [|split].
    + unfold __cache_free. rewrite (Hfree_alien h Hsome eq_refl).
      cbn [mbind option_bind]. change (negb (0 =? 0)) with false. cbn iota.
      rewrite Hac. cbn [mbind option_bind].
      apply Z.ltb_lt in Hroom. rewrite Hroom. reflexivity.
    + unfold entries_at. rewrite get_ac_set_ac_eq by done. done.
    + intros fuel. unfold ____cache_alloc.
      rewrite get_ac_set_ac_eq by done. cbn [mbind option_bind].
      assert (Hav : (avail (ac_push ac o) =? 0) = false).
      { apply Z.eqb_neq. unfold avail, ac_push. cbn. rewrite length_app. cbn. lia. }
      rewrite Hav. cbn [negb]. unfold ac_take.
      rewrite get_ac_set_ac_eq by done. cbn [mbind option_bind].
      cbn [ac_push entry set_entry]. rewrite last_snoc. cbn [mbind option_bind].
      do 2 f_equal. rewrite set_ac_cpu_twice. unfold h_touched. f_equal.
      unfold set_touched, set_entry. cbn. f_equal.
      rewrite length_app. cbn. rewrite Nat.add_sub.
      rewrite take_app_length. done.
  - intros rest Hrest Hlim. eexists. split; [|split].
    + intros fuel. unfold ____cache_alloc. rewrite Hac. cbn [mbind option_bind].
      assert (Hav : (avail ac =? 0) = false).
      { apply Z.eqb_neq. unfold avail. rewrite Hrest, length_app. cbn. lia. }
      rewrite Hav. cbn [negb]. unfold ac_take. rewrite Hac.
      cbn [mbind option_bind]. rewrite Hrest, last_snoc. cbn [mbind option_bind].
      rewrite length_app. cbn [length]. rewrite Nat.add_sub, take_app_length.
      reflexivity.
    + unfold entries_at. rewrite get_ac_set_ac_eq by done. done.
    + unfold __cache_free.
      rewrite Hfree_alien; [|rewrite get_ac_set_ac_eq by done; eauto|apply slab_store_set_ac].
      cbn [mbind option_bind]. change (negb (0 =? 0)) with false. cbn iota.
      rewrite get_ac_set_ac_eq by done. cbn [mbind option_bind].
      assert (Hroom : (avail (set_touched (set_entry ac rest) 1) <?
                       limit (set_touched (set_entry ac rest) 1)) = true).
      { apply Z.ltb_lt. unfold avail in *. cbn. rewrite Hrest, length_app in Hlim.
        cbn in Hlim. lia. }
      rewrite Hroom. f_equal. rewrite set_ac_cpu_twice. unfold h_touched. f_equal.
      unfold ac_push, set_touched, set_entry. cbn. by rewrite Hrest.
Qed.
End Lifo.

(** ** Who owns an object *)

Section Ownership.
Context `{platform}.
Variable cpu_to_node : nat -> nat.

Lemma cached_not_live h loc l o :
  entries_at h loc = Some l -> o ∈ l -> ~ live h o.
Proof. intros El Ho [_ Hno]. exact (Hno loc l El Ho). Qed.

Lemma ac_take_last h cpu r h' :
  ac_take h cpu = Some (r, h') ->
  exists ac o, get_ac h (AcCpu cpu) = Some ac /\ r = Some o /\ o ∈ entry ac.
Proof.
  unfold ac_take. intros Hrun.
  destruct (get_ac h (AcCpu cpu)) as [ac|]; [|done]. cbn [mbind option_bind] in Hrun.
  destruct (last (entry ac)) as [o|] eqn:El; [|done]. cbn [mbind option_bind] in Hrun.
  exists ac, o. split; [done|]. split; [by injection Hrun as <- _|].
  apply last_Some in El as [l' ->]. apply elem_of_app. right. left.
Qed.

Lemma refill_not_live fuel : forall h cpu o h',
  Inv cpu_to_node h ->
  cache_alloc_refill cpu_to_node fuel h cpu = Some (Some o, h') -> ~ live h o.
Proof.
  induction fuel as [|fuel IH]; intros h cpu o h' HI Hrun Hlive; [done|].
  assert (exists ac l3, get_ac h (AcCpu cpu) = Some ac /\ entry ac = [] /\
            get_l3 h (cpu_to_node cpu) = Some l3) as (ac & l3 & Eac & Ee & El3).
  { cbn [cache_alloc_refill] in Hrun.
    destruct (get_ac h (AcCpu cpu)) as [ac|]; [|done]. cbn [mbind option_bind] in Hrun.
    destruct (get_l3 h (cpu_to_node cpu)) as [l3|]; [|done].
    cbn [mbind option_bind] in Hrun.
    destruct (Z.gtb_spec (avail ac) 0) as [|Eav]; [done|].
    exists ac, l3. split; [done|]. split; [|done].
    unfold avail in Eav. destruct (entry ac); [done|]. cbn [length] in Eav. lia. }
  destruct (cache_alloc_refill_step cpu_to_node fuel h cpu ac l3 HI Eac Ee El3)
    as (h1 & ac1 & HI1 & _ & Hlv1 & _ & Eac1 & _ & _ & _ & _ & Hnext).
  destruct (Hlv1 o Hlive) as [Hlive1 _].
  destruct Hnext as [(Hne & Eq)|(He & x & h2 & Eg & [(-> & Eq)|(-> & Eq)])].
  - rewrite Eq in Hrun.
    destruct (ac_take_last _ _ _ _ Hrun) as (ac' & o' & Eac' & [= <-] & Ho).
    rewrite Eac1 in Eac'. injection Eac' as <-.
    apply (cached_not_live h1 (AcCpu cpu) (entry ac1) o); [|done|done].
    unfold entries_at. by rewrite Eac1.
  - rewrite Eq in Hrun. done.
  - rewrite Eq in Hrun.
    destruct (cache_grow_inv cpu_to_node h1 _ _ _ HI1 Eg) as (HI2 & _ & Hlv2 & _).
    destruct (Hlv2 o Hlive1) as [Hlive2 _].
    exact (IH h2 cpu o h' HI2 Hrun Hlive2).
Qed.

(** X10: an allocation never hands out an object that a caller still
    holds.  The object returned was in a front-end, in a shared array or
    free in a slab (possibly a slab grown for the occasion), it is in the
    hands of the caller afterwards, and every object that callers held
    before is still theirs and differs from it. *)
Theorem alloc_hands_out_a_free_object fuel h cpu o h' :
  Inv cpu_to_node h ->
  ____cache_alloc cpu_to_node fuel h cpu = Some (Some o, h') ->
  Inv cpu_to_node h' /\
  ~ live h o /\ live h' o /\
  (forall o', live h o' -> live h' o' /\ o' <> o).
Proof.
  intros HI Hrun.
  destruct (cache_alloc_inv cpu_to_node fuel h cpu (Some o) h' HI Hrun)
    as (HI' & _ & Hlv & _ & Hnew).
  assert (Hnot : ~ live h o).
  { unfold ____cache_alloc in Hrun.
    destruct (get_ac h (AcCpu cpu)) as [ac|] eqn:Eac; [|done].
    cbn [mbind option_bind] in Hrun.
    destruct (negb (avail ac =? 0)).
    - destruct (ac_take_last _ _ _ _ Hrun) as (ac' & o' & Eac' & [= <-] & Ho).
      rewrite Eac in Eac'. injection Eac' as <-.
      apply (cached_not_live h (AcCpu cpu) (entry ac) o); [|done].
      unfold entries_at. by rewrite Eac.
    - by eapply refill_not_live. }
  split; [done|]. split; [done|]. split; [by apply Hnew|].
  intros o' Ho'. split; [by apply Hlv|]. by intros ->.
Qed.

(** X11: a free takes the object out of the hands of its caller and of
    nobody else.  After [__cache_free] the object is in an array cache or
    back in its slab, so that a later allocation may hand it out again,
    and every other object that a caller holds is still held. *)
Theorem free_gives_the_object_back h cpu o h' :
  Inv cpu_to_node h -> live h o ->
  __cache_free cpu_to_node h cpu o = Some h' ->
  Inv cpu_to_node h' /\
  ~ live h' o /\
  ((exists loc l, entries_at h' loc = Some l /\ o ∈ l) \/ in_slab h' o) /\
  (forall o', o' <> o -> live h o' -> live h' o').
Proof.
  intros HI Hlive Hrun.
  destruct (cache_free_inv cpu_to_node h cpu o h' HI Hlive Hrun) as (HI' & _ & Hkeep).
  assert (Hwhere : (exists loc l, entries_at h' loc = Some l /\ o ∈ l) \/ in_slab h' o).
  { unfold __cache_free in Hrun.
    destruct (cache_free_alien cpu_to_node h cpu o) as [[r h1]|] eqn:Ea; [|done].
    cbn [mbind option_bind] in Hrun.
    destruct (cache_free_alien_defined _ _ _ _ _ _ Ea)
      as (sl & Hsl & [(Hnode & -> & ->)|(Hne & l3 & El3 & Hal)]).
    - cbn [negb Z.eqb] in Hrun. left. exists (AcCpu cpu).
      destruct (get_ac h (AcCpu cpu)) as [ac|] eqn:Eac; [|done].
      cbn [mbind option_bind] in Hrun.
      destruct (avail ac <? limit ac).
      + assert (h' = set_ac h (AcCpu cpu) (ac_push ac o)) as ->
          by (injection Hrun as Hx; symmetry; exact Hx).
        exists (entry ac ++ [o]). split.
        * unfold entries_at. rewrite get_ac_set_ac_eq by (rewrite Eac; eauto). done.
        * apply elem_of_app. right. left.
      + destruct (cache_flusharray cpu_to_node h cpu) as [h2|]; [|done].
        cbn [mbind option_bind] in Hrun.
        destruct (get_ac h2 (AcCpu cpu)) as [ac2|] eqn:Eac2; [|done].
        assert (h' = set_ac h2 (AcCpu cpu) (ac_push ac2 o)) as ->
          by (injection Hrun as Hx; symmetry; exact Hx).
        exists (entry ac2 ++ [o]). split.
        * unfold entries_at. rewrite get_ac_set_ac_eq by (rewrite Eac2; eauto). done.
        * apply elem_of_app. right. left.
    - destruct (cache_free_alien_spec cpu_to_node h cpu o sl l3 HI Hlive Hsl Hne El3 Hal)
        as (h1' & Ea' & _ & _ & _ & _ & _ & _ & Hend).
      rewrite Ea in Ea'. injection Ea' as -> ->. cbn [negb Z.eqb] in Hrun.
      injection Hrun as <-.
      destruct (get_ac h (AcAlien (cpu_to_node cpu) (nodeid sl))) as [al|].
      + destruct Hend as (Hent & _). left. eexists _, _. split; [exact Hent|].
        apply elem_of_app. right. left.
      + right. by destruct Hend. }
  split; [done|]. split; [|split; [done|done]].
  destruct Hwhere as [(loc & l & El & Ho)|Hin].
  - by eapply cached_not_live.
  - intros [[n Hheld] _]. destruct HI' as [Hc _].
    exact (in_slab_not_held h' n o (num_ok _ _ Hc) Hin Hheld).
Qed.
End Ownership.

(** ** Releasing free slabs *)

Section DrainFreelist.
Context `{platform}.
Variable cpu_to_node : nat -> nat.

Lemma wrap_sub_l a b : wrap (wrap a - b) = wrap (a - b).
Proof. unfold wrap. apply Zminus_mod_idemp_l. Qed.

Lemma unlink_last l s : s ∉ l -> unlink s (l ++ [s]) = l.
Proof.
  intros Hs. unfold unlink. rewrite List.filter_app. cbn.
  rewrite Nat.eqb_refl. cbn. rewrite app_nil_r.
  fold (unlink s l). by apply unlink_absent.
Qed.

(** The slabs of the free list of a node are on no other list. *)
Lemma free_not_elsewhere h node l3 s :
  Inv cpu_to_node h -> get_l3 h node = Some l3 -> s ∈ slabs_free l3 ->
  (s ∉ slabs_partial l3) /\ (s ∉ slabs_full l3).
Proof.
  intros [Hc _] El3 Hs.
  assert (Hf : linked h node Free s) by (by eapply linked_intro).
  split; intros Hin.
  - assert (Hp : linked h node Partial s) by (by eapply linked_intro).
    by destruct (lists_disjoint _ _ Hc _ _ _ _ _ Hf Hp).
  - assert (Hp : linked h node Full s) by (by eapply linked_intro).
    by destruct (lists_disjoint _ _ Hc _ _ _ _ _ Hf Hp).
Qed.

Lemma drain_freelist_loop_count node tofree fuel : forall h nr l3,
  Inv cpu_to_node h -> get_l3 h node = Some l3 ->
  (length (slabs_free l3) < fuel)%nat ->
  0 <= nr -> tofree < 2 ^ 31 ->
  let len := length (slabs_free l3) in
  let k := Z.to_nat (Z.min (Z.max (tofree - nr) 0) (Z.of_nat len)) in
  exists h' l3',
    drain_freelist_loop fuel h node tofree nr = Some (h', nr + Z.of_nat k) /\
    Inv cpu_to_node h' /\ quiet h h' /\ keeps_live h h' /\
    (forall loc, get_ac h' loc = get_ac h loc) /\
    slab_store h' = slab_store h /\
    (forall m, m <> node -> get_l3 h' m = get_l3 h m) /\
    get_l3 h' node = Some l3' /\
    slabs_partial l3' = slabs_partial l3 /\ slabs_full l3' = slabs_full l3 /\
    slabs_free l3' = take (len - k) (slabs_free l3) /\
    wrap (free_objects l3') = wrap (free_objects l3 - Z.of_nat k * num (cachep h)) /\
    free_limit l3' = free_limit l3 /\ colour_next l3' = colour_next l3 /\
    shared l3' = shared l3 /\ alien l3' = alien l3 /\
    free_touched l3' = free_touched l3 /\
    released h' = drop (len - k) (slabs_free l3) ++ released h.
Proof.
  induction fuel as [|fuel IH]; intros h nr l3 HInv El3 Hfuel Hnr Htofree; [lia|].
  cbn zeta. cbn [drain_freelist_loop]. rewrite El3. cbn [mbind option_bind].
  assert (Hstop : Z.min (Z.max (tofree - nr) 0) (Z.of_nat (length (slabs_free l3))) = 0 ->
    exists h' l3',
      Some (h, nr) = Some (h', nr + Z.of_nat (Z.to_nat
        (Z.min (Z.max (tofree - nr) 0) (Z.of_nat (length (slabs_free l3)))))) /\
      Inv cpu_to_node h' /\ quiet h h' /\ keeps_live h h' /\
      (forall loc, get_ac h' loc = get_ac h loc) /\
      slab_store h' = slab_store h /\
      (forall m, m <> node -> get_l3 h' m = get_l3 h m) /\
      get_l3 h' node = Some l3' /\
      slabs_partial l3' = slabs_partial l3 /\ slabs_full l3' = slabs_full l3 /\
      slabs_free l3' = take (length (slabs_free l3) - Z.to_nat
        (Z.min (Z.max (tofree - nr) 0) (Z.of_nat (length (slabs_free l3)))))
        (slabs_free l3) /\
      wrap (free_objects l3') = wrap (free_objects l3 - Z.of_nat (Z.to_nat
        (Z.min (Z.max (tofree - nr) 0) (Z.of_nat (length (slabs_free l3)))))
           * num (cachep h)) /\
      free_limit l3' = free_limit l3 /\ colour_next l3' = colour_next l3 /\
      shared l3' = shared l3 /\ alien l3' = alien l3 /\
      free_touched l3' = free_touched l3 /\
      released h' = drop (length (slabs_free l3) - Z.to_nat
        (Z.min (Z.max (tofree - nr) 0) (Z.of_nat (length (slabs_free l3)))))
        (slabs_free l3) ++ released h).
  { intros ->. cbn [Z.to_nat Z.of_nat]. rewrite Nat.sub_0_r, firstn_all, drop_all.
    rewrite Z.add_0_r, Z.mul_0_l, Z.sub_0_r.
    exists h, l3. split; [done|]. split; [done|]. split; [apply quiet_refl|].
    split; [apply keeps_live_refl|]. repeat (split; [done|]). done. }
  destruct (Z.ltb_spec nr tofree) as [Hlt|Hge]; cbn [andb]; [|apply Hstop; lia].
  case_bool_decide as Hempty; cbn [negb].
  { apply Hstop. rewrite Hempty. cbn. lia. }
  clear Hstop.
  destruct (exists_last Hempty) as (rest & slabp & Hsplit).
  assert (Hlast : last (slabs_free l3) = Some slabp) by (rewrite Hsplit; apply last_snoc).
  rewrite Hlast. cbn [mbind option_bind].
  rewrite get_l3_list_del, El3. cbn [mbind option_bind fmap option_fmap option_map].
  assert (Hin : slabp ∈ slabs_free l3).
  { rewrite Hsplit. apply elem_of_app. right. by left. }
  destruct (free_not_elsewhere h node l3 slabp HInv El3 Hin) as [Hnp Hnf].
  assert (Hnd : NoDup (slabs_free l3)).
  { destruct HInv as [Hc _]. apply (lists_nodup _ _ Hc node Free).
    unfold list_at. by rewrite El3. }
  assert (Hrest : slabp ∉ rest).
  { rewrite Hsplit in Hnd. apply NoDup_app in Hnd as (_ & Hd & _).
    intros Hr. apply (Hd _ Hr). left. }
  set (l3u := set_lists l3 _ _ _).
  destruct (destroy_free_slab cpu_to_node h node l3 slabp
              (wrap (free_objects l3u - num (cachep (list_del h slabp)))) HInv El3 Hin)
    as (HI1 & Hq1 & Hlv1 & Hac1 & Hst1 & Hl1 & Hoth1 & Hr1).
  fold l3u in HI1, Hq1, Hlv1, Hac1, Hst1, Hl1, Hoth1, Hr1.
  set (h1 := slab_destroy _ slabp) in *.
  set (l31 := set_free_objects l3u
                (wrap (free_objects l3u - num (cachep (list_del h slabp))))) in *.
  assert (El31 : get_l3 h1 node = Some l31).
  { unfold h1. change (get_l3 (slab_destroy ?x _) node) with (get_l3 x node).
    apply get_l3_set_l3_eq. rewrite get_l3_list_del, El3. cbn. eauto. }
  assert (Hfree1 : slabs_free l31 = rest).
  { cbn. rewrite Hsplit. by apply unlink_last. }
  assert (Hoth_l3 : forall m, m <> node -> get_l3 h1 m = get_l3 h m).
  { intros m Hm. unfold h1.
    change (get_l3 (slab_destroy ?x _) m) with (get_l3 x m).
    rewrite get_l3_set_l3_ne by done. rewrite get_l3_list_del.
    destruct (get_l3 h m) as [l3m|] eqn:Em; [|done]. cbn. f_equal.
    assert (Hab : forall w, slabp ∉ get_list l3m w).
    { intros w Hw. destruct HInv as [Hc _].
      assert (L1 : linked h m w slabp) by (by eapply linked_intro).
      assert (L2 : linked h node Free slabp) by (by eapply linked_intro).
      destruct (lists_disjoint _ _ Hc _ _ _ _ _ L1 L2). done. }
    pose proof (unlink_absent _ _ (Hab Partial)) as E1.
    pose proof (unlink_absent _ _ (Hab Full)) as E2.
    pose proof (unlink_absent _ _ (Hab Free)) as E3.
    cbn [get_list] in E1, E2, E3. rewrite E1, E2, E3.
    by destruct l3m. }
  destruct (IH h1 (to_int (nr + 1)) l31 HI1 El31) as
    (h' & l3' & Erun & HI & Hq & Hlv & Hac & Hst & Hoth & El3' & Hp' & Hf' & Hfr' &
     Hfo' & Hfl' & Hcn' & Hsh' & Hal' & Hft' & Hrel').
  { rewrite Hfree1. rewrite Hsplit, length_app in Hfuel. cbn in Hfuel. lia. }
  { rewrite to_int_small by lia. lia. }
  { done. }
  rewrite (to_int_small (nr + 1)) in Erun, Hfr', Hfo', Hrel' by lia.
  rewrite (to_int_small (nr + 1)) by lia.
  rewrite Hfree1 in Erun, Hfr', Hfo', Hrel'.
  assert (Hlen : length (slabs_free l3) = S (length rest))
    by (rewrite Hsplit, length_app; cbn; lia).
  set (k1 := Z.to_nat (Z.min (Z.max (tofree - (nr + 1)) 0) (Z.of_nat (length rest)))) in *.
  assert (Hk : Z.to_nat (Z.min (Z.max (tofree - nr) 0)
                 (Z.of_nat (length (slabs_free l3)))) = S k1) by (unfold k1; lia).
  rewrite Hk.
  exists h', l3'. split; [rewrite Erun; do 2 f_equal; lia|].
  split; [done|]. split; [by eapply quiet_trans|].
  split; [by eapply keeps_live_trans|].
  split; [intros; by rewrite Hac|]. split; [congruence|].
  split; [intros m Hm; rewrite Hoth by done; by apply Hoth_l3|].
  split; [done|].
  assert (Hk1 : (k1 <= length rest)%nat) by (unfold k1; lia).
  split; [rewrite Hp'; cbn; by apply unlink_absent|].
  split; [rewrite Hf'; cbn; by apply unlink_absent|].
  split.
  { rewrite Hfr', Hlen, Hsplit.
    replace (S (length rest) - S k1)%nat with (length rest - k1)%nat by lia.
    rewrite take_app_le by lia. done. }
  split.
  { rewrite Hfo'. cbn [l31 free_objects set_free_objects].
    rewrite (quiet_num _ _ Hq1). rewrite wrap_sub_l.
    change (num (cachep (list_del h slabp))) with (num (cachep h)).
    change (free_objects l3u) with (free_objects l3). f_equal. lia. }
  split; [by rewrite Hfl'|]. split; [by rewrite Hcn'|].
  split; [by rewrite Hsh'|]. split; [by rewrite Hal'|]. split; [by rewrite Hft'|].
  rewrite Hrel', Hr1, Hlen, Hsplit.
  replace (S (length rest) - S k1)%nat with (length rest - k1)%nat by lia.
  rewrite drop_app_le by lia. rewrite <- app_assoc. done.
Qed.

(** X12: drain_freelist releases free slabs of a node, the tail of the
    free list first, until [tofree] slabs are released or the list is
    empty, and returns their number; a [tofree] that is not positive
    releases nothing.  Each release takes [num] off the node's count of
    free objects.  The partial and full lists, the descriptors, the array
    caches and the other nodes are left alone, and objects in the hands of
    callers stay there. *)
Theorem drain_freelist_releases h node tofree l3 :
  Inv cpu_to_node h -> get_l3 h node = Some l3 -> tofree < 2 ^ 31 ->
  let len := length (slabs_free l3) in
  let k := Z.to_nat (Z.min (Z.max tofree 0) (Z.of_nat len)) in
  exists h' l3',
    drain_freelist h node tofree = Some (h', Z.of_nat k) /\
    Inv cpu_to_node h' /\ keeps_live h h' /\
    get_l3 h' node = Some l3' /\
    slabs_free l3' = take (len - k) (slabs_free l3) /\
    released h' = drop (len - k) (slabs_free l3) ++ released h /\
    wrap (free_objects l3') = wrap (free_objects l3 - Z.of_nat k * num (cachep h)) /\
    slabs_partial l3' = slabs_partial l3 /\ slabs_full l3' = slabs_full l3 /\
    (forall m, m <> node -> get_l3 h' m = get_l3 h m) /\
    (forall loc, get_ac h' loc = get_ac h loc) /\
    slab_store h' = slab_store h.
Proof.
  intros HInv El3 Htofree. cbn zeta.
  unfold drain_freelist. rewrite El3. cbn [mbind option_bind].
  destruct (drain_freelist_loop_count node tofree (S (length (slabs_free l3))) h 0 l3
              HInv El3 ltac:(lia) ltac:(lia) Htofree)
    as (h' & l3' & Erun & HI & _ & Hlv & Hac & Hst & Hoth & El3' & Hp & Hf & Hfr &
        Hfo & _ & _ & _ & _ & _ & Hrel).
  cbn zeta in *. rewrite Z.sub_0_r in *. rewrite Z.add_0_l in Erun.
  exists h', l3'. split; [exact Erun|]. repeat (split; [done|]). done.
Qed.
End DrainFreelist.

(** ** Draining an array cache *)

Section DrainArray.
Context `{platform}.
Variable cpu_to_node : nat -> nat.

Lemma touch_ac_inv h loc ac t :
  Inv cpu_to_node h -> get_ac h loc = Some ac ->
  let h' := set_ac h loc (set_touched ac t) in
  Inv cpu_to_node h' /\ quiet h h' /\ keeps_live h h' /\
  (forall o, in_slab h o <-> in_slab h' o) /\
  (forall l, entries_at h' l = entries_at h l) /\
  slab_store h' = slab_store h /\
  (forall n w, list_at h' n w = list_at h n w).
Proof.
  intros HInv Eac h'.
  assert (Hent : forall l, entries_at h' l = entries_at h l).
  { intros l. destruct (decide (l = loc)) as [->|Hne].
    - unfold h'. rewrite entries_at_set_ac_eq by (rewrite Eac; eauto).
      by rewrite (entries_at_get_ac _ _ _ Eac).
    - unfold h'. by rewrite entries_at_set_ac_ne. }
  destruct (Inv_same_view cpu_to_node h h' HInv) as (HI & Hlv & Hin); try done.
  - apply (cachep_fields_set_ac h).
  - apply slab_store_set_ac.
  - apply released_set_ac.
  - intros. apply list_at_set_ac.
  - split; [done|]. split; [apply quiet_set_ac|]. split; [done|]. split; [done|].
    split; [done|]. split; [apply slab_store_set_ac|]. intros. apply list_at_set_ac.
Qed.

(** The first [n] entries of an array cache go back into their slabs and
    the others move to the front. *)
Lemma free_prefix_spec h loc ac n :
  Inv cpu_to_node h -> get_ac h loc = Some ac -> (n <= length (entry ac))%nat ->
  exists h1,
    free_block h (take n (entry ac)) (home cpu_to_node loc) = Some h1 /\
    get_ac h1 loc = Some ac /\
    let h' := set_ac h1 loc (set_entry ac (drop n (entry ac))) in
    Inv cpu_to_node h' /\ quiet h h' /\ keeps_live h h' /\
    entries_at h' loc = Some (drop n (entry ac)) /\
    (forall loc', loc' <> loc -> entries_at h' loc' = entries_at h loc') /\
    (forall o, o ∈ take n (entry ac) -> in_slab h' o) /\
    (forall o, in_slab h o -> in_slab h' o) /\
    (forall m w, m <> home cpu_to_node loc -> list_at h' m w = list_at h m w).
Proof.
  intros HInv Eac Hn.
  destruct (free_block_spec (take n (entry ac)) h (home cpu_to_node loc))
    as (h1 & Ef & _ & _ & Hac1 & _).
  { apply HInv. }
  { apply NoDup_take_drop_sub. eapply entries_nodup; [apply HInv|].
    by apply entries_at_get_ac. }
  { intros o Ho. apply (entries_held _ _ (proj2 HInv) loc (entry ac)).
    - by apply entries_at_get_ac.
    - eapply elem_of_take_drop. by left. }
  exists h1. split; [done|]. split; [by rewrite Hac1|].
  exact (free_entries_inv cpu_to_node h loc ac (take n (entry ac)) (drop n (entry ac))
           h1 ac HInv Eac ltac:(by rewrite take_drop) Ef).
Qed.

Lemma drain_array_spec h loc ac force :
  let node := home cpu_to_node loc in
  Inv cpu_to_node h -> get_ac h loc = Some ac -> avail ac < 2 ^ 31 ->
  let tofree0 := if force =? 0 then u32 (limit ac + 4) / 5 else avail ac in
  let tofree := if tofree0 >? avail ac then (avail ac + 1) / 2 else tofree0 in
  exists h',
    drain_array h loc force node = Some h' /\
    Inv cpu_to_node h' /\ quiet h h' /\ keeps_live h h' /\
    (forall o, in_slab h o -> in_slab h' o) /\
    (forall loc', loc' <> loc -> entries_at h' loc' = entries_at h loc') /\
    (forall m w, m <> node -> list_at h' m w = list_at h m w) /\
    if avail ac =? 0 then h' = h
    else if negb (touched ac =? 0) && (force =? 0) then
      h' = set_ac h loc (set_touched ac 0)
    else
      0 <= tofree <= avail ac /\
      entries_at h' loc = Some (drop (Z.to_nat tofree) (entry ac)) /\
      (forall o, o ∈ take (Z.to_nat tofree) (entry ac) -> in_slab h' o).
Proof.
  intros node HInv Eac Hav tofree0 tofree.
  assert (Hav0 : 0 <= avail ac) by (unfold avail; lia).
  unfold drain_array. rewrite Eac.
  destruct (Z.eqb_spec (avail ac) 0) as [E0|N0].
  { exists h. split; [done|]. split; [done|]. split; [apply quiet_refl|].
    split; [apply keeps_live_refl|]. done. }
  destruct (negb (touched ac =? 0) && (force =? 0)) eqn:Et.
  { destruct (touch_ac_inv h loc ac 0 HInv Eac)
      as (HI & Hq & Hlv & Hin & Hent & _ & Hl).
    eexists. split; [reflexivity|]. split; [done|]. split; [done|]. split; [done|].
    split; [intros o; apply Hin|]. split; [intros; apply Hent|].
    split; [intros; apply Hl|]. done. }
  assert (Hl3 : is_Some (get_l3 h node)).
  { unfold avail in N0. destruct (entry ac) as [|o l] eqn:Ee; [done|].
    destruct HInv as [_ Hacs].
    apply (held_l3 h node o).
    apply (entries_held _ _ Hacs loc (entry ac) o).
    - by apply entries_at_get_ac.
    - rewrite Ee. left. }
  destruct Hl3 as [l3 ->]. cbn [mbind option_bind].
  assert (Hu : 0 <= u32 (limit ac + 4) < 2 ^ 32) by (apply Z.mod_pos_bound; lia).
  assert (Hfive : 0 <= u32 (limit ac + 4) / 5 < 2 ^ 31).
  { split; [apply Z.div_pos; lia|]. apply Z.div_lt_upper_bound; lia. }
  assert (Hhalf : 0 <= (avail ac + 1) / 2 <= avail ac).
  { split; [apply Z.div_pos; lia|]. apply Z.div_le_upper_bound; lia. }
  assert (Etofree :
    (if u32 (if negb (force =? 0) then to_int (avail ac)
             else to_int (u32 (limit ac + 4) / 5)) >? avail ac
     then to_int ((avail ac + 1) / 2)
     else if negb (force =? 0) then to_int (avail ac)
          else to_int (u32 (limit ac + 4) / 5)) = tofree).
  { unfold tofree, tofree0. rewrite !to_int_small by lia.
    destruct (force =? 0); cbn [negb]; rewrite u32_small by lia; done. }
  rewrite Etofree.
  assert (Hrange : 0 <= tofree <= avail ac).
  { unfold tofree. destruct (Z.gtb_spec tofree0 (avail ac)) as [|Hle]; [exact Hhalf|].
    split; [|exact Hle]. unfold tofree0. destruct (force =? 0); lia. }
  rewrite entry_prefix_ok by done. cbn [mbind option_bind].
  destruct (free_prefix_spec h loc ac (Z.to_nat tofree) HInv Eac)
    as (h1 & Ef & Eac1 & HI & Hq & Hlv & Hent & Hoth & Hobjs & Hin & Hl).
  { unfold avail in Hrange. lia. }
  fold node in Ef. rewrite Ef. cbn [mbind option_bind]. rewrite Eac1.
  cbn [mbind option_bind].
  eexists. split; [reflexivity|]. repeat (split; [done|]). done.
Qed.

(** X13: drain_array on the front-end of a CPU or on the shared array of
    a node.  An empty array is left alone.  An array that was touched
    since the last pass only loses its mark when the pass is not forced.
    Otherwise entries are freed from the front of the array, the oldest
    first, and the others move down: all of them when the pass is forced,
    else a fifth of the limit (rounded up), and when the array holds fewer
    than that, half of what it holds (rounded up).  The entries freed are
    back in their slabs, and objects in the hands of callers stay there. *)
Theorem drain_array_frees_the_oldest h loc ac force :
  let node := home cpu_to_node loc in
  Inv cpu_to_node h -> get_ac h loc = Some ac ->
  avail ac < 2 ^ 31 -> 1 <= limit ac < 2 ^ 32 - 4 ->
  let tofree0 := if force =? 0 then (limit ac + 4) / 5 else avail ac in
  let tofree := if tofree0 >? avail ac then (avail ac + 1) / 2 else tofree0 in
  exists h',
    drain_array h loc force node = Some h' /\
    Inv cpu_to_node h' /\ keeps_live h h' /\
    (forall o, in_slab h o -> in_slab h' o) /\
    (forall loc', loc' <> loc -> entries_at h' loc' = entries_at h loc') /\
    if avail ac =? 0 then h' = h
    else if negb (touched ac =? 0) && (force =? 0) then
      h' = set_ac h loc (set_touched ac 0)
    else
      1 <= tofree <= avail ac /\
      entries_at h' loc = Some (drop (Z.to_nat tofree) (entry ac)) /\
      (forall o, o ∈ take (Z.to_nat tofree) (entry ac) -> in_slab h' o).
Proof.
  intros node HInv Eac Hav Hlim tofree0 tofree.
  destruct (drain_array_spec h loc ac force HInv Eac Hav)
    as (h' & Erun & HI & _ & Hlv & Hin & Hoth & _ & Hcase).
  rewrite (u32_small (limit ac + 4)) in Hcase by lia.
  exists h'. split; [exact Erun|]. split; [done|]. split; [done|].
  split; [done|]. split; [done|].
  destruct (Z.eqb_spec (avail ac) 0) as [E0|N0]; [done|].
  destruct (negb (touched ac =? 0) && (force =? 0)); [done|].
  destruct Hcase as (Hr & Hent & Hobjs). split; [|done].
  split; [|apply Hr]. fold tofree0 in Hr. fold tofree in Hr.
  assert (Hav0 : 0 <= avail ac) by (unfold avail; lia).
  assert (1 <= (limit ac + 4) / 5) by (apply Z.div_le_lower_bound; lia).
  assert (1 <= (avail ac + 1) / 2) by (apply Z.div_le_lower_bound; lia).
  unfold tofree. destruct (Z.gtb_spec tofree0 (avail ac)) as [|Hle]; [done|].
  unfold tofree0. destruct (force =? 0); lia.
Qed.
End DrainArray.

(** ** The periodic reaper *)

Section ReaperFacts.
Context `{platform}.
Variable cpu_to_node : nat -> nat.

Lemma quiet_bound h h' :
  quiet h h' ->
  Z.of_nat (length (slab_store h)) * num (cachep h) < 2 ^ 31 ->
  Z.of_nat (length (slab_store h')) * num (cachep h') < 2 ^ 31.
Proof.
  intros Hq Hb. rewrite (quiet_num _ _ Hq).
  destruct Hq as (_ & _ & _ & _ & -> & _). done.
Qed.

Lemma drain_array_any h loc force :
  Inv cpu_to_node h ->
  Z.of_nat (length (slab_store h)) * num (cachep h) < 2 ^ 31 ->
  exists h',
    drain_array h loc force (home cpu_to_node loc) = Some h' /\
    Inv cpu_to_node h' /\ quiet h h' /\ keeps_live h h' /\
    (forall o, in_slab h o -> in_slab h' o) /\
    wiring h' = wiring h.
Proof.
  intros HInv Hb.
  destruct (get_ac h loc) as [ac|] eqn:Eac.
  - pose proof (entries_count cpu_to_node h loc ac HInv Eac) as Hc.
    destruct (drain_array_spec cpu_to_node h loc ac force HInv Eac ltac:(lia))
      as (h' & Erun & HI & Hq & Hlv & Hin & _).
    exists h'. split; [done|]. split; [done|]. split; [done|]. split; [done|].
    split; [done|]. by eapply wiring_drain_array.
  - exists h. unfold drain_array. rewrite Eac. split; [done|]. split; [done|].
    split; [apply quiet_refl|]. split; [apply keeps_live_refl|]. done.
Qed.

Lemma reap_alien_spec h node reap_node trylock l3 :
  Inv cpu_to_node h -> get_l3 h node = Some l3 ->
  (forall al, alien l3 = Some al -> is_Some (al !! reap_node)) ->
  exists h',
    reap_alien h node reap_node trylock = Some h' /\
    Inv cpu_to_node h' /\ quiet h h' /\ keeps_live h h' /\
    (forall o, in_slab h o -> in_slab h' o) /\
    wiring h' = wiring h /\
    (forall loc, loc <> AcAlien node reap_node -> loc <> AcShared reap_node ->
       entries_at h' loc = entries_at h loc).
Proof.
  intros HInv El3 Hal. unfold reap_alien. rewrite El3. cbn [mbind option_bind].
  assert (Hsame : exists h',
    Some h = Some h' /\ Inv cpu_to_node h' /\ quiet h h' /\ keeps_live h h' /\
    (forall o, in_slab h o -> in_slab h' o) /\ wiring h' = wiring h /\
    (forall loc, loc <> AcAlien node reap_node -> loc <> AcShared reap_node ->
       entries_at h' loc = entries_at h loc)).
  { exists h. split; [done|]. split; [done|]. split; [apply quiet_refl|].
    split; [apply keeps_live_refl|]. done. }
  destruct (alien l3) as [al|] eqn:Eal; [|done].
  destruct (Hal al eq_refl) as [slot Eslot]. rewrite Eslot. cbn [mbind option_bind].
  destruct slot as [ac|]; [|done].
  destruct (negb (avail ac =? 0) && trylock) eqn:Eb; [|done].
  apply andb_true_iff in Eb as [Eav _]. apply negb_true_iff, Z.eqb_neq in Eav.
  assert (Eac : get_ac h (AcAlien node reap_node) = Some ac).
  { cbn [get_ac]. rewrite El3. cbn. rewrite Eal. cbn. by rewrite Eslot. }
  destruct (drain_alien_spec cpu_to_node h (AcAlien node reap_node) reap_node ac
              HInv eq_refl)
    as (h1 & E1 & HI1 & Hq1 & Hlv1 & _ & _ & Hoth & _ & Hin1);
    [discriminate|exact Eac| |].
  - intros _. unfold avail in Eav.
    destruct (entry ac) as [|o l] eqn:Ee; [done|].
    destruct HInv as [_ Hacs].
    apply (held_l3 h reap_node o).
    apply (entries_held _ _ Hacs (AcAlien node reap_node) (entry ac) o).
    + unfold entries_at. by rewrite Eac.
    + rewrite Ee. left.
  - exists h1. split; [done|]. split; [done|]. split; [done|]. split; [done|].
    split; [done|]. split; [by eapply wiring_drain_alien|]. done.
Qed.

Lemma five_num_not_zero n : 1 <= n < 2 ^ 32 -> u32 (5 * n) <> 0.
Proof.
  intros Hn E. unfold u32 in E.
  apply Z.mod_divide in E; [|lia].
  assert (Hg : (2 ^ 32 | n)).
  { apply (Z.gauss _ 5); [done|]. reflexivity. }
  destruct Hg as [q Hq]. nia.
Qed.

(** X14: one pass of the reaper over the cache, on any CPU and whatever
    the alien node it turns to, whether or not it gets the lock of the
    alien array and whether or not the node is due.  The pass returns,
    leaves the cache well formed, and takes nothing from callers: every
    object in their hands is still theirs, and every object that was free
    in a slab still is.  When the node is not due, only the alien array
    and the front-end of the CPU are drained; when it is due and its free
    list was touched since the last pass, the mark is cleared and no slab
    is released by the last step. *)
Theorem cache_reap_takes_nothing_from_callers h cpu reap_node trylock due l3 :
  let node := cpu_to_node cpu in
  Inv cpu_to_node h -> get_l3 h node = Some l3 ->
  (forall al, alien l3 = Some al -> is_Some (al !! reap_node)) ->
  Z.of_nat (length (slab_store h)) * num (cachep h) < 2 ^ 31 ->
  exists h',
    cache_reap cpu_to_node h cpu reap_node trylock due = Some h' /\
    Inv cpu_to_node h' /\ quiet h h' /\ keeps_live h h' /\
    (forall o, in_slab h o -> in_slab h' o) /\
    wiring h' = wiring h /\
    (due = false ->
     forall loc, loc <> AcAlien node reap_node -> loc <> AcShared reap_node ->
       loc <> AcCpu cpu -> entries_at h' loc = entries_at h loc).
Proof.
  intros node HInv El3 Hal Hb. unfold cache_reap. fold node.
  destruct (reap_alien_spec h node reap_node trylock l3 HInv El3 Hal)
    as (h1 & -> & HI1 & Hq1 & Hlv1 & Hin1 & W1 & Hoth1).
  cbn [mbind option_bind].
  destruct (drain_array_any h1 (AcCpu cpu) 0 HI1 (quiet_bound _ _ Hq1 Hb))
    as (h2 & E2 & HI2 & Hq2 & Hlv2 & Hin2 & W2).
  cbn [home] in E2. fold node in E2. rewrite E2. cbn [mbind option_bind].
  assert (Hq12 : quiet h h2) by (by eapply quiet_trans).
  destruct due; cbn [negb].
  2:{ exists h2. split; [done|]. split; [done|]. split; [done|].
      split; [by eapply keeps_live_trans|]. split; [auto|].
      split; [by rewrite W2|]. intros _ loc H1 H2 H3.
      rewrite <- Hoth1 by done.
      destruct (get_ac h1 (AcCpu cpu)) as [ac|] eqn:Eac.
      - pose proof (entries_count cpu_to_node h1 _ ac HI1 Eac) as Hc.
        pose proof (quiet_bound _ _ Hq1 Hb).
        destruct (drain_array_spec cpu_to_node h1 (AcCpu cpu) ac 0 HI1 Eac ltac:(lia))
          as (h2' & Erun & _ & _ & _ & _ & Hoth2 & _).
        cbn [home] in Erun. fold node in Erun. rewrite E2 in Erun.
        injection Erun as <-. by apply Hoth2.
      - unfold drain_array in E2. rewrite Eac in E2. by injection E2 as <-. }
  destruct (drain_array_any h2 (AcShared node) 0 HI2 (quiet_bound _ _ Hq12 Hb))
    as (h3 & E3 & HI3 & Hq3 & Hlv3 & Hin3 & W3).
  cbn [home] in E3. rewrite E3. cbn [mbind option_bind].
  assert (Hq13 : quiet h h3) by (by eapply quiet_trans).
  assert (W03 : wiring h3 = wiring h) by (by rewrite W3, W2).
  assert (Hl3 : is_Some (get_l3 h3 node)).
  { apply (wiring_get_l3 h h3 node W03). rewrite El3. eauto. }
  destruct Hl3 as [l33 El33]. rewrite El33. cbn [mbind option_bind].
  assert (Hlv03 : keeps_live h h3).
  { eapply keeps_live_trans; [exact Hlv1|]. by eapply keeps_live_trans. }
  destruct (negb (free_touched l33 =? 0)).
  - set (h4 := set_l3 h3 node (set_free_touched l33 0)).
    assert (Hl4 : forall m v, list_at h4 m v = list_at h3 m v).
    { intros m v. unfold h4. destruct (decide (node = m)) as [<-|Hne].
      - rewrite list_at_set_l3_eq by (rewrite El33; eauto).
        unfold list_at. rewrite El33. by destruct v.
      - by rewrite list_at_set_l3_ne. }
    assert (Hac4 : forall loc, get_ac h4 loc = get_ac h3 loc).
    { intros. unfold h4. by eapply get_ac_set_l3. }
    destruct (Inv_same_view cpu_to_node h3 h4 HI3) as (HI4 & Hlv4 & Hin4);
      [done|done|done|done|intros; unfold entries_at; by rewrite Hac4|].
    exists h4. split; [done|]. split; [done|].
    split; [eapply quiet_trans; [exact Hq13|apply quiet_set_l3]|].
    split; [by eapply keeps_live_trans|].
    split; [intros o Ho; apply (proj1 (Hin4 o)); auto|].
    split; [|intros [=]].
    rewrite <- W03. apply (wiring_set_l3 h3 node l33); [done|done].
  - pose proof (num_ok _ _ (proj1 HI3)) as Hnum.
    change SLAB_LIMIT with 4294967292 in Hnum.
    destruct (Z.eqb_spec (u32 (5 * num (cachep h3))) 0) as [E0|_].
    { exfalso. apply (five_num_not_zero (num (cachep h3))); [lia|done]. }
    destruct (drain_freelist_spec cpu_to_node h3 node
                (to_int (u32 (free_limit l33 + u32 (5 * num (cachep h3)) - 1) /
                         u32 (5 * num (cachep h3)))) l33 HI3 El33)
      as (h4 & nr & Ed & HI4 & Hq4 & Hlv4 & Hac4 & Hst4 & Hl4 & Hsome4).
    rewrite Ed. cbn [mbind option_bind fst].
    exists h4. split; [done|]. split; [done|]. split; [by eapply quiet_trans|].
    split; [by eapply keeps_live_trans|].
    split.
    { intros o Ho. destruct (Hin3 o (Hin2 o (Hin1 o Ho))) as (sl & chain & Hs & Hok & Hi).
      exists sl, chain. rewrite Hst4, (quiet_num _ _ Hq4). done. }
    split; [|intros [=]].
    rewrite <- W03. unfold drain_freelist in Ed. rewrite El33 in Ed.
    cbn [mbind option_bind] in Ed.
    by eapply wiring_drain_freelist_loop.
Qed.
End ReaperFacts.

(** ** Allocation on a chosen node *)

Section NodeAlloc.
Context `{platform}.
Variable cpu_to_node : nat -> nat.
Variable zones : list (nat * bool).
Variable page_to_nid : heap -> nat.

Local Abbreviation node_alloc := (____cache_alloc_node zones page_to_nid).
Local Abbreviation fallback := (fallback_alloc zones page_to_nid).

(** Writing a field of a list-set that no invariant reads. *)
Lemma set_l3_same_lists h node l3 l3' :
  Inv cpu_to_node h -> get_l3 h node = Some l3 ->
  (forall w, get_list l3' w = get_list l3 w) ->
  shared l3' = shared l3 -> alien l3' = alien l3 ->
  let h' := set_l3 h node l3' in
  Inv cpu_to_node h' /\ quiet h h' /\ keeps_live h h' /\
  (forall loc, get_ac h' loc = get_ac h loc) /\
  (forall m v, list_at h' m v = list_at h m v) /\
  (forall o, in_slab h o <-> in_slab h' o) /\
  slab_store h' = slab_store h /\ released h' = released h.
Proof.
  intros HInv El3 Hl Hsh Hal h'.
  assert (Hl0 : forall m v, list_at h' m v = list_at h m v).
  { intros m v. unfold h'. destruct (decide (node = m)) as [<-|Hne].
    - rewrite list_at_set_l3_eq by (rewrite El3; eauto).
      unfold list_at. rewrite El3. cbn. by rewrite Hl.
    - by rewrite list_at_set_l3_ne. }
  assert (Hac0 : forall loc, get_ac h' loc = get_ac h loc).
  { intros. unfold h'. by eapply get_ac_set_l3. }
  destruct (Inv_same_view cpu_to_node h h' HInv) as (HI & Hlv & Hin);
    [done|done|done|done|intros; unfold entries_at; by rewrite Hac0|].
  split; [done|]. split; [apply quiet_set_l3|]. done.
Qed.

(** One object is taken from slab [s], the first slab of the partial list
    or, failing that, of the free list. *)
Lemma alloc_node_take h node s l3 :
  Inv cpu_to_node h -> get_l3 h node = Some l3 ->
  first_slab h node = Some s ->
  exists o h' sl chain rest,
    (forall fuel thisnode, node_alloc (S fuel) thisnode h node = Some (Some o, h')) /\
    Inv cpu_to_node h' /\ quiet h h' /\ keeps_live h h' /\
    (forall loc, get_ac h' loc = get_ac h loc) /\
    released h' = released h /\
    (forall m, is_Some (get_l3 h m) -> is_Some (get_l3 h' m)) /\
    slab_store h !! s = Some sl /\ slab_ok (num (cachep h)) sl chain /\
    nodeid sl = node /\
    chain = Z.to_nat (snd o) :: rest /\ fst o = s /\ 0 <= snd o /\
    live h' o /\ in_slab h o /\
    exists sl', slab_store h' !! s = Some sl' /\ nodeid sl' = node /\
      inuse sl' = inuse sl + 1 /\ slab_ok (num (cachep h)) sl' rest.
Proof.
  intros HInv El3 Efirst.
  pose proof HInv as [Hcore Hacs].
  pose proof (num_ok _ _ Hcore) as Hnum.
  (* the slab that is picked *)
  set (pick := match slabs_partial l3 with
               | slabp :: _ => (h, Some slabp)
               | [] =>
                   let h := set_l3 h node (set_free_touched l3 1) in
                   match slabs_free l3 with
                   | slabp :: _ => (h, Some slabp)
                   | [] => (h, None)
                   end
               end).
  assert (Hpick : exists h0 w,
            pick = (h0, Some s) /\
            Inv cpu_to_node h0 /\ quiet h h0 /\ keeps_live h h0 /\
            (forall loc, get_ac h0 loc = get_ac h loc) /\
            (forall m v, list_at h0 m v = list_at h m v) /\
            (forall o, in_slab h o <-> in_slab h0 o) /\
            slab_store h0 = slab_store h /\ released h0 = released h /\
            linked h node w s /\ (w = Partial \/ w = Free)).
  { destruct (set_l3_same_lists h node l3 (set_free_touched l3 1) HInv El3)
      as (HI0 & Hq0 & Hlv0 & Hac0 & Hl0 & Hin0 & Hst0 & Hr0);
      [by intros []|done|done|].
    unfold first_slab, list_at in Efirst. rewrite El3 in Efirst.
    cbn [mbind option_bind get_list] in Efirst. unfold pick.
    destruct (slabs_partial l3) as [|sp lp] eqn:Ep.
    - destruct (slabs_free l3) as [|sf lf] eqn:Ef; [done|].
      injection Efirst as ->. eexists _, Free. split; [reflexivity|].
      repeat (split; [done|]). split; [|by right].
      eapply linked_intro; [done|]. cbn. rewrite Ef. left.
    - injection Efirst as ->. exists h, Partial. split; [done|]. split; [done|].
      split; [apply quiet_refl|]. split; [apply keeps_live_refl|].
      repeat (split; [done|]). split; [|by left].
      eapply linked_intro; [done|]. cbn. rewrite Ep. left. }
  destruct Hpick as (h0 & w & Epick & HI0 & Hq0 & Hlv0 & Hac0 & Hl0 & Hin0 & Hst0 & Hr0 &
                     Hlk & Hw).
  pose proof HI0 as [Hcore0 Hacs0].
  assert (En0 : num (cachep h0) = num (cachep h)) by (by apply quiet_num).
  assert (Hlk0 : linked h0 node w s) by (unfold linked; by setoid_rewrite Hl0).
  destruct (slabs_sound _ _ Hcore0 _ _ _ Hlk0) as (sl & chain & Hsl & Hok & Hnode & Hcls).
  specialize (Hcls ltac:(done)). rewrite En0 in Hok, Hcls.
  assert (Hroom : inuse sl < num (cachep h)).
  { unfold list_for in Hcls. destruct (Z.eqb_spec (inuse sl) 0); [lia|].
    destruct (Z.ltb_spec (inuse sl) (num (cachep h))); [lia|].
    destruct Hw; congruence. }
  destruct (slab_get_obj_spec h0 s sl chain ltac:(by rewrite En0) Hsl
              ltac:(by rewrite En0) ltac:(by rewrite En0))
    as (i & rest & sl1 & Hch & Hfree & Hget & Hok1 & Hin1 & Hnode1 & _).
  rewrite En0 in Hok1.
  set (o := index_to_obj s (Z.of_nat i)) in *.
  set (h1 := set_slab_store h0 (<[s := sl1]> (slab_store h0))) in *.
  assert (Hlt : (s < length (slab_store h0))%nat) by (by eapply lookup_lt_Some).
  destruct (linked_inv _ _ _ _ Hlk0) as (l30 & El30 & _).
  assert (El31 : get_l3 h1 node = Some l30) by exact El30.
  set (l32 := set_free_objects l30 (wrap (free_objects l30 - 1))).
  set (h2 := set_l3 h1 node l32).
  assert (Hst2 : slab_store h2 = <[s := sl1]> (slab_store h0)) by reflexivity.
  assert (Hl2 : forall m v, list_at h2 m v = list_at h0 m v).
  { intros m v. unfold h2. destruct (decide (node = m)) as [<-|Hne].
    - rewrite list_at_set_l3_eq by (rewrite El31; eauto).
      unfold list_at. rewrite El30. by destruct v.
    - rewrite list_at_set_l3_ne by done. done. }
  assert (Hac2 : forall loc, get_ac h2 loc = get_ac h0 loc).
  { intros loc. unfold h2. by rewrite (get_ac_set_l3 h1 node l30). }
  assert (He2 : forall loc, entries_at h2 loc = entries_at h0 loc).
  { intros. unfold entries_at. by rewrite Hac2. }
  assert (Hsl2 : slab_store h2 !! s = Some sl1).
  { rewrite Hst2. by apply list_lookup_insert_eq. }
  assert (Hoth2 : forall id, id <> s -> slab_store h2 !! id = slab_store h0 !! id).
  { intros id Hne. rewrite Hst2. by apply list_lookup_insert_ne. }
  assert (Hcore2 : core h2 (Some s)).
  { apply (core_slab_update h0 h2 s node w sl1 rest None); try done.
    - by rewrite Hst2, length_insert.
    - by rewrite En0.
    - by rewrite Hnode1. }
  assert (Hheld2 : forall n x, held h0 n x -> held h2 n x).
  { intros n x Hx. apply (held_slab_update h0 h2 s n x); try done.
    - by rewrite En0.
    - intros sl' chain' Hsl' Hok'. rewrite Hsl in Hsl'. injection Hsl' as <-.
      rewrite En0 in Hok'.
      assert (chain' = chain) as -> by (eapply slab_ok_unique; eauto; lia).
      exists sl1, rest. rewrite En0. split; [done|]. split; [done|].
      intros j Hj. rewrite Hch. by right. }
  assert (Hacs2 : acs_ok cpu_to_node h2).
  { apply (acs_ok_same_entries cpu_to_node h0 h2 Hacs0 He2).
    intros loc l x Hl Hx. apply Hheld2. by eapply entries_held. }
  assert (Hlk2 : linked h2 node w s) by (unfold linked; by setoid_rewrite Hl2).
  set (l3u := set_lists l32 (unlink s (slabs_partial l32)) (unlink s (slabs_full l32))
                        (unlink s (slabs_free l32))).
  assert (El3u : get_l3 (list_del h2 s) node = Some l3u).
  { rewrite get_l3_list_del. unfold h2.
    rewrite get_l3_set_l3_eq by (rewrite El31; eauto). done. }
  destruct (relink_busy cpu_to_node h2 s node w sl1 l3u Hcore2 Hacs2 Hlk2 Hsl2 El3u)
    as (HI3 & Hq3 & Hlv3 & Hac3 & Hst3 & Hr3 & Hl3).
  set (W := list_for (num (cachep h2)) (inuse sl1)) in *.
  set (h3 := set_l3 (list_del h2 s) node (list_add l3u W s)) in *.
  assert (En2 : num (cachep h2) = num (cachep h)) by exact En0.
  assert (Hiu : 0 <= inuse sl <= num (cachep h))
    by (apply (slab_ok_inuse _ sl chain); [lia|done]).
  assert (HW : (if free sl1 =? BUFCTL_END
                then list_add l3u Full s else list_add l3u Partial s) =
               list_add l3u W s).
  { unfold W. rewrite En2. unfold list_for.
    pose proof (slab_ok_full (num (cachep h)) sl1 _ ltac:(lia) Hok1) as Hfull.
    destruct (Z.eqb_spec (inuse sl1) 0); [lia|].
    destruct (Z.eqb_spec (free sl1) BUFCTL_END) as [Ef|Ef].
    - apply Hfull in Ef. destruct (Z.ltb_spec (inuse sl1) (num (cachep h))); [lia|done].
    - destruct (Z.ltb_spec (inuse sl1) (num (cachep h))); [done|].
      exfalso. apply Ef, Hfull. lia. }
  assert (Hq02 : quiet h0 h2).
  { eapply quiet_trans; [apply (quiet_set_slab_store h0); by rewrite length_insert|].
    apply quiet_set_l3. }
  assert (Hlv02 : keeps_live h0 h2).
  { intros x Hx. apply (live_keep_slab h0 h2 x); [by rewrite En0|done|by auto|].
    intros loc l' y Hl' Hy. left. rewrite He2 in Hl'. eauto. }
  assert (Hin_o : in_slab h0 o).
  { exists sl, chain. rewrite En0. split; [done|]. split; [done|].
    cbn. rewrite Nat2Z.id, Hch. left. }
  exists o, h3, sl, chain, rest.
  split.
  { intros fuel thisnode. cbn [____cache_alloc_node]. rewrite El3.
    cbn [mbind option_bind].
    fold pick. rewrite Epick. rewrite Hsl. cbn [mbind option_bind]. rewrite En0.
    destruct (Z.eqb_spec (inuse sl) (num (cachep h))) as [|_]; [lia|].
    rewrite Hget. cbn [mbind option_bind]. fold h1. rewrite El31.
    cbn [mbind option_bind]. fold l32. fold h2.
    change (slab_store (list_del h2 s)) with (slab_store h2). rewrite Hsl2.
    cbn [mbind option_bind]. rewrite El3u. cbn [mbind option_bind].
    rewrite HW. reflexivity. }
  split; [done|].
  split; [eapply quiet_trans; [exact Hq0|]; by eapply quiet_trans|].
  split; [eapply keeps_live_trans; [exact Hlv0|]; by eapply keeps_live_trans|].
  split; [intros loc; by rewrite Hac3, Hac2, Hac0|].
  split; [by rewrite Hr3|].
  split.
  { intros m Hm. apply (list_at_is_Some h3 m Partial). rewrite Hl3, Hl2, Hl0.
    apply (list_at_is_Some h m Partial) in Hm as [l ->]. cbn. eauto. }
  split; [by rewrite <- Hst0|]. split; [done|]. split; [done|].
  split; [cbn; by rewrite Nat2Z.id|]. split; [done|]. split; [cbn; lia|].
  split; [|split; [by apply Hin0|]].
  2:{ exists sl1. rewrite Hst3. split; [done|]. split; [congruence|]. done. }
  split.
  - exists node, W, sl1, rest. cbn [o index_to_obj fst snd].
    split.
    { specialize (Hl3 node W). destruct (list_at h2 node W) as [l|] eqn:El.
      2:{ exfalso. destruct Hlk2 as (l' & El' & _). unfold list_at in El, El'.
          destruct (get_l3 h2 node); done. }
      cbn in Hl3. rewrite decide_True in Hl3 by done.
      eexists. split; [exact Hl3|]. left. }
    split; [by rewrite Hst3|].
    split; [change (num (cachep h3)) with (num (cachep h0)); by rewrite En0|].
    destruct Hok as [Hlen Hc Hnd Hb Hl]. rewrite Hch in Hnd, Hb.
    assert (i < Z.to_nat (num (cachep h)))%nat by (apply Hb; left).
    split; [change (num (cachep h3)) with (num (cachep h0)); rewrite En0; lia|].
    rewrite Nat2Z.id. by apply NoDup_cons in Hnd as [? _].
  - intros loc l Hl Ho. unfold entries_at in Hl. rewrite Hac3, Hac2 in Hl.
    eapply (in_slab_not_cached cpu_to_node h0 o loc l); [by rewrite En0|done|done|done|done].
Qed.


(** kmem_getpages consumes an answer of the page allocator and leaves the
    cache alone. *)
Lemma kmem_getpages_view h got h1 :
  Inv cpu_to_node h -> kmem_getpages h = (got, h1) ->
  Inv cpu_to_node h1 /\ grown h h1 /\ keeps_live h h1 /\
  (forall loc, get_ac h1 loc = get_ac h loc) /\
  released h1 = released h /\
  (forall m, get_l3 h1 m = get_l3 h m) /\
  slab_store h1 = slab_store h.
Proof.
  intros HInv E.
  assert (Hc : cachep h1 = cachep h /\ slab_store h1 = slab_store h /\
               released h1 = released h /\ obj_mem h1 = obj_mem h /\
               ctor_calls h1 = ctor_calls h).
  { unfold kmem_getpages in E. destruct (page_oracle h); by injection E as _ <-. }
  destruct Hc as (Hc & Hst & Hr & Hm & Hct).
  assert (Hl : forall m, get_l3 h1 m = get_l3 h m) by (intros; unfold get_l3; by rewrite Hc).
  assert (Hac : forall loc, get_ac h1 loc = get_ac h loc).
  { intros []; cbn [get_ac]; by rewrite ?Hl, ?Hc. }
  destruct (Inv_same_view cpu_to_node h h1 HInv) as (HI & Hlv & _).
  - by rewrite Hc.
  - done.
  - done.
  - intros n w. unfold list_at. by rewrite Hl.
  - intros loc. unfold entries_at. by rewrite Hac.
  - split; [done|]. split; [|done].
    split; [by rewrite Hc|]. split; [by rewrite Hc|]. split; [by rewrite Hst|].
    split; [intros; by rewrite Hm|].
    exists []. rewrite app_nil_r. split; [done|]. intros o Ho. by apply elem_of_nil in Ho.
Qed.

(** Growing with pages that the caller has got is growing after the page
    allocator has said yes. *)
Lemma cache_grow_have_pages h h1 nid :
  kmem_getpages h = (true, h1) ->
  cache_grow h1 nid true = cache_grow h nid false.
Proof.
  unfold kmem_getpages. intros E.
  destruct (page_oracle h) as [|b rest] eqn:Ep; [done|].
  apply pair_equal_spec in E as [-> <-].
  unfold cache_grow, kmem_getpages.
  change (get_l3 (mk_heap (cachep h) (slab_store h) (obj_mem h) (ctor_calls h) rest
                          (mgmt_oracle h) (released h)) nid) with (get_l3 h nid).
  destruct (get_l3 h nid) as [l3|]; [|done]. cbn [mbind option_bind].
  cbn [cachep]. destruct (next_colour (cachep h) l3) as [offset next].
  cbn [set_l3 set_cachep page_oracle cachep slab_store obj_mem ctor_calls
       mgmt_oracle released]. rewrite Ep. reflexivity.
Qed.

(** ____cache_alloc_node up to the call of fallback_alloc: an object of the
    node is handed out, or both lists are empty, the growth fails and
    fallback_alloc goes on from there. *)
Lemma alloc_node_core fuel thisnode h node l3 :
  Inv cpu_to_node h -> get_l3 h node = Some l3 ->
  exists h',
    Inv cpu_to_node h' /\ grown h h' /\ keeps_live h h' /\
    (forall loc, get_ac h' loc = get_ac h loc) /\
    released h' = released h /\
    (forall m, is_Some (get_l3 h m) -> is_Some (get_l3 h' m)) /\
    ((exists o,
        node_alloc (S (S fuel)) thisnode h node = Some (Some o, h') /\
        live h' o /\ ~ live h o /\
        (exists sl, slab_store h' !! fst o = Some sl /\ nodeid sl = node) /\
        match first_slab h node with
        | Some s => fst o = s /\ in_slab h o
        | None => fst o = length (slab_store h) /\ snd o = 0
        end) \/
     (first_slab h node = None /\
      cache_grow (set_l3 h node (set_free_touched l3 1)) node false = Some (0, h') /\
      node_alloc (S (S fuel)) thisnode h node = fallback (S fuel) thisnode h')).
Proof.
  intros HInv El3.
  pose proof (num_ok _ _ (proj1 HInv)) as Hnum.
  destruct (first_slab h node) as [s|] eqn:Efirst.
  - destruct (alloc_node_take h node s l3 HInv El3 Efirst)
      as (o & h' & sl & chain & rest & Erun & HI & Hq & Hlv & Hac & Hr & Hl3s & Hsl & Hok &
          Hnode & Hch & Hfst & Hpos & Hlive & Hin & sl' & Hsl' & Hnode' & _).
    exists h'. split; [done|].
    split; [by apply quiet_grown|]. split; [done|]. split; [done|]. split; [done|].
    split; [done|]. left. exists o.
    split; [apply Erun|]. split; [done|]. split.
    { intros [[n Hheld] _]. by eapply in_slab_not_held. }
    split; [|done]. exists sl'. by rewrite Hfst.
  - (* both lists are empty *)
    assert (Hempty : slabs_partial l3 = [] /\ slabs_free l3 = []).
    { unfold first_slab, list_at in Efirst. rewrite El3 in Efirst.
      cbn [mbind option_bind get_list] in Efirst.
      destruct (slabs_partial l3); [|done]. by destruct (slabs_free l3). }
    destruct Hempty as [Ep Ef].
    destruct (set_l3_same_lists h node l3 (set_free_touched l3 1) HInv El3)
      as (HI0 & Hq0 & Hlv0 & Hac0 & Hl0 & Hin0 & Hst0 & Hr0);
      [by intros []|done|done|].
    set (h0 := set_l3 h node (set_free_touched l3 1)) in *.
    assert (El30 : get_l3 h0 node = Some (set_free_touched l3 1)).
    { unfold h0. apply get_l3_set_l3_eq. rewrite El3. eauto. }
    destruct (cache_grow_spec cpu_to_node h0 node _ HI0 El30)
      as (x & h2 & Eg & HI2 & Hlv2 & Hin2 & Hgeo & Hct & Hac2 & Hr2 & Hcase).
    assert (Hg02 : grown h0 h2) by (by destruct (cache_grow_inv cpu_to_node h0 _ _ _ HI0 Eg) as (_ & ? & _)).
    assert (Hstep : node_alloc (S (S fuel)) thisnode h node =
                    if negb (x =? 0) then node_alloc (S fuel) thisnode h2 node
                    else fallback (S fuel) thisnode h2).
    { cbn [____cache_alloc_node]. rewrite El3. cbn [mbind option_bind].
      rewrite Ep, Ef. cbn zeta. fold h0. rewrite Eg. cbn [mbind option_bind].
      reflexivity. }
    assert (Hsome02 : forall m, is_Some (get_l3 h m) -> is_Some (get_l3 h2 m)).
    { intros m Hm. apply (list_at_is_Some h2 m Partial).
      apply (list_at_is_Some h m Partial) in Hm. rewrite <- Hl0 in Hm.
      destruct Hm as [l El].
      destruct Hcase as [(_ & _ & Hl2 & _)|(_ & sl & _ & _ & _ & _ & Hl2 & _)];
        rewrite Hl2, El; cbn; eauto. }
    destruct Hcase as [(-> & Hst2 & Hl2 & _)|(-> & sl & Hst2 & Hok & Hiu & Hnode & Hl2 & _)].
    + cbn [negb Z.eqb] in Hstep. exists h2. split; [done|].
      split; [eapply grown_trans; [by apply quiet_grown|done]|].
      split; [by eapply keeps_live_trans|].
      split; [intros; by rewrite Hac2, Hac0|]. split; [congruence|].
      split; [done|]. right. done.
    + cbn [negb Z.eqb] in Hstep.
      set (slabp := length (slab_store h0)) in *.
      assert (El32 : is_Some (get_l3 h2 node)).
      { apply (list_at_is_Some h2 node Free). rewrite Hl2.
        unfold list_at. rewrite El30. cbn. eauto. }
      destruct El32 as [l32 El32].
      assert (Efirst2 : first_slab h2 node = Some slabp).
      { unfold first_slab. rewrite !Hl2. unfold list_at. rewrite El30.
        cbn [mbind option_bind fmap option_fmap option_map get_list set_free_touched
             slabs_partial slabs_free].
        rewrite Ep, Ef. rewrite decide_False by congruence.
        rewrite decide_True by done. done. }
      destruct (alloc_node_take h2 node slabp l32 HI2 El32 Efirst2)
        as (o & h' & sl2 & chain & rest & Erun & HI & Hq & Hlv & Hac & Hr & Hl3s & Hsl &
            Hok2 & Hnode2 & Hch & Hfst & Hpos & Hlive & Hin & sl' & Hsl' & Hnode' & _).
      exists h'. split; [done|].
      split.
      { eapply grown_trans; [by apply quiet_grown|].
        eapply grown_trans; [exact Hg02|]. by apply quiet_grown. }
      split.
      { eapply keeps_live_trans; [exact Hlv0|]. by eapply keeps_live_trans. }
      split; [intros; by rewrite Hac, Hac2, Hac0|]. split; [congruence|].
      split; [intros m Hm; by apply Hl3s, Hsome02|].
      left. exists o. split; [rewrite Hstep; apply Erun|].
      split; [done|].
      assert (Eslabp : slabp = length (slab_store h)) by (unfold slabp; by rewrite Hst0).
      split.
      { intros [(n & w & slx & chx & _ & Hslx & _) _].
        apply lookup_lt_Some in Hslx. rewrite Hfst, Eslabp in Hslx. lia. }
      split; [exists sl'; by rewrite Hfst|].
      split; [congruence|].
      (* the first slot of the new slab *)
      rewrite Hst2 in Hsl. unfold slabp in Hsl.
      rewrite lookup_app_r in Hsl by lia. rewrite Nat.sub_diag in Hsl.
      injection Hsl as <-.
      assert (En2 : num (cachep h2) = num (cachep h0)).
      { unfold geometry in Hgeo. congruence. }
      rewrite En2 in Hok2.
      assert (chain = seq 0 (Z.to_nat (num (cachep h0)))) as Echain.
      { eapply slab_ok_unique; [|exact Hok2|exact Hok].
        change (num (cachep h0)) with (num (cachep h)). lia. }
      rewrite Echain in Hch.
      destruct (Z.to_nat (num (cachep h0))) as [|n] eqn:En; [done|].
      cbn in Hch. injection Hch as Hz _. lia.
Qed.

(** Under __GFP_THISNODE the function returns: an object, or none when
    the node cannot be grown. *)
Lemma alloc_thisnode fuel h node :
  Inv cpu_to_node h -> is_Some (get_l3 h node) ->
  exists r h',
    node_alloc (S (S fuel)) true h node = Some (r, h') /\
    Inv cpu_to_node h' /\ grown h h' /\ keeps_live h h' /\
    (forall loc, get_ac h' loc = get_ac h loc) /\
    released h' = released h /\
    (forall m, is_Some (get_l3 h m) -> is_Some (get_l3 h' m)) /\
    match r with
    | Some o => live h' o /\ ~ live h o /\ is_Some (slab_store h' !! fst o)
    | None => True
    end.
Proof.
  intros HInv [l3 El3].
  destruct (alloc_node_core fuel true h node l3 HInv El3)
    as (h' & HI & Hg & Hlv & Hac & Hr & Hs & [(o & E & Hlo & Hno & (sl & Hsl & _) & _)|
                                               (_ & _ & E)]).
  - exists (Some o), h'. rewrite Hsl. repeat (split; [done|]). eauto.
  - exists None, h'. split; [by rewrite E|]. done.
Qed.

(** The loop over the zones. *)
Lemma scan_zones_spec fuel zs : forall h,
  Inv cpu_to_node h ->
  exists r h',
    scan_zones (node_alloc (S (S fuel)) true) h zs = Some (r, h') /\
    Inv cpu_to_node h' /\ grown h h' /\ keeps_live h h' /\
    (forall loc, get_ac h' loc = get_ac h loc) /\
    released h' = released h /\
    (forall m, is_Some (get_l3 h m) -> is_Some (get_l3 h' m)) /\
    match r with
    | Some o => live h' o /\ ~ live h o /\ is_Some (slab_store h' !! fst o)
    | None => True
    end.
Proof.
  induction zs as [|[nid allowed] rest IH]; intros h HInv.
  { exists None, h. split; [done|]. split; [done|].
    split; [apply quiet_grown, quiet_refl|]. split; [apply keeps_live_refl|]. done. }
  change (scan_zones (node_alloc (S (S fuel)) true) h ((nid, allowed) :: rest))
    with (if allowed && match get_l3 h nid with
                        | Some l3 => negb (free_objects l3 =? 0)
                        | None => false
                        end
          then r ← node_alloc (S (S fuel)) true h nid;
               match r with
               | (Some obj, h) => Some (Some obj, h)
               | (None, h) => scan_zones (node_alloc (S (S fuel)) true) h rest
               end
          else scan_zones (node_alloc (S (S fuel)) true) h rest).
  destruct (allowed && _) eqn:Hguard; [|by apply IH].
  assert (Hl3 : is_Some (get_l3 h nid)).
  { apply andb_true_iff in Hguard as [_ Hg]. destruct (get_l3 h nid); [eauto|done]. }
  destruct (alloc_thisnode fuel h nid HInv Hl3)
    as (r & h1 & E & HI1 & Hg1 & Hlv1 & Hac1 & Hr1 & Hs1 & Hres).
  rewrite E. cbn [mbind option_bind].
  destruct r as [o|].
  { exists (Some o), h1. done. }
  destruct (IH h1 HI1) as (r & h' & E' & HI' & Hg' & Hlv' & Hac' & Hr' & Hs' & Hres').
  exists r, h'. split; [done|]. split; [done|].
  split; [by eapply grown_trans|]. split; [by eapply keeps_live_trans|].
  split; [intros; by rewrite Hac', Hac1|]. split; [congruence|].
  split; [intros m Hm; by apply Hs', Hs1|].
  destruct r as [o|]; [|done]. destruct Hres' as (Hlo & Hno & Hsl).
  split; [done|]. split; [|done]. intros Hl. by apply Hno, Hlv1.
Qed.

Lemma fallback_alloc_unfold fuel h :
  fallback (S fuel) false h =
  (r ← scan_zones (node_alloc fuel true) h zones;
   match r with
   | (Some obj, h) => Some (Some obj, h)
   | (None, h) =>
       let '(got, h) := kmem_getpages h in
       if negb got then Some (None, h)
       else
         let nid := page_to_nid h in
         r ← cache_grow h nid true;
         let '(x, h) := r in
         if negb (x =? 0) then
           r ← node_alloc fuel true h nid;
           match r with
           | (Some obj, h) => Some (Some obj, h)
           | (None, h) => fallback fuel false h
           end
         else Some (None, h)
   end).
Proof. reflexivity. Qed.

(** fallback_alloc without __GFP_THISNODE returns, with an object of one
    of the nodes or with none. *)
Lemma fallback_alloc_spec fuel h :
  Inv cpu_to_node h ->
  (forall hx, is_Some (get_l3 h (page_to_nid hx))) ->
  exists r h',
    fallback (S (S (S fuel))) false h = Some (r, h') /\
    Inv cpu_to_node h' /\ grown h h' /\ keeps_live h h' /\
    (forall loc, get_ac h' loc = get_ac h loc) /\
    released h' = released h /\
    (forall m, is_Some (get_l3 h m) -> is_Some (get_l3 h' m)) /\
    match r with
    | Some o => live h' o /\ ~ live h o /\ is_Some (slab_store h' !! fst o)
    | None => True
    end.
Proof.
  intros HInv Hpages.
  rewrite fallback_alloc_unfold.
  destruct (scan_zones_spec fuel zones h HInv)
    as (r & h1 & E & HI1 & Hg1 & Hlv1 & Hac1 & Hr1 & Hs1 & Hres).
  rewrite E. cbn [mbind option_bind].
  destruct r as [o|].
  { exists (Some o), h1. done. }
  destruct (kmem_getpages h1) as [got h1'] eqn:Egp.
  destruct (kmem_getpages_view h1 got h1' HI1 Egp)
    as (HI1' & Hg1' & Hlv1' & Hac1' & Hr1' & Hl1' & Hst1').
  destruct got; cbn [negb].
  2: { exists None, h1'. split; [done|]. split; [done|].
       split; [by eapply grown_trans|]. split; [by eapply keeps_live_trans|].
       split; [intros; by rewrite Hac1', Hac1|]. split; [congruence|].
       split; [|done]. intros m Hm. rewrite Hl1'. by apply Hs1. }
  set (nid := page_to_nid h1').
  rewrite (cache_grow_have_pages h1 h1' nid Egp).
  destruct (Hs1 nid (Hpages h1')) as [l3n El3n].
  destruct (cache_grow_spec cpu_to_node h1 nid l3n HI1 El3n)
    as (x & h2 & Eg & HI2 & Hlv2 & Hin2 & Hgeo & Hct & Hac2 & Hr2 & Hcase).
  assert (Hg12 : grown h1 h2)
    by (by destruct (cache_grow_inv cpu_to_node h1 _ _ _ HI1 Eg) as (_ & ? & _)).
  rewrite Eg. cbn [mbind option_bind].
  assert (Hsome12 : forall m, is_Some (get_l3 h1 m) -> is_Some (get_l3 h2 m)).
  { intros m Hm. apply (list_at_is_Some h2 m Partial).
    apply (list_at_is_Some h1 m Partial) in Hm. destruct Hm as [l El].
    destruct Hcase as [(_ & _ & Hl2 & _)|(_ & sl & _ & _ & _ & _ & Hl2 & _)];
      rewrite Hl2, El; cbn; eauto. }
  destruct Hcase as [(-> & _)|(-> & sl & Hst2 & Hok & Hiu & Hnode & Hl2 & _)];
    cbn [negb Z.eqb].
  { exists None, h2. split; [done|]. split; [done|].
    split; [by eapply grown_trans|]. split; [by eapply keeps_live_trans|].
    split; [intros; by rewrite Hac2, Hac1|]. split; [congruence|].
    split; [|done]. intros m Hm. by apply Hsome12, Hs1. }
  (* the new slab is on the free list of the node: an object is there *)
  destruct (Hsome12 nid ltac:(rewrite El3n; eauto)) as [l32 El32].
  assert (Efirst2 : is_Some (first_slab h2 nid)).
  { unfold first_slab. rewrite !Hl2.
    unfold list_at. rewrite El3n. cbn [mbind option_bind fmap option_fmap option_map].
    rewrite decide_False by congruence. rewrite decide_True by done.
    destruct (get_list l3n Partial); [|eauto].
    destruct (get_list l3n Free); cbn; eauto. }
  destruct Efirst2 as [s2 Efirst2].
  destruct (alloc_node_take h2 nid s2 l32 HI2 El32 Efirst2)
    as (o & h' & sl2 & chain & rest & Erun & HI & Hq & Hlv & Hac & Hr & Hl3s & Hsl &
        Hok2 & Hnode2 & Hch & Hfst & Hpos & Hlive & Hin & sl' & Hsl' & _).
  rewrite Erun. cbn [mbind option_bind].
  exists (Some o), h'. split; [done|]. split; [done|].
  split.
  { eapply grown_trans; [exact Hg1|]. eapply grown_trans; [exact Hg12|].
    by apply quiet_grown. }
  split.
  { eapply keeps_live_trans; [exact Hlv1|]. by eapply keeps_live_trans. }
  split; [intros; by rewrite Hac, Hac2, Hac1|]. split; [congruence|].
  split; [intros m Hm; by apply Hl3s, Hsome12, Hs1|].
  split; [done|]. split.
  - intros Hl. destruct (Hlv2 o (proj1 (Hlv1 o Hl))) as [[[n Hheld] _] _].
    by eapply (in_slab_not_held h2 n o); [apply (num_ok _ _ (proj1 HI2))| |].
  - rewrite <- Hfst in Hsl'. rewrite Hsl'. eauto.
Qed.

End NodeAlloc.

(** ** Destroying a cache that callers have left *)

Section NoNewSlab.
Context `{platform}.

Lemma no_new_slab_refl h : no_new_slab h h.
Proof. intros m w x Hx. eauto. Qed.

Lemma no_new_slab_trans h1 h2 h3 :
  no_new_slab h1 h2 -> no_new_slab h2 h3 -> no_new_slab h1 h3.
Proof. intros H12 H23 m w x Hx. destruct (H23 _ _ _ Hx) as [w0 H0]. eauto. Qed.

Lemma no_new_slab_same h h' :
  (forall m w, list_at h' m w = list_at h m w) -> no_new_slab h h'.
Proof.
  intros Hl m w x (l & El & Hx). exists w, l. by rewrite <- Hl.
Qed.

Lemma free_block_one_lists h o n h' :
  (exists w0, linked h n w0 (fst o)) ->
  free_block_one h o n = Some h' -> no_new_slab h h'.
Proof.
  intros Hs Hrun. unfold free_block_one in Hrun.
  set (s := virt_to_slab o) in *.
  destruct (get_l3 h n) as [l30|] eqn:El30; [|done]. cbn [mbind option_bind] in Hrun.
  destruct (slab_put_obj (list_del h s) s o) as [h1|] eqn:Ep; [|done].
  cbn [mbind option_bind] in Hrun.
  assert (Hc1 : cachep h1 = cachep (list_del h s)).
  { unfold slab_put_obj in Ep. destruct (slab_store _ !! _); [|done].
    cbn [mbind option_bind] in Ep. destruct (_ && _); [|done]. by injection Ep as <-. }
  assert (Hl1 : forall m w, list_at h1 m w = unlink s <$> list_at h m w).
  { intros m w. rewrite <- list_at_list_del.
    by destruct (views_cachep _ _ Hc1) as (_ & _ & -> & _). }
  destruct (get_l3 h1 n) as [l3|] eqn:El3; [|done]. cbn [mbind option_bind] in Hrun.
  destruct (slab_store h1 !! s) as [sl|]; [|done]. cbn [mbind option_bind] in Hrun.
  assert (Hold : forall m w x, x ∈ default [] (list_at h1 m w) -> linked h m w x).
  { intros m w x Hx. rewrite Hl1 in Hx. destruct (list_at h m w) as [l|] eqn:El; [|
      by apply elem_of_nil in Hx].
    cbn in Hx. apply elem_of_unlink in Hx as [Hx _]. by exists l. }
  assert (Hgen : forall l3',
    (forall w x, x ∈ get_list l3' w -> x = s \/ x ∈ get_list l3 w) ->
    no_new_slab h (set_l3 h1 n l3')).
  { intros l3' Hsub m w x (l & El & Hx).
    destruct (decide (n = m)) as [<-|Hne].
    - rewrite list_at_set_l3_eq in El by (rewrite El3; eauto). injection El as <-.
      destruct (Hsub _ _ Hx) as [->|Hx']; [exact Hs|].
      exists w. apply Hold. unfold list_at. rewrite El3. done.
    - rewrite list_at_set_l3_ne in El by done. exists w. apply Hold. by rewrite El. }
  set (l3i := set_free_objects l3 (wrap (free_objects l3 + 1))) in *.
  assert (Hi : forall w, get_list l3i w = get_list l3 w) by (by intros []).
  destruct (inuse sl =? 0).
  - destruct (_ >? _).
    + assert (h' = slab_destroy (set_l3 h1 n (set_free_objects l3i
                     (wrap (free_objects l3i - num (cachep h1))))) s) as ->
        by (injection Hrun as Hx; symmetry; exact Hx).
      intros m w x Hx.
      change (linked (slab_destroy ?y _) m w x) with (linked y m w x) in Hx.
      revert m w x Hx. apply Hgen.
      intros w' x' Hx'. right. by destruct w'.
    + assert (h' = set_l3 h1 n (list_add l3i Free s)) as ->
        by (injection Hrun as Hx; symmetry; exact Hx).
      apply Hgen. intros w x Hx. rewrite get_list_list_add in Hx.
      case_decide; [|right; by rewrite <- Hi].
      apply elem_of_cons in Hx as [->|Hx]; [by left|right; by rewrite <- Hi].
  - assert (h' = set_l3 h1 n (list_add_tail l3i Partial s)) as ->
      by (injection Hrun as Hx; symmetry; exact Hx).
    apply Hgen. intros w x Hx.
    rewrite get_list_list_add_tail in Hx.
    case_decide; [|right; by rewrite <- Hi].
    apply elem_of_app in Hx as [Hx|Hx]; [right; by rewrite <- Hi|].
    apply list_elem_of_singleton in Hx as ->. by left.
Qed.

Lemma free_block_lists objs : forall h n h',
  core h None -> NoDup objs -> (forall o, o ∈ objs -> held h n o) ->
  free_block h objs n = Some h' -> no_new_slab h h'.
Proof.
  induction objs as [|o objs IH]; intros h n h' Hc Hnd Hheld Hrun;
    cbn [free_block] in Hrun.
  - injection Hrun as <-. apply no_new_slab_refl.
  - destruct (free_block_one h o n) as [h1|] eqn:E1; [|done].
    cbn [mbind option_bind] in Hrun.
    apply NoDup_cons in Hnd as [Hno Hnd].
    assert (Ho : held h n o) by (apply Hheld; left).
    destruct (free_block_one_spec h o n Hc Ho) as (h1' & E1' & Hc1 & _ & _ & Hk & _).
    rewrite E1 in E1'. injection E1' as <-.
    eapply no_new_slab_trans.
    + apply (free_block_one_lists h o n h1); [|done].
      destruct Ho as (w & _ & _ & Hlk & _). eauto.
    + apply (IH h1 n h' Hc1 Hnd); [|done].
      intros o' Ho'. apply Hk; [|apply Hheld; by right].
      intros ->. done.
Qed.
End NoNewSlab.

Section Settling.
Context `{platform}.
Variable cpu_to_node : nat -> nat.
Variable online_cpus : list nat.
Variable online_nodes : list nat.

Lemma settles_refl h : settles online_cpus online_nodes h h.
Proof. split; [done|]. intros loc l o Hon El Ho. right. eauto. Qed.

Lemma settles_trans h1 h2 h3 :
  settles online_cpus online_nodes h1 h2 -> settles online_cpus online_nodes h2 h3 ->
  settles online_cpus online_nodes h1 h3.
Proof.
  intros [Hin1 Hc1] [Hin2 Hc2]. split; [auto|].
  intros loc l o Hon El Ho.
  destruct (Hc1 loc l o Hon El Ho) as [Hi|(loc' & l' & Hon' & El' & Ho')]; [auto|].
  exact (Hc2 loc' l' o Hon' El' Ho').
Qed.


Lemma drains_refl h : Inv cpu_to_node h -> drains cpu_to_node online_cpus online_nodes h h.
Proof.
  intros HI. split; [done|]. split; [apply quiet_refl|]. split; [apply keeps_live_refl|].
  split; [apply no_new_slab_refl|]. split; [apply settles_refl|done].
Qed.

Lemma drains_trans h1 h2 h3 :
  drains cpu_to_node online_cpus online_nodes h1 h2 ->
  drains cpu_to_node online_cpus online_nodes h2 h3 ->
  drains cpu_to_node online_cpus online_nodes h1 h3.
Proof.
  intros (_ & Hq1 & Hl1 & Hn1 & Hs1 & W1) (HI & Hq2 & Hl2 & Hn2 & Hs2 & W2).
  split; [done|]. split; [by eapply quiet_trans|]. split; [by eapply keeps_live_trans|].
  split; [by eapply no_new_slab_trans|]. split; [by eapply settles_trans|].
  by rewrite W2.
Qed.

(** An array cache gives all its entries back to their slabs. *)
Lemma free_all_drains h loc ac h1 acx :
  Inv cpu_to_node h -> get_ac h loc = Some ac ->
  free_block h (entry ac) (home cpu_to_node loc) = Some h1 ->
  let h' := set_ac h1 loc (set_entry acx []) in
  drains cpu_to_node online_cpus online_nodes h h' /\
  entries_at h' loc = Some [] /\
  (forall loc', loc' <> loc -> entries_at h' loc' = entries_at h loc').
Proof.
  intros HInv Eac Ef h'.
  destruct (free_entries_inv cpu_to_node h loc ac (entry ac) [] h1 acx HInv Eac
              ltac:(by rewrite app_nil_r) Ef)
    as (HI & Hq & Hlv & Hent & Hoth & Hobjs & Hin & _).
  fold h' in HI, Hq, Hlv, Hent, Hoth, Hobjs, Hin.
  assert (Hac1 : get_ac h1 loc = Some ac).
  { destruct (free_block_spec (entry ac) h (home cpu_to_node loc))
      as (h1' & Ef' & _ & _ & Hac & _).
    - apply HInv.
    - eapply entries_nodup; [apply HInv|]. by apply entries_at_get_ac.
    - intros o Ho. apply (entries_held _ _ (proj2 HInv) loc (entry ac)); [|done].
      by apply entries_at_get_ac.
    - rewrite Ef in Ef'. injection Ef' as <-. by rewrite Hac. }
  split; [|done].
  split; [done|]. split; [done|]. split; [done|].
  split.
  { eapply no_new_slab_trans.
    - apply (free_block_lists (entry ac) h (home cpu_to_node loc) h1); [apply HInv| | |done].
      + eapply entries_nodup; [apply HInv|]. by apply entries_at_get_ac.
      + intros o Ho. apply (entries_held _ _ (proj2 HInv) loc (entry ac)); [|done].
        by apply entries_at_get_ac.
    - apply no_new_slab_same. intros. apply list_at_set_ac. }
  split.
  { split; [done|]. intros loc0 l o Hon El Ho.
    destruct (decide (loc0 = loc)) as [->|Hne].
    - left. apply Hobjs. rewrite (entries_at_get_ac _ _ _ Eac) in El. by injection El as <-.
    - right. exists loc0, l. by rewrite Hoth. }
  unfold h'. rewrite wiring_set_ac by (rewrite Hac1; eauto).
  by eapply wiring_free_block.
Qed.

Lemma do_drain_drains h cpu h' :
  Inv cpu_to_node h -> do_drain cpu_to_node h cpu = Some h' ->
  drains cpu_to_node online_cpus online_nodes h h' /\
  entries_at h' (AcCpu cpu) = Some [] /\
  (forall loc', loc' <> AcCpu cpu -> entries_at h' loc' = entries_at h loc').
Proof.
  intros HInv Hrun. unfold do_drain in Hrun.
  destruct (get_ac h (AcCpu cpu)) as [ac|] eqn:Eac; [|done].
  cbn [mbind option_bind] in Hrun.
  destruct (get_l3 h _); [|done]. cbn [mbind option_bind] in Hrun.
  destruct (free_block h _ _) as [h1|] eqn:Ef; [|done]. cbn [mbind option_bind] in Hrun.
  destruct (get_ac h1 (AcCpu cpu)) as [ac1|] eqn:E1; [|done].
  assert (h' = set_ac h1 (AcCpu cpu) (set_entry ac1 [])) as ->
    by (injection Hrun as Hx; symmetry; exact Hx).
  exact (free_all_drains h (AcCpu cpu) ac h1 ac1 HInv Eac Ef).
Qed.

Lemma drain_alien_drains h node remote h' :
  Inv cpu_to_node h -> remote ∈ online_nodes ->
  __drain_alien_cache h (AcAlien node remote) remote = Some h' ->
  drains cpu_to_node online_cpus online_nodes h h' /\
  (forall l, entries_at h' (AcAlien node remote) = Some l -> l = []) /\
  (forall loc', loc' <> AcAlien node remote -> loc' <> AcShared remote ->
     entries_at h' loc' = entries_at h loc').
Proof.
  intros HInv Hr Hrun.
  set (loc := AcAlien node remote) in *.
  destruct (drain_alien_defined _ _ _ _ Hrun) as (ac & Eac & Hl3).
  unfold __drain_alien_cache in Hrun. rewrite Eac in Hrun.
  cbn [mbind option_bind] in Hrun.
  destruct (Z.eqb_spec (avail ac) 0) as [Hz|Hnz]; cbn [negb] in Hrun.
  { injection Hrun as <-. split; [by apply drains_refl|]. split; [|done].
    intros l El. rewrite (entries_at_get_ac _ _ _ Eac) in El. injection El as <-.
    unfold avail in Hz. destruct (entry ac); [done|]. cbn in Hz. lia. }
  destruct (Hl3 Hnz) as [rl3 El3]. rewrite El3 in Hrun. cbn [mbind option_bind] in Hrun.
  (* after the transfer to the shared array *)
  assert (Hstage : exists h1 ac1,
            (match shared rl3 with
             | Some sh =>
                 let '(sh', ac', _) := transfer_objects sh ac (limit ac) in
                 set_ac (set_ac h (AcShared remote) sh') loc ac'
             | None => h
             end) = h1 /\
            get_ac h1 loc = Some ac1 /\
            drains cpu_to_node online_cpus online_nodes h h1 /\
            (forall loc', loc' <> loc -> loc' <> AcShared remote ->
               entries_at h1 loc' = entries_at h loc')).
  { destruct (shared rl3) as [sh|] eqn:Esh.
    - destruct (transfer_objects_entries sh ac (limit ac)) as (k & Hto & Hfrom & _).
      destruct (transfer_objects sh ac (limit ac)) as [[sh' ac'] nr].
      cbn [fst snd] in Hto, Hfrom.
      assert (Esh' : get_ac h (AcShared remote) = Some sh)
        by (cbn [get_ac]; by rewrite El3).
      destruct (move_entries_inv cpu_to_node h loc (AcShared remote) ac sh k ac' sh'
                  HInv ltac:(done) eq_refl Eac Esh' Hfrom Hto)
        as (HI & Hq & Hlive & HeA & HeB & Hoth & Hst & Hin & Hl).
      eexists _, ac'. split; [reflexivity|].
      split. { rewrite get_ac_set_ac_eq; [done|].
               rewrite get_ac_set_ac_ne, Eac by done. eauto. }
      split; [|done].
      split; [done|]. split; [done|]. split; [done|].
      split; [by apply no_new_slab_same|].
      split.
      { split; [intros o; apply Hin|]. intros loc0 l o Hon El Ho. right.
        destruct (decide (loc0 = loc)) as [->|Hne].
        - rewrite (entries_at_get_ac _ _ _ Eac) in El. injection El as <-.
          rewrite (elem_of_take_drop _ k) in Ho. destruct Ho as [Ho|Ho].
          + exists loc, (take k (entry ac)). done.
          + exists (AcShared remote), (entry sh ++ drop k (entry ac)).
            split; [exact Hr|]. split; [done|]. apply elem_of_app. by right.
        - destruct (decide (loc0 = AcShared remote)) as [->|Hne2].
          + rewrite (entries_at_get_ac _ _ _ Esh') in El. injection El as <-.
            exists (AcShared remote), (entry sh ++ drop k (entry ac)).
            split; [done|]. split; [done|]. apply elem_of_app. by left.
          + exists loc0, l. by rewrite Hoth. }
      rewrite !wiring_set_ac; [done|rewrite Esh'; eauto|].
      rewrite get_ac_set_ac_ne by done. rewrite Eac. eauto.
    - exists h, ac. split; [done|]. split; [done|]. split; [by apply drains_refl|done]. }
  destruct Hstage as (h1 & ac1 & Hst & Eac1 & Hd1 & Hoth1).
  cbv zeta in Hrun. rewrite Hst in Hrun. clear Hst.
  rewrite Eac1 in Hrun. cbn [mbind option_bind] in Hrun.
  destruct (free_block h1 (entry ac1) remote) as [h2|] eqn:Ef; [|done].
  cbn [mbind option_bind] in Hrun.
  destruct (get_ac h2 loc) as [ac2|] eqn:E2; [|done].
  assert (h' = set_ac h2 loc (set_entry ac2 [])) as ->
    by (injection Hrun as Hx; symmetry; exact Hx).
  destruct (free_all_drains h1 loc ac1 h2 ac2 (proj1 Hd1) Eac1 Ef) as (Hd2 & Hent & Hoth2).
  split; [by eapply drains_trans|]. split.
  - intros l El. rewrite Hent in El. by injection El as <-.
  - intros loc' H1 H2. rewrite Hoth2 by done. by apply Hoth1.
Qed.

Lemma drain_array_drains h node h' :
  Inv cpu_to_node h ->
  Z.of_nat (length (slab_store h)) * num (cachep h) < 2 ^ 31 ->
  drain_array h (AcShared node) 1 node = Some h' ->
  drains cpu_to_node online_cpus online_nodes h h' /\
  (forall l, entries_at h' (AcShared node) = Some l -> l = []) /\
  (forall loc', loc' <> AcShared node -> entries_at h' loc' = entries_at h loc').
Proof.
  intros HInv Hb Hrun. unfold drain_array in Hrun.
  destruct (get_ac h (AcShared node)) as [ac|] eqn:Eac.
  2:{ injection Hrun as <-. split; [by apply drains_refl|]. split; [|done].
      intros l El. unfold entries_at in El. by rewrite Eac in El. }
  destruct (Z.eqb_spec (avail ac) 0) as [Hz|Hnz].
  { injection Hrun as <-. split; [by apply drains_refl|]. split; [|done].
    intros l El. rewrite (entries_at_get_ac _ _ _ Eac) in El. injection El as <-.
    unfold avail in Hz. destruct (entry ac); [done|]. cbn in Hz. lia. }
  change (1 =? 0) with false in Hrun. rewrite andb_false_r in Hrun. cbn [negb] in Hrun.
  destruct (get_l3 h node) as [l3|]; [|done]. cbn [mbind option_bind] in Hrun.
  pose proof (entries_count cpu_to_node h _ ac HInv Eac) as Hcount.
  assert (Hav : 0 <= avail ac) by (unfold avail; lia).
  rewrite to_int_small in Hrun by lia. rewrite u32_small in Hrun by lia.
  replace (avail ac >? avail ac) with false in Hrun
    by (rewrite Z.gtb_ltb; symmetry; apply Z.ltb_irrefl).
  rewrite entry_prefix_ok in Hrun by lia. cbn [mbind option_bind] in Hrun.
  rewrite take_ge in Hrun by (unfold avail; lia).
  destruct (free_block h (entry ac) node) as [h1|] eqn:Ef; [|done].
  cbn [mbind option_bind] in Hrun.
  destruct (get_ac h1 (AcShared node)) as [ac1|] eqn:E1; [|done].
  assert (Hac1 : get_ac h1 (AcShared node) = Some ac).
  { destruct (free_block_spec (entry ac) h node) as (h1' & Ef' & _ & _ & Hac & _).
    - apply HInv.
    - eapply entries_nodup; [apply HInv|]. by apply entries_at_get_ac.
    - intros o Ho.
      apply (entries_held _ _ (proj2 HInv) (AcShared node) (entry ac)); [|done].
      by apply entries_at_get_ac.
    - rewrite Ef in Ef'. injection Ef' as <-. by rewrite Hac. }
  rewrite E1 in Hac1. injection Hac1 as ->.
  assert (h' = set_ac h1 (AcShared node) (set_entry ac [])) as ->.
  { injection Hrun as Hx. rewrite <- Hx. do 2 f_equal.
    rewrite drop_ge; [done|]. unfold avail. lia. }
  destruct (free_all_drains h (AcShared node) ac h1 ac HInv Eac Ef) as (Hd & Hent & Hoth).
  split; [done|]. split; [|done].
  intros l El. rewrite Hent in El. by injection El as <-.
Qed.

Lemma drains_bound h h' :
  drains cpu_to_node online_cpus online_nodes h h' ->
  Z.of_nat (length (slab_store h)) * num (cachep h) < 2 ^ 31 ->
  Z.of_nat (length (slab_store h')) * num (cachep h') < 2 ^ 31.
Proof.
  intros (_ & Hq & _) Hb. rewrite (quiet_num _ _ Hq).
  destruct Hq as (_ & _ & _ & _ & -> & _). done.
Qed.

(** A loop of draining steps: each step empties its own arrays and fills
    none of the arrays in [K]. *)
Lemma for_each_empties {A} (f : heap -> A -> option heap)
    (K : ac_loc -> Prop) (tgt : A -> ac_loc -> Prop) l :
  (forall x loc, tgt x loc -> K loc) ->
  (forall h x h',
     x ∈ l -> Inv cpu_to_node h ->
     Z.of_nat (length (slab_store h)) * num (cachep h) < 2 ^ 31 ->
     f h x = Some h' ->
     drains cpu_to_node online_cpus online_nodes h h' /\
     (forall loc l0, tgt x loc -> entries_at h' loc = Some l0 -> l0 = []) /\
     (forall loc, K loc ->
        (forall l0, entries_at h loc = Some l0 -> l0 = []) ->
        forall l0, entries_at h' loc = Some l0 -> l0 = [])) ->
  forall h h',
    Inv cpu_to_node h ->
    Z.of_nat (length (slab_store h)) * num (cachep h) < 2 ^ 31 ->
    for_each A f h l = Some h' ->
    drains cpu_to_node online_cpus online_nodes h h' /\
    (forall x loc l0, x ∈ l -> tgt x loc -> entries_at h' loc = Some l0 -> l0 = []) /\
    (forall loc, K loc ->
       (forall l0, entries_at h loc = Some l0 -> l0 = []) ->
       forall l0, entries_at h' loc = Some l0 -> l0 = []).
Proof.
  intros HK. induction l as [|x rest IH]; intros Hf h h' HI Hb E; cbn in E.
  - injection E as <-. split; [by apply drains_refl|]. split; [|done].
    intros x loc l0 Hx. by apply elem_of_nil in Hx.
  - destruct (f h x) as [h1|] eqn:E1; [|done]. cbn in E.
    destruct (Hf h x h1 ltac:(by left) HI Hb E1) as (Hd1 & Ht1 & Hk1).
    destruct (IH ltac:(intros; eapply Hf; eauto; by right) h1 h'
                (proj1 Hd1) (drains_bound _ _ Hd1 Hb) E) as (Hd & Ht & Hk).
    split; [by eapply drains_trans|]. split.
    + intros y loc l0 Hy Hty. apply elem_of_cons in Hy as [->|Hy].
      * apply Hk; [by eapply HK|]. intros l1. by apply Ht1.
      * by eapply Ht.
    + intros loc HKl He. apply Hk; [done|]. by apply Hk1.
Qed.

(** The alien arrays that [node] keeps for the online nodes. *)
Lemma drain_alien_nodes_drains node remotes : forall h h',
  Inv cpu_to_node h -> (forall i, i ∈ remotes -> i ∈ online_nodes) ->
  drain_alien_nodes h node remotes = Some h' ->
  drains cpu_to_node online_cpus online_nodes h h' /\
  (forall i l0, i ∈ remotes -> entries_at h' (AcAlien node i) = Some l0 -> l0 = []) /\
  (forall loc, (forall n, loc <> AcShared n) ->
     (forall l0, entries_at h loc = Some l0 -> l0 = []) ->
     forall l0, entries_at h' loc = Some l0 -> l0 = []).
Proof.
  induction remotes as [|i rest IH]; intros h h' HI Hon Hrun; cbn [drain_alien_nodes] in Hrun.
  - injection Hrun as <-. split; [by apply drains_refl|]. split; [|done].
    intros i l0 Hi. by apply elem_of_nil in Hi.
  - destruct (get_l3 h node) as [l3|] eqn:El3; [|done]. cbn [mbind option_bind] in Hrun.
    destruct (alien l3) as [al|] eqn:Eal; [|done]. cbn [mbind option_bind] in Hrun.
    destruct (al !! i) as [slot|] eqn:Esl; [|done]. cbn [mbind option_bind] in Hrun.
    assert (Hstep : exists h1,
      match slot with
      | Some _ => __drain_alien_cache h (AcAlien node i) i
      | None => Some h
      end = Some h1 /\
      drains cpu_to_node online_cpus online_nodes h h1 /\
      (forall l0, entries_at h1 (AcAlien node i) = Some l0 -> l0 = []) /\
      (forall loc, (forall n, loc <> AcShared n) ->
         (forall l0, entries_at h loc = Some l0 -> l0 = []) ->
         forall l0, entries_at h1 loc = Some l0 -> l0 = [])).
    { destruct slot as [ac|].
      - destruct (__drain_alien_cache h (AcAlien node i) i) as [h1|] eqn:Ed; [|done].
        destruct (drain_alien_drains h node i h1 HI (Hon i ltac:(by left)) Ed)
          as (Hd & He & Hoth).
        exists h1. split; [done|]. split; [done|]. split; [done|].
        intros loc Hns Hem l0 El0.
        destruct (decide (loc = AcAlien node i)) as [->|Hne]; [by eapply He|].
        rewrite Hoth in El0 by done. by eapply Hem.
      - exists h. split; [done|]. split; [by apply drains_refl|]. split; [|done].
        intros l0 El0. unfold entries_at in El0. cbn [get_ac] in El0.
        rewrite El3 in El0. cbn [mbind option_bind] in El0. rewrite Eal in El0.
        cbn [mbind option_bind] in El0. rewrite Esl in El0. done. }
    destruct Hstep as (h1 & E1 & Hd1 & He1 & Hk1). rewrite E1 in Hrun.
    cbn [mbind option_bind] in Hrun.
    destruct (IH h1 h' (proj1 Hd1) ltac:(intros; apply Hon; by right) Hrun)
      as (Hd & He & Hk).
    split; [by eapply drains_trans|]. split.
    + intros j l0 Hj. apply elem_of_cons in Hj as [->|Hj].
      * apply Hk; [done|]. exact He1.
      * by apply He.
    + intros loc Hns Hem. apply Hk; [done|]. by apply Hk1.
Qed.

(** After drain_cpu_caches the arrays within reach hold nothing. *)
Lemma drain_cpu_caches_drains h h' :
  Inv cpu_to_node h ->
  Z.of_nat (length (slab_store h)) * num (cachep h) < 2 ^ 31 ->
  drain_cpu_caches cpu_to_node online_cpus online_nodes h = Some h' ->
  drains cpu_to_node online_cpus online_nodes h h' /\
  empty_on (online_loc online_cpus online_nodes) h'.
Proof.
  intros HI Hb Hrun. unfold drain_cpu_caches in Hrun.
  destruct (for_each nat (do_drain cpu_to_node) h online_cpus) as [h1|] eqn:E1; [|done].
  cbn [mbind option_bind] in Hrun.
  destruct (for_each_empties (do_drain cpu_to_node) (fun _ => True)
              (fun cpu loc => loc = AcCpu cpu) online_cpus ltac:(done)) with (h := h) (h' := h1)
    as (Hd1 & Ht1 & _); [|done|done|done|].
  { intros x cpu x' _ HIx _ E.
    destruct (do_drain_drains x cpu x' HIx E) as (Hd & He & Hoth).
    split; [done|]. split.
    - intros loc l0 -> El0. rewrite He in El0. by injection El0 as <-.
    - intros loc _ Hem l0 El0. destruct (decide (loc = AcCpu cpu)) as [->|Hne].
      + rewrite He in El0. by injection El0 as <-.
      + rewrite Hoth in El0 by done. by eapply Hem. }
  match type of Hrun with (?m ≫= _) = _ => destruct m as [h2|] eqn:E2; [|done] end.
  cbn [mbind option_bind] in Hrun.
  match type of E2 with for_each _ ?f _ _ = _ =>
    destruct (for_each_empties f (fun loc => forall n, loc <> AcShared n)
                (fun node loc => exists i, i ∈ online_nodes /\ loc = AcAlien node i)
                online_nodes) with (h := h1) (h' := h2)
      as (Hd2 & Ht2 & Hk2) end;
    [| |exact (proj1 Hd1)|exact (drains_bound _ _ Hd1 Hb)|exact E2|].
  { by intros node loc (i & _ & ->) n. }
  { intros x node x' _ HIx _ E. cbn beta in E.
    destruct (get_l3 x node) as [l3|] eqn:El3.
    2:{ injection E as <-. split; [by apply drains_refl|]. split; [|done].
        intros loc l0 (i & _ & ->) El0. unfold entries_at in El0. cbn [get_ac] in El0.
        rewrite El3 in El0. done. }
    destruct (alien l3) as [al|] eqn:Eal.
    2:{ injection E as <-. split; [by apply drains_refl|]. split; [|done].
        intros loc l0 (i & _ & ->) El0. unfold entries_at in El0. cbn [get_ac] in El0.
        rewrite El3 in El0. cbn [mbind option_bind] in El0. rewrite Eal in El0. done. }
    destruct (drain_alien_nodes_drains node online_nodes x x' HIx ltac:(done) E)
      as (Hd & He & Hk).
    split; [done|]. split; [|done].
    intros loc l0 (i & Hi & ->). by apply He. }
  match type of Hrun with for_each _ ?f _ _ = _ =>
    destruct (for_each_empties f (fun _ => True)
                (fun node loc => loc = AcShared node) online_nodes ltac:(done))
      with (h := h2) (h' := h')
      as (Hd3 & Ht3 & Hk3) end;
    [|exact (proj1 Hd2)|exact (drains_bound _ _ Hd2 (drains_bound _ _ Hd1 Hb))|exact Hrun|].
  { intros x node x' _ HIx Hbx E. cbn beta in E.
    destruct (get_l3 x node) as [l3|] eqn:El3.
    2:{ injection E as <-. split; [by apply drains_refl|]. split; [|done].
        intros loc l0 -> El0. unfold entries_at in El0. cbn [get_ac] in El0.
        rewrite El3 in El0. done. }
    destruct (drain_array_drains x node x' HIx Hbx E) as (Hd & He & Hoth).
    split; [done|]. split.
    - intros loc l0 ->. apply He.
    - intros loc _ Hem l0 El0. destruct (decide (loc = AcShared node)) as [->|Hne].
      + by eapply He.
      + rewrite Hoth in El0 by done. by eapply Hem. }
  split; [eapply drains_trans; [eapply drains_trans|]; eassumption|].
  intros loc l0 Hon El0. destruct loc as [cpu|node|node remote]; cbn in Hon.
  - eapply (Hk3 (AcCpu cpu) I); [|exact El0].
    apply (Hk2 (AcCpu cpu)); [done|]. intros l1. by apply (Ht1 cpu).
  - by apply (Ht3 node (AcShared node) l0 Hon).
  - destruct Hon as [Hn Hr]. eapply (Hk3 (AcAlien node remote) I); [|exact El0].
    intros l1. apply (Ht2 node); [done|]. by exists remote.
Qed.

(** A slab with an object in use has a slot that is not on its chain. *)
Lemma used_slot n sl chain :
  0 <= n -> slab_ok n sl chain -> inuse sl <> 0 ->
  exists j, (j < Z.to_nat n)%nat /\ j ∉ chain.
Proof.
  intros Hn [Hlen Hch Hnd Hb Hl] Hu.
  destruct (decide (Forall (fun j => j ∈ chain) (seq 0 (Z.to_nat n)))) as [Hall|Hex].
  - exfalso.
    assert (length (seq 0 (Z.to_nat n)) <= length chain)%nat.
    { apply submseteq_length, NoDup_submseteq; [apply NoDup_seq|].
      intros j Hj. by eapply Forall_forall in Hall. }
    rewrite length_seq in *.
    assert (length chain <= Z.to_nat n)%nat by (by apply bounded_nodup_length).
    lia.
  - apply not_Forall_Exists in Hex; [|apply _]. apply Exists_exists in Hex as (j & Hj & Hnj).
    exists j. split; [|done]. apply elem_of_seq in Hj. lia.
Qed.

(** X16: a cache whose objects have all been freed can be destroyed.  When
    every object that is out of its slab sits in an array cache of an
    online CPU or node, so that callers hold nothing, the shrink drains
    these arrays, finds no slab on a full or partial list, and the
    destruction goes through: the cache leaves the registry and its
    arrays and list-sets are given back. *)
Theorem destroy_when_all_freed cache_chain addr h :
  Inv cpu_to_node h ->
  wired cpu_to_node online_cpus online_nodes h ->
  Z.of_nat (length online_nodes) < 2 ^ 31 ->
  Z.of_nat (length (slab_store h)) * num (cachep h) < 2 ^ 31 ->
  all_cached online_cpus online_nodes h ->
  exists hs,
    __cache_shrink cpu_to_node online_cpus online_nodes h = Some (hs, 0) /\
    kmem_cache_destroy cpu_to_node online_cpus online_nodes cache_chain addr h
      = Some (unlink addr cache_chain,
              __kmem_cache_destroy online_cpus online_nodes hs, true) /\
    empty_on (online_loc online_cpus online_nodes) hs /\
    (forall i w s, linked hs i w s -> w = Free) /\
    (forall o, ~ live hs o).
Proof.
  intros HI Hw Hnb Hb Hall.
  destruct (drain_cpu_caches_total cpu_to_node online_cpus online_nodes h HI Hw Hb)
    as [h1 E1].
  destruct (drain_cpu_caches_drains h h1 HI Hb E1)
    as ((HI1 & Hq1 & Hlv1 & Hnn1 & [Hin1 Hset1] & W1) & Hemp).
  (* nothing is out of its slab *)
  assert (Hnone : forall n o, ~ held h1 n o).
  { intros n o Hh. pose proof Hh as (w & sl & chain & Hlk & Esl & Hok & Hidx & Hout).
    assert (Hnum : 1 <= num (cachep h1) <= SLAB_LIMIT) by apply HI1.
    destruct (Hnn1 _ _ _ Hlk) as [w0 Hlk0].
    destruct (slabs_sound _ _ (proj1 HI) _ _ _ Hlk0) as (sl0 & chain0 & Esl0 & Hok0 & _).
    destruct (decide (Z.to_nat (snd o) ∈ chain0)) as [Hc|Hc].
    - apply (in_slab_not_held h1 n o Hnum); [|done]. apply Hin1.
      exists sl0, chain0. done.
    - assert (Hh0 : held h n o).
      { exists w0, sl0, chain0. rewrite (quiet_num _ _ Hq1) in Hidx. done. }
      destruct (Hall n o Hh0) as (loc & l & Hon & El & Ho).
      destruct (Hset1 loc l o Hon El Ho) as [Hin|(loc' & l' & Hon' & El' & Ho')].
      + by apply (in_slab_not_held h1 n o Hnum).
      + rewrite (Hemp loc' l' Hon' El') in Ho'. by apply elem_of_nil in Ho'. }
  assert (Hfree1 : forall i w s, linked h1 i w s -> w = Free).
  { intros i w s Hlk.
    destruct (slabs_sound _ _ (proj1 HI1) _ _ _ Hlk) as (sl & chain & Esl & Hok & _ & Hw').
    specialize (Hw' ltac:(done)).
    destruct (Z.eq_dec (inuse sl) 0) as [Hz|Hnz].
    - rewrite <- Hw'. unfold list_for. by rewrite Hz.
    - exfalso. assert (Hnum : 1 <= num (cachep h1) <= SLAB_LIMIT) by apply HI1.
      destruct (used_slot (num (cachep h1)) sl chain ltac:(lia) Hok Hnz) as (j & Hj & Hnj).
      apply (Hnone i (s, Z.of_nat j)). exists w, sl, chain.
      cbn [fst snd]. rewrite Nat2Z.id. split; [done|]. split; [done|]. split; [done|].
      split; [lia|done]. }
  destruct (shrink_nodes_spec cpu_to_node online_nodes h1 0 HI1)
    as (h2 & r & E2 & HI2 & Hq2 & Hlv2 & Hac2 & Hst2 & Hl2 & _ & Hret).
  destruct (Hret ltac:(lia) ltac:(lia)) as [_ Hiff].
  assert (r = 0) as ->.
  { apply Hiff. intros i w s _ Hwf Hlk. by apply Hwf, (Hfree1 i w s). }
  assert (Es : __cache_shrink cpu_to_node online_cpus online_nodes h = Some (h2, 0)).
  { unfold __cache_shrink. rewrite E1. cbn [mbind option_bind]. rewrite E2. done. }
  exists h2. split; [done|]. split.
  { unfold kmem_cache_destroy. rewrite Es. done. }
  assert (Hfree2 : forall i w s, linked h2 i w s -> w = Free).
  { intros i w s (l & Hl & Hs). destruct (decide (w = Free)) as [|Hne]; [done|].
    apply (Hfree1 i w s). exists l. by rewrite <- Hl2. }
  split.
  { intros loc l Hon El. apply (Hemp loc l Hon). unfold entries_at in *.
    by rewrite <- Hac2. }
  split; [done|].
  intros o [[n Hh] _]. destruct (held_not_free h2 n o (proj1 HI2) Hh) as (w & Hwf & Hlk).
  by apply Hwf, (Hfree2 n w (fst o)).
Qed.
End Settling.

(** ** The layout cache_estimate computes *)

Section EstimateFits.
Context `{platform}.
Hypothesis Hok : platform_ok.

(** For an alignment that is a power of two, ALIGN rounds up to the next
    multiple. *)
Lemma ALIGN_pow2 x k :
  0 <= k -> 0 <= x -> x + 2 ^ k <= 2 ^ SIZE_BITS ->
  ALIGN x (2 ^ k) = (x + 2 ^ k - 1) / 2 ^ k * 2 ^ k.
Proof.
  intros Hk Hx Hb.
  assert (Hp : 0 < 2 ^ k) by (apply Z.pow_pos_nonneg; lia).
  assert (HN : 0 <= SIZE_BITS) by (pose proof (size_bits_32 Hok); lia).
  unfold ALIGN.
  rewrite (wrap_small (2 ^ k - 1)) by lia.
  replace (x + (2 ^ k - 1)) with (x + 2 ^ k - 1) by lia.
  rewrite (wrap_small (x + 2 ^ k - 1)) by lia.
  replace (2 ^ k - 1) with (Z.ones k) by (rewrite Z.ones_equiv; lia).
  unfold wrap at 1. rewrite <- Z.land_ones by lia.
  rewrite Z.land_assoc.
  rewrite <- Z.ldiff_land.
  rewrite Z.ldiff_ones_r by lia.
  rewrite Z.shiftr_div_pow2, Z.shiftl_mul_pow2 by lia.
  rewrite Z.land_ones by lia. apply Z.mod_small.
  pose proof (Z.mul_div_le (x + 2 ^ k - 1) (2 ^ k) Hp).
  assert (0 <= (x + 2 ^ k - 1) / 2 ^ k) by (apply Z.div_pos; lia).
  nia.
Qed.

Lemma ALIGN_pow2_bounds x k :
  0 <= k -> 0 <= x -> x + 2 ^ k <= 2 ^ SIZE_BITS ->
  x <= ALIGN x (2 ^ k) <= x + 2 ^ k - 1 /\ ALIGN x (2 ^ k) mod 2 ^ k = 0.
Proof.
  intros Hk Hx Hb. rewrite ALIGN_pow2 by done.
  assert (Hp : 0 < 2 ^ k) by (apply Z.pow_pos_nonneg; lia).
  pose proof (Z.mul_div_le (x + 2 ^ k - 1) (2 ^ k) Hp).
  pose proof (Z.mod_pos_bound (x + 2 ^ k - 1) (2 ^ k) Hp).
  pose proof (Z.div_mod (x + 2 ^ k - 1) (2 ^ k) ltac:(lia)).
  split; [lia|]. apply Z.mod_mul. lia.
Qed.

Lemma mgmt_size_bounds n k :
  0 <= k -> 2 ^ k <= PAGE_SIZE -> 0 <= n -> n * 4 < 2 ^ 31 ->
  sizeof_slab + n * sizeof_bufctl <= slab_mgmt_size n (2 ^ k)
    <= sizeof_slab + n * sizeof_bufctl + 2 ^ k - 1 /\
  slab_mgmt_size n (2 ^ k) mod 2 ^ k = 0.
Proof.
  intros Hk Ha Hn Hb. unfold slab_mgmt_size, sizeof_bufctl.
  pose proof (pow_size_bits Hok) as Hpw.
  destruct Hok.
  assert (PAGE_SIZE / 8 <= PAGE_SIZE) by (apply Z.div_le_upper_bound; lia).
  assert (PAGE_SIZE < 2 ^ 31) by lia.
  rewrite (wrap_small (n * 4)) by lia.
  rewrite (wrap_small (sizeof_slab + n * 4)) by lia.
  apply ALIGN_pow2_bounds; lia.
Qed.

(** The descriptor alone fits in a page. *)
Lemma mgmt_size_zero k :
  0 <= k -> 2 ^ k <= PAGE_SIZE -> slab_mgmt_size 0 (2 ^ k) <= PAGE_SIZE.
Proof.
  intros Hk Ha.
  assert (Hp : 0 < 2 ^ k) by (apply Z.pow_pos_nonneg; lia).
  pose proof (pow_size_bits Hok) as Hpw.
  pose proof (slab_struct_pos Hok) as Hss.
  pose proof (slab_struct_small Hok) as Hsm.
  pose proof (page_size_pos Hok) as HP.
  pose proof (eight_pages_int Hok) as H8.
  assert (PAGE_SIZE / 8 * 8 <= PAGE_SIZE) by (pose proof (Z.mul_div_le PAGE_SIZE 8); lia).
  unfold slab_mgmt_size. rewrite Z.mul_0_l.
  change (wrap 0) with 0. rewrite Z.add_0_r.
  rewrite (wrap_small sizeof_slab) by lia.
  destruct (Z.le_gt_cases sizeof_slab (2 ^ k)) as [Hle|Hgt].
  - rewrite ALIGN_pow2 by lia.
    assert (E : 1 = (sizeof_slab + 2 ^ k - 1) / 2 ^ k).
    { apply Z.div_unique_pos with (r := sizeof_slab - 1); [lia|ring]. }
    rewrite <- E. lia.
  - assert (Hx : 0 <= sizeof_slab) by lia.
    assert (Hb : sizeof_slab + 2 ^ k <= 2 ^ SIZE_BITS) by lia.
    pose proof (ALIGN_pow2_bounds sizeof_slab k Hk Hx Hb). lia.
Qed.

(** X17: the layout cache_estimate computes fits the slab exactly and is
    the largest that does.  For an alignment that is a power of two, at
    most the object size and at most a page: the descriptor with its
    bufctl cells, padded to the alignment, the [num] objects and the
    left-over bytes add up to the size of the slab, nothing is negative,
    and one more object would not fit.  With an off-slab descriptor the
    slab holds objects only. *)
Theorem cache_estimate_fits g bs k flags :
  0 <= g <= KMALLOC_MAX_ORDER -> 0 <= k ->
  2 ^ k <= bs -> 2 ^ k <= PAGE_SIZE -> bs + sizeof_bufctl < 2 ^ SIZE_BITS ->
  let S := PAGE_SIZE * 2 ^ g in
  let mgmt n := if OFF_SLAB flags then 0 else slab_mgmt_size n (2 ^ k) in
  exists left_over num,
    cache_estimate g bs (2 ^ k) flags = Some (left_over, num) /\
    0 <= num /\ 0 <= left_over /\
    mgmt num + num * bs + left_over = S /\
    S < mgmt (num + 1) + (num + 1) * bs /\
    (OFF_SLAB flags = false ->
     sizeof_slab + num * sizeof_bufctl <= mgmt num /\ mgmt num mod 2 ^ k = 0).
Proof.
  intros Hg Hk Hbs Ha Hw S mgmt.
  assert (Hp : 0 < 2 ^ k) by (apply Z.pow_pos_nonneg; lia).
  destruct (slab_bytes Hok g Hg) as [HwS HS]. fold S in HwS, HS.
  pose proof (pow_size_bits Hok) as Hpw.
  destruct (OFF_SLAB flags) eqn:Hoff.
  - rewrite estimate_off_slab by (done || lia). fold S.
    assert (0 <= S / bs) by (apply Z.div_pos; lia).
    pose proof (Z.mul_div_le S bs ltac:(lia)).
    pose proof (Z.mul_succ_div_gt S bs ltac:(lia)).
    eexists _, _. split; [reflexivity|]. subst mgmt. cbn beta.
    split; [done|]. split; [lia|]. split; [lia|]. split; [lia|]. done.
  - unfold cache_estimate. fold S. rewrite Hoff, HwS.
    change sizeof_bufctl with 4 in *.
    rewrite (wrap_small (bs + 4)) by lia.
    destruct (Z.eqb_spec (bs + 4) 0) as [|_]; [lia|].
    pose proof (slab_struct_pos Hok) as Hss.
    pose proof (slab_struct_small Hok) as Hsm.
    pose proof (page_size_pos Hok) as HP.
    assert (PAGE_SIZE / 8 <= PAGE_SIZE) by (apply Z.div_le_upper_bound; lia).
    rewrite (wrap_small (S - sizeof_slab)) by lia.
    set (nr0 := (S - sizeof_slab) / (bs + 4)).
    assert (Hnr0 : 0 <= nr0) by (subst nr0; apply Z.div_pos; lia).
    pose proof (Z.mul_div_le (S - sizeof_slab) (bs + 4) ltac:(lia)) as Hlo.
    pose proof (Z.mul_succ_div_gt (S - sizeof_slab) (bs + 4) ltac:(lia)) as Hhi.
    fold nr0 in Hlo, Hhi.
    assert (Hnb : nr0 * 5 <= S /\ 0 <= nr0 * bs <= S) by nia.
    rewrite (to_int_small nr0) by lia.
    rewrite (wrap_small nr0) by lia.
    rewrite (wrap_small (nr0 * bs)) by lia.
    assert (Hm : forall n, 0 <= n <= nr0 + 1 ->
              sizeof_slab + n * 4 <= slab_mgmt_size n (2 ^ k)
                <= sizeof_slab + n * 4 + 2 ^ k - 1 /\
              slab_mgmt_size n (2 ^ k) mod 2 ^ k = 0).
    { intros n Hn. apply mgmt_size_bounds; lia. }
    destruct (Hm nr0 ltac:(lia)) as [Hm0 _].
    rewrite (wrap_small (slab_mgmt_size nr0 (2 ^ k) + nr0 * bs)) by lia.
    rewrite SLAB_LIMIT_val.
    destruct (Z.gtb_spec (slab_mgmt_size nr0 (2 ^ k) + nr0 * bs) S) as [Hdec|Hdec].
    + (* one object too many *)
      assert (1 <= nr0).
      { destruct (Z.eq_dec nr0 0) as [E0|]; [|lia]. rewrite E0 in Hdec.
        pose proof (mgmt_size_zero k Hk Ha). lia. }
      rewrite (to_int_small (nr0 - 1)) by lia.
      rewrite (u32_small (nr0 - 1)) by lia.
      destruct (Z.gtb_spec (nr0 - 1) 4294967292); [lia|].
      rewrite (u32_small (nr0 - 1)) by lia.
      rewrite (wrap_small (nr0 - 1)) by lia.
      destruct (Hm (nr0 - 1) ltac:(lia)) as [Hm1 Hmod1].
      rewrite (wrap_small ((nr0 - 1) * bs)) by nia.
      rewrite (wrap_small (S - (nr0 - 1) * bs - slab_mgmt_size (nr0 - 1) (2 ^ k))) by nia.
      eexists _, _. split; [reflexivity|]. subst mgmt. cbn beta.
      replace (nr0 - 1 + 1) with nr0 by lia.
      split; [lia|]. split; [nia|]. split; [lia|]. split; [lia|].
      intros _. split; [lia|done].
    + rewrite (u32_small nr0) by lia.
      destruct (Z.gtb_spec nr0 4294967292); [lia|].
      rewrite (u32_small nr0) by lia.
      rewrite ?(wrap_small nr0) by lia.
      rewrite ?(wrap_small (nr0 * bs)) by lia.
      destruct (Hm nr0 ltac:(lia)) as [_ Hmod0].
      destruct (Hm (nr0 + 1) ltac:(lia)) as [Hm1 _].
      rewrite (wrap_small (S - nr0 * bs - slab_mgmt_size nr0 (2 ^ k))) by lia.
      eexists _, _. split; [reflexivity|]. subst mgmt. cbn beta.
      split; [lia|]. split; [lia|]. split; [lia|]. split; [nia|].
      intros _. split; [lia|done].
Qed.
End EstimateFits.

(** ** Growth: placement and colour *)

Section GrowColour.
Context `{platform}.
Variable cpu_to_node : nat -> nat.

Lemma get_l3_cachep h h' n : cachep h' = cachep h -> get_l3 h' n = get_l3 h n.
Proof. intros E. unfold get_l3. by rewrite E. Qed.

(** What cache_grow does to the list-sets and to the colour of the new
    descriptor, read off its body. *)
Lemma cache_grow_colour_raw h nid l3 x h' :
  1 <= num (cachep h) <= SLAB_LIMIT ->
  get_l3 h nid = Some l3 ->
  cache_grow h nid false = Some (x, h') ->
  let c := cachep h in
  let offset := fst (next_colour c l3) in
  (x = 0 \/ x = 1) /\
  (exists l3',
     get_l3 h' nid = Some l3' /\
     colour_next l3' = snd (next_colour c l3) /\
     free_objects l3' = (if x =? 1 then wrap (free_objects l3 + num c)
                         else free_objects l3) /\
     free_limit l3' = free_limit l3 /\
     shared l3' = shared l3 /\ alien l3' = alien l3) /\
  (forall m, m <> nid -> get_l3 h' m = get_l3 h m) /\
  (x = 1 ->
   exists sl,
     slab_store h' !! length (slab_store h) = Some sl /\
     colouroff sl =
       wrap (if OFF_SLAB (flags c) then to_int offset
             else to_int (to_int offset + slab_size c))).
Proof.
  intros Hnum El3 Hrun c offset0. subst offset0.
  unfold cache_grow in Hrun. rewrite El3 in Hrun. cbn [mbind option_bind] in Hrun.
  fold c in Hrun.
  destruct (next_colour c l3) as [offset next]. cbn [fst snd].
  set (h1 := set_l3 h nid (set_colour_next l3 next)) in *.
  assert (E1 : get_l3 h1 nid = Some (set_colour_next l3 next)).
  { unfold h1. rewrite get_l3_set_l3_eq; [done|]. rewrite El3. eauto. }
  assert (O1 : forall m, m <> nid -> get_l3 h1 m = get_l3 h m).
  { intros m Hm. unfold h1. by rewrite get_l3_set_l3_ne. }
  destruct (kmem_getpages h1) as [got h2] eqn:Egp.
  assert (Hgp : cachep h2 = cachep h1 /\ slab_store h2 = slab_store h1).
  { unfold kmem_getpages in Egp. destruct (page_oracle h1); injection Egp as <- <-; done. }
  destruct Hgp as [Ec2 Est2].
  assert (Hfail : forall h3, cachep h3 = cachep h1 ->
            (exists l3',
               get_l3 h3 nid = Some l3' /\ colour_next l3' = next /\
               free_objects l3' = free_objects l3 /\
               free_limit l3' = free_limit l3 /\
               shared l3' = shared l3 /\ alien l3' = alien l3) /\
            (forall m, m <> nid -> get_l3 h3 m = get_l3 h m)).
  { intros h3 Ec. split.
    - exists (set_colour_next l3 next). by rewrite (get_l3_cachep h1 h3 nid Ec).
    - intros m Hm. rewrite (get_l3_cachep h1 h3 m Ec). by apply O1. }
  destruct got; cbn [negb] in Hrun.
  2:{ injection Hrun as <- <-. destruct (Hfail h2 Ec2) as [? ?].
      split; [by left|]. split; [done|]. split; [done|]. intros [=]. }
  destruct (alloc_slabmgmt h2 (to_int offset) nid) as [[slabp|] h3] eqn:Eam.
  2:{ injection Hrun as <- <-.
      assert (Ec3 : cachep h3 = cachep h2).
      { unfold alloc_slabmgmt in Eam. destruct (OFF_SLAB _); [|done].
        destruct (mgmt_oracle h2) as [|[] ?]; try done; by injection Eam as <-. }
      destruct (Hfail h3 ltac:(congruence)) as [? ?].
      split; [by left|]. split; [done|]. split; [done|]. intros [=]. }
  assert (Ham : exists sl0,
            slabp = length (slab_store h) /\
            cachep h3 = cachep h2 /\ slab_store h3 = slab_store h ++ [sl0] /\
            inuse sl0 = 0 /\
            length (bufctl sl0) = Z.to_nat (num (cachep h)) /\
            colouroff sl0 =
              wrap (if OFF_SLAB (flags c) then to_int offset
                    else to_int (to_int offset + slab_size c))).
  { unfold alloc_slabmgmt in Eam. rewrite Est2 in Eam.
    change (slab_store h1) with (slab_store h) in Eam.
    assert (Ef : flags (cachep h2) = flags c) by (by rewrite Ec2).
    assert (En : num (cachep h2) = num c) by (by rewrite Ec2).
    assert (Es : slab_size (cachep h2) = slab_size c) by (by rewrite Ec2).
    rewrite Ef, En, Es in Eam.
    destruct (OFF_SLAB (flags c)).
    - destruct (mgmt_oracle h2) as [|[] ?]; try done. injection Eam as <- <-.
      eexists. repeat (split; [reflexivity|]). split; [|reflexivity].
      cbn [bufctl]. by rewrite length_replicate.
    - injection Eam as <- <-.
      eexists. repeat (split; [reflexivity|]). split; [|reflexivity].
      cbn [bufctl]. by rewrite length_replicate. }
  destruct Ham as (sl0 & -> & Ec3 & Est3 & Hin0 & Hlen0 & Hcol0).
  set (slabp := length (slab_store h)) in *.
  assert (En3 : num (cachep h3) = num (cachep h)) by (by rewrite Ec3, Ec2).
  destruct (cache_init_objs_spec h3 slabp sl0) as
    (h4 & sl' & Ei & Ec4 & Est4 & _ & _ & _ & _ & _ & _ & Hcol' & _).
  { by rewrite En3. }
  { rewrite Est3. apply list_lookup_middle. done. }
  { by rewrite En3. }
  { done. }
  rewrite Ei in Hrun. cbn [mbind option_bind] in Hrun.
  assert (E4 : get_l3 h4 nid = Some (set_colour_next l3 next)).
  { rewrite (get_l3_cachep h1 h4 nid); [done|]. congruence. }
  rewrite E4 in Hrun. cbn [mbind option_bind] in Hrun.
  injection Hrun as <- <-.
  split; [by right|]. split.
  { eexists. split.
    - rewrite get_l3_set_l3_eq; [reflexivity|]. rewrite E4. eauto.
    - destruct l3; cbn. done. }
  split.
  { intros m Hm. rewrite get_l3_set_l3_ne by done.
    rewrite (get_l3_cachep h1 h4 m) by congruence. by apply O1. }
  intros _. exists sl'. split; [|congruence].
  change (slab_store (set_l3 h4 nid ?y)) with (slab_store h4).
  rewrite Est4, Est3. rewrite list_lookup_insert_eq; [done|].
  rewrite length_app. cbn. unfold slabp. lia.
Qed.

(** X18: cache_grow gives each new slab the next colour of its node and
    puts it at the tail of the free list.  [colour_next] advances by one
    and falls back to 0 when it reaches [colour], also when the growth
    fails for lack of pages or of a descriptor.  On success the new
    descriptor records the offset [colour_next * colour_off], after the
    descriptor area when that is on the slab; the slab has no object in
    use, all its slots are on its free chain in index order, it is
    appended to the free list of the node, and [free_objects] goes up by
    [num].  The other nodes are not touched. *)
Theorem grow_places_and_colours h node l3 :
  platform_ok -> Inv cpu_to_node h -> get_l3 h node = Some l3 ->
  let c := cachep h in
  0 <= colour_next l3 -> 1 <= colour_off c -> 0 <= slab_size c ->
  colour_next l3 * colour_off c + slab_size c < 2 ^ 31 ->
  exists x h' l3',
    cache_grow h node false = Some (x, h') /\ Inv cpu_to_node h' /\
    get_l3 h' node = Some l3' /\
    colour_next l3' =
      (if colour_next l3 + 1 >=? colour c then 0 else colour_next l3 + 1) /\
    (forall m, m <> node -> get_l3 h' m = get_l3 h m) /\
    slabs_partial l3' = slabs_partial l3 /\ slabs_full l3' = slabs_full l3 /\
    ((x = 0 /\ slab_store h' = slab_store h /\
      slabs_free l3' = slabs_free l3 /\ free_objects l3' = free_objects l3) \/
     (x = 1 /\
      exists sl,
        slab_store h' = slab_store h ++ [sl] /\
        colouroff sl = colour_next l3 * colour_off c +
                       (if OFF_SLAB (flags c) then 0 else slab_size c) /\
        inuse sl = 0 /\ nodeid sl = node /\
        slab_ok (num c) sl (seq 0 (Z.to_nat (num c))) /\
        slabs_free l3' = slabs_free l3 ++ [length (slab_store h)] /\
        free_objects l3' = wrap (free_objects l3 + num c))).
Proof.
  intros Hok HInv El3 c Hcn Hco Hss Hb.
  destruct (cache_grow_spec cpu_to_node h node l3 HInv El3)
    as (x & h' & E & HI & _ & _ & _ & _ & _ & _ & Hcase).
  destruct (cache_grow_colour_raw h node l3 x h' ltac:(apply HInv) El3 E)
    as (_ & (l3' & El3' & Hnext & Hfo & _) & Hoth & Hcol).
  fold c in Hnext, Hfo, Hcol.
  pose proof (pow_size_bits Hok) as Hpw.
  assert (Hprod : 0 <= colour_next l3 * colour_off c < 2 ^ 31) by nia.
  assert (Hcn' : colour_next l3 < 2 ^ 31) by nia.
  exists x, h', l3'. split; [done|]. split; [done|]. split; [done|].
  split. { rewrite Hnext. cbn. by rewrite u32_small by lia. }
  split; [done|].
  assert (Hl : forall w, get_list l3' w =
             (if decide (Some (node, Free) = Some (node, w)) then
                if decide (x = 1) then get_list l3 w ++ [length (slab_store h)]
                else get_list l3 w
              else get_list l3 w)).
  { intros w.
    assert (A : list_at h' node w = Some (get_list l3' w))
      by (unfold list_at; by rewrite El3').
    assert (B : list_at h node w = Some (get_list l3 w))
      by (unfold list_at; by rewrite El3).
    destruct Hcase as [(-> & _ & Hsame & _)|(-> & sl & _ & _ & _ & _ & Hadd & _)].
    - rewrite Hsame, B in A. injection A as <-.
      destruct (decide (0 = 1)); [lia|]. by destruct (decide _).
    - rewrite Hadd, B in A. cbn in A. injection A as <-.
      destruct (decide (1 = 1)); [|lia]. done. }
  split. { pose proof (Hl Partial) as X. by rewrite decide_False in X by (intros [=]). }
  split. { pose proof (Hl Full) as X. by rewrite decide_False in X by (intros [=]). }
  pose proof (Hl Free) as HlF. rewrite decide_True in HlF by done.
  cbn [get_list] in HlF.
  destruct Hcase as [(-> & Hst & _)|(-> & sl & Hst & Hok' & Hin & Hnode & _)].
  - left. split; [done|]. split; [done|].
    rewrite decide_False in HlF by lia. done.
  - right. split; [done|]. exists sl. split; [done|].
    destruct (Hcol eq_refl) as (sl' & Esl' & Hc').
    rewrite Hst in Esl'. rewrite list_lookup_middle in Esl' by done.
    injection Esl' as <-.
    split.
    { rewrite Hc'. cbn [fst next_colour].
      rewrite (wrap_small (colour_next l3 * colour_off c)) by lia.
      rewrite (to_int_small (colour_next l3 * colour_off c)) by lia.
      destruct (OFF_SLAB (flags c)).
      - rewrite wrap_small by lia. lia.
      - rewrite to_int_small by lia. rewrite wrap_small by lia. done. }
    split; [done|]. split; [done|]. split; [done|].
    rewrite decide_True in HlF by done. done.
Qed.
End GrowColour.

(** ** Retuning the array caches of a cache in use *)

Section Detach.
Context `{platform}.
Variable cpu_to_node : nat -> nat.

(** Objects in the hands of nobody but the allocator go back into their
    slabs. *)
Lemma free_live_list h objs n :
  Inv cpu_to_node h -> NoDup objs ->
  (forall o, o ∈ objs -> live h o /\ held h n o) ->
  exists h',
    free_block h objs n = Some h' /\
    Inv cpu_to_node h' /\ quiet h h' /\
    (forall loc, get_ac h' loc = get_ac h loc) /\
    (forall o, o ∈ objs -> in_slab h' o) /\
    (forall o, in_slab h o -> in_slab h' o) /\
    (forall o, o ∉ objs -> live h o ->
       live h' o /\ forall m, held h m o -> held h' m o).
Proof.
  intros [Hcore Hacs] Hnd Hobjs.
  destruct (free_block_spec objs h n Hcore Hnd) as
    (h' & Ef & Hc & Hq & Hac & Hh & Hl & Hin & Hmono).
  { intros o Ho. by apply Hobjs. }
  exists h'. split; [done|].
  assert (He : forall loc, entries_at h' loc = entries_at h loc).
  { intros. unfold entries_at. by rewrite Hac. }
  split; [split; [done|]|].
  - apply (acs_ok_same_entries cpu_to_node h h' Hacs He).
    intros loc l o' El Ho'. apply Hh; [|by eapply entries_held].
    intros Hin'. destruct (Hobjs o' Hin') as [[_ Hout] _]. by eapply Hout.
  - split; [done|]. split; [done|]. split; [done|]. split; [done|].
    intros o' Hne Hlive. apply (live_keep h h' o' Hlive).
    + intros n' Hn'. by apply Hh.
    + intros loc l x Hl' Hx. rewrite He in Hl'. eauto.
Qed.

(** Array caches are emptied or taken away while the slabs stay as they
    are: the state stays well formed, and the objects they held are left
    outside every array. *)
Lemma Inv_detach h h' :
  Inv cpu_to_node h ->
  num (cachep h') = num (cachep h) -> slab_store h' = slab_store h ->
  released h' = released h ->
  (forall n w, list_at h' n w = list_at h n w) ->
  (forall loc l', entries_at h' loc = Some l' ->
     l' = [] \/ entries_at h loc = Some l') ->
  Inv cpu_to_node h' /\
  (forall o, in_slab h o <-> in_slab h' o) /\
  (forall n o, held h n o -> held h' n o) /\
  (forall o, live h o -> live h' o) /\
  (forall loc l o,
     entries_at h loc = Some l -> o ∈ l ->
     (forall l', entries_at h' loc = Some l' -> l' = []) ->
     live h' o).
Proof.
  intros [Hc Ha] En Est Er El Ee.
  assert (Hheld : forall n o, held h n o -> held h' n o)
    by (intros n o; by apply held_same_view).
  assert (Hsub : forall loc l' o, entries_at h' loc = Some l' -> o ∈ l' ->
            entries_at h loc = Some l').
  { intros loc l' o E Ho. destruct (Ee loc l' E) as [->|]; [|done].
    by apply elem_of_nil in Ho. }
  split; [split|].
  - by eapply core_same_view.
  - constructor.
    + intros loc l E. destruct (Ee loc l E) as [->|E']; [constructor|].
      by eapply entries_nodup.
    + intros loc1 loc2 l1 l2 o E1 E2 H1 H2.
      eapply (entries_disjoint _ _ Ha loc1 loc2 l1 l2 o); eauto.
    + intros loc l o E Ho. apply Hheld.
      eapply entries_held; eauto.
  - split; [intros o; unfold in_slab; by rewrite Est, En|].
    split; [done|]. split.
    + intros o [[n Hn] Hout]. split; [eauto|].
      intros loc l E Ho. eapply Hout; eauto.
    + intros loc l o E Ho Hemp. split.
      * exists (home cpu_to_node loc). apply Hheld. by eapply entries_held.
      * intros loc2 l2 E2 Ho2.
        pose proof (Hsub loc2 l2 o E2 Ho2) as E2'.
        assert (loc2 = loc) as ->
          by (eapply (entries_disjoint _ _ Ha loc2 loc l2 l o); eauto).
        rewrite (Hemp l2 E2) in Ho2. by apply elem_of_nil in Ho2.
Qed.

(** The slots that a loop of insertions has written. *)
Lemma installed_slots {A} (x : A) (l : list nat) : forall a c,
  fold_left (fun a c => <[c := Some x]> a) l a !! c =
    if bool_decide (c ∈ l) && bool_decide (c < length a)%nat
    then Some (Some x) else a !! c.
Proof.
  induction l as [|y l IH]; intros a c; cbn [fold_left].
  - rewrite bool_decide_eq_false_2; [done|]. apply not_elem_of_nil.
  - rewrite IH. rewrite length_insert.
    destruct (decide (c ∈ l)) as [Hin|Hin].
    + rewrite (bool_decide_eq_true_2 (c ∈ l)) by done.
      rewrite (bool_decide_eq_true_2 (c ∈ y :: l)) by (by right).
      cbn [andb]. case_bool_decide as Hlt; [done|].
      rewrite !lookup_ge_None_2; [done|lia|rewrite length_insert; lia].
    + rewrite (bool_decide_eq_false_2 (c ∈ l)) by done. cbn [andb].
      destruct (decide (c = y)) as [->|Hne].
      * rewrite (bool_decide_eq_true_2 (y ∈ y :: l)) by (by left). cbn [andb].
        case_bool_decide as Hlt.
        -- by rewrite list_lookup_insert_eq.
        -- by rewrite list_insert_ge by lia.
      * rewrite list_lookup_insert_ne by done.
        rewrite (bool_decide_eq_false_2 (c ∈ y :: l)); [done|].
        intros Hc. apply elem_of_cons in Hc as [?|?]; done.
Qed.
End Detach.

Section Retune.
Context `{platform}.
Variable cpu_to_node : nat -> nat.
Variable online_cpus : list nat.
Variable online_nodes : list nat.
Variable nr_node_ids : nat.
Variable use_alien_caches : bool.

Lemma tuning_free_block objs node : forall h h',
  free_block h objs node = Some h' ->
  c_limit (cachep h') = c_limit (cachep h) /\
  c_batchcount (cachep h') = c_batchcount (cachep h) /\
  c_shared (cachep h') = c_shared (cachep h) /\
  array (cachep h') = array (cachep h).
Proof.
  induction objs as [|o rest IH]; intros h h' E; cbn in E.
  - by injection E as <-.
  - destruct (free_block_one h o node) as [h1|] eqn:E1; [|done]. cbn in E.
    destruct (IH _ _ E) as (-> & -> & -> & ->). clear IH E.
    unfold free_block_one in E1.
    destruct (get_l3 h node); [|done]. cbn in E1.
    destruct (slab_put_obj _ _ _) as [h2|] eqn:E2; [|done]. cbn in E1.
    assert (cachep h2 = cachep (list_del h (virt_to_slab o))) as Ec.
    { unfold slab_put_obj in E2.
      destruct (slab_store _ !! _); [|done]. cbn in E2.
      destruct (_ && _); [|done]. by injection E2 as <-. }
    destruct (get_l3 h2 node); [|done]. cbn in E1.
    destruct (slab_store h2 !! _); [|done]. cbn in E1.
    destruct (inuse _ =? 0); [destruct (_ >? _)|]; injection E1 as <-;
      cbn; rewrite Ec; done.
Qed.

(** free_block touches the slab lists and the count of free objects of a
    list-set, and nothing else of it. *)
Lemma free_block_l3_fields objs node : forall h h' m,
  free_block h objs node = Some h' ->
  (fun l3 => (free_limit l3, shared l3, alien l3)) <$> get_l3 h' m =
  (fun l3 => (free_limit l3, shared l3, alien l3)) <$> get_l3 h m.
Proof.
  induction objs as [|o rest IH]; intros h h' m E; cbn in E.
  - by injection E as <-.
  - destruct (free_block_one h o node) as [h1|] eqn:E1; [|done]. cbn in E.
    rewrite (IH _ _ m E). clear IH E.
    unfold free_block_one in E1.
    destruct (get_l3 h node); [|done]. cbn in E1.
    destruct (slab_put_obj _ _ _) as [h2|] eqn:E2; [|done]. cbn in E1.
    assert (cachep h2 = cachep (list_del h (virt_to_slab o))) as Ec.
    { unfold slab_put_obj in E2.
      destruct (slab_store _ !! _); [|done]. cbn in E2.
      destruct (_ && _); [|done]. by injection E2 as <-. }
    assert (E2m : (fun l3 => (free_limit l3, shared l3, alien l3)) <$> get_l3 h2 m =
                  (fun l3 => (free_limit l3, shared l3, alien l3)) <$> get_l3 h m).
    { rewrite (get_l3_cachep (list_del h (virt_to_slab o)) h2 m Ec).
      rewrite get_l3_list_del. by destruct (get_l3 h m). }
    destruct (get_l3 h2 node) as [l3|] eqn:El3; [|done]. cbn in E1.
    destruct (slab_store h2 !! _); [|done]. cbn in E1.
    rewrite <- E2m.
    assert (Hset : forall l3',
      (free_limit l3', shared l3', alien l3') = (free_limit l3, shared l3, alien l3) ->
      (fun l3 => (free_limit l3, shared l3, alien l3)) <$> get_l3 (set_l3 h2 node l3') m =
      (fun l3 => (free_limit l3, shared l3, alien l3)) <$> get_l3 h2 m).
    { intros l3' E'. destruct (decide (node = m)) as [<-|Hne].
      - rewrite get_l3_set_l3_eq by (rewrite El3; eauto). rewrite El3. cbn. by rewrite E'.
      - by rewrite get_l3_set_l3_ne. }
    destruct (inuse _ =? 0); [destruct (_ >? _)|]; injection E1 as <-.
    + change (get_l3 (slab_destroy ?x _) m) with (get_l3 x m). by apply Hset.
    + by apply Hset.
    + by apply Hset.
Qed.

(** The list-set of a node gets new arrays: a new shared array in place
    of one that holds nothing, and alien arrays where there were none. *)
Lemma install_l3 hm h1 node l3_1 l3' :
  Inv cpu_to_node hm ->
  get_l3 h1 node = Some l3_1 ->
  num (cachep h1) = num (cachep hm) -> slab_store h1 = slab_store hm ->
  released h1 = released hm ->
  (forall n w, list_at h1 n w = list_at hm n w) ->
  (forall loc, loc <> AcShared node -> entries_at h1 loc = entries_at hm loc) ->
  (forall l, entries_at hm (AcShared node) = Some l -> l = []) ->
  (forall w, get_list l3' w = get_list l3_1 w) ->
  (forall sh', shared l3' = Some sh' -> entry sh' = []) ->
  (alien l3' = alien l3_1 \/
   (alien l3_1 = None /\
    forall al r ac, alien l3' = Some al -> al !! r = Some (Some ac) -> entry ac = [])) ->
  let hf := set_l3 h1 node l3' in
  Inv cpu_to_node hf /\
  (forall o, in_slab hm o <-> in_slab hf o) /\
  (forall n o, held hm n o -> held hf n o) /\
  (forall o, live hm o -> live hf o) /\
  (forall cpu, get_ac hf (AcCpu cpu) = get_ac h1 (AcCpu cpu)) /\
  (forall m, m <> node -> get_l3 hf m = get_l3 h1 m) /\
  get_l3 hf node = Some l3' /\
  (forall r l, entries_at hm (AcAlien node r) = Some l ->
     entries_at hf (AcAlien node r) = Some l).
Proof.
  intros HI El3 En Est Er Hl He Hsh Hlists Hnew Hal hf.
  assert (Ef : get_l3 hf node = Some l3')
    by (unfold hf; rewrite get_l3_set_l3_eq; [done|rewrite El3; eauto]).
  assert (Eo : forall m, m <> node -> get_l3 hf m = get_l3 h1 m)
    by (intros m Hm; unfold hf; by rewrite get_l3_set_l3_ne).
  assert (Halien : forall r l,
            entries_at h1 (AcAlien node r) = Some l ->
            entries_at hf (AcAlien node r) = Some l).
  { intros r l E. unfold entries_at in *. cbn [get_ac] in *.
    rewrite Ef. rewrite El3 in E. cbn [mbind option_bind] in *.
    destruct Hal as [->|[Hnone _]]; [done|]. by rewrite Hnone in E. }
  destruct (Inv_detach cpu_to_node hm hf HI) as (HIf & Hin & Hheld & Hlive & _).
  - exact En.
  - exact Est.
  - exact Er.
  - intros n w. rewrite <- Hl. unfold hf.
    destruct (decide (node = n)) as [<-|Hne].
    + rewrite list_at_set_l3_eq by (rewrite El3; eauto).
      unfold list_at. rewrite El3. cbn. by rewrite Hlists.
    + by rewrite list_at_set_l3_ne.
  - intros loc l' E.
    destruct loc as [cpu|m|m r].
    + right. rewrite <- He by done. exact E.
    + destruct (decide (m = node)) as [->|Hne].
      * left. unfold entries_at in E. cbn [get_ac] in E. rewrite Ef in E.
        cbn [mbind option_bind] in E.
        destruct (shared l3') as [sh'|] eqn:Es; [|done].
        cbn in E. injection E as <-. by apply Hnew.
      * right. rewrite <- He by congruence.
        unfold entries_at in *. cbn [get_ac] in *. by rewrite <- Eo.
    + destruct (decide (m = node)) as [->|Hne].
      * destruct Hal as [Hsame|[Hnone Hempty]].
        -- right. rewrite <- He by done.
           unfold entries_at in *. cbn [get_ac] in *. rewrite Ef in E.
           rewrite El3. cbn [mbind option_bind] in *. by rewrite <- Hsame.
        -- left. unfold entries_at in E. cbn [get_ac] in E. rewrite Ef in E.
           cbn [mbind option_bind] in E.
           destruct (alien l3') as [al|] eqn:Ea; [|done].
           cbn [mbind option_bind] in E.
           destruct (al !! r) as [[ac|]|] eqn:Er'; try done.
           cbn in E. injection E as <-. by eapply Hempty.
      * right. rewrite <- He by done.
        unfold entries_at in *. cbn [get_ac] in *. by rewrite <- Eo.
  - split; [done|]. split; [done|]. split; [done|]. split; [done|].
    split; [done|]. split; [done|]. split; [done|].
    intros r l E. apply Halien. by rewrite He.
Qed.

(** One turn of alloc_kmemlist on a node that has its list-set. *)
Lemma alloc_kmemlist_node_live h node l3 :
  Inv cpu_to_node h -> get_l3 h node = Some l3 ->
  let c := cachep h in
  let new_shared :=
    if negb (c_shared c =? 0)
    then Some (alloc_arraycache (c_shared c * c_batchcount c) 0xbaadf00d)
    else None in
  exists h',
    alloc_kmemlist_node cpu_to_node online_cpus online_nodes nr_node_ids
      use_alien_caches h node = Some h' /\
    Inv cpu_to_node h' /\ quiet h h' /\ keeps_live h h' /\
    (forall o, in_slab h o -> in_slab h' o) /\
    (c_limit (cachep h') = c_limit c /\ c_batchcount (cachep h') = c_batchcount c /\
     c_shared (cachep h') = c_shared c /\ array (cachep h') = array c) /\
    (forall m, m <> node ->
       (fun l3 => (free_limit l3, shared l3, alien l3)) <$> get_l3 h' m =
       (fun l3 => (free_limit l3, shared l3, alien l3)) <$> get_l3 h m) /\
    get_ac h' (AcShared node) = new_shared /\
    (exists l3', get_l3 h' node = Some l3' /\
       free_limit l3' =
         u32 (to_int (1 + nr_cpus_node cpu_to_node online_cpus node) * c_batchcount c
              + num c)) /\
    (forall l o, entries_at h (AcShared node) = Some l -> o ∈ l -> in_slab h' o) /\
    (forall r l, entries_at h (AcAlien node r) = Some l ->
       entries_at h' (AcAlien node r) = Some l).
Proof.
  intros HI El3 c new_shared.
  unfold alloc_kmemlist_node. rewrite El3. fold c. fold new_shared.
  set (new_alien := if use_alien_caches
                    then Some (alloc_alien_cache online_nodes nr_node_ids node (c_limit c))
                    else None).
  set (fl := u32 (to_int (1 + nr_cpus_node cpu_to_node online_cpus node) * c_batchcount c
                  + num c)).
  assert (Hnew_sh : forall sh', new_shared = Some sh' -> entry sh' = []).
  { intros sh'. unfold new_shared. destruct (negb _); [|done]. by intros [= <-]. }
  assert (Hnew_al : forall al r ac,
            new_alien = Some al -> al !! r = Some (Some ac) -> entry ac = []).
  { intros al r ac. unfold new_alien. destruct use_alien_caches; [|done].
    intros [= <-]. unfold alloc_alien_cache. rewrite lookup_List_map. intros E.
    destruct (seq 0 nr_node_ids !! r) as [i|]; [|done]. cbn in E.
    destruct (_ || _); [done|]. by injection E as <-. }
  (* the state once the old shared array is emptied *)
  assert (Hstage : exists h1 hm l3_1,
    match shared l3 with
    | Some sh => free_block h (entry sh) node
    | None => Some h
    end = Some h1 /\
    get_l3 h1 node = Some l3_1 /\
    Inv cpu_to_node hm /\ quiet h hm /\ keeps_live h hm /\
    (forall o, in_slab h o -> in_slab hm o) /\
    (forall l o, entries_at h (AcShared node) = Some l -> o ∈ l -> in_slab hm o) /\
    cachep h1 = cachep h1 /\
    (c_limit (cachep h1) = c_limit c /\ c_batchcount (cachep h1) = c_batchcount c /\
     c_shared (cachep h1) = c_shared c /\ array (cachep h1) = array c) /\
    num (cachep h1) = num (cachep hm) /\ slab_store h1 = slab_store hm /\
    released h1 = released hm /\
    (forall n w, list_at h1 n w = list_at hm n w) /\
    (forall loc, loc <> AcShared node -> entries_at h1 loc = entries_at hm loc) /\
    (forall l, entries_at hm (AcShared node) = Some l -> l = []) /\
    (forall loc, loc <> AcShared node -> entries_at hm loc = entries_at h loc) /\
    (forall m, (fun l3 => (free_limit l3, shared l3, alien l3)) <$> get_l3 h1 m =
               (fun l3 => (free_limit l3, shared l3, alien l3)) <$> get_l3 h m) /\
    quiet h h1).
  { destruct (shared l3) as [sh|] eqn:Esh.
    - assert (Eac : get_ac h (AcShared node) = Some sh)
        by (cbn [get_ac]; by rewrite El3).
      destruct (free_block_spec (entry sh) h node) as
        (h1 & Ef & Hc1 & Hq1 & Hac1 & _ & Hl1 & _).
      { apply HI. }
      { eapply entries_nodup; [apply HI|]. by apply entries_at_get_ac. }
      { intros o Ho.
        apply (entries_held _ _ (proj2 HI) (AcShared node) (entry sh)); [|done].
        by apply entries_at_get_ac. }
      pose proof (wiring_free_block _ _ _ _ Ef) as W1.
      destruct (proj2 (wiring_get_l3 h h1 node W1)) as [l3_1 El3_1];
        [rewrite El3; eauto|].
      destruct (free_entries_inv cpu_to_node h (AcShared node) sh (entry sh) [] h1 sh
                  HI Eac ltac:(by rewrite app_nil_r) Ef)
        as (HIm & Hqm & Hlvm & Hem & Hothm & Hobjs & Hinm & _).
      set (hm := set_ac h1 (AcShared node) (set_entry sh [])) in *.
      exists h1, hm, l3_1. split; [done|]. split; [done|]. split; [done|].
      split; [done|]. split; [done|]. split; [done|].
      split.
      { intros l o E Ho. apply Hobjs.
        rewrite (entries_at_get_ac _ _ _ Eac) in E. by injection E as <-. }
      split; [done|].
      split; [by eapply tuning_free_block|].
      split; [symmetry; apply (cachep_fields_set_ac h1)|].
      split; [symmetry; apply slab_store_set_ac|].
      split; [symmetry; apply released_set_ac|].
      split; [intros; symmetry; apply list_at_set_ac|].
      split; [intros; symmetry; by apply entries_at_set_ac_ne|].
      split; [intros l E; rewrite Hem in E; by injection E as <-|].
      split; [done|].
      split; [intros m; by eapply free_block_l3_fields|].
      done.
    - exists h, h, l3. split; [done|]. split; [done|]. split; [done|].
      split; [apply quiet_refl|]. split; [apply keeps_live_refl|].
      split; [done|]. split.
      { intros l o E. unfold entries_at in E. cbn [get_ac] in E.
        rewrite El3 in E. cbn in E. by rewrite Esh in E. }
      split; [done|]. split; [done|]. split; [done|]. split; [done|].
      split; [done|]. split; [done|]. split; [done|]. split.
      { intros l E. unfold entries_at in E. cbn [get_ac] in E.
        rewrite El3 in E. cbn in E. by rewrite Esh in E. }
      split; [done|]. split; [done|]. apply quiet_refl. }
  destruct Hstage as (h1 & hm & l3_1 & -> & El3_1 & HIm & Hqm & Hlvm & Hinm & Hobjs & _ &
                      Htun & En & Est & Er & Hl & He1 & Hemp & Hem & Hf1 & Hq1).
  cbn [mbind option_bind]. rewrite El3_1. cbn [mbind option_bind].
  match goal with |- exists h', Some (set_l3 h1 node ?x) = Some h' /\ _ =>
    set (l3' := x) end.
  assert (Hal' : alien l3' = match alien l3_1 with None => new_alien | Some a => Some a end).
  { unfold l3'. destruct l3_1 as [? ? ? ? ? ? ? [a|] ?]; reflexivity. }
  assert (Hsh' : shared l3' = new_shared).
  { unfold l3'. destruct l3_1 as [? ? ? ? ? ? ? [a|] ?]; reflexivity. }
  assert (Hli' : forall w, get_list l3' w = get_list l3_1 w).
  { intros w. unfold l3'. destruct l3_1 as [? ? ? ? ? ? ? [a|] ?]; by destruct w. }
  destruct (install_l3 hm h1 node l3_1 l3' HIm El3_1 En Est Er Hl He1 Hemp Hli')
    as (HIf & Hinf & Hheldf & Hlivef & Hcpuf & Eo & Ef & Half).
  { intros sh'. rewrite Hsh'. apply Hnew_sh. }
  { rewrite Hal'. destruct (alien l3_1) as [a|] eqn:Ea; [by left|]. right.
    split; [done|]. intros al r ac. apply Hnew_al. }
  eexists. split; [reflexivity|]. fold l3'.
  split; [done|].
  split; [eapply quiet_trans; [exact Hq1|apply quiet_set_l3]|].
  split.
  { intros o Ho. destruct (Hlvm o Ho) as [Hlm Hhm]. split; [by apply Hlivef|].
    intros n Hn. by apply Hheldf, Hhm. }
  split; [intros o Ho; by apply Hinf, Hinm|].
  split; [exact Htun|].
  split; [intros m Hm; rewrite Eo by done; apply Hf1|].
  split; [cbn [get_ac]; rewrite Ef; cbn; exact Hsh'|].
  split; [exists l3'; split; [done|]; unfold l3';
          destruct l3_1 as [? ? ? ? ? ? ? [a|] ?]; reflexivity|].
  split; [intros l o E Ho; apply Hinf; by eapply Hobjs|].
  intros r l E. apply Half. by rewrite Hem.
Qed.

Lemma fields_views h h' m :
  (fun l3 => (free_limit l3, shared l3, alien l3)) <$> get_l3 h' m =
  (fun l3 => (free_limit l3, shared l3, alien l3)) <$> get_l3 h m ->
  get_ac h' (AcShared m) = get_ac h (AcShared m) /\
  (forall r, get_ac h' (AcAlien m r) = get_ac h (AcAlien m r)) /\
  (is_Some (get_l3 h' m) <-> is_Some (get_l3 h m)) /\
  free_limit <$> get_l3 h' m = free_limit <$> get_l3 h m.
Proof.
  intros E. cbn [get_ac].
  destruct (get_l3 h' m) as [a|], (get_l3 h m) as [b|]; try done.
  cbn in E. injection E as E1 E2 E3. cbn. rewrite E1, E2, E3.
  split; [done|]. split; [done|]. split; [|done]. split; eauto.
Qed.

(** alloc_kmemlist on a cache in use whose nodes all have their
    list-sets. *)
Lemma alloc_kmemlist_live l : forall h,
  Inv cpu_to_node h ->
  (forall node, node ∈ l -> is_Some (get_l3 h node)) ->
  let c := cachep h in
  let new_shared :=
    if negb (c_shared c =? 0)
    then Some (alloc_arraycache (c_shared c * c_batchcount c) 0xbaadf00d)
    else None in
  exists h',
    for_each nat
      (alloc_kmemlist_node cpu_to_node online_cpus online_nodes nr_node_ids
         use_alien_caches) h l = Some h' /\
    Inv cpu_to_node h' /\ quiet h h' /\ keeps_live h h' /\
    (forall o, in_slab h o -> in_slab h' o) /\
    (c_limit (cachep h') = c_limit c /\ c_batchcount (cachep h') = c_batchcount c /\
     c_shared (cachep h') = c_shared c /\ array (cachep h') = array c) /\
    (forall node, node ∈ l ->
       get_ac h' (AcShared node) = new_shared /\
       free_limit <$> get_l3 h' node =
         Some (u32 (to_int (1 + nr_cpus_node cpu_to_node online_cpus node)
                    * c_batchcount c + num c))) /\
    (forall node l0 o, node ∈ l ->
       entries_at h (AcShared node) = Some l0 -> o ∈ l0 -> in_slab h' o) /\
    (forall n r l0, entries_at h (AcAlien n r) = Some l0 ->
       entries_at h' (AcAlien n r) = Some l0) /\
    (forall m, m ∉ l ->
       (fun l3 => (free_limit l3, shared l3, alien l3)) <$> get_l3 h' m =
       (fun l3 => (free_limit l3, shared l3, alien l3)) <$> get_l3 h m).
Proof.
  induction l as [|x rest IH]; intros h HI Hl3 c new_shared; cbn [for_each].
  { exists h. split; [done|]. split; [done|]. split; [apply quiet_refl|].
    split; [apply keeps_live_refl|]. split; [done|]. split; [done|].
    split; [intros node Hn; by apply elem_of_nil in Hn|].
    split; [intros node l0 o Hn; by apply elem_of_nil in Hn|]. done. }
  destruct (Hl3 x ltac:(by left)) as [l3 El3].
  destruct (alloc_kmemlist_node_live h x l3 HI El3)
    as (h1 & -> & HI1 & Hq1 & Hlv1 & Hin1 & (T1 & T2 & T3 & T4) & Hoth1 & Hsh1 &
        (l3x & El3x & Hflx) & Hobj1 & Hal1).
  cbn [mbind option_bind]. fold c in T1, T2, T3, T4, Hsh1, Hflx. fold new_shared in Hsh1.
  assert (Hn1 : num (cachep h1) = num c) by (by rewrite (quiet_num _ _ Hq1)).
  destruct (IH h1 HI1) as
    (h' & E & HI' & Hq' & Hlv' & Hin' & (U1 & U2 & U3 & U4) & Hsh' & Hobj' & Hal' & Hoth').
  { intros node Hn. destruct (decide (node = x)) as [->|Hne]; [rewrite El3x; eauto|].
    apply (fields_views h h1 node (Hoth1 node Hne)). apply Hl3. by right. }
  rewrite T2, T3, Hn1 in Hsh'. fold new_shared in Hsh'.
  exists h'. split; [done|]. split; [done|].
  split; [by eapply quiet_trans|]. split; [by eapply keeps_live_trans|].
  split; [auto|].
  split; [rewrite U1, U2, U3, U4; done|].
  split.
  { intros node Hn. destruct (decide (node ∈ rest)) as [Hr|Hr]; [by apply Hsh'|].
    assert (node = x) as -> by (apply elem_of_cons in Hn as [?|?]; done).
    destruct (fields_views h1 h' x (Hoth' x Hr)) as (Ea & _ & _ & Ef).
    rewrite Ea, Ef, El3x. split; [done|]. cbn. by rewrite Hflx. }
  split.
  { intros node l0 o Hn E0 Ho. destruct (decide (node = x)) as [->|Hne].
    - apply Hin'. by eapply Hobj1.
    - apply (Hobj' node l0 o); [apply elem_of_cons in Hn as [?|?]; done| |done].
      unfold entries_at in *.
      by rewrite (proj1 (fields_views h h1 node (Hoth1 node Hne))). }
  split.
  { intros n r l0 E0. apply Hal'. destruct (decide (n = x)) as [->|Hne].
    - by apply Hal1.
    - unfold entries_at in *.
      destruct (fields_views h h1 n (Hoth1 n Hne)) as (_ & Ha & _). by rewrite Ha. }
  intros m Hm. rewrite Hoth'.
  - apply Hoth1. intros ->. apply Hm. by left.
  - intros Hr. apply Hm. by right.
Qed.

(** The old front-ends, taken out of the cache, are emptied into the
    slabs. *)
Lemma tune_free_old (old : list (option array_cache)) l : forall h,
  Inv cpu_to_node h -> NoDup l ->
  (forall cpu ccold, cpu ∈ l -> old !! cpu ≫= id = Some ccold ->
     NoDup (entry ccold) /\ is_Some (get_l3 h (cpu_to_node cpu)) /\
     forall o, o ∈ entry ccold -> live h o /\ held h (cpu_to_node cpu) o) ->
  (forall c1 c2 a1 a2 o, c1 ∈ l -> c2 ∈ l ->
     old !! c1 ≫= id = Some a1 -> old !! c2 ≫= id = Some a2 ->
     o ∈ entry a1 -> o ∈ entry a2 -> c1 = c2) ->
  exists h',
    for_each nat
      (fun h cpu =>
         match old !! cpu ≫= id with
         | None => Some h
         | Some ccold =>
             _ ← get_l3 h (cpu_to_node cpu);
             free_block h (entry ccold) (cpu_to_node cpu)
         end) h l = Some h' /\
    Inv cpu_to_node h' /\ quiet h h' /\
    (forall loc, get_ac h' loc = get_ac h loc) /\
    (forall m, (fun l3 => (free_limit l3, shared l3, alien l3)) <$> get_l3 h' m =
               (fun l3 => (free_limit l3, shared l3, alien l3)) <$> get_l3 h m) /\
    (c_limit (cachep h') = c_limit (cachep h) /\
     c_batchcount (cachep h') = c_batchcount (cachep h) /\
     c_shared (cachep h') = c_shared (cachep h) /\
     array (cachep h') = array (cachep h)) /\
    (forall cpu ccold o, cpu ∈ l -> old !! cpu ≫= id = Some ccold ->
       o ∈ entry ccold -> in_slab h' o) /\
    (forall o, in_slab h o -> in_slab h' o) /\
    (forall o,
       (forall cpu ccold, cpu ∈ l -> old !! cpu ≫= id = Some ccold -> o ∉ entry ccold) ->
       live h o -> live h' o /\ forall m, held h m o -> held h' m o).
Proof.
  induction l as [|x rest IH]; intros h HI Hnd Hold Hdis; cbn [for_each].
  { exists h. split; [done|]. split; [done|]. split; [apply quiet_refl|].
    split; [done|]. split; [done|]. split; [done|].
    split; [intros cpu ccold o Hc; by apply elem_of_nil in Hc|]. done. }
  apply NoDup_cons in Hnd as [Hx Hnd].
  destruct (old !! x ≫= id) as [ccold|] eqn:Eold.
  - destruct (Hold x ccold ltac:(by left) Eold) as (Hndx & [l3 El3] & Hlx).
    rewrite El3. cbn [mbind option_bind].
    destruct (free_live_list cpu_to_node h (entry ccold) (cpu_to_node x) HI Hndx Hlx)
      as (h1 & Ef & HI1 & Hq1 & Hac1 & Hin1 & Hmono1 & Hlive1).
    rewrite Ef. cbn [mbind option_bind].
    pose proof (fun m => free_block_l3_fields _ _ _ _ m Ef) as Hf1.
    pose proof (tuning_free_block _ _ _ _ Ef) as (T1 & T2 & T3 & T4).
    assert (Hnotx : forall cpu a o, cpu ∈ rest -> old !! cpu ≫= id = Some a ->
              o ∈ entry a -> o ∉ entry ccold).
    { intros cpu a o Hc Ea Ho Hox.
      assert (cpu = x) as ->.
      { apply (Hdis cpu x a ccold o); [by right|by left|done|done|done|done]. }
      done. }
    destruct (IH h1 HI1 Hnd) as
      (h' & E & HI' & Hq' & Hac' & Hf' & (U1 & U2 & U3 & U4) & Hin' & Hmono' & Hlive').
    { intros cpu a Hc Ea. destruct (Hold cpu a ltac:(by right) Ea) as (Hnda & Hl3a & Hla).
      split; [done|]. split; [by apply (fields_views h h1 _ (Hf1 _))|].
      intros o Ho. destruct (Hla o Ho) as [Hlo Hho].
      destruct (Hlive1 o (Hnotx cpu a o Hc Ea Ho) Hlo) as [? Hk]. split; [done|]. by apply Hk. }
    { intros c1 c2 a1 a2 o H1 H2. apply Hdis; by right. }
    exists h'. split; [done|]. split; [done|]. split; [by eapply quiet_trans|].
    split; [intros loc; by rewrite Hac'|].
    split; [intros m; by rewrite Hf'|].
    split; [rewrite U1, U2, U3, U4; done|].
    split.
    { intros cpu a o Hc Ea Ho. apply elem_of_cons in Hc as [->|Hc].
      - rewrite Eold in Ea. injection Ea as <-. by apply Hmono', Hin1.
      - by eapply Hin'. }
    split; [auto|].
    intros o Hno Hlo.
    destruct (Hlive1 o (Hno x ccold ltac:(by left) Eold) Hlo) as [Hl1 Hk1].
    destruct (Hlive' o ltac:(intros cpu a Hc; apply Hno; by right) Hl1) as [Hl' Hk'].
    split; [done|]. intros m Hm. by apply Hk', Hk1.
  - destruct (IH h HI Hnd) as
      (h' & E & HI' & Hq' & Hac' & Hf' & HU & Hin' & Hmono' & Hlive').
    { intros cpu a Hc Ea. apply Hold; [by right|done]. }
    { intros c1 c2 a1 a2 o H1 H2. apply Hdis; by right. }
    exists h'. split; [done|]. split; [done|]. split; [done|]. split; [done|].
    split; [done|]. split; [done|].
    split.
    { intros cpu a o Hc Ea Ho. apply elem_of_cons in Hc as [->|Hc].
      - by rewrite Eold in Ea.
      - by eapply Hin'. }
    split; [done|].
    intros o Hno Hlo. apply Hlive'; [|done]. intros cpu a Hc. apply Hno. by right.
Qed.

(** The loop of alloc_kmemlist on a cache in use whose nodes all have
    their list-sets: it makes the turns of the nodes before the first one
    whose allocations fail. *)
Lemma alloc_kmemlist_loop_live node_ok l : forall h,
  Inv cpu_to_node h ->
  (forall node, node ∈ l -> is_Some (get_l3 h node)) ->
  exists pre h' r,
    alloc_kmemlist_loop cpu_to_node online_cpus online_nodes nr_node_ids
      use_alien_caches node_ok h l = Some (h', r) /\
    for_each nat
      (alloc_kmemlist_node cpu_to_node online_cpus online_nodes nr_node_ids
         use_alien_caches) h pre = Some h' /\
    match r with
    | None => pre = l
    | Some node =>
        exists rest, l = pre ++ node :: rest /\ node_ok node = false /\
                     use_alien_caches || negb (c_shared (cachep h) =? 0) = true
    end.
Proof.
  induction l as [|x rest IH]; intros h HI Hl3; cbn [alloc_kmemlist_loop].
  { exists [], h, None. done. }
  destruct (Hl3 x ltac:(by left)) as [l3 El3].
  destruct (turn_fails use_alien_caches node_ok h x) eqn:Ef.
  - exists [], h, (Some x). split; [done|]. split; [done|].
    exists rest. split; [done|].
    unfold turn_fails in Ef. apply andb_true_iff in Ef as [Hok Hal].
    split; [by apply negb_true_iff in Hok|].
    apply orb_true_iff in Hal as [Hal|Hno]; [done|].
    apply andb_true_iff in Hno as [_ Hno].
    rewrite bool_decide_eq_true_2 in Hno by (rewrite El3; eauto). done.
  - destruct (alloc_kmemlist_node_live h x l3 HI El3)
      as (h1 & E1 & HI1 & _ & _ & _ & (_ & _ & T3 & _) & Hoth1 & _ &
          (l3x & El3x & _) & _).
    rewrite E1. cbn [mbind option_bind].
    destruct (IH h1 HI1) as (pre & h' & r & E & Epre & Hr).
    { intros node Hn. destruct (decide (node = x)) as [->|Hne]; [rewrite El3x; eauto|].
      apply (fields_views h h1 node (Hoth1 node Hne)). apply Hl3. by right. }
    exists (x :: pre), h', r. split; [done|].
    split; [cbn [for_each]; by rewrite E1|].
    destruct r as [node|]; [|by rewrite Hr].
    destruct Hr as (rest' & -> & Hok & Hal). exists rest'.
    split; [done|]. split; [done|]. by rewrite <- T3.
Qed.

(** X19: retuning the array caches of a cache in use loses no object,
    whichever of its allocations fail.  do_tune_cpucache returns, the
    state stays well formed, callers keep every object they hold, free
    objects stay free, objects in the slabs stay there and the alien
    arrays keep theirs.  When the allocation of the new front-ends fails,
    the result is -ENOMEM and nothing has changed.  Otherwise the limit,
    the batch count and the shared factor are overwritten, every online
    CPU has a new, empty front-end with the given limit and batch count,
    and the objects of the old front-ends are back in their slabs; then
    the online nodes are taken in turn, each getting a new, empty shared
    array (none when [shared] is 0) and its new free limit while the
    objects of its old shared array go back to their slabs.  The result
    is 0 when every node had its turn.  It is -ENOMEM when the
    allocations for a node fail, which needs alien arrays or a shared
    array to allocate: the nodes before it have had their turn, that node
    and the nodes after it keep the shared array and the free limit they
    had, while the new front-ends and the new tuning values stay. *)
Theorem retune_keeps_objects kmalloc_ok node_ok h limit batchcount shared :
  Inv cpu_to_node h -> NoDup online_cpus ->
  (forall cpu, cpu ∈ online_cpus ->
     is_Some (get_ac h (AcCpu cpu)) /\ is_Some (get_l3 h (cpu_to_node cpu))) ->
  (forall node, node ∈ online_nodes -> is_Some (get_l3 h node)) ->
  exists err h',
    do_tune_cpucache cpu_to_node online_cpus online_nodes nr_node_ids use_alien_caches
      kmalloc_ok node_ok true h limit batchcount shared = Some (err, h') /\
    Inv cpu_to_node h' /\ quiet h h' /\ keeps_live h h' /\
    (forall o, in_slab h o -> in_slab h' o) /\
    (forall n r l, entries_at h (AcAlien n r) = Some l ->
       entries_at h' (AcAlien n r) = Some l) /\
    (kmalloc_ok = false -> err = -12 /\ h' = h) /\
    (kmalloc_ok = true ->
       (c_limit (cachep h') = u32 limit /\ c_batchcount (cachep h') = u32 batchcount /\
        c_shared (cachep h') = u32 shared) /\
       (forall cpu, cpu ∈ online_cpus ->
          get_ac h' (AcCpu cpu) = Some (alloc_arraycache limit batchcount)) /\
       (forall cpu, cpu ∉ online_cpus -> get_ac h' (AcCpu cpu) = get_ac h (AcCpu cpu)) /\
       (forall cpu l o, cpu ∈ online_cpus ->
          entries_at h (AcCpu cpu) = Some l -> o ∈ l -> in_slab h' o) /\
       ((forall node, node ∈ online_nodes -> node_ok node = true) -> err = 0) /\
       exists pre,
         (err = 0 /\ pre = online_nodes \/
          err = -12 /\
          exists node rest,
            online_nodes = pre ++ node :: rest /\ node_ok node = false /\
            use_alien_caches || negb (u32 shared =? 0) = true) /\
         (forall node, node ∈ pre ->
            get_ac h' (AcShared node) =
              (if negb (u32 shared =? 0)
               then Some (alloc_arraycache (u32 shared * u32 batchcount) 0xbaadf00d)
               else None) /\
            free_limit <$> get_l3 h' node =
              Some (u32 (to_int (1 + nr_cpus_node cpu_to_node online_cpus node)
                         * u32 batchcount + num (cachep h)))) /\
         (forall node l o, node ∈ pre ->
            entries_at h (AcShared node) = Some l -> o ∈ l -> in_slab h' o) /\
         (forall node, node ∉ pre ->
            get_ac h' (AcShared node) = get_ac h (AcShared node) /\
            free_limit <$> get_l3 h' node = free_limit <$> get_l3 h node)).
Proof.
  intros HI Hnd Hw Hnodes.
  unfold do_tune_cpucache. destruct kmalloc_ok; cbn [negb].
  2: { exists (-12), h. split; [done|]. split; [done|]. split; [apply quiet_refl|].
       split; [apply keeps_live_refl|]. split; [done|]. split; [done|].
       split; [done|]. discriminate. }
  set (old := array (cachep h)).
  set (arr := fold_left
                (fun a cpu => <[cpu := Some (alloc_arraycache limit batchcount)]> a)
                online_cpus old).
  match goal with |- context [set_cachep h ?x] => set (c' := x) end.
  set (h0 := set_cachep h c').
  assert (Hcpu0 : forall cpu, get_ac h0 (AcCpu cpu) =
            if bool_decide (cpu ∈ online_cpus) && bool_decide (cpu < length old)%nat
            then Some (alloc_arraycache limit batchcount)
            else get_ac h (AcCpu cpu)).
  { intros cpu. cbn [get_ac]. change (array (cachep h0)) with arr.
    unfold arr. rewrite installed_slots. by destruct (_ && _). }
  assert (Hold_lt : forall cpu a, old !! cpu ≫= id = Some a -> (cpu < length old)%nat).
  { intros cpu a E. destruct (old !! cpu) eqn:E'; [|done]. by eapply lookup_lt_Some. }
  destruct (Inv_detach cpu_to_node h h0 HI) as (HI0 & Hin0 & Hheld0 & Hlive0 & Hdet0);
    try reflexivity.
  { intros loc l' E. destruct loc as [cpu|m|m r]; [|right; exact E|right; exact E].
    unfold entries_at in E. rewrite Hcpu0 in E.
    destruct (_ && _); [|by right]. left. cbn in E. by injection E as <-. }
  (* the old front-ends *)
  assert (Hent_old : forall cpu a, old !! cpu ≫= id = Some a ->
            entries_at h (AcCpu cpu) = Some (entry a)).
  { intros cpu a E. unfold entries_at. cbn [get_ac]. fold old. by rewrite E. }
  destruct (tune_free_old old online_cpus h0 HI0 Hnd) as
    (h1 & E1 & HI1 & Hq1 & Hac1 & Hf1 & (T1 & T2 & T3 & T4) & Hold1 & Hmono1 & Hlive1).
  { intros cpu a Hc Ea. split; [|split].
    - eapply entries_nodup; [apply HI|]. by apply Hent_old.
    - apply (Hw cpu Hc).
    - intros o Ho. split.
      + apply (Hdet0 (AcCpu cpu) (entry a) o); [by apply Hent_old|done|].
        intros l' E. unfold entries_at in E. rewrite Hcpu0 in E.
        rewrite bool_decide_eq_true_2 in E by done.
        rewrite bool_decide_eq_true_2 in E by (by eapply Hold_lt).
        cbn in E. by injection E as <-.
      + apply Hheld0.
        apply (entries_held _ _ (proj2 HI) (AcCpu cpu) (entry a)); [|done].
        by apply Hent_old. }
  { intros c1 c2 a1 a2 o _ _ E1 E2 H1 H2.
    assert (AcCpu c1 = AcCpu c2) as [=]; [|done].
    eapply (entries_disjoint _ _ (proj2 HI) (AcCpu c1) (AcCpu c2)); eauto. }
  rewrite E1. cbn [mbind option_bind].
  destruct (alloc_kmemlist_loop_live node_ok online_nodes h1 HI1) as
    (pre & h2 & r & Eloop & Epre & Hr).
  { intros node Hn. apply (fields_views h0 h1 node (Hf1 node)). apply (Hnodes node Hn). }
  assert (Hsub : forall node, node ∈ pre -> node ∈ online_nodes).
  { intros node Hn. destruct r as [x|]; [|by rewrite <- Hr].
    destruct Hr as (rest & -> & _). apply elem_of_app. by left. }
  destruct (alloc_kmemlist_live pre h1 HI1) as
    (h2' & E2 & HI2 & Hq2 & Hlv2 & Hmono2 & (U1 & U2 & U3 & U4) & Hsh2 & Hobj2 & Hal2 &
     Hoth2).
  { intros node Hn. apply (fields_views h0 h1 node (Hf1 node)).
    apply (Hnodes node (Hsub node Hn)). }
  rewrite Epre in E2. apply (inj Some) in E2. subst h2'.
  unfold alloc_kmemlist. rewrite Eloop. cbn [mbind option_bind].
  exists (match r with None => 0 | Some _ => -12 end), h2.
  split; [by destruct r|].
  split; [done|].
  assert (Hq0 : quiet h h0) by (by repeat split).
  split; [exact (quiet_trans _ _ _ Hq0 (quiet_trans _ _ _ Hq1 Hq2))|].
  split.
  { intros o Ho. pose proof Ho as [_ Hout].
    destruct (Hlive1 o) as [Hl1 Hk1]; [|by apply Hlive0|].
    { intros cpu a Hc Ea Hoa. apply (Hout (AcCpu cpu) (entry a)); [by apply Hent_old|done]. }
    destruct (Hlv2 o Hl1) as [Hl2 Hk2]. split; [done|].
    intros n Hn. by apply Hk2, Hk1, Hheld0. }
  split; [intros o Ho; by apply Hmono2, Hmono1, Hin0|].
  split.
  { intros n r0 l E. apply Hal2. unfold entries_at. rewrite Hac1. exact E. }
  split; [discriminate|]. intros _.
  split; [rewrite U1, U2, U3, T1, T2, T3; done|].
  split.
  { intros cpu Hc. cbn [get_ac]. rewrite U4.
    change (array (cachep h1) !! cpu ≫= id) with (get_ac h1 (AcCpu cpu)).
    rewrite Hac1, Hcpu0. rewrite bool_decide_eq_true_2 by done.
    destruct (proj1 (Hw cpu Hc)) as [a Ea].
    rewrite bool_decide_eq_true_2; [done|]. by eapply Hold_lt. }
  split.
  { intros cpu Hc. cbn [get_ac]. rewrite U4.
    change (array (cachep h1) !! cpu ≫= id) with (get_ac h1 (AcCpu cpu)).
    rewrite Hac1, Hcpu0. by rewrite bool_decide_eq_false_2 by done. }
  split.
  { intros cpu l o Hc E Ho. apply Hmono2.
    destruct (proj1 (Hw cpu Hc)) as [a Ea].
    assert (Eo : old !! cpu ≫= id = Some a) by exact Ea.
    rewrite (Hent_old cpu a Eo) in E. injection E as <-.
    by apply (Hold1 cpu a o Hc Eo). }
  split.
  { intros Hall. destruct r as [x|]; [|done].
    destruct Hr as (rest & Hl & Hok & _).
    rewrite Hall in Hok; [done|]. rewrite Hl. apply elem_of_app. right. by left. }
  exists pre. split.
  { destruct r as [x|]; [right|by left]. split; [done|].
    destruct Hr as (rest & Hl & Hok & Hal). exists x, rest.
    split; [done|]. split; [done|]. by rewrite T3 in Hal. }
  split.
  { intros node Hn. destruct (Hsh2 node Hn) as [A B].
    rewrite T2, T3 in A. rewrite T2 in B.
    rewrite (quiet_num _ _ Hq1) in B. split; [exact A|exact B]. }
  split.
  { intros node l o Hn E Ho. apply (Hobj2 node l o Hn); [|done].
    unfold entries_at. rewrite Hac1. exact E. }
  intros node Hn.
  destruct (fields_views h1 h2 node (Hoth2 node Hn)) as (Ea & _ & _ & Ef).
  destruct (fields_views h0 h1 node (Hf1 node)) as (Ea1 & _ & _ & Ef1).
  rewrite Ea, Ef, Ea1, Ef1. done.
Qed.
End Retune.

(** ** The table of callers *)

Section LeakFacts.
Context `{platform}.

Lemma flat_cons (x : Z * Z) P : flat (x :: P) = fst x :: snd x :: flat P.
Proof. reflexivity. Qed.

Lemma flat_pairs : forall (k : nat) (body : list Z),
  length body = (2 * k)%nat -> flat (pairs body) = body.
Proof.
  induction k as [|k IH]; intros body Hlen.
  - by destruct body.
  - destruct body as [|a [|b rest]]; cbn in Hlen; try lia.
    cbn [pairs]. rewrite flat_cons. cbn [fst snd]. f_equal. f_equal. apply IH. lia.
Qed.

Lemma length_pairs : forall (k : nat) (body : list Z),
  length body = (2 * k)%nat -> length (pairs body) = k.
Proof.
  induction k as [|k IH]; intros body Hlen.
  - by destruct body.
  - destruct body as [|a [|b rest]]; cbn in Hlen; try lia.
    cbn [pairs length]. f_equal. apply IH. lia.
Qed.

Lemma length_flat (P : list (Z * Z)) : length (flat P) = (2 * length P)%nat.
Proof.
  induction P as [|x P IH]; [done|]. rewrite flat_cons. cbn [length]. rewrite IH. lia.
Qed.

Lemma flat_app (A B : list (Z * Z)) : flat (A ++ B) = flat A ++ flat B.
Proof. unfold flat. apply bind_app. Qed.

Lemma flat_lookup (P : list (Z * Z)) : forall j x,
  P !! j = Some x ->
  flat P !! (2 * j)%nat = Some (fst x) /\ flat P !! (2 * j + 1)%nat = Some (snd x).
Proof.
  induction P as [|y P IH]; intros [|j] x E; try done.
  - cbn in E. injection E as ->. done.
  - cbn in E. rewrite flat_cons.
    replace (2 * S j)%nat with (S (S (2 * j))) by lia.
    replace (S (S (2 * j)) + 1)%nat with (S (S (2 * j + 1))) by lia.
    cbn [lookup list_lookup]. by apply IH.
Qed.

Lemma flat_take (P : list (Z * Z)) : forall j,
  take (2 * j) (flat P) = flat (take j P).
Proof.
  induction P as [|y P IH]; intros [|j]; try done.
  rewrite flat_cons. replace (2 * S j)%nat with (S (S (2 * j))) by lia.
  cbn [take]. rewrite IH. by rewrite flat_cons.
Qed.

Lemma flat_drop (P : list (Z * Z)) : forall j,
  drop (2 * j) (flat P) = flat (drop j P).
Proof.
  induction P as [|y P IH]; intros [|j]; try done.
  rewrite flat_cons. replace (2 * S j)%nat with (S (S (2 * j))) by lia.
  cbn [drop]. by rewrite IH.
Qed.

Lemma flat_insert_snd (P : list (Z * Z)) : forall j a c c',
  P !! j = Some (a, c) ->
  <[(2 * j + 1)%nat := c']> (flat P) = flat (<[j := (a, c')]> P).
Proof.
  induction P as [|y P IH]; intros [|j] a c c' E; try done.
  - cbn in E. injection E as ->. done.
  - cbn in E. rewrite flat_cons.
    replace (2 * S j + 1)%nat with (S (S (2 * j + 1))) by lia.
    change (<[S (S (2 * j + 1)) := c']> (fst y :: snd y :: flat P))
      with (fst y :: snd y :: <[(2 * j + 1)%nat := c']> (flat P)).
    rewrite (IH j a c c' E). reflexivity.
Qed.

Lemma Forall_keys (a : Z) (t : list (Z * Z)) :
  Forall (Z.lt a) (fst <$> t) <-> Forall (fun x => a < fst x) t.
Proof.
  rewrite !Forall_forall. split.
  - intros Hall x Hx. apply Hall. apply list_elem_of_fmap. by exists x.
  - intros Hall k Hk. apply list_elem_of_fmap in Hk as (x & -> & Hx). by apply Hall.
Qed.

(** In a table in order, the entries before an entry have smaller
    addresses and the entries after it larger ones. *)
Lemma sorted_around (t : list (Z * Z)) : forall mid a c,
  StronglySorted Z.lt (fst <$> t) -> t !! mid = Some (a, c) ->
  Forall (fun x => fst x < a) (take mid t) /\
  Forall (fun x => a < fst x) (drop (S mid) t).
Proof.
  induction t as [|y t IH]; intros [|mid] a c Hs E; try done.
  - cbn in E. injection E as ->. cbn [take drop]. split; [constructor|].
    rewrite fmap_cons in Hs. apply StronglySorted_inv in Hs as [_ Hall].
    by apply Forall_keys in Hall.
  - cbn in E. rewrite fmap_cons in Hs. apply StronglySorted_inv in Hs as [Hs Hall].
    destruct (IH mid a c Hs E) as [Hlo Hhi]. cbn [take drop]. split; [|done].
    constructor; [|done].
    apply Forall_keys in Hall. rewrite Forall_forall in Hall.
    apply (Hall (a, c)). by eapply list_elem_of_lookup_2.
Qed.

Lemma tally_found (v : Z) (t : list (Z * Z)) : forall mid c,
  Forall (fun x => fst x < v) (take mid t) -> t !! mid = Some (v, c) ->
  tally v t = <[mid := (v, wrap (c + 1))]> t.
Proof.
  induction t as [|[a c0] t IH]; intros [|mid] c Hlo E; try done.
  - cbn in E. injection E as -> ->. cbn [tally]. by rewrite Z.eqb_refl.
  - cbn in E. cbn [take] in Hlo. apply Forall_cons in Hlo as [Ha Hlo].
    cbn [fst] in Ha. cbn [tally].
    destruct (Z.eqb_spec a v); [lia|]. destruct (Z.gtb_spec a v); [lia|].
    by rewrite (IH mid c Hlo E).
Qed.

Lemma tally_insert (v : Z) (t : list (Z * Z)) : forall k,
  Forall (fun x => fst x < v) (take k t) ->
  Forall (fun x => v < fst x) (drop k t) ->
  tally v t = take k t ++ (v, 1) :: drop k t.
Proof.
  induction t as [|[a c0] t IH]; intros k Hlo Hhi.
  - by destruct k.
  - destruct k as [|k].
    + cbn [drop] in Hhi. apply Forall_cons in Hhi as [Ha _]. cbn [fst] in Ha.
      cbn [tally take drop app].
      destruct (Z.eqb_spec a v); [lia|]. destruct (Z.gtb_spec a v); [done|lia].
    + cbn [take] in Hlo. apply Forall_cons in Hlo as [Ha Hlo]. cbn [fst] in Ha.
      cbn [drop] in Hhi. cbn [tally take drop].
      destruct (Z.eqb_spec a v); [lia|]. destruct (Z.gtb_spec a v); [lia|].
      by rewrite (IH k Hlo Hhi).
Qed.

Lemma sorted_insert (v : Z) (t : list (Z * Z)) : forall k,
  StronglySorted Z.lt (fst <$> t) ->
  Forall (fun x => fst x < v) (take k t) ->
  Forall (fun x => v < fst x) (drop k t) ->
  StronglySorted Z.lt (fst <$> (take k t ++ (v, 1) :: drop k t)).
Proof.
  induction t as [|y t IH]; intros k Hs Hlo Hhi.
  - destruct k; cbn; constructor; constructor.
  - rewrite fmap_cons in Hs. apply StronglySorted_inv in Hs as [Hs Hall].
    destruct k as [|k].
    + cbn [take drop app]. rewrite fmap_cons. cbn [fst]. constructor.
      * rewrite fmap_cons. by constructor.
      * by apply Forall_keys.
    + cbn [take drop] in *. apply Forall_cons in Hlo as [Hy Hlo].
      change ((y :: take k t) ++ (v, 1) :: drop k t)
        with (y :: (take k t ++ (v, 1) :: drop k t)).
      rewrite fmap_cons. constructor; [by apply IH|].
      apply Forall_keys in Hall. apply Forall_keys.
      apply Forall_app. split; [by apply Forall_take|].
      constructor; [exact Hy|by apply Forall_drop].
Qed.

Lemma table_read (n0 n1 : Z) (P : list (Z * Z)) j a c :
  P !! j = Some (a, c) ->
  word_read (n0 :: n1 :: flat P) (2 + 2 * Z.of_nat j) = Some a /\
  word_read (n0 :: n1 :: flat P) (2 + 2 * Z.of_nat j + 1) = Some c.
Proof.
  intros E. destruct (flat_lookup P j (a, c) E) as [E1 E2]. cbn [fst snd] in *.
  unfold word_read.
  rewrite !(proj2 (Z.leb_le _ _)) by lia.
  replace (Z.to_nat (2 + 2 * Z.of_nat j)) with (S (S (2 * j))) by lia.
  replace (Z.to_nat (2 + 2 * Z.of_nat j + 1)) with (S (S (2 * j + 1))) by lia.
  done.
Qed.

Lemma table_write (n0 n1 : Z) (P : list (Z * Z)) j a c c' :
  P !! j = Some (a, c) ->
  word_write (n0 :: n1 :: flat P) (2 + 2 * Z.of_nat j + 1) c' =
    Some (n0 :: n1 :: flat (<[j := (a, c')]> P)).
Proof.
  intros E. unfold word_write.
  pose proof (lookup_lt_Some _ _ _ E) as Hj.
  cbn [length]. rewrite length_flat.
  rewrite (proj2 (Z.leb_le _ _)) by lia.
  rewrite (proj2 (Z.ltb_lt _ _)) by lia. cbn [andb].
  replace (Z.to_nat (2 + 2 * Z.of_nat j + 1)) with (S (S (2 * j + 1))) by lia.
  change (<[S (S (2 * j + 1)) := c']> (n0 :: n1 :: flat P))
    with (n0 :: n1 :: <[(2 * j + 1)%nat := c']> (flat P)).
  by rewrite (flat_insert_snd P j a c c' E).
Qed.

(** The binary search: it finds the entry of [v] and raises its count, or
    ends at the place where [v] belongs. *)
Lemma search_spec (n0 n1 v : Z) (P : list (Z * Z)) :
  let t := take (Z.to_nat n1) P in
  StronglySorted Z.lt (fst <$> t) ->
  Z.of_nat (length P) < 2 ^ 30 ->
  forall fuel lo len,
    (len < fuel)%nat -> (lo + len <= length t)%nat ->
    Forall (fun x => fst x < v) (take lo t) ->
    Forall (fun x => v < fst x) (drop (lo + len) t) ->
    (exists mid c,
       t !! mid = Some (v, c) /\
       add_caller_search fuel (n0 :: n1 :: flat P) v
         (2 + 2 * Z.of_nat lo) (Z.of_nat len) =
         Some (inl (n0 :: n1 :: flat (<[mid := (v, wrap (c + 1))]> P)))) \/
    (exists k,
       add_caller_search fuel (n0 :: n1 :: flat P) v
         (2 + 2 * Z.of_nat lo) (Z.of_nat len) = Some (inr (2 + 2 * Z.of_nat k)) /\
       (k <= length t)%nat /\
       Forall (fun x => fst x < v) (take k t) /\
       Forall (fun x => v < fst x) (drop k t)).
Proof.
  intros t Hs Hsmall.
  assert (Hlt : (length t <= length P)%nat) by (unfold t; rewrite length_take; lia).
  induction fuel as [|fuel IH]; intros lo len Hf Hb Hlo Hhi; [lia|].
  cbn [add_caller_search].
  destruct len as [|len'].
  { change (Z.of_nat 0 =? 0) with true. cbn iota. right. exists lo.
    rewrite Nat.add_0_r in Hhi, Hb. done. }
  set (len := S len') in *.
  destruct (Z.eqb_spec (Z.of_nat len) 0) as [|_]; [lia|].
  assert (Hq : Z.quot (Z.of_nat len) 2 = Z.of_nat (len / 2)).
  { rewrite Z.quot_div_nonneg by lia. by rewrite Nat2Z.inj_div. }
  assert (Hhalf : (len / 2 < len)%nat) by (apply Nat.div_lt; lia).
  rewrite Hq. rewrite (to_int_small (Z.of_nat (len / 2))) by lia.
  set (mid := (lo + len / 2)%nat).
  replace (2 + 2 * Z.of_nat lo + 2 * Z.of_nat (len / 2))
    with (2 + 2 * Z.of_nat mid) by lia.
  assert (Hmid : (mid < length t)%nat) by lia.
  destruct (lookup_lt_is_Some_2 t mid Hmid) as [[a c] Et].
  assert (EP : P !! mid = Some (a, c)).
  { unfold t in Et. rewrite lookup_take_lt in Et; [done|].
    unfold t in Hmid. rewrite length_take in Hmid. lia. }
  destruct (table_read n0 n1 P mid a c EP) as [R1 R2].
  rewrite R1. cbn [mbind option_bind].
  destruct (sorted_around t mid a c Hs Et) as [Hbelow Habove].
  destruct (Z.eqb_spec a v) as [->|Hne].
  - (* found *)
    rewrite R2. cbn [mbind option_bind].
    rewrite (table_write n0 n1 P mid v c (wrap (c + 1)) EP). cbn [mbind option_bind].
    left. by exists mid, c.
  - destruct (Z.gtb_spec a v) as [Hgt|Hle].
    + (* the entry in the middle is larger *)
      apply (IH lo (len / 2)%nat); [lia|lia|done|].
      fold mid. rewrite (drop_S t (a, c) mid Et).
      constructor; [done|]. eapply Forall_impl; [exact Habove|].
      intros x Hx. cbn beta in Hx. lia.
    + (* it is smaller *)
      replace (2 + 2 * Z.of_nat mid + 2) with (2 + 2 * Z.of_nat (S mid)) by lia.
      replace (to_int (Z.of_nat len - (Z.of_nat (len / 2) + 1)))
        with (Z.of_nat (len - len / 2 - 1)) by (rewrite to_int_small; lia).
      apply (IH (S mid) (len - len / 2 - 1)%nat); [lia|lia| |].
      * rewrite (take_S_r t mid (a, c) Et). apply Forall_app. split.
        -- eapply Forall_impl; [exact Hbelow|]. intros x Hx. cbn beta in Hx. lia.
        -- constructor; [cbn; lia|constructor].
      * replace (S mid + (len - len / 2 - 1))%nat with (lo + len)%nat by lia. done.
Qed.

Lemma pairs_flat (P : list (Z * Z)) : pairs (flat P) = P.
Proof.
  induction P as [|[a c] P IH]; [done|]. rewrite flat_cons. cbn [pairs fst snd].
  by rewrite IH.
Qed.

Lemma flat_insert_fst (P : list (Z * Z)) : forall j a c a',
  P !! j = Some (a, c) ->
  <[(2 * j)%nat := a']> (flat P) = flat (<[j := (a', c)]> P).
Proof.
  induction P as [|y P IH]; intros [|j] a c a' E; try done.
  - cbn in E. injection E as ->. done.
  - cbn in E. rewrite flat_cons.
    replace (2 * S j)%nat with (S (S (2 * j))) by lia.
    change (<[S (S (2 * j)) := a']> (fst y :: snd y :: flat P))
      with (fst y :: snd y :: <[(2 * j)%nat := a']> (flat P)).
    rewrite (IH j a c a' E). reflexivity.
Qed.

(* p[0] = a; p[1] = c at entry [j] *)
Lemma table_write_pair (n0 n1 : Z) (P : list (Z * Z)) j x a c :
  P !! j = Some x ->
  word_write (n0 :: n1 :: flat P) (2 + 2 * Z.of_nat j) a ≫=
    (fun n => word_write n (2 + 2 * Z.of_nat j + 1) c) =
    Some (n0 :: n1 :: flat (<[j := (a, c)]> P)).
Proof.
  intros E. destruct x as [a0 c0].
  pose proof (lookup_lt_Some _ _ _ E) as Hj.
  assert (W1 : word_write (n0 :: n1 :: flat P) (2 + 2 * Z.of_nat j) a =
               Some (n0 :: n1 :: flat (<[j := (a, c0)]> P))).
  { unfold word_write. cbn [length]. rewrite length_flat.
    rewrite (proj2 (Z.leb_le _ _)) by lia.
    rewrite (proj2 (Z.ltb_lt _ _)) by lia. cbn [andb].
    replace (Z.to_nat (2 + 2 * Z.of_nat j)) with (S (S (2 * j))) by lia.
    change (<[S (S (2 * j)) := a]> (n0 :: n1 :: flat P))
      with (n0 :: n1 :: <[(2 * j)%nat := a]> (flat P)).
    by rewrite (flat_insert_fst P j a0 c0 a E). }
  rewrite W1. cbn [mbind option_bind].
  rewrite (table_write n0 n1 (<[j := (a, c0)]> P) j a c0 c).
  - by rewrite list_insert_insert_eq.
  - by rewrite list_lookup_insert_eq.
Qed.

(* the entries from [k] on move up by one place *)
Lemma memmove_table (n0 n1 : Z) (P : list (Z * Z)) (k m : nat) :
  0 < BYTES_PER_WORD -> (k + 1 + m <= length P)%nat ->
  memmove (n0 :: n1 :: flat P) (2 + 2 * Z.of_nat k + 2) (2 + 2 * Z.of_nat k)
    (2 * Z.of_nat m * BYTES_PER_WORD) =
    Some (n0 :: n1 ::
          flat (take (k + 1) P ++ take m (drop k P) ++ drop (k + 1 + m) P)).
Proof.
  intros HW Hb. unfold memmove. rewrite Z.div_mul by lia.
  cbn [length]. rewrite length_flat.
  rewrite !(proj2 (Z.leb_le _ _)) by lia. cbn [andb].
  replace (Z.to_nat (2 * Z.of_nat m)) with (2 * m)%nat by lia.
  replace (Z.to_nat (2 + 2 * Z.of_nat k + 2)) with (S (S (2 * (k + 1)))) by lia.
  replace (Z.to_nat (2 + 2 * Z.of_nat k)) with (S (S (2 * k))) by lia.
  replace (S (S (2 * (k + 1))) + 2 * m)%nat with (S (S (2 * (k + 1 + m)))) by lia.
  cbn [take drop]. rewrite !flat_take, !flat_drop, flat_take.
  by rewrite !flat_app.
Qed.

(** X20: add_caller counts a caller in the sorted table.  For a table in
    order whose bytes fit the address space and a caller [v] other than 0:
    when [v] has an entry, its count goes up by one and nothing else
    changes; when it has none and the table has room, an entry with count
    1 is inserted at its place in the order, the entries after it moving
    up, and the number of entries goes up by one; in both cases the result
    is 1 and the table stays in order.  When [v] has no entry and the
    table is full, the result is 0 and only the number of entries has
    changed.  Caller 0 is ignored. *)
Theorem add_caller_counts (n : list Z) (v : Z) :
  table_ok n -> 0 < BYTES_PER_WORD ->
  Z.of_nat (length n) * BYTES_PER_WORD < 2 ^ SIZE_BITS -> 0 < v ->
  add_caller n 0 = Some (n, 1) /\
  exists n0 n1 n' r,
    n !! 0%nat = Some n0 /\ n !! 1%nat = Some n1 /\
    add_caller n v = Some (n', r) /\
    length n' = length n /\ n' !! 0%nat = Some n0 /\
    ((v ∈ fst <$> callers n /\ r = 1 /\ n' !! 1%nat = Some n1 /\
      callers n' = tally v (callers n) /\ table_ok n') \/
     ((v ∉ fst <$> callers n) /\ n1 + 1 < n0 /\ r = 1 /\
      n' !! 1%nat = Some (n1 + 1) /\
      callers n' = tally v (callers n) /\ table_ok n') \/
     ((v ∉ fst <$> callers n) /\ n1 + 1 = n0 /\ r = 0 /\
      n' = <[1%nat := n1 + 1]> n)).
Proof.
  intros (n0 & n1 & body & -> & Hn1 & Hn0 & Hlen & Hs) HW Hfit Hv.
  split; [reflexivity|].
  exists n0, n1.
  (* the array as a list of pairs *)
  set (kk := Z.to_nat (n0 - 1)).
  assert (Hbody : length body = (2 * kk)%nat) by (cbn [length] in Hlen; lia).
  set (P := pairs body).
  assert (EP : flat P = body) by (by apply (flat_pairs kk)).
  assert (HlenP : length P = kk) by (by apply length_pairs).
  rewrite <- EP in *. clear Hbody.
  cbn [callers] in *. rewrite pairs_flat in *.
  set (t := take (Z.to_nat n1) P) in *.
  assert (Hlt : length t = Z.to_nat n1) by (unfold t; rewrite length_take; lia).
  assert (Hpow : 0 < 2 ^ SIZE_BITS) by lia.
  assert (Hfit' : 2 * n0 * BYTES_PER_WORD < 2 ^ SIZE_BITS) by (rewrite <- Hlen; exact Hfit).
  assert (Hn0W : 2 * n0 <= 2 * n0 * BYTES_PER_WORD) by nia.
  unfold add_caller. destruct (Z.eqb_spec v 0) as [|_]; [lia|].
  change (word_read (n0 :: n1 :: flat P) 1) with (Some n1).
  cbn [mbind option_bind]. rewrite (to_int_small n1) by lia.
  destruct (search_spec n0 n1 v P Hs ltac:(lia) (S (Z.to_nat n1)) 0%nat (Z.to_nat n1))
    as [(mid & c & Em & Es)|(k & Es & Hk & Hlo & Hhi)].
  { lia. }
  { fold t. lia. }
  { constructor. }
  { fold t. rewrite Nat.add_0_l, <- Hlt, drop_all. constructor. }
  - (* [v] has an entry *)
    fold t in Em.
    change (2 + 2 * Z.of_nat 0) with 2 in Es. rewrite Z2Nat.id in Es by lia.
    rewrite Es. cbn [mbind option_bind].
    pose proof (lookup_lt_Some _ _ _ Em) as Hmid.
    set (P' := <[mid := (v, wrap (c + 1))]> P).
    assert (Hcallers : take (Z.to_nat n1) P' = tally v t).
    { unfold P'. rewrite take_insert_lt by lia. fold t.
      symmetry. apply (tally_found v t mid c); [|done].
      by destruct (sorted_around t mid v c Hs Em). }
    assert (Hkeys : fst <$> tally v t = fst <$> t).
    { rewrite <- Hcallers. unfold P'. rewrite take_insert_lt by lia. fold t.
      rewrite list_fmap_insert. cbn [fst]. apply list_insert_id.
      rewrite list_lookup_fmap, Em. done. }
    eexists _, 1. split; [done|]. split; [done|]. split; [reflexivity|].
    split; [cbn [length]; rewrite !length_flat; unfold P'; by rewrite length_insert|].
    split; [done|]. left.
    split; [apply list_elem_of_fmap; exists (v, c); split; [done|];
            by eapply list_elem_of_lookup_2|].
    split; [done|]. split; [done|].
    split; [cbn [callers]; by rewrite pairs_flat|].
    exists n0, n1, (flat P'). split; [done|]. split; [done|]. split; [done|].
    split; [cbn [length] in *; rewrite length_flat in *; unfold P';
            by rewrite length_insert|].
    cbn [callers]. rewrite pairs_flat, Hcallers, Hkeys. done.
  - (* [v] has no entry *)
    fold t in Hk, Hlo, Hhi.
    change (2 + 2 * Z.of_nat 0) with 2 in Es. rewrite Z2Nat.id in Es by lia.
    rewrite Es. cbn [mbind option_bind].
    assert (Hnew : v ∉ fst <$> t).
    { intros Hin. apply list_elem_of_fmap in Hin as ([a c] & Ha & Hin). cbn in Ha. subst a.
      rewrite <- (take_drop k t) in Hin. apply elem_of_app in Hin as [Hin|Hin].
      - rewrite Forall_forall in Hlo. specialize (Hlo _ Hin). cbn in Hlo. lia.
      - rewrite Forall_forall in Hhi. specialize (Hhi _ Hin). cbn in Hhi. lia. }
    rewrite (wrap_small (n1 + 1)) by lia.
    change (word_write (n0 :: n1 :: flat P) 1 (n1 + 1))
      with (if (0 <=? 1) && (1 <? Z.of_nat (length (n0 :: n1 :: flat P)))
            then Some (n0 :: (n1 + 1) :: flat P) else None).
    rewrite (proj2 (Z.ltb_lt 1 _)) by (cbn [length]; lia).
    cbn [andb Z.leb Z.compare mbind option_bind].
    change (word_read (n0 :: n1 + 1 :: flat P) 0) with (Some n0).
    cbn [mbind option_bind].
    destruct (Z.eqb_spec (n1 + 1) n0) as [Hfull|Hroom].
    + (* the table is full *)
      eexists _, 0. split; [done|]. split; [done|]. split; [reflexivity|].
      split; [done|]. split; [done|]. right. right. done.
    + (* the entries from [k] on move up *)
      set (m := (Z.to_nat n1 - k)%nat).
      assert (Hbytes : wrap (wrap (wrap ((n1 + 1) * 2) * BYTES_PER_WORD)
                             - (2 + 2 * Z.of_nat k) * BYTES_PER_WORD)
                       = 2 * Z.of_nat m * BYTES_PER_WORD).
      { rewrite (wrap_small ((n1 + 1) * 2)) by lia.
        rewrite (wrap_small ((n1 + 1) * 2 * BYTES_PER_WORD)) by nia.
        rewrite wrap_small by nia. nia. }
      rewrite Hbytes.
      rewrite (memmove_table n0 (n1 + 1) P k m HW) by lia.
      cbn [mbind option_bind].
      set (Q := take (k + 1) P ++ take m (drop k P) ++ drop (k + 1 + m) P).
      destruct (lookup_lt_is_Some_2 P k ltac:(lia)) as [xk Exk].
      assert (EQk : Q !! k = Some xk).
      { unfold Q. rewrite lookup_app_l by (rewrite length_take; lia).
        rewrite lookup_take_lt by lia. done. }
      pose proof (table_write_pair n0 (n1 + 1) Q k xk v 1 EQk) as Hw.
      destruct (word_write (n0 :: n1 + 1 :: flat Q) (2 + 2 * Z.of_nat k) v)
        as [na|]; [|done].
      cbn [mbind option_bind] in Hw |- *. rewrite Hw. cbn [mbind option_bind].
      set (Q' := <[k := (v, 1)]> Q).
      assert (EQ' : Q' = take k P ++ (v, 1) :: take m (drop k P) ++ drop (k + 1 + m) P).
      { unfold Q', Q. replace (k + 1)%nat with (S k) by lia.
        rewrite (take_S_r P k xk Exk). rewrite <- !app_assoc. cbn [app].
        rewrite insert_app_r_alt by (rewrite length_take; lia).
        rewrite length_take. replace (k - k `min` length P)%nat with 0%nat by lia.
        done. }
      assert (Hcallers : take (Z.to_nat (n1 + 1)) Q' = tally v t).
      { rewrite (tally_insert v t k Hlo Hhi). rewrite EQ'.
        replace (Z.to_nat (n1 + 1)) with (length (take k P) + S m)%nat
          by (rewrite length_take; lia).
        rewrite take_app_add'; [|done].
        replace (take k t) with (take k P)
          by (unfold t; rewrite take_take; f_equal; lia).
        f_equal. cbn [take]. f_equal.
        rewrite take_app_length' by (rewrite length_take, length_drop; lia).
        unfold t. rewrite take_drop_commute. f_equal. f_equal. lia. }
      assert (HlenQ : length Q' = length P).
      { unfold Q', Q. rewrite length_insert, !length_app, !length_take, !length_drop. lia. }
      eexists _, 1. split; [done|]. split; [done|]. split; [reflexivity|].
      split; [cbn [length]; rewrite !length_flat; by rewrite HlenQ|].
      split; [done|]. right. left.
      split; [done|]. split; [lia|]. split; [done|]. split; [done|].
      split; [cbn [callers]; by rewrite pairs_flat|].
      exists n0, (n1 + 1), (flat Q'). split; [done|]. split; [lia|]. split; [done|].
      split; [cbn [length] in *; rewrite length_flat in *; by rewrite HlenQ|].
      cbn [callers]. rewrite pairs_flat, Hcallers.
      rewrite (tally_insert v t k Hlo Hhi). by apply sorted_insert.
Qed.
End LeakFacts.

(** ** A created cache is ready for use *)

Section NumBound.
Context `{platform}.

Lemma estimate_num_bound g bs align flags lo n :
  cache_estimate g bs align flags = Some (lo, n) -> 0 <= n <= SLAB_LIMIT.
Proof.
  unfold cache_estimate. intros E.
  assert (Hclip : forall x,
            0 <= u32 (if u32 x >? SLAB_LIMIT then to_int SLAB_LIMIT else x) <= SLAB_LIMIT).
  { intros x. destruct (Z.gtb_spec (u32 x) SLAB_LIMIT) as [Hgt|Hle].
    - vm_compute. split; discriminate.
    - split; [apply Z.mod_pos_bound; lia|done]. }
  destruct (OFF_SLAB flags).
  - destruct (bs =? 0); [discriminate|]. injection E as _ <-. apply Hclip.
  - destruct (wrap (bs + sizeof_bufctl) =? 0); [discriminate|].
    injection E as _ <-. apply Hclip.
Qed.

Lemma order_loop_num_bound ceiling size align flags n : forall g acc so,
  0 <= so_num acc <= SLAB_LIMIT ->
  slab_order_loop ceiling size align flags n g acc = Some so ->
  0 <= so_num so <= SLAB_LIMIT.
Proof.
  induction n as [|n IH]; intros g acc so Hacc Hrun; cbn [slab_order_loop] in Hrun.
  - by injection Hrun as <-.
  - destruct (cache_estimate g size align flags) as [[rem num]|] eqn:E; [|done].
    pose proof (estimate_num_bound _ _ _ _ _ _ E) as Hn.
    destruct (num =? 0); [by eapply IH|].
    destruct (OFF_SLAB flags && _); [by injection Hrun as <-|].
    destruct (flag_set flags SLAB_RECLAIM_ACCOUNT); [by injection Hrun as <-|].
    destruct (g >=? ceiling); [by injection Hrun as <-|].
    destruct (_ <=? _); [by injection Hrun as <-|].
    eapply IH; [|exact Hrun]. done.
Qed.
End NumBound.

Section Ready.
Context `{platform}.
Variable cpu_to_node : nat -> nat.
Variable online_cpus : list nat.
Variable online_nodes : list nat.
Variable nr_node_ids : nat.
Variable use_alien_caches : bool.

(* a list-set without slabs whose arrays hold nothing *)
Local Abbreviation blank l3 :=
  (slabs_partial l3 = [] /\ slabs_full l3 = [] /\ slabs_free l3 = [] /\
   (forall sh, shared l3 = Some sh -> entry sh = []) /\
   (forall al, alien l3 = Some al ->
      length al = nr_node_ids /\
      forall r ac, al !! r = Some (Some ac) -> entry ac = [])).

Lemma get_l3_set_l3_lt h n l3 :
  (n < length (nodelists (cachep h)))%nat -> get_l3 (set_l3 h n l3) n = Some l3.
Proof.
  intros Hn. unfold get_l3, set_l3. cbn. by rewrite list_lookup_insert_eq.
Qed.

Lemma alloc_alien_cache_blank node limit :
  length (alloc_alien_cache online_nodes nr_node_ids node limit) = nr_node_ids /\
  forall r ac,
    alloc_alien_cache online_nodes nr_node_ids node limit !! r = Some (Some ac) ->
    entry ac = [].
Proof.
  unfold alloc_alien_cache. split.
  - by rewrite length_map, length_seq.
  - intros r ac. rewrite lookup_List_map. intros E.
    destruct (seq 0 nr_node_ids !! r) as [i|]; [|done]. cbn in E.
    destruct (_ || _); [done|]. by injection E as <-.
Qed.

(** alloc_kmemlist on a cache without slabs: every node of the list gets
    its list-set, and nothing holds an object. *)
Lemma alloc_kmemlist_blank l : forall h h',
  slab_store h = [] -> released h = [] ->
  (forall n l3, get_l3 h n = Some l3 -> blank l3) ->
  for_each nat
    (alloc_kmemlist_node cpu_to_node online_cpus online_nodes nr_node_ids
       use_alien_caches) h l = Some h' ->
  slab_store h' = [] /\ released h' = [] /\
  (forall n l3, get_l3 h' n = Some l3 -> blank l3) /\
  array (cachep h') = array (cachep h) /\
  geometry (cachep h') = geometry (cachep h) /\
  (c_limit (cachep h') = c_limit (cachep h) /\
   c_batchcount (cachep h') = c_batchcount (cachep h) /\
   c_shared (cachep h') = c_shared (cachep h)) /\
  (forall node, node ∈ l -> is_Some (get_l3 h' node)) /\
  (forall n, is_Some (get_l3 h n) -> is_Some (get_l3 h' n)).
Proof.
  induction l as [|x rest IH]; intros h h' Hst Hrel Hblank; cbn [for_each].
  { intros [= <-]. repeat (split; [done|]). split; [|done].
    intros node Hn. by apply elem_of_nil in Hn. }
  set (c := cachep h).
  destruct (alloc_kmemlist_node _ _ _ _ _ h x) as [h1|] eqn:Ex; [|done].
  cbn [mbind option_bind]. intros Erest.
  assert (Hstep :
    slab_store h1 = [] /\ released h1 = [] /\
    (forall n l3, get_l3 h1 n = Some l3 -> blank l3) /\
    array (cachep h1) = array c /\ geometry (cachep h1) = geometry c /\
    (c_limit (cachep h1) = c_limit c /\ c_batchcount (cachep h1) = c_batchcount c /\
     c_shared (cachep h1) = c_shared c) /\
    is_Some (get_l3 h1 x) /\
    (forall n, is_Some (get_l3 h n) -> is_Some (get_l3 h1 n))).
  { revert Ex. unfold alloc_kmemlist_node. fold c.
    set (new_alien := if use_alien_caches
                      then Some (alloc_alien_cache online_nodes nr_node_ids x (c_limit c))
                      else None).
    set (new_shared := if negb (c_shared c =? 0)
                       then Some (alloc_arraycache (c_shared c * c_batchcount c) 0xbaadf00d)
                       else None).
    assert (Hns : forall sh, new_shared = Some sh -> entry sh = []).
    { intros sh. unfold new_shared. destruct (negb _); [|done]. by intros [= <-]. }
    assert (Hna : forall al, new_alien = Some al ->
              length al = nr_node_ids /\
              forall r ac, al !! r = Some (Some ac) -> entry ac = []).
    { intros al. unfold new_alien. destruct use_alien_caches; [|done].
      intros [= <-]. apply alloc_alien_cache_blank. }
    assert (Hfin : forall l3',
      (x < length (nodelists c))%nat ->
      blank l3' ->
      slab_store (set_l3 h x l3') = [] /\ released (set_l3 h x l3') = [] /\
      (forall n l3, get_l3 (set_l3 h x l3') n = Some l3 -> blank l3) /\
      array (cachep (set_l3 h x l3')) = array c /\
      geometry (cachep (set_l3 h x l3')) = geometry c /\
      (c_limit (cachep (set_l3 h x l3')) = c_limit c /\
       c_batchcount (cachep (set_l3 h x l3')) = c_batchcount c /\
       c_shared (cachep (set_l3 h x l3')) = c_shared c) /\
      is_Some (get_l3 (set_l3 h x l3') x) /\
      (forall n, is_Some (get_l3 h n) -> is_Some (get_l3 (set_l3 h x l3') n))).
    { intros l3' Hx Hb. split; [done|]. split; [done|]. split.
      { intros n l3 E. destruct (decide (n = x)) as [->|Hne].
        - rewrite get_l3_set_l3_lt in E by done. by injection E as <-.
        - rewrite get_l3_set_l3_ne in E by done. by eapply Hblank. }
      split; [done|]. split; [done|]. split; [done|].
      split; [rewrite get_l3_set_l3_lt by done; eauto|].
      intros n Hn. destruct (decide (n = x)) as [->|Hne].
      - rewrite get_l3_set_l3_lt by done. eauto.
      - by rewrite get_l3_set_l3_ne. }
    destruct (get_l3 h x) as [l3|] eqn:El3.
    - assert (Hx : (x < length (nodelists c))%nat).
      { unfold get_l3 in El3. fold c in El3.
        destruct (nodelists c !! x) eqn:E; [|done]. by eapply lookup_lt_Some. }
      destruct (Hblank x l3 El3) as (Hp & Hf & Hfr & Hsh & Hal).
      assert (Efree : match shared l3 with
                      | Some sh => free_block h (entry sh) x
                      | None => Some h
                      end = Some h).
      { destruct (shared l3) as [sh|] eqn:Es; [|done]. by rewrite (Hsh sh). }
      rewrite Efree. cbn [mbind option_bind]. rewrite El3. cbn [mbind option_bind].
      intros [= <-]. apply Hfin; [done|].
      destruct l3 as [p f e fo fl cn s a ft]. cbn in *. subst p f e.
      destruct a as [al|].
      + cbn. split; [done|]. split; [done|]. split; [done|]. split; [exact Hns|exact Hal].
      + cbn. split; [done|]. split; [done|]. split; [done|]. split; [exact Hns|exact Hna].
    - destruct (Nat.ltb_spec x (length (nodelists c))) as [Hx|]; [|done].
      intros [= <-]. apply Hfin; [done|].
      cbn. split; [done|]. split; [done|]. split; [done|]. split; [exact Hns|exact Hna]. }
  destruct Hstep as (Hst1 & Hrel1 & Hb1 & Ha1 & Hg1 & (T1 & T2 & T3) & Hx1 & Hmono1).
  destruct (IH h1 h' Hst1 Hrel1 Hb1 Erest) as
    (Hst' & Hrel' & Hb' & Ha' & Hg' & (U1 & U2 & U3) & Hall' & Hmono').
  split; [done|]. split; [done|]. split; [done|].
  split; [by rewrite Ha'|]. split; [by rewrite Hg'|].
  split; [by rewrite U1, U2, U3|].
  split.
  - intros node Hn. apply elem_of_cons in Hn as [->|Hn]; [by apply Hmono'|by apply Hall'].
  - intros n Hn. by apply Hmono', Hmono1.
Qed.

Lemma for_each_skips {A} (f : heap -> A -> option heap) (l : list A) : forall h,
  (forall h x, x ∈ l -> f h x = Some h) -> for_each A f h l = Some h.
Proof.
  induction l as [|x rest IH]; intros h Hf; cbn [for_each]; [done|].
  rewrite Hf by (by left). cbn [mbind option_bind].
  apply IH. intros h' y Hy. apply Hf. by right.
Qed.

(** Tuning a cache that has no array, no list-set and no slab yet. *)
Lemma tune_blank ok node_ok active h limit batchcount shared err h' :
  slab_store h = [] -> released h = [] ->
  (forall cpu, array (cachep h) !! cpu ≫= id = None) ->
  (forall n, get_l3 h n = None) ->
  do_tune_cpucache cpu_to_node online_cpus online_nodes nr_node_ids use_alien_caches
    ok node_ok active h limit batchcount shared = Some (err, h') ->
  err = 0 ->
  slab_store h' = [] /\ released h' = [] /\
  (forall n l3, get_l3 h' n = Some l3 -> blank l3) /\
  array (cachep h') =
    fold_left (fun a cpu => <[cpu := Some (alloc_arraycache limit batchcount)]> a)
              online_cpus (array (cachep h)) /\
  (forall node, node ∈ online_nodes -> is_Some (get_l3 h' node)).
Proof.
  intros Hst Hrel Hold Hl3. unfold do_tune_cpucache.
  destruct ok; cbn [negb]; [|by intros [= <- <-]].
  rewrite for_each_skips.
  2: { intros h1 cpu _. by rewrite Hold. }
  cbn [mbind option_bind]. unfold alloc_kmemlist.
  match goal with
  | |- context [alloc_kmemlist_loop _ _ _ _ _ _ ?h1 ?l] =>
      destruct (alloc_kmemlist_loop cpu_to_node online_cpus online_nodes nr_node_ids
                  use_alien_caches node_ok h1 l) as [[h2 r]|] eqn:E; [|done]
  end.
  cbn [mbind option_bind].
  destruct r as [x|].
  { intros E' Herr. apply (inj Some) in E'. apply pair_equal_spec in E' as [<- _].
    done. }
  intros [= _ <-] _.
  apply alloc_kmemlist_loop_prefix in E as (pre & E & ->).
  apply alloc_kmemlist_blank in E; [| done | done |].
  2: { intros n l3 El. exfalso. revert El. change (get_l3 h n = Some l3 -> False).
       by rewrite Hl3. }
  destruct E as (Hst' & Hrel' & Hb' & Ha' & _ & _ & Hall' & _).
  repeat (split; [done|]). done.
Qed.

Lemma created_setup env nm size align fl ct dtor addr c chain :
  kmem_cache_create cpu_to_node online_cpus online_nodes nr_node_ids use_alien_caches
    env nm size align fl ct dtor = Created addr c chain ->
  exists c0,
    setup_cpu_cache cpu_to_node online_cpus online_nodes nr_node_ids use_alien_caches
      env c0 = Some (0, c) /\
    array c0 = replicate (NR_CPUS env) None /\
    nodelists c0 = replicate (MAX_NUMNODES env) None.
Proof.
  unfold kmem_cache_create.
  destruct nm as [nm|]; [|done].
  destruct (_ || _); [done|].
  destruct (create_args env size align fl) as [[size' align'] flags'].
  destruct (zalloc env) as [a|]; [|unfold oops; destruct (flag_set _ _); done].
  destruct (calculate_slab_order _ _ _ _) as [so|]; [|done].
  destruct (Z.eqb_spec (so_num so) 0) as [|Hnz];
    [unfold oops; destruct (flag_set _ _); done|].
  set (mgmt := ALIGN _ align').
  destruct (OFF_SLAB flags' && (so_left_over so >=? mgmt)) eqn:Hmoved.
  - set (co := if u32 cache_line_size <? align' then _ else _).
    destruct (Z.eqb_spec co 0) as [|Hco]; [done|].
    destruct (OFF_SLAB (Z.ldiff flags' CFLGS_OFF_SLAB) && _); [done|].
    destruct (setup_cpu_cache _ _ _ _ _ _ _) as [[err c']|] eqn:Hset; [|done].
    destruct (Z.eqb_spec err 0) as [->|]; cbn [negb];
      [|unfold oops; destruct (flag_set _ _); done].
    intros E. injection E as <- <- <-.
    eexists. split; [exact Hset|]. done.
  - set (co := if u32 cache_line_size <? align' then _ else _).
    destruct (Z.eqb_spec co 0) as [|Hco]; [done|].
    destruct (OFF_SLAB flags' && negb (general_cachep env)); [done|].
    destruct (setup_cpu_cache _ _ _ _ _ _ _) as [[err c']|] eqn:Hset; [|done].
    destruct (Z.eqb_spec err 0) as [->|]; cbn [negb];
      [|unfold oops; destruct (flag_set _ _); done].
    intros E. injection E as <- <- <-.
    eexists. split; [exact Hset|]. done.
Qed.

Lemma created_num env nm size align fl ct dtor addr c chain :
  kmem_cache_create cpu_to_node online_cpus online_nodes nr_node_ids use_alien_caches
    env nm size align fl ct dtor = Created addr c chain ->
  1 <= num c <= SLAB_LIMIT.
Proof.
  intros Hc.
  destruct (create_args env size align fl) as [[size' align'] flags'] eqn:Hargs.
  destruct (created_inv _ _ _ _ _ _ _ _ _ _ _ _ _ _ _ _ _ _ Hargs Hc)
    as (so & Hso & Hnz & -> & _).
  unfold calculate_slab_order in Hso.
  apply order_loop_num_bound in Hso; [lia|]. cbn. vm_compute. split; discriminate.
Qed.

(** X21. A cache that kmem_cache_create hands out once the allocator is
    fully up is ready for use: it holds no slab and no cached object, every
    online CPU has an empty front-end whose limit is the one the size table
    of enable_cpucache gives for the object size, with a batch of half the
    limit, and every online node has its list-set, with alien arrays that
    reach every online node. *)
Theorem created_cache_is_ready env nm size align fl ct dtor addr c chain :
  g_cpucache_up env = FULL ->
  (forall cpu, cpu ∈ online_cpus ->
     (cpu < NR_CPUS env)%nat /\ cpu_to_node cpu ∈ online_nodes) ->
  (forall node, node ∈ online_nodes -> (node < nr_node_ids)%nat) ->
  kmem_cache_create cpu_to_node online_cpus online_nodes nr_node_ids use_alien_caches
    env nm size align fl ct dtor = Created addr c chain ->
  forall h, cachep h = c -> released h = [] ->
    fresh h /\ wired cpu_to_node online_cpus online_nodes h /\
    (forall node, node ∈ online_nodes -> is_Some (get_l3 h node)) /\
    let lim := if buffer_size c >? 131072 then 1
               else if buffer_size c >? PAGE_SIZE then 8
               else if buffer_size c >? 1024 then 24
               else if buffer_size c >? 256 then 54
               else 120 in
    forall cpu, cpu ∈ online_cpus ->
      get_ac h (AcCpu cpu) = Some (mk_ac (u32 lim) (u32 (to_int (lim + 1) / 2)) 0 []).
Proof.
  intros Hup Hcpus Hnodes Hcreate h Hc Hrel.
  pose proof (created_num _ _ _ _ _ _ _ _ _ _ Hcreate) as Hnum.
  destruct (created_setup _ _ _ _ _ _ _ _ _ _ Hcreate) as (c0 & Hset & Harr0 & Hnl0).
  pose proof (geometry_setup_cpu_cache _ _ _ _ _ _ _ _ _ Hset) as Hgeo.
  assert (Hbs : buffer_size c = buffer_size c0).
  { unfold geometry in Hgeo. by injection Hgeo. }
  unfold setup_cpu_cache in Hset. rewrite Hup in Hset.
  destruct (enable_cpucache _ _ _ _ _ _ _ _ _ _) as [[err h']|] eqn:Etune; [|done].
  cbn in Hset. injection Hset as -> Hc'.
  unfold enable_cpucache in Etune. cbn [empty_heap cachep] in Etune.
  rewrite <- Hbs in Etune.
  set (lim := if buffer_size c >? 131072 then 1
              else if buffer_size c >? PAGE_SIZE then 8
              else if buffer_size c >? 1024 then 24
              else if buffer_size c >? 256 then 54
              else 120) in *.
  apply tune_blank in Etune; [| done | done | | | done].
  2: { intros cpu. cbn. rewrite Harr0.
       destruct (replicate (NR_CPUS env) None !! cpu) as [x|] eqn:E; [|done].
       apply lookup_replicate in E as [-> _]. done. }
  2: { intros n. unfold get_l3. cbn. rewrite Hnl0.
       destruct (replicate (MAX_NUMNODES env) None !! n) as [x|] eqn:E; [|done].
       apply lookup_replicate in E as [-> _]. done. }
  destruct Etune as (_ & _ & Hblank & Harr & Hall).
  cbn [empty_heap cachep] in Harr.
  assert (Hl3 : forall n, get_l3 h n = get_l3 h' n).
  { intros n. unfold get_l3. by rewrite Hc, Hc'. }
  assert (Hcpu : forall cpu, array (cachep h) !! cpu ≫= id =
            if bool_decide (cpu ∈ online_cpus) && bool_decide (cpu < NR_CPUS env)%nat
            then Some (alloc_arraycache lim (to_int (lim + 1) / 2)) else None).
  { intros cpu. rewrite Hc, <- Hc', Harr, installed_slots, Harr0, length_replicate.
    destruct (_ && _); [done|].
    destruct (replicate (NR_CPUS env) None !! cpu) as [x|] eqn:E; [|done].
    apply lookup_replicate in E as [-> _]. done. }
  assert (Hfront : forall cpu, cpu ∈ online_cpus ->
            get_ac h (AcCpu cpu) =
              Some (mk_ac (u32 lim) (u32 (to_int (lim + 1) / 2)) 0 [])).
  { intros cpu Hin. cbn [get_ac]. rewrite Hcpu.
    rewrite bool_decide_eq_true_2 by done.
    rewrite bool_decide_eq_true_2 by (by apply Hcpus). done. }
  split; [|split; [|split; [|exact Hfront]]].
  - split; [by rewrite Hc|]. split; [|split; [|done]].
    + intros node w l. unfold list_at. rewrite Hl3.
      destruct (get_l3 h' node) as [l3|] eqn:E; [|done].
      cbn. intros [= <-]. destruct (Hblank _ _ E) as (? & ? & ? & _).
      by destruct w.
    + intros loc l. unfold entries_at.
      destruct loc as [cpu|node|node r]; cbn [get_ac].
      * rewrite Hcpu. destruct (_ && _); [|done]. by intros [= <-].
      * rewrite Hl3. destruct (get_l3 h' node) as [l3|] eqn:E; [|done].
        destruct (Hblank _ _ E) as (_ & _ & _ & Hsh & _).
        cbn. destruct (shared l3) as [sh|]; [|done].
        cbn. intros [= <-]. by apply Hsh.
      * rewrite Hl3. destruct (get_l3 h' node) as [l3|] eqn:E; [|done].
        destruct (Hblank _ _ E) as (_ & _ & _ & _ & Hal).
        cbn. destruct (alien l3) as [al|]; [|done].
        destruct (Hal al eq_refl) as [_ Hent].
        cbn. destruct (al !! r) as [[ac|]|] eqn:Er; [|done|done].
        cbn. intros [= <-]. by eapply Hent.
  - split.
    + intros cpu Hin. split; [rewrite Hfront by done; eauto|].
      rewrite Hl3. apply Hall. by apply Hcpus.
    + intros node l3 al i _ Hi El Ea. rewrite Hl3 in El.
      destruct (Hblank _ _ El) as (_ & _ & _ & _ & Hal).
      destruct (Hal al Ea) as [Hlen _].
      apply lookup_lt_is_Some_2. rewrite Hlen. by apply Hnodes.
  - intros node Hin. rewrite Hl3. by apply Hall.
Qed.
End Ready.

(** ** The reference platform: witnesses *)

Lemma x86_32_ok : @platform_ok x86_32.
Proof. constructor; vm_compute; first [reflexivity | discriminate]. Qed.

Lemma slab_order_search_witness :
  @platform_ok x86_32 /\
  (slab_break_gfp_order env_up = BREAK_GFP_ORDER_LO \/
   slab_break_gfp_order env_up = BREAK_GFP_ORDER_HI) /\
  @create_args x86_32 env_up 8192 0 0 = (8192, 4, 0x80000000) /\
  (@OFF_SLAB 0x80000000 = false -> @slab_mgmt_size x86_32 0 4 <= @PAGE_SIZE x86_32) /\
  exists c,
    create_x86 env_up 8192 0 0 = Created 7 c [7%nat] /\
    1 <= num c /\
    exists left_over,
      @smallest_accepted_order x86_32 (slab_break_gfp_order env_up) 8192 4 0x80000000
        (mk_order (num c) (gfporder c) left_over).
Proof.
  assert (A : @create_args x86_32 env_up 8192 0 0 = (8192, 4, 0x80000000))
    by (vm_compute; reflexivity).
  assert (B : @OFF_SLAB 0x80000000 = false ->
              @slab_mgmt_size x86_32 0 4 <= @PAGE_SIZE x86_32)
    by (vm_compute; discriminate).
  assert (C : slab_break_gfp_order env_up = BREAK_GFP_ORDER_LO \/
              slab_break_gfp_order env_up = BREAK_GFP_ORDER_HI)
    by (right; reflexivity).
  split; [exact x86_32_ok|]. split; [exact C|]. split; [exact A|]. split; [exact B|].
  eexists. split; [vm_compute; reflexivity|].
  apply (@slab_order_search x86_32 node_of_cpu [0%nat; 1%nat] [0%nat; 1%nat] 2%nat
           true env_up (Some "cache"%string) 8192 0 0 None false 7%nat _ [7%nat]
           8192 4 0x80000000 x86_32_ok C A B).
  vm_compute. reflexivity.
Defined.

Lemma off_slab_moved_on_slab_witness :
  @platform_ok x86_32 /\
  @create_args x86_32 env_up 1000 0 0 = (1000, 4, 0x80000000) /\
  @calculate_slab_order x86_32 (slab_break_gfp_order env_up) 1000 4 0x80000000
    = Some (mk_order 4 0 96) /\
  @OFF_SLAB 0x80000000 = true /\
  @ALIGN x86_32 (@wrap x86_32 (@wrap x86_32 (4 * sizeof_bufctl) + @sizeof_slab x86_32)) 4
    <= 96 /\
  exists c,
    create_x86 env_up 1000 0 0 = Created 7 c [7%nat] /\
    OFF_SLAB (flags c) = false /\
    slab_size c = 44 /\
    colour c = (96 - 44) / colour_off c /\
    (96 = 44 -> colour c = 0).
Proof.
  assert (A : @create_args x86_32 env_up 1000 0 0 = (1000, 4, 0x80000000))
    by (vm_compute; reflexivity).
  assert (B : @calculate_slab_order x86_32 (slab_break_gfp_order env_up) 1000 4
                0x80000000 = Some (mk_order 4 0 96))
    by (vm_compute; reflexivity).
  assert (C : @OFF_SLAB 0x80000000 = true) by reflexivity.
  assert (D : @ALIGN x86_32
                (@wrap x86_32 (@wrap x86_32 (4 * sizeof_bufctl) + @sizeof_slab x86_32)) 4
              <= 96) by (vm_compute; discriminate).
  split; [exact x86_32_ok|]. split; [exact A|]. split; [exact B|].
  split; [exact C|]. split; [exact D|].
  eexists. split; [vm_compute; reflexivity|].
  apply (@off_slab_moved_on_slab x86_32 node_of_cpu [0%nat; 1%nat] [0%nat; 1%nat]
           2%nat true env_up (Some "cache"%string) 1000 0 0 None false 7%nat _
           [7%nat] 1000 4 0x80000000 (mk_order 4 0 96) x86_32_ok A).
  - vm_compute. reflexivity.
  - exact B.
  - exact C.
  - exact D.
Defined.

(** C7, as the claim states it, fails: with 64-byte alignment on a platform
    with 32-byte cache lines the slab has 128 bytes left over, which makes
    four cache lines, yet the cache has two colours. *)
Lemma colour_unit_exceeds_cache_line :
  exists c,
    create_x86 env_up 192 64 0 = Created 7 c [7%nat] /\
    @calculate_slab_order x86_32 (slab_break_gfp_order env_up) 192 64 0
      = Some (mk_order 20 0 128) /\
    OFF_SLAB (flags c) = false /\
    128 / @cache_line_size x86_32 = 4 /\
    colour c = 2.
Proof.
  eexists. split; [vm_compute; reflexivity|]. repeat split.
Qed.

Lemma colour_count_witness :
  @create_args x86_32 env_up 4096 0 0 = (4096, 4, 0x80000000) /\
  @calculate_slab_order x86_32 (slab_break_gfp_order env_up) 4096 4 0x80000000
    = Some (mk_order 1 0 0) /\
  exists c,
    create_x86 env_up 4096 0 0 = Created 7 c [7%nat] /\
    colour_off c = 32 /\
    colour c = 0 / colour_off c /\
    (0 = 0 ->
     colour c = 0 /\
     forall l3, colour_next l3 = 0 -> @next_colour x86_32 c l3 = (0, 0)).
Proof.
  assert (A : @create_args x86_32 env_up 4096 0 0 = (4096, 4, 0x80000000))
    by (vm_compute; reflexivity).
  assert (B : @calculate_slab_order x86_32 (slab_break_gfp_order env_up) 4096 4
                0x80000000 = Some (mk_order 1 0 0))
    by (vm_compute; reflexivity).
  split; [exact A|]. split; [exact B|].
  eexists. split; [vm_compute; reflexivity|].
  apply (@colour_count x86_32 node_of_cpu [0%nat; 1%nat] [0%nat; 1%nat] 2%nat true
           env_up (Some "cache"%string) 4096 0 0 None false 7%nat _ [7%nat]
           4096 4 0x80000000 (mk_order 1 0 0) A).
  - vm_compute. reflexivity.
  - exact B.
Defined.

(** C5 fails of the source for an alignment larger than a slab of order
    0.  With objects of 8 bytes aligned to 8192 and the low ceiling the
    object size becomes 8192, which no slab of 4096 bytes holds.
    cache_estimate first counts 0 objects; the descriptor padded to the
    alignment is larger than the slab, one object is taken off, and the
    -1 is capped to SLAB_LIMIT.  calculate_slab_order does not skip the
    order: it saves 4294967292 objects per slab and stops there, the
    ceiling being reached, and the cache is created with that geometry.
    Had the order been skipped, order 2 would have been chosen, with one
    object per slab. *)
Lemma order_zero_accepted_though_nothing_fits :
  let env := mk_env false false 0 FULL 2 0 2 2 [] (Some 7%nat) true true in
  slab_break_gfp_order env = BREAK_GFP_ORDER_LO /\
  @create_args x86_32 env 8 8192 0 = (8192, 8192, 0) /\
  @PAGE_SIZE x86_32 * 2 ^ 0 < 8192 /\
  @slab_mgmt_size x86_32 0 8192 = 8192 /\
  @cache_estimate x86_32 0 8192 8192 0 = Some (28672, 4294967292) /\
  @cache_estimate x86_32 1 8192 8192 0 = Some (0, 0) /\
  @cache_estimate x86_32 2 8192 8192 0 = Some (0, 1) /\
  @calculate_slab_order x86_32 0 8192 8192 0 = Some (mk_order 4294967292 0 28672) /\
  exists c,
    create_x86 env 8 8192 0 = Created 7 c [7%nat] /\
    buffer_size c = 8192 /\ gfporder c = 0 /\ num c = 4294967292.
Proof.
  cbv zeta.
  split; [reflexivity|]. split; [vm_compute; reflexivity|].
  split; [vm_compute; reflexivity|]. split; [vm_compute; reflexivity|].
  split; [vm_compute; reflexivity|]. split; [vm_compute; reflexivity|].
  split; [vm_compute; reflexivity|]. split; [vm_compute; reflexivity|].
  eexists. split; [vm_compute; reflexivity|]. done.
Qed.

(** C4, as the claim states it, fails: a size below the word size does not
    make creation return the no-cache result, it runs into [BUG()]. *)
Lemma undersized_creation_is_a_bug :
  1 < @BYTES_PER_WORD x86_32 /\
  create_x86 env_up 1 0 0 = Bug /\
  forall chain, create_x86 env_up 1 0 0 <> NoCache chain.
Proof.
  split; [reflexivity|]. split; [reflexivity|].
  intros chain. vm_compute. discriminate.
Qed.

Lemma creation_failures_witness :
  create_x86 env_up 1 0 0 = Bug /\
  create_x86 env_up 4194304 8388608 0 = NoCache [].
Proof.
  split.
  - apply (proj1 (@creation_failures x86_32 node_of_cpu [0%nat; 1%nat]
                    [0%nat; 1%nat] 2%nat true env_up (Some "cache"%string)
                    1 0 0 None false)).
    right. left. reflexivity.
  - apply (proj2 (@creation_failures x86_32 node_of_cpu [0%nat; 1%nat]
                    [0%nat; 1%nat] 2%nat true env_up (Some "cache"%string)
                    4194304 8388608 0 None false)
             "cache"%string 7%nat 8388608 8388608 0x80000000 (mk_order 0 0 0)).
    all: try reflexivity.
    vm_compute. split; discriminate.
Defined.

(** *** The demo cache at work *)

Lemma demo_state_reachable cs :
  is_Some (demo_run cs) ->
  @reachable x86_32 node_of_cpu [0%nat; 1%nat] [0%nat; 1%nat] (demo_state cs).
Proof.
  intros [[h owned] E]. unfold demo_state. rewrite E.
  exact (proj1 (demo_run_sound cs h owned E)).
Qed.

Lemma demo_state_Inv cs :
  is_Some (demo_run cs) -> Inv node_of_cpu (demo_state cs).
Proof.
  intros Hrun.
  exact (@reachable_Inv x86_32 node_of_cpu _ _ _ (demo_state_reachable cs Hrun)).
Qed.

Lemma demo_state_live cs owned o :
  snd <$> demo_run cs = Some owned -> o ∈ owned -> live (demo_state cs) o.
Proof.
  intros E Ho. unfold demo_state.
  destruct (demo_run cs) as [[h owned']|] eqn:Er; [|done].
  cbn in E. injection E as ->.
  exact (proj2 (demo_run_sound cs h owned Er) o Ho).
Qed.

Lemma demo_heap_wired : wired node_of_cpu [0%nat; 1%nat] [0%nat; 1%nat] demo_heap.
Proof.
  assert (Hin : forall x : nat, x ∈ [0%nat; 1%nat] -> x = 0%nat \/ x = 1%nat).
  { intros x Hx. apply elem_of_cons in Hx as [->|Hx]; [by left|].
    apply elem_of_cons in Hx as [->|Hx]; [by right|].
    exfalso. exact (proj1 (elem_of_nil _) Hx). }
  split.
  - intros cpu Hc. destruct (Hin _ Hc) as [-> | ->]; clear Hc;
      split; eexists; vm_compute; reflexivity.
  - intros node l3 al i Hn Hi El3 Eal.
    destruct (Hin _ Hn) as [-> | ->]; clear Hn;
      vm_compute in El3; injection El3 as <-; injection Eal as <-;
      destruct (Hin _ Hi) as [-> | ->]; clear Hi; eexists; reflexivity.
Qed.

Lemma demo_state_wired cs :
  wiring (demo_state cs) = wiring demo_heap ->
  wired node_of_cpu [0%nat; 1%nat] [0%nat; 1%nat] (demo_state cs).
Proof.
  intros W.
  exact (@wired_wiring node_of_cpu [0%nat; 1%nat] [0%nat; 1%nat] demo_heap
           (demo_state cs) W demo_heap_wired).
Qed.

Lemma slab_lists_by_inuse_witness :
  let h := demo_state demo_full_front_end in
  @reachable x86_32 node_of_cpu [0%nat; 1%nat] [0%nat; 1%nat] h /\
  linked h 0 Partial 0 /\
  exists sl l,
    slab_store h !! 0%nat = Some sl /\
    0 <= inuse sl <= num (cachep h) /\
    nodeid sl = 0%nat /\
    Partial = list_for (num (cachep h)) (inuse sl) /\
    (inuse sl = 0 -> Partial = Free) /\
    (inuse sl = num (cachep h) -> Partial = Full) /\
    (0 < inuse sl < num (cachep h) -> Partial = Partial) /\
    list_at h 0 Partial = Some l /\ NoDup l /\ 0%nat ∈ l /\
    (forall node' w', linked h node' w' 0 -> node' = 0%nat /\ w' = Partial).
Proof.
  intros h.
  assert (R : @reachable x86_32 node_of_cpu [0%nat; 1%nat] [0%nat; 1%nat] h)
    by (apply demo_state_reachable; vm_compute; eauto).
  assert (L : linked h 0 Partial 0)
    by (exists [0%nat; 1%nat]; split; [vm_compute; reflexivity|left]).
  split; [exact R|]. split; [exact L|].
  exact (@slab_lists_by_inuse x86_32 node_of_cpu _ _ h 0%nat Partial 0%nat R L).
Defined.

Lemma flush_front_end_witness :
  let h := demo_state demo_full_front_end in
  let ac := mk_ac 2 2 1 [(0%nat, 3); (1%nat, 1)] in
  let sh := mk_ac 2 3131961357 0 [(0%nat, 0)] in
  exists l3,
    Inv node_of_cpu h /\
    get_ac h (AcCpu 0) = Some ac /\
    get_l3 h 0 = Some l3 /\ shared l3 = Some sh /\
    0 <= to_int (batchcount ac) <= avail ac /\
    (forall sh', shared l3 = Some sh' -> 0 <= to_int (u32 (limit sh' - avail sh'))) /\
    exists h' k,
      @cache_flusharray x86_32 node_of_cpu h 0 = Some h' /\
      Inv node_of_cpu h' /\
      entries_at h' (AcCpu 0) = Some (drop (Z.to_nat k) (entry ac)) /\
      k = Z.min 2 1 /\
      entries_at h' (AcShared 0) = Some (entry sh ++ take (Z.to_nat k) (entry ac)) /\
      slab_store h' = slab_store h /\
      (forall n w, list_at h' n w = list_at h n w).
Proof.
  intros h ac sh.
  assert (HI : Inv node_of_cpu h) by (apply demo_state_Inv; vm_compute; eauto).
  assert (Eac : get_ac h (AcCpu 0) = Some ac) by (vm_compute; reflexivity).
  eexists.
  assert (El3 : get_l3 h 0 = Some _) by (vm_compute; reflexivity).
  assert (Hb : 0 <= to_int (batchcount ac) <= avail ac) by (vm_compute; split; discriminate).
  split; [exact HI|]. split; [exact Eac|]. split; [exact El3|].
  split; [reflexivity|]. split; [exact Hb|].
  match type of El3 with _ = Some ?l3 =>
    assert (Hsh : forall sh', shared l3 = Some sh' ->
                    0 <= to_int (u32 (limit sh' - avail sh')))
      by (intros sh' [= <-]; vm_compute; discriminate)
  end.
  split; [exact Hsh|].
  exact (@flush_front_end x86_32 node_of_cpu h 0%nat ac _ HI Eac El3 Hb Hsh).
Defined.

(** The front-end of CPU 0 is full with two entries and moves batches of
    two, and the shared array of node 0 has room for one entry: the flush
    moves one entry to the shared array and stops.  The second entry of the
    batch stays in the front-end, and no slab is touched. *)
Lemma flush_batch_is_clipped :
  let h := demo_state demo_full_front_end in
  exists ac h',
    get_ac h (AcCpu 0) = Some ac /\
    batchcount ac = 2 /\ limit ac = 2 /\
    entry ac = [(0%nat, 3); (1%nat, 1)] /\
    entries_at h (AcShared 0) = Some [(0%nat, 0)] /\
    @cache_flusharray x86_32 node_of_cpu h 0 = Some h' /\
    entries_at h' (AcShared 0) = Some [(0%nat, 0); (0%nat, 3)] /\
    entries_at h' (AcCpu 0) = Some [(1%nat, 1)] /\
    entries_at h' (AcCpu 0) <> Some (drop 2 (entry ac)) /\
    slab_store h' = slab_store h /\
    (forall n w, list_at h' n w = list_at h n w).
Proof.
  intros h. eexists _, _.
  split; [vm_compute; reflexivity|].
  split; [reflexivity|]. split; [reflexivity|]. split; [reflexivity|].
  split; [vm_compute; reflexivity|].
  split; [vm_compute; reflexivity|].
  split; [vm_compute; reflexivity|].
  split; [vm_compute; reflexivity|].
  split; [vm_compute; discriminate|].
  split; [vm_compute; reflexivity|].
  intros [|[|n]] w; destruct w; vm_compute; reflexivity.
Qed.

Lemma remote_free_goes_home_witness :
  let h := demo_state [CallAlloc 0] in
  let o : objptr := (0%nat, 1) in
  let al := mk_ac 12 3131961357 0 [] in
  exists sl l3,
    Inv node_of_cpu h /\ live h o /\
    slab_store h !! 0%nat = Some sl /\ nodeid sl = 0%nat /\ nodeid sl <> node_of_cpu 1 /\
    get_l3 h 1 = Some l3 /\
    (forall a, alien l3 = Some a -> is_Some (a !! nodeid sl)) /\
    get_ac h (AcAlien 1 0) = Some al /\
    exists h',
      @__cache_free x86_32 node_of_cpu h 1 o = Some h' /\
      Inv node_of_cpu h' /\
      (forall cpu', entries_at h' (AcCpu cpu') = entries_at h (AcCpu cpu')) /\
      (forall n w, n <> 0%nat -> list_at h' n w = list_at h n w) /\
      (forall n, n <> 0%nat -> entries_at h' (AcShared n) = entries_at h (AcShared n)) /\
      entries_at h' (AcAlien 1 0) = Some (entry al ++ [o]) /\
      (avail al = limit al ->
       forall o', o' ∈ entry al ->
         in_slab h' o' \/ exists l, entries_at h' (AcShared 0) = Some l /\ o' ∈ l) /\
      (avail al <> limit al ->
       slab_store h' = slab_store h /\ forall n w, list_at h' n w = list_at h n w).
Proof.
  intros h o al.
  assert (HI : Inv node_of_cpu h) by (apply demo_state_Inv; vm_compute; eauto).
  assert (Hl : live h o)
    by (apply (demo_state_live [CallAlloc 0] [o]); [vm_compute; reflexivity|left]).
  eexists _, _.
  assert (Esl : slab_store h !! fst o = Some _) by (vm_compute; reflexivity).
  assert (El3 : get_l3 h (node_of_cpu 1) = Some _) by (vm_compute; reflexivity).
  split; [exact HI|]. split; [exact Hl|]. split; [exact Esl|].
  split; [reflexivity|].
  match type of Esl with _ = Some ?sl =>
    assert (Hn : nodeid sl <> node_of_cpu 1) by (vm_compute; discriminate)
  end.
  split; [exact Hn|]. split; [exact El3|].
  match type of El3 with _ = Some ?l3 =>
    match type of Esl with _ = Some ?sl =>
      assert (Ha : forall a, alien l3 = Some a -> is_Some (a !! nodeid sl))
        by (intros a [= <-]; eexists; reflexivity)
    end
  end.
  split; [exact Ha|]. split; [vm_compute; reflexivity|].
  exact (@remote_free_goes_home x86_32 node_of_cpu h 1%nat o _ _ HI Hl Esl Hn El3 Ha).
Defined.

Lemma ctor_at_growth_only_witness :
  let h := demo_state [CallAlloc 0] in
  Inv node_of_cpu h /\
  ctor (cachep h) = Some demo_ctor /\
  ctor_calls h = [(0%nat, 0); (0%nat, 1); (0%nat, 2); (0%nat, 3)] /\
  (forall nodeid l3,
     get_l3 h nodeid = Some l3 ->
     exists x h',
       @cache_grow x86_32 h nodeid false = Some (x, h') /\
       let slabp := length (slab_store h) in
       let slots := map (fun j => index_to_obj slabp (Z.of_nat j))
                        (seq 0 (Z.to_nat (num (cachep h)))) in
       ((x = 0 /\ ctor_calls h' = ctor_calls h /\ obj_mem h' = obj_mem h) \/
        (x = 1 /\ NoDup slots /\
         ctor_calls h' =
           ctor_calls h ++ match ctor (cachep h) with Some _ => slots | None => [] end /\
         (forall f o, ctor (cachep h) = Some f -> o ∈ slots ->
            obj_mem h' o = f (obj_mem h o)) /\
         (forall o, fst o <> slabp -> obj_mem h' o = obj_mem h o)))) /\
  (forall fuel cpu r h',
     @____cache_alloc x86_32 node_of_cpu fuel h cpu = Some (r, h') -> grown h h') /\
  (forall cpu o h',
     live h o -> @__cache_free x86_32 node_of_cpu h cpu o = Some h' -> quiet h h') /\
  (forall h' o,
     @steps x86_32 node_of_cpu [0%nat; 1%nat] [0%nat; 1%nat] h h' ->
     (fst o < length (slab_store h))%nat ->
     fst o ∉ released h' ->
     obj_mem h' o = obj_mem h o /\
     exists extra, ctor_calls h' = ctor_calls h ++ extra /\ o ∉ extra).
Proof.
  intros h.
  assert (HI : Inv node_of_cpu h) by (apply demo_state_Inv; vm_compute; eauto).
  split; [exact HI|]. split; [reflexivity|]. split; [vm_compute; reflexivity|].
  exact (@ctor_at_growth_only x86_32 node_of_cpu [0%nat; 1%nat] [0%nat; 1%nat] h HI).
Defined.

Lemma refill_sources_witness :
  let h := demo_state (demo_full_front_end ++ [CallAlloc 0; CallAlloc 0]) in
  let ac := mk_ac 2 2 1 [] in
  let sh := mk_ac 2 3131961357 0 [(0%nat, 0)] in
  exists l3,
    Inv node_of_cpu h /\
    get_ac h (AcCpu 0) = Some ac /\ entry ac = [] /\
    get_l3 h 0 = Some l3 /\ shared l3 = Some sh /\
    0 < to_int (batchcount ac) /\ 0 < limit ac < 2 ^ 31 /\
    (forall sh', shared l3 = Some sh' -> avail sh' < 2 ^ 31) /\
    exists o rest h',
      @cache_alloc_refill x86_32 node_of_cpu 2 h 0 = Some (Some o, h') /\
      Inv node_of_cpu h' /\
      1 <= 1 <= 2 /\
      drop 0 (entry sh) = rest ++ [o] /\
      entries_at h' (AcCpu 0) = Some rest /\
      entries_at h' (AcShared 0) = Some (take 0 (entry sh)) /\
      slab_store h' = slab_store h /\
      (forall m v, list_at h' m v = list_at h m v).
Proof.
  intros h ac sh.
  assert (HI : Inv node_of_cpu h) by (apply demo_state_Inv; vm_compute; eauto).
  assert (Eac : get_ac h (AcCpu 0) = Some ac) by (vm_compute; reflexivity).
  eexists.
  assert (El3 : get_l3 h (node_of_cpu 0) = Some _) by (vm_compute; reflexivity).
  split; [exact HI|]. split; [exact Eac|]. split; [reflexivity|].
  split; [exact El3|]. split; [reflexivity|].
  assert (Hb : 0 < to_int (batchcount ac)) by (vm_compute; reflexivity).
  assert (Hl : 0 < limit ac < 2 ^ 31) by (vm_compute; split; reflexivity).
  split; [exact Hb|]. split; [exact Hl|].
  match type of El3 with _ = Some ?l3 =>
    assert (Hsh : forall sh', shared l3 = Some sh' -> avail sh' < 2 ^ 31)
      by (intros sh' [= <-]; vm_compute; reflexivity)
  end.
  split; [exact Hsh|].
  exact (@refill_sources x86_32 node_of_cpu 0%nat h 0%nat ac _ HI Eac eq_refl El3 Hb Hl Hsh).
Defined.

Lemma destroy_needs_clean_shrink_witness :
  let h := demo_state [CallAlloc 0] in
  let cpus := [0%nat; 1%nat] in
  let nodes := [0%nat; 1%nat] in
  Inv node_of_cpu h /\ wired node_of_cpu cpus nodes h /\
  Z.of_nat (length nodes) < 2 ^ 31 /\
  Z.of_nat (length (slab_store h)) * num (cachep h) < 2 ^ 31 /\
  live h (0%nat, 1) /\
  exists hs ret,
    @__cache_shrink x86_32 node_of_cpu cpus nodes h = Some (hs, ret) /\
    Inv node_of_cpu hs /\ keeps_live h hs /\ wiring hs = wiring h /\
    let busy := exists i w s, i ∈ nodes /\ w <> Free /\ linked hs i w s in
    (forall o n, live h o -> held h n o -> n ∈ nodes -> busy) /\
    (busy ->
       ret = 1 /\
       @kmem_cache_destroy x86_32 node_of_cpu cpus nodes [7%nat] 7 h
         = Some (7%nat :: unlink 7 [7%nat], hs, false) /\
       wired node_of_cpu cpus nodes hs /\
       (forall i w s, linked hs i w s -> s ∉ released hs)) /\
    (~ busy ->
       ret = 0 /\
       @kmem_cache_destroy x86_32 node_of_cpu cpus nodes [7%nat] 7 h
         = Some (unlink 7 [7%nat], __kmem_cache_destroy cpus nodes hs, true) /\
       (7%nat ∉ unlink 7 [7%nat]) /\
       (forall cpu, cpu ∈ cpus ->
          get_ac (__kmem_cache_destroy cpus nodes hs) (AcCpu cpu) = None) /\
       (forall node, node ∈ nodes ->
          get_l3 (__kmem_cache_destroy cpus nodes hs) node = None)).
Proof.
  intros h cpus nodes.
  assert (HI : Inv node_of_cpu h) by (apply demo_state_Inv; vm_compute; eauto).
  assert (Hw : wired node_of_cpu cpus nodes h)
    by (apply demo_state_wired; vm_compute; reflexivity).
  assert (Hn : Z.of_nat (length nodes) < 2 ^ 31) by (vm_compute; reflexivity).
  assert (Hb : Z.of_nat (length (slab_store h)) * num (cachep h) < 2 ^ 31)
    by (vm_compute; reflexivity).
  split; [exact HI|]. split; [exact Hw|]. split; [exact Hn|]. split; [exact Hb|].
  split.
  { apply (demo_state_live [CallAlloc 0] [(0%nat, 1)]); [vm_compute; reflexivity|left]. }
  exact (@destroy_needs_clean_shrink x86_32 node_of_cpu cpus nodes [7%nat] 7%nat h
           HI Hw Hn Hb).
Defined.

(** *** More of the demo cache *)

(** After one allocation on CPU 0, slab 0 has its slots 2 and 3 free. *)
Lemma demo_slab_ok :
  let h := demo_state [CallAlloc 0] in
  slab_ok (num (cachep h)) (mk_slab 44 2 2 0 [1; 2; 3; 4294967295]) [2%nat; 3%nat].
Proof.
  intros h. constructor.
  - reflexivity.
  - cbn. split; [reflexivity|]. eexists. split; [reflexivity|].
    split; [reflexivity|]. eexists. split; [reflexivity|]. reflexivity.
  - apply NoDup_cons. split; [|apply NoDup_singleton].
    intros Hx. apply list_elem_of_singleton in Hx. discriminate.
  - intros i Hi. apply elem_of_cons in Hi as [->|Hi]; [vm_compute; lia|].
    apply list_elem_of_singleton in Hi as ->. vm_compute. lia.
  - vm_compute. reflexivity.
Qed.

Lemma slot_round_trip_witness :
  let h := demo_state [CallAlloc 0] in
  let sl := mk_slab 44 2 2 0 [1; 2; 3; 4294967295] in
  let chain := [2%nat; 3%nat] in
  1 <= num (cachep h) <= SLAB_LIMIT /\
  slab_store h !! 0%nat = Some sl /\
  slab_ok (num (cachep h)) sl chain /\
  (inuse sl < num (cachep h) ->
   exists o h1,
     slab_get_obj h 0 = Some (o, h1) /\
     slab_put_obj h1 0 o = Some h) /\
  (forall i,
     0 <= i < num (cachep h) -> Z.to_nat i ∉ chain ->
     exists h1 h2 sl2,
       slab_put_obj h 0 (index_to_obj 0 i) = Some h1 /\
       slab_get_obj h1 0 = Some (index_to_obj 0 i, h2) /\
       slab_store h2 !! 0%nat = Some sl2 /\
       inuse sl2 = inuse sl /\ free sl2 = free sl /\
       slab_ok (num (cachep h)) sl2 chain /\
       forall s, s <> 0%nat -> slab_store h2 !! s = slab_store h !! s).
Proof.
  intros h sl chain.
  assert (Hn : 1 <= num (cachep h) <= SLAB_LIMIT) by (vm_compute; split; discriminate).
  assert (Esl : slab_store h !! 0%nat = Some sl) by (vm_compute; reflexivity).
  split; [exact Hn|]. split; [exact Esl|]. split; [exact demo_slab_ok|].
  exact (slot_round_trip h 0%nat sl chain Hn Esl demo_slab_ok).
Defined.

Lemma transfer_objects_moves_witness :
  let to := mk_ac 4 2 0 [(0%nat, 0)] in
  let from := mk_ac 4 2 0 [(0%nat, 1); (0%nat, 2); (0%nat, 3)] in
  avail to <= limit to /\ limit to < 2 ^ 31 /\ avail from < 2 ^ 31 /\
  0 <= 2 < 2 ^ 32 /\
  exists to' from' nr moved,
    transfer_objects to from 2 = (to', from', nr) /\
    nr = Z.min (Z.min (avail from) 2) (limit to - avail to) /\
    Z.of_nat (length moved) = nr /\
    entry from = entry from' ++ moved /\
    entry to' = entry to ++ moved /\
    avail to' <= limit to' /\
    limit to' = limit to /\ batchcount to' = batchcount to /\
    limit from' = limit from /\ batchcount from' = batchcount from /\
    touched from' = touched from /\
    (nr = 0 -> to' = to /\ from' = from) /\
    (nr <> 0 -> touched to' = 1).
Proof.
  intros to from.
  assert (H1 : avail to <= limit to) by (vm_compute; discriminate).
  assert (H2 : limit to < 2 ^ 31) by (vm_compute; reflexivity).
  assert (H3 : avail from < 2 ^ 31) by (vm_compute; reflexivity).
  assert (H4 : 0 <= 2 < 2 ^ 32) by lia.
  split; [exact H1|]. split; [exact H2|]. split; [exact H3|]. split; [exact H4|].
  exact (transfer_objects_moves to from 2 H1 H2 H3 H4).
Defined.

Lemma front_end_is_a_stack_witness :
  let h := demo_state [CallAlloc 0] in
  let o : objptr := (0%nat, 1) in
  let sl := mk_slab 44 2 2 0 [1; 2; 3; 4294967295] in
  let ac := mk_ac 2 2 1 [(0%nat, 0)] in
  slab_store h !! virt_to_slab o = Some sl /\ nodeid sl = node_of_cpu 0 /\
  get_ac h (AcCpu 0) = Some ac /\
  let h_touched := set_ac h (AcCpu 0) (set_touched ac 1) in
  (avail ac < limit ac ->
   exists h1,
     @__cache_free x86_32 node_of_cpu h 0 o = Some h1 /\
     entries_at h1 (AcCpu 0) = Some (entry ac ++ [o]) /\
     forall fuel,
       @____cache_alloc x86_32 node_of_cpu fuel h1 0 = Some (Some o, h_touched)) /\
  (forall rest,
     entry ac = rest ++ [o] -> avail ac <= limit ac ->
     exists h1,
       (forall fuel, @____cache_alloc x86_32 node_of_cpu fuel h 0 = Some (Some o, h1)) /\
       entries_at h1 (AcCpu 0) = Some rest /\
       @__cache_free x86_32 node_of_cpu h1 0 o = Some h_touched).
Proof.
  intros h o sl ac.
  assert (Esl : slab_store h !! virt_to_slab o = Some sl) by (vm_compute; reflexivity).
  assert (Hn : nodeid sl = node_of_cpu 0) by reflexivity.
  assert (Eac : get_ac h (AcCpu 0) = Some ac) by (vm_compute; reflexivity).
  split; [exact Esl|]. split; [exact Hn|]. split; [exact Eac|].
  exact (@front_end_is_a_stack x86_32 node_of_cpu h 0%nat o sl ac Esl Hn Eac).
Defined.

Lemma alloc_hands_out_a_free_object_witness :
  let h := demo_state [CallAlloc 0] in
  let o : objptr := (0%nat, 0) in
  exists h',
    Inv node_of_cpu h /\
    @____cache_alloc x86_32 node_of_cpu 2 h 0 = Some (Some o, h') /\
    Inv node_of_cpu h' /\
    ~ live h o /\ live h' o /\
    (forall o', live h o' -> live h' o' /\ o' <> o).
Proof.
  intros h o. eexists.
  assert (HI : Inv node_of_cpu h) by (apply demo_state_Inv; vm_compute; eauto).
  assert (E : @____cache_alloc x86_32 node_of_cpu 2 h 0 = Some (Some o, _))
    by (vm_compute; reflexivity).
  split; [exact HI|]. split; [exact E|].
  exact (@alloc_hands_out_a_free_object x86_32 node_of_cpu 2%nat h 0%nat o _ HI E).
Defined.

Lemma free_gives_the_object_back_witness :
  let h := demo_state [CallAlloc 0] in
  let o : objptr := (0%nat, 1) in
  exists h',
    Inv node_of_cpu h /\ live h o /\
    @__cache_free x86_32 node_of_cpu h 0 o = Some h' /\
    Inv node_of_cpu h' /\
    ~ live h' o /\
    ((exists loc l, entries_at h' loc = Some l /\ o ∈ l) \/ in_slab h' o) /\
    (forall o', o' <> o -> live h o' -> live h' o').
Proof.
  intros h o. eexists.
  assert (HI : Inv node_of_cpu h) by (apply demo_state_Inv; vm_compute; eauto).
  assert (Hl : live h o)
    by (apply (demo_state_live [CallAlloc 0] [o]); [vm_compute; reflexivity|left]).
  assert (E : @__cache_free x86_32 node_of_cpu h 0 o = Some _)
    by (vm_compute; reflexivity).
  split; [exact HI|]. split; [exact Hl|]. split; [exact E|].
  exact (@free_gives_the_object_back x86_32 node_of_cpu h 0%nat o _ HI Hl E).
Defined.

Lemma drain_freelist_releases_witness :
  let h := demo_state [CallGrow 0; CallGrow 0; CallGrow 0] in
  exists l3,
    Inv node_of_cpu h /\ get_l3 h 0 = Some l3 /\ 2 < 2 ^ 31 /\
    slabs_free l3 = [0%nat; 1%nat; 2%nat] /\
    let len := length (slabs_free l3) in
    let k := Z.to_nat (Z.min (Z.max 2 0) (Z.of_nat len)) in
    exists h' l3',
      @drain_freelist x86_32 h 0 2 = Some (h', Z.of_nat k) /\
      Inv node_of_cpu h' /\ keeps_live h h' /\
      get_l3 h' 0 = Some l3' /\
      slabs_free l3' = take (len - k) (slabs_free l3) /\
      released h' = drop (len - k) (slabs_free l3) ++ released h /\
      @wrap x86_32 (free_objects l3') =
        @wrap x86_32 (free_objects l3 - Z.of_nat k * num (cachep h)) /\
      slabs_partial l3' = slabs_partial l3 /\ slabs_full l3' = slabs_full l3 /\
      (forall m, m <> 0%nat -> get_l3 h' m = get_l3 h m) /\
      (forall loc, get_ac h' loc = get_ac h loc) /\
      slab_store h' = slab_store h.
Proof.
  intros h. eexists.
  assert (HI : Inv node_of_cpu h) by (apply demo_state_Inv; vm_compute; eauto).
  assert (El3 : get_l3 h 0 = Some _) by (vm_compute; reflexivity).
  assert (Hb : 2 < 2 ^ 31) by reflexivity.
  split; [exact HI|]. split; [exact El3|]. split; [exact Hb|].
  split; [reflexivity|].
  exact (@drain_freelist_releases x86_32 node_of_cpu h 0%nat 2 _ HI El3 Hb).
Defined.

Lemma drain_array_frees_the_oldest_witness :
  let h := demo_state demo_full_front_end in
  let loc := AcShared 0 in
  let ac := mk_ac 2 3131961357 0 [(0%nat, 0)] in
  let node := home node_of_cpu loc in
  Inv node_of_cpu h /\ get_ac h loc = Some ac /\
  avail ac < 2 ^ 31 /\ 1 <= limit ac < 2 ^ 32 - 4 /\
  let tofree0 := if 0 =? 0 then (limit ac + 4) / 5 else avail ac in
  let tofree := if tofree0 >? avail ac then (avail ac + 1) / 2 else tofree0 in
  exists h',
    @drain_array x86_32 h loc 0 node = Some h' /\
    Inv node_of_cpu h' /\ keeps_live h h' /\
    (forall o, in_slab h o -> in_slab h' o) /\
    (forall loc', loc' <> loc -> entries_at h' loc' = entries_at h loc') /\
    if avail ac =? 0 then h' = h
    else if negb (touched ac =? 0) && (0 =? 0) then
      h' = set_ac h loc (set_touched ac 0)
    else
      1 <= tofree <= avail ac /\
      entries_at h' loc = Some (drop (Z.to_nat tofree) (entry ac)) /\
      (forall o, o ∈ take (Z.to_nat tofree) (entry ac) -> in_slab h' o).
Proof.
  intros h loc ac node.
  assert (HI : Inv node_of_cpu h) by (apply demo_state_Inv; vm_compute; eauto).
  assert (Eac : get_ac h loc = Some ac) by (vm_compute; reflexivity).
  assert (Ha : avail ac < 2 ^ 31) by (vm_compute; reflexivity).
  assert (Hl : 1 <= limit ac < 2 ^ 32 - 4) by (vm_compute; split; [discriminate|reflexivity]).
  split; [exact HI|]. split; [exact Eac|]. split; [exact Ha|]. split; [exact Hl|].
  exact (@drain_array_frees_the_oldest x86_32 node_of_cpu h loc ac 0 HI Eac Ha Hl).
Defined.

Lemma cache_reap_takes_nothing_from_callers_witness :
  let h := demo_state demo_full_front_end in
  exists l3,
    Inv node_of_cpu h /\ get_l3 h (node_of_cpu 0) = Some l3 /\
    (forall al, alien l3 = Some al -> is_Some (al !! 1%nat)) /\
    Z.of_nat (length (slab_store h)) * num (cachep h) < 2 ^ 31 /\
    exists h',
      @cache_reap x86_32 node_of_cpu h 0 1 true true = Some h' /\
      Inv node_of_cpu h' /\ quiet h h' /\ keeps_live h h' /\
      (forall o, in_slab h o -> in_slab h' o) /\
      wiring h' = wiring h /\
      (true = false ->
       forall loc, loc <> AcAlien (node_of_cpu 0) 1 -> loc <> AcShared 1 ->
         loc <> AcCpu 0 -> entries_at h' loc = entries_at h loc).
Proof.
  intros h. eexists.
  assert (HI : Inv node_of_cpu h) by (apply demo_state_Inv; vm_compute; eauto).
  assert (El3 : get_l3 h (node_of_cpu 0) = Some _) by (vm_compute; reflexivity).
  match type of El3 with _ = Some ?l3 =>
    assert (Hal : forall al, alien l3 = Some al -> is_Some (al !! 1%nat))
      by (intros al [= <-]; eexists; reflexivity)
  end.
  assert (Hb : Z.of_nat (length (slab_store h)) * num (cachep h) < 2 ^ 31)
    by (vm_compute; reflexivity).
  split; [exact HI|]. split; [exact El3|]. split; [exact Hal|]. split; [exact Hb|].
  exact (@cache_reap_takes_nothing_from_callers x86_32 node_of_cpu h 0%nat 1%nat true true _
           HI El3 Hal Hb).
Defined.


(** One object was allocated and freed again on CPU 0: the two objects
    that are out of slab 0 sit in the front-end of CPU 0. *)
Lemma demo_all_cached :
  all_cached [0%nat; 1%nat] [0%nat; 1%nat]
    (demo_state [CallAlloc 0; CallFree 0 (0%nat, 1)]).
Proof.
  intros n [s i] (w & sl & chain & _ & Esl & Hok & Hidx & Hout).
  cbn [fst snd] in Esl, Hidx, Hout.
  assert (Hs : slab_store (demo_state [CallAlloc 0; CallFree 0 (0%nat, 1)]) =
               [mk_slab 44 2 2 0 [1; 2; 3; 4294967295]]) by (vm_compute; reflexivity).
  assert (Hn : num (cachep (demo_state [CallAlloc 0; CallFree 0 (0%nat, 1)])) = 4)
    by (vm_compute; reflexivity).
  rewrite Hs in Esl. rewrite Hn in Hok, Hidx. clear Hs Hn.
  destruct s as [|s]; [|destruct s; discriminate Esl].
  injection Esl as <-.
  assert (chain = [2%nat; 3%nat]) as ->.
  { apply (slab_ok_unique 4 (mk_slab 44 2 2 0 [1; 2; 3; 4294967295]));
      [vm_compute; discriminate|exact Hok|exact demo_slab_ok]. }
  exists (AcCpu 0), [(0%nat, 0); (0%nat, 1)].
  split; [left|]. split; [vm_compute; reflexivity|].
  assert (Hi : i = 0 \/ i = 1 \/ i = 2 \/ i = 3) by lia.
  destruct Hi as [Hi|[Hi|[Hi|Hi]]]; subst i.
  - left.
  - right. left.
  - exfalso. apply Hout. left.
  - exfalso. apply Hout. right. left.
Qed.

Lemma destroy_when_all_freed_witness :
  let h := demo_state [CallAlloc 0; CallFree 0 (0%nat, 1)] in
  let cpus := [0%nat; 1%nat] in
  let nodes := [0%nat; 1%nat] in
  Inv node_of_cpu h /\ wired node_of_cpu cpus nodes h /\
  Z.of_nat (length nodes) < 2 ^ 31 /\
  Z.of_nat (length (slab_store h)) * num (cachep h) < 2 ^ 31 /\
  all_cached cpus nodes h /\
  entries_at h (AcCpu 0) = Some [(0%nat, 0); (0%nat, 1)] /\
  exists hs,
    @__cache_shrink x86_32 node_of_cpu cpus nodes h = Some (hs, 0) /\
    @kmem_cache_destroy x86_32 node_of_cpu cpus nodes [7%nat] 7 h
      = Some (unlink 7 [7%nat], __kmem_cache_destroy cpus nodes hs, true) /\
    empty_on (online_loc cpus nodes) hs /\
    (forall i w s, linked hs i w s -> w = Free) /\
    (forall o, ~ live hs o).
Proof.
  intros h cpus nodes.
  assert (HI : Inv node_of_cpu h) by (apply demo_state_Inv; vm_compute; eauto).
  assert (Hw : wired node_of_cpu cpus nodes h)
    by (apply demo_state_wired; vm_compute; reflexivity).
  assert (Hn : Z.of_nat (length nodes) < 2 ^ 31) by (vm_compute; reflexivity).
  assert (Hb : Z.of_nat (length (slab_store h)) * num (cachep h) < 2 ^ 31)
    by (vm_compute; reflexivity).
  split; [exact HI|]. split; [exact Hw|]. split; [exact Hn|]. split; [exact Hb|].
  split; [exact demo_all_cached|]. split; [vm_compute; reflexivity|].
  exact (@destroy_when_all_freed x86_32 node_of_cpu cpus nodes [7%nat] 7%nat h
           HI Hw Hn Hb demo_all_cached).
Defined.

Lemma cache_estimate_fits_witness :
  @platform_ok x86_32 /\
  0 <= 0 <= @KMALLOC_MAX_ORDER x86_32 /\ 0 <= 3 /\
  2 ^ 3 <= 1000 /\ 2 ^ 3 <= @PAGE_SIZE x86_32 /\
  1000 + sizeof_bufctl < 2 ^ @SIZE_BITS x86_32 /\
  let S := @PAGE_SIZE x86_32 * 2 ^ 0 in
  let mgmt n := if OFF_SLAB 0 then 0 else @slab_mgmt_size x86_32 n (2 ^ 3) in
  exists left_over num,
    @cache_estimate x86_32 0 1000 (2 ^ 3) 0 = Some (left_over, num) /\
    0 <= num /\ 0 <= left_over /\
    mgmt num + num * 1000 + left_over = S /\
    S < mgmt (num + 1) + (num + 1) * 1000 /\
    (OFF_SLAB 0 = false ->
     @sizeof_slab x86_32 + num * sizeof_bufctl <= mgmt num /\ mgmt num mod 2 ^ 3 = 0).
Proof.
  assert (H1 : 0 <= 0 <= @KMALLOC_MAX_ORDER x86_32) by (vm_compute; split; discriminate).
  assert (H2 : 0 <= 3) by lia.
  assert (H3 : 2 ^ 3 <= 1000) by (vm_compute; discriminate).
  assert (H4 : 2 ^ 3 <= @PAGE_SIZE x86_32) by (vm_compute; discriminate).
  assert (H5 : 1000 + sizeof_bufctl < 2 ^ @SIZE_BITS x86_32) by (vm_compute; reflexivity).
  split; [exact x86_32_ok|].
  split; [exact H1|]. split; [exact H2|]. split; [exact H3|]. split; [exact H4|].
  split; [exact H5|].
  exact (@cache_estimate_fits x86_32 x86_32_ok 0 1000 3 0 H1 H2 H3 H4 H5).
Defined.

Lemma grow_places_and_colours_witness :
  let h := demo_state [CallAlloc 0] in
  exists l3,
    @platform_ok x86_32 /\ Inv node_of_cpu h /\ get_l3 h 0 = Some l3 /\
    let c := cachep h in
    0 <= colour_next l3 /\ 1 <= colour_off c /\ 0 <= slab_size c /\
    colour_next l3 * colour_off c + slab_size c < 2 ^ 31 /\
    exists x h' l3',
      @cache_grow x86_32 h 0 false = Some (x, h') /\ Inv node_of_cpu h' /\
      get_l3 h' 0 = Some l3' /\
      colour_next l3' =
        (if colour_next l3 + 1 >=? colour c then 0 else colour_next l3 + 1) /\
      (forall m, m <> 0%nat -> get_l3 h' m = get_l3 h m) /\
      slabs_partial l3' = slabs_partial l3 /\ slabs_full l3' = slabs_full l3 /\
      ((x = 0 /\ slab_store h' = slab_store h /\
        slabs_free l3' = slabs_free l3 /\ free_objects l3' = free_objects l3) \/
       (x = 1 /\
        exists sl,
          slab_store h' = slab_store h ++ [sl] /\
          colouroff sl = colour_next l3 * colour_off c +
                         (if OFF_SLAB (flags c) then 0 else slab_size c) /\
          inuse sl = 0 /\ nodeid sl = 0%nat /\
          slab_ok (num c) sl (seq 0 (Z.to_nat (num c))) /\
          slabs_free l3' = slabs_free l3 ++ [length (slab_store h)] /\
          free_objects l3' = @wrap x86_32 (free_objects l3 + num c))).
Proof.
  intros h. eexists.
  assert (HI : Inv node_of_cpu h) by (apply demo_state_Inv; vm_compute; eauto).
  assert (El3 : get_l3 h 0 = Some _) by (vm_compute; reflexivity).
  match type of El3 with _ = Some ?l3 =>
    assert (H1 : 0 <= colour_next l3) by (vm_compute; discriminate);
    assert (H4 : colour_next l3 * colour_off (cachep h) + slab_size (cachep h) < 2 ^ 31)
      by (vm_compute; reflexivity)
  end.
  assert (H2 : 1 <= colour_off (cachep h)) by (vm_compute; discriminate).
  assert (H3 : 0 <= slab_size (cachep h)) by (vm_compute; discriminate).
  split; [exact x86_32_ok|]. split; [exact HI|]. split; [exact El3|].
  split; [exact H1|]. split; [exact H2|]. split; [exact H3|]. split; [exact H4|].
  exact (@grow_places_and_colours x86_32 node_of_cpu h 0%nat _ x86_32_ok HI El3 H1 H2 H3 H4).
Defined.

Lemma retune_keeps_objects_witness :
  let h := demo_state demo_full_front_end in
  let cpus := [0%nat; 1%nat] in
  let nodes := [0%nat; 1%nat] in
  let node_ok := fun node => Nat.eqb node 0 in
  Inv node_of_cpu h /\ NoDup cpus /\
  (forall cpu, cpu ∈ cpus ->
     is_Some (get_ac h (AcCpu cpu)) /\ is_Some (get_l3 h (node_of_cpu cpu))) /\
  (forall node, node ∈ nodes -> is_Some (get_l3 h node)) /\
  entries_at h (AcCpu 0) = Some [(0%nat, 3); (1%nat, 1)] /\
  entries_at h (AcShared 0) = Some [(0%nat, 0)] /\
  fst <$> @do_tune_cpucache x86_32 node_of_cpu cpus nodes 2 true true node_ok true
            h 4 2 1 = Some (-12) /\
  exists err h',
    @do_tune_cpucache x86_32 node_of_cpu cpus nodes 2 true true node_ok true
      h 4 2 1 = Some (err, h') /\
    Inv node_of_cpu h' /\ quiet h h' /\ keeps_live h h' /\
    (forall o, in_slab h o -> in_slab h' o) /\
    (forall n r l, entries_at h (AcAlien n r) = Some l ->
       entries_at h' (AcAlien n r) = Some l) /\
    (true = false -> err = -12 /\ h' = h) /\
    (true = true ->
       (c_limit (cachep h') = u32 4 /\ c_batchcount (cachep h') = u32 2 /\
        c_shared (cachep h') = u32 1) /\
       (forall cpu, cpu ∈ cpus ->
          get_ac h' (AcCpu cpu) = Some (alloc_arraycache 4 2)) /\
       (forall cpu, cpu ∉ cpus -> get_ac h' (AcCpu cpu) = get_ac h (AcCpu cpu)) /\
       (forall cpu l o, cpu ∈ cpus ->
          entries_at h (AcCpu cpu) = Some l -> o ∈ l -> in_slab h' o) /\
       ((forall node, node ∈ nodes -> node_ok node = true) -> err = 0) /\
       exists pre,
         (err = 0 /\ pre = nodes \/
          err = -12 /\
          exists node rest,
            nodes = pre ++ node :: rest /\ node_ok node = false /\
            true || negb (u32 1 =? 0) = true) /\
         (forall node, node ∈ pre ->
            get_ac h' (AcShared node) =
              (if negb (u32 1 =? 0)
               then Some (alloc_arraycache (u32 1 * u32 2) 0xbaadf00d)
               else None) /\
            free_limit <$> get_l3 h' node =
              Some (u32 (to_int (1 + nr_cpus_node node_of_cpu cpus node)
                         * u32 2 + num (cachep h)))) /\
         (forall node l o, node ∈ pre ->
            entries_at h (AcShared node) = Some l -> o ∈ l -> in_slab h' o) /\
         (forall node, node ∉ pre ->
            get_ac h' (AcShared node) = get_ac h (AcShared node) /\
            free_limit <$> get_l3 h' node = free_limit <$> get_l3 h node)).
Proof.
  intros h cpus nodes node_ok.
  assert (HI : Inv node_of_cpu h) by (apply demo_state_Inv; vm_compute; eauto).
  assert (Hnd : NoDup cpus).
  { apply NoDup_cons. split; [|apply NoDup_singleton].
    intros Hx. apply list_elem_of_singleton in Hx. discriminate. }
  assert (Hw : wired node_of_cpu cpus nodes h)
    by (apply demo_state_wired; vm_compute; reflexivity).
  assert (Hn : forall node, node ∈ nodes -> is_Some (get_l3 h node)).
  { intros node Hn. exact (proj2 (proj1 Hw node Hn)). }
  split; [exact HI|]. split; [exact Hnd|]. split; [exact (proj1 Hw)|]. split; [exact Hn|].
  split; [vm_compute; reflexivity|]. split; [vm_compute; reflexivity|].
  split; [vm_compute; reflexivity|].
  exact (@retune_keeps_objects x86_32 node_of_cpu cpus nodes 2%nat true true node_ok
           h 4 2 1 HI Hnd (proj1 Hw) Hn).
Defined.

(** A table with room for three entries that holds two. *)
Lemma demo_table_ok : table_ok [4; 2; 10; 1; 30; 5; 0; 0].
Proof.
  exists 4, 2, [10; 1; 30; 5; 0; 0].
  split; [reflexivity|]. split; [lia|]. split; [reflexivity|]. split; [reflexivity|].
  cbn. constructor; [constructor; [constructor|constructor]|].
  constructor; [reflexivity|constructor].
Qed.

Lemma add_caller_counts_witness :
  let n := [4; 2; 10; 1; 30; 5; 0; 0] in
  let v := 20 in
  table_ok n /\ 0 < @BYTES_PER_WORD x86_32 /\
  Z.of_nat (length n) * @BYTES_PER_WORD x86_32 < 2 ^ @SIZE_BITS x86_32 /\ 0 < v /\
  @add_caller x86_32 n v = Some ([4; 3; 10; 1; 20; 1; 30; 5], 1) /\
  @add_caller x86_32 n 0 = Some (n, 1) /\
  exists n0 n1 n' r,
    n !! 0%nat = Some n0 /\ n !! 1%nat = Some n1 /\
    @add_caller x86_32 n v = Some (n', r) /\
    length n' = length n /\ n' !! 0%nat = Some n0 /\
    ((v ∈ fst <$> callers n /\ r = 1 /\ n' !! 1%nat = Some n1 /\
      callers n' = @tally x86_32 v (callers n) /\ table_ok n') \/
     ((v ∉ fst <$> callers n) /\ n1 + 1 < n0 /\ r = 1 /\
      n' !! 1%nat = Some (n1 + 1) /\
      callers n' = @tally x86_32 v (callers n) /\ table_ok n') \/
     ((v ∉ fst <$> callers n) /\ n1 + 1 = n0 /\ r = 0 /\
      n' = <[1%nat := n1 + 1]> n)).
Proof.
  intros n v.
  assert (HW : 0 < @BYTES_PER_WORD x86_32) by reflexivity.
  assert (Hfit : Z.of_nat (length n) * @BYTES_PER_WORD x86_32 < 2 ^ @SIZE_BITS x86_32)
    by reflexivity.
  assert (Hv : 0 < v) by reflexivity.
  split; [exact demo_table_ok|]. split; [exact HW|]. split; [exact Hfit|].
  split; [exact Hv|]. split; [vm_compute; reflexivity|].
  exact (@add_caller_counts x86_32 n v demo_table_ok HW Hfit Hv).
Defined.

Lemma created_cache_is_ready_witness :
  let h := mk_heap demo_cache [] (fun _ => 0) [] [true; true] [] [] in
  g_cpucache_up env_up = FULL /\
  @kmem_cache_create x86_32 node_of_cpu [0%nat; 1%nat] [0%nat; 1%nat] 2 true env_up
    (Some "demo"%string) 1000 0 0 (Some demo_ctor) false
    = Created 7 demo_cache [7%nat] /\
  fresh h /\ wired node_of_cpu [0%nat; 1%nat] [0%nat; 1%nat] h /\
  get_ac h (AcCpu 1) = Some (mk_ac 54 27 0 []).
Proof.
  intros h.
  assert (Hup : g_cpucache_up env_up = FULL) by reflexivity.
  assert (Hcreate :
    @kmem_cache_create x86_32 node_of_cpu [0%nat; 1%nat] [0%nat; 1%nat] 2 true env_up
      (Some "demo"%string) 1000 0 0 (Some demo_ctor) false
      = Created 7 demo_cache [7%nat]) by (vm_compute; reflexivity).
  split; [exact Hup|]. split; [exact Hcreate|].
  destruct (@created_cache_is_ready x86_32 node_of_cpu [0%nat; 1%nat] [0%nat; 1%nat]
              2 true env_up (Some "demo"%string) 1000 0 0 (Some demo_ctor) false
              7%nat demo_cache [7%nat])
    with (h := h) as (Hf & Hw & _ & Hac).
  - exact Hup.
  - intros cpu Hin. apply elem_of_cons in Hin as [->|Hin].
    + split; [vm_compute; lia|by left].
    + apply list_elem_of_singleton in Hin as ->.
      split; [vm_compute; lia|right; by left].
  - intros node Hin. apply elem_of_cons in Hin as [->|Hin]; [lia|].
    apply list_elem_of_singleton in Hin as ->. lia.
  - exact Hcreate.
  - reflexivity.
  - reflexivity.
  - split; [exact Hf|]. split; [exact Hw|].
    apply (Hac 1%nat). right; by left.
Defined.
